(** * bwctl: state reconciliation and batch resolution

    A shallow embedding of the parts of [bwctl] that decide what happens to
    the objects of a fabric: the state document ([session/state.py]), the
    action matrix and the batch resolver ([commands/create.py]) and the
    delete guard ([commands/delete.py]).

    Python dictionaries keep insertion order and the code relies on it
    ([items()[-1]], [items()[0]]), so they are association lists here.
    External tools (Terraform, Ansible, credential files, the state dump)
    are calls to an oracle over an abstract world; every call is recorded
    in a trace. *)

From Stdlib Require Import List String Ascii Bool Arith Lia.
From Stdlib Require Import DecimalString DecimalNat.
Import ListNotations.
Open Scope string_scope.
Open Scope list_scope.

Set Implicit Arguments.

(** ** Enumerations ([utils/states.py]) *)

Inductive ObjectKind : Type :=
| BATCH | FABRIC | NODEBATCH | ORCHESTRATOR | PROCESSOR | WORKLOAD | VPC.

Inductive ObjectState : Type :=
| DELETING | CONFIGURED | STARTED | STOPPED | CREATED | UPDATED.

Inductive ObjectStatus : Type :=
| FAILED | SUCCESS.

(** Orchestrator [type]: the three keys of [orchestrator_in_batch] and the
    three choices of the [create orchestrator] command. *)
Inductive OrchType : Type :=
| Controller | Telemetry | Events.

(** Orchestrator [role]. [RoleUnset] is the [{}] placeholder of a clean
    object, for which ['manager' in role] and ['worker' in role] are false. *)
Inductive Role : Type :=
| RoleUnset | Manager | Worker.

Definition kind_eqb (a b : ObjectKind) : bool :=
  match a, b with
  | BATCH, BATCH | FABRIC, FABRIC | NODEBATCH, NODEBATCH
  | ORCHESTRATOR, ORCHESTRATOR | PROCESSOR, PROCESSOR
  | WORKLOAD, WORKLOAD | VPC, VPC => true
  | _, _ => false
  end.

Definition state_eqb (a b : ObjectState) : bool :=
  match a, b with
  | DELETING, DELETING | CONFIGURED, CONFIGURED | STARTED, STARTED
  | STOPPED, STOPPED | CREATED, CREATED | UPDATED, UPDATED => true
  | _, _ => false
  end.

Definition status_eqb (a b : ObjectStatus) : bool :=
  match a, b with
  | FAILED, FAILED | SUCCESS, SUCCESS => true
  | _, _ => false
  end.

Definition otype_eqb (a b : OrchType) : bool :=
  match a, b with
  | Controller, Controller | Telemetry, Telemetry | Events, Events => true
  | _, _ => false
  end.

Definition role_eqb (a b : Role) : bool :=
  match a, b with
  | RoleUnset, RoleUnset | Manager, Manager | Worker, Worker => true
  | _, _ => false
  end.

(** ** Strings *)

(** [s in t] on Python strings: [s] occurs in [t]. *)
Fixpoint str_in (s t : string) : bool :=
  if String.prefix s t then true
  else match t with
       | EmptyString => false
       | String _ t' => str_in s t'
       end.

(** [s.split("-")[0]]: the part of [s] before its first dash. *)
Fixpoint split_dash_0 (s : string) : string :=
  match s with
  | EmptyString => EmptyString
  | String c s' => if Ascii.eqb c "-"%char then EmptyString
                   else String c (split_dash_0 s')
  end.

(** [str(n)] for a non-negative integer. *)
Definition str (n : nat) : string := NilEmpty.string_of_uint (Nat.to_uint n).

(** ["{:02d}".format(n)]: decimal, padded with zeros to a width of at least
    two. *)
Definition format_02d (n : nat) : string :=
  if Nat.ltb n 10 then String.append "0" (str n) else str n.

(** [c.lower()] on a character with a code point below 256, which is what
    [ascii] holds: the letters A to Z and the capital letters of Latin-1,
    U+00C0 to U+00DE without the multiplication sign U+00D7, move up by
    32; every other character is its own lower case. *)
Definition lower_ascii (c : ascii) : ascii :=
  let n := nat_of_ascii c in
  if (Nat.leb 65 n && Nat.leb n 90)
     || (Nat.leb 192 n && Nat.leb n 222 && negb (Nat.eqb n 215))
  then ascii_of_nat (n + 32) else c.

(** [State.normalise_string]: [str(input_string).lower()], on strings of
    such characters. *)
Fixpoint normalise_string (s : string) : string :=
  match s with
  | EmptyString => EmptyString
  | String c s' => String (lower_ascii c) (normalise_string s')
  end.

(** ** Insertion-ordered dictionaries *)

Section Dict.
Variable V : Type.

Definition Dict : Type := list (string * V).

(** [d.get(k)] *)
Fixpoint dict_get (k : string) (d : Dict) : option V :=
  match d with
  | [] => None
  | (k', v) :: d' => if String.eqb k k' then Some v else dict_get k d'
  end.

(** [k in d] *)
Definition dict_mem (k : string) (d : Dict) : bool :=
  match dict_get k d with Some _ => true | None => false end.

(** [d[k] = v]: an existing key keeps its place, a new key goes last. *)
Fixpoint dict_set (k : string) (v : V) (d : Dict) : Dict :=
  match d with
  | [] => [(k, v)]
  | (k', v') :: d' =>
      if String.eqb k k' then (k, v) :: d' else (k', v') :: dict_set k v d'
  end.

(** [del d[k]] for a key that is present. *)
Fixpoint dict_del (k : string) (d : Dict) : Dict :=
  match d with
  | [] => []
  | (k', v') :: d' =>
      if String.eqb k k' then d' else (k', v') :: dict_del k d'
  end.

Definition dict_keys (d : Dict) : list string := map fst d.

End Dict.

(** [l.remove(x)]: drops the first occurrence of [x]. *)
Fixpoint list_remove (x : string) (l : list string) : list string :=
  match l with
  | [] => []
  | y :: l' => if String.eqb x y then l' else y :: list_remove x l'
  end.

(** [x in l] on a list of names. *)
Definition list_mem (x : string) (l : list string) : bool :=
  existsb (String.eqb x) l.

(** [max(...)] over a non-empty generator of indices; 0 on the empty list,
    where the code never calls it. *)
Definition list_max0 (l : list nat) : nat := fold_right Nat.max 0 l.

(** ** The state document *)

(** A configuration value of a node: the [{}] placeholder or a string. *)
Inductive CfgVal : Type :=
| VEmpty
| VStr (s : string).

Definition cfgval_eqb (a b : CfgVal) : bool :=
  match a, b with
  | VEmpty, VEmpty => true
  | VStr s, VStr t => String.eqb s t
  | _, _ => false
  end.

Definition Conf : Type := Dict CfgVal.

Definition optval_eqb (a b : option CfgVal) : bool :=
  match a, b with
  | Some x, Some y => cfgval_eqb x y
  | None, None => true
  | _, _ => false
  end.

(** [d1 == d2] on dictionaries: the same keys with the same values, in any
    order. *)
Definition conf_eqb (d1 d2 : Conf) : bool :=
  forallb (fun kv => optval_eqb (dict_get (fst kv) d2) (Some (snd kv))) d1 &&
  forallb (fun kv => optval_eqb (dict_get (fst kv) d1) (Some (snd kv))) d2.

(** [a != b] where either side may be [None] (the default of
    [set_action_list]'s two configuration arguments). *)
Definition conf_ne (a b : option Conf) : bool :=
  match a, b with
  | None, None => false
  | Some x, Some y => negb (conf_eqb x y)
  | _, _ => true
  end.

(** Node object of the state: orchestrator, processor or workload. The
    [state] and [status] fields hold [None] for the [{}] placeholder of a
    clean object (for which [ObjectState(obj['state'])] raises [ValueError]
    and [get_object_state] returns [None]). *)
Record NodeObj : Type := mkNode {
  n_index : nat;
  n_vpc : string;
  n_state : option ObjectState;
  n_status : option ObjectStatus;
  n_type : option OrchType;
  n_role : Role;
  n_config : Conf;
  n_properties : Dict (option string)
}.

Record VpcObj : Type := mkVpc {
  v_cloud : string;
  v_region : string;
  v_index : nat;
  v_state : option ObjectState;
  v_status : option ObjectStatus
}.

Record FabricObj : Type := mkFabric {
  f_companyName : option string;
  f_credentialsFile : option string;
  f_privateKey : option string;
  f_orchestrator : Dict NodeObj;
  f_processor : Dict NodeObj;
  f_workload : Dict NodeObj;
  f_vpc : Dict VpcObj;
  f_state : option ObjectState;
  f_status : option ObjectStatus
}.

(** An object of a batch file, [{kind, metadata: {name, fabric}, spec,
    state}]; the same shape is stored for the generated members of a node
    batch. *)
Record Template : Type := mkTemplate {
  t_kind : ObjectKind;
  t_vpc : string;
  t_config : Conf;
  t_state : ObjectState
}.

Record Entry : Type := mkEntry {
  e_kind : ObjectKind;
  e_name : string;
  e_fabric : string;
  e_vpc : string;
  e_cloud : string;
  e_region : string;
  e_type : OrchType;
  e_role : Role;
  e_config : Conf;
  e_properties : option (Dict string);
  e_state : ObjectState;
  e_template : list Template;
  e_instanceCount : nat;
  e_privateKey : option string;
  e_companyName : option string;
  e_credentialsFile : string
}.

(** A node batch recorded in the state: [{'state': ..., 'processor':
    {...}}] or [{'state': ..., 'workload': {...}}]; a key that is absent
    is [None]. *)
Record NodeBatch : Type := mkNodeBatch {
  nb_state : option ObjectState;
  nb_processor : option (Dict Entry);
  nb_workload : option (Dict Entry)
}.

(** The settings of [session/config.py] the engine reads. *)
Record Config : Type := mkConfig {
  cfg_current_fabric : option string;
  cfg_private_key : option string;
  cfg_company_name : option string;
  cfg_marketplace : string;
  cfg_os_type : string;
  cfg_production : bool
}.

(** [State]: the configuration and the document [{'batch': ..., 'fabric':
    ...}]. *)
Record State : Type := mkState {
  config : Config;
  batch : Dict NodeBatch;
  fabric : Dict FabricObj
}.

(** ** Object state and status ([session/state.py]) *)

(** The dictionaries that carry a [state] and a [status] key. *)
Class Stateful (A : Type) : Type := {
  obj_state : A -> option ObjectState;
  obj_status : A -> option ObjectStatus;
  with_state : ObjectState -> A -> A;
  with_status : ObjectStatus -> A -> A
}.

#[export] Instance NodeObj_Stateful : Stateful NodeObj := {
  obj_state := n_state;
  obj_status := n_status;
  with_state := fun s o =>
    mkNode (n_index o) (n_vpc o) (Some s) (n_status o) (n_type o) (n_role o)
           (n_config o) (n_properties o);
  with_status := fun s o =>
    mkNode (n_index o) (n_vpc o) (n_state o) (Some s) (n_type o) (n_role o)
           (n_config o) (n_properties o)
}.

#[export] Instance VpcObj_Stateful : Stateful VpcObj := {
  obj_state := v_state;
  obj_status := v_status;
  with_state := fun s o =>
    mkVpc (v_cloud o) (v_region o) (v_index o) (Some s) (v_status o);
  with_status := fun s o =>
    mkVpc (v_cloud o) (v_region o) (v_index o) (v_state o) (Some s)
}.

#[export] Instance FabricObj_Stateful : Stateful FabricObj := {
  obj_state := f_state;
  obj_status := f_status;
  with_state := fun s o =>
    mkFabric (f_companyName o) (f_credentialsFile o) (f_privateKey o)
             (f_orchestrator o) (f_processor o) (f_workload o) (f_vpc o)
             (Some s) (f_status o);
  with_status := fun s o =>
    mkFabric (f_companyName o) (f_credentialsFile o) (f_privateKey o)
             (f_orchestrator o) (f_processor o) (f_workload o) (f_vpc o)
             (f_state o) (Some s)
}.

(** A node batch has a [state] key only. *)
#[export] Instance NodeBatch_Stateful : Stateful NodeBatch := {
  obj_state := nb_state;
  obj_status := fun _ => None;
  with_state := fun s o => mkNodeBatch (Some s) (nb_processor o) (nb_workload o);
  with_status := fun _ o => o
}.

Section ObjectStateStatus.
Context {A : Type} `{Stateful A}.

Definition get_object_state (obj : A) : option ObjectState := obj_state obj.

Definition get_object_status (obj : A) : option ObjectStatus := obj_status obj.

(** [check_object_state] with a single [ObjectState] argument. *)
Definition check_object_state (obj : A) (state : ObjectState) : bool :=
  match get_object_state obj with
  | Some s => state_eqb s state
  | None => false
  end.

Definition check_object_status (obj : A) (status : ObjectStatus) : bool :=
  match get_object_status obj with
  | Some s => status_eqb s status
  | None => false
  end.

Definition check_object_state_status (obj : A) (state : ObjectState)
    (status : ObjectStatus) : bool :=
  check_object_state obj state && check_object_status obj status.

Definition set_object_state (obj : A) (state : ObjectState) : A :=
  with_state state obj.

Definition set_object_status (obj : A) (status : ObjectStatus) : A :=
  with_status status obj.

Definition set_object_state_status (obj : A) (state : ObjectState)
    (status : ObjectStatus) : A :=
  set_object_status (set_object_state obj state) status.

End ObjectStateStatus.

(** ** Lookups in the state document *)

(** [check_fabric]: [bool(self.state['fabric'].get(name))]. A fabric object
    always has keys, so it is true exactly when the name is present. *)
Definition check_fabric (s : State) (name : string) : bool :=
  dict_mem name (fabric s).

Definition get_fabric (s : State) (name : string) : option FabricObj :=
  dict_get name (fabric s).

(** The dictionary of a fabric object that holds the nodes of a kind. *)
Definition fabric_nodes (f : FabricObj) (k : ObjectKind) : Dict NodeObj :=
  match k with
  | ORCHESTRATOR => f_orchestrator f
  | PROCESSOR => f_processor f
  | WORKLOAD => f_workload f
  | _ => []
  end.

Definition fabric_with_nodes (f : FabricObj) (k : ObjectKind)
    (d : Dict NodeObj) : FabricObj :=
  match k with
  | ORCHESTRATOR =>
      mkFabric (f_companyName f) (f_credentialsFile f) (f_privateKey f)
               d (f_processor f) (f_workload f) (f_vpc f) (f_state f)
               (f_status f)
  | PROCESSOR =>
      mkFabric (f_companyName f) (f_credentialsFile f) (f_privateKey f)
               (f_orchestrator f) d (f_workload f) (f_vpc f) (f_state f)
               (f_status f)
  | WORKLOAD =>
      mkFabric (f_companyName f) (f_credentialsFile f) (f_privateKey f)
               (f_orchestrator f) (f_processor f) d (f_vpc f) (f_state f)
               (f_status f)
  | _ => f
  end.

Definition fabric_with_vpcs (f : FabricObj) (d : Dict VpcObj) : FabricObj :=
  mkFabric (f_companyName f) (f_credentialsFile f) (f_privateKey f)
           (f_orchestrator f) (f_processor f) (f_workload f) d (f_state f)
           (f_status f).

Definition with_fabrics (s : State) (d : Dict FabricObj) : State :=
  mkState (config s) (batch s) d.

Definition with_batches (s : State) (d : Dict NodeBatch) : State :=
  mkState (config s) d (fabric s).

(** [get_current_fabric]. [config.get_current_fabric()] is [None] when no
    fabric is selected; the inner [if] has no [else], so the method falls
    off its end and returns [None] there too. *)
Definition get_current_fabric (s : State) : option string :=
  match cfg_current_fabric (config s) with
  | None => None
  | Some current_fabric =>
      if check_fabric s current_fabric then
        match dict_get current_fabric (fabric s) with
        | Some f =>
            if (check_object_state f CONFIGURED
                && check_object_status f SUCCESS)
               || check_object_state f DELETING
            then Some current_fabric
            else None
        | None => None
        end
      else None
  end.

(** Truth value of [get_current_fabric()] as the commands test it: [None]
    and the empty string are false. *)
Definition truthy_name (o : option string) : bool :=
  match o with
  | Some EmptyString => false
  | Some _ => true
  | None => false
  end.

Definition get_fabric_objects (s : State) (k : ObjectKind) (fabric_name : string)
    : option (Dict NodeObj) :=
  match get_fabric s fabric_name with
  | Some f => Some (fabric_nodes f k)
  | None => None
  end.

Definition get_fabric_vpcs (s : State) (fabric_name : string)
    : option (Dict VpcObj) :=
  match get_fabric s fabric_name with
  | Some f => Some (f_vpc f)
  | None => None
  end.

(** [_check_state_attr_value] for a node kind; [None] is the [KeyError] of
    [self.state['fabric'][fabric]] on an unknown fabric. *)
Definition check_nodeobj (s : State) (fabric_name name : string)
    (k : ObjectKind) : option bool :=
  match k with
  | PROCESSOR | WORKLOAD | ORCHESTRATOR =>
      match get_fabric s fabric_name with
      | Some f => Some (dict_mem name (fabric_nodes f k))
      | None => None
      end
  | _ => Some false
  end.

Definition check_orchestrator (s : State) (fabric_name name : string) :=
  check_nodeobj s fabric_name name ORCHESTRATOR.

Definition check_processor (s : State) (fabric_name name : string) :=
  check_nodeobj s fabric_name name PROCESSOR.

Definition check_workload (s : State) (fabric_name name : string) :=
  check_nodeobj s fabric_name name WORKLOAD.

Definition check_vpc (s : State) (fabric_name name : string) : option bool :=
  match get_fabric s fabric_name with
  | Some f => Some (dict_mem name (f_vpc f))
  | None => None
  end.

Definition check_nodebatch (s : State) (name : string) : bool :=
  dict_mem name (batch s).

Definition get_nodebatch (s : State) (name : string) : option NodeBatch :=
  dict_get name (batch s).

(** [add_fabric_obj] for a node kind; [None] on an unknown fabric. *)
Definition add_fabric_obj (s : State) (fabric_name : string) (k : ObjectKind)
    (obj_name : string) (obj : NodeObj) : option State :=
  match get_fabric s fabric_name with
  | Some f =>
      Some (with_fabrics s
              (dict_set fabric_name
                 (fabric_with_nodes f k (dict_set obj_name obj (fabric_nodes f k)))
                 (fabric s)))
  | None => None
  end.

Definition add_fabric_vpc (s : State) (fabric_name obj_name : string)
    (obj : VpcObj) : option State :=
  match get_fabric s fabric_name with
  | Some f =>
      Some (with_fabrics s
              (dict_set fabric_name
                 (fabric_with_vpcs f (dict_set obj_name obj (f_vpc f)))
                 (fabric s)))
  | None => None
  end.

Definition add_fabric (s : State) (fabric_name : string) (f : FabricObj)
    : State :=
  with_fabrics s (dict_set fabric_name f (fabric s)).

Definition add_batch (s : State) (batch_name : string) (b : NodeBatch)
    : State :=
  with_batches s (dict_set batch_name b (batch s)).

(** The member dictionary of a node batch for a node kind. *)
Definition nodebatch_members (b : NodeBatch) (k : ObjectKind)
    : option (Dict Entry) :=
  match k with
  | PROCESSOR => nb_processor b
  | WORKLOAD => nb_workload b
  | _ => None
  end.

Definition nodebatch_with_members (b : NodeBatch) (k : ObjectKind)
    (d : Dict Entry) : NodeBatch :=
  match k with
  | PROCESSOR => mkNodeBatch (nb_state b) (Some d) (nb_workload b)
  | WORKLOAD => mkNodeBatch (nb_state b) (nb_processor b) (Some d)
  | _ => b
  end.

(** [add_batch_obj]; [None] is the [KeyError] on an unknown batch name. *)
Definition add_batch_obj (s : State) (batch_name : string)
    (obj_type : ObjectKind) (obj_name : string) (obj : Entry) : option State :=
  match dict_get batch_name (batch s) with
  | Some b =>
      let members := match nodebatch_members b obj_type with
                     | Some d => d
                     | None => []
                     end in
      Some (with_batches s
              (dict_set batch_name
                 (nodebatch_with_members b obj_type
                    (dict_set obj_name obj members))
                 (batch s)))
  | None => None
  end.

(** [delete_nodebatch]: [del self.state['batch'][name]]; a missing name
    raises [KeyError], which the [except NameError] does not catch. *)
Definition delete_nodebatch (s : State) (name : string) : option State :=
  if dict_mem name (batch s)
  then Some (with_batches s (dict_del name (batch s)))
  else None.

Definition delete_fabric_object (s : State) (k : ObjectKind)
    (obj_name fabric_name : string) : option State :=
  match get_fabric s fabric_name with
  | Some f =>
      if dict_mem obj_name (fabric_nodes f k) then
        Some (with_fabrics s
                (dict_set fabric_name
                   (fabric_with_nodes f k (dict_del obj_name (fabric_nodes f k)))
                   (fabric s)))
      else None
  | None => None
  end.

(** Clean state objects. The [{}] placeholders of [index] and [vpc] are
    always overwritten before the object is stored, so the constructors
    take them. *)
Definition get_clean_orchestrator (s : State) (index : nat) (vpc : string)
    : NodeObj :=
  mkNode index vpc None None None RoleUnset []
         [("marketplace", Some (cfg_marketplace (config s)))].

Definition get_clean_processor (s : State) (index : nat) (vpc : string)
    : NodeObj :=
  mkNode index vpc None None None RoleUnset [("orchestrator", VEmpty)]
         [("marketplace", Some (cfg_marketplace (config s)))].

Definition get_clean_workload (s : State) (index : nat) (vpc : string)
    : NodeObj :=
  mkNode index vpc None None None RoleUnset [("orchestrator", VEmpty)]
         [("marketplace", Some (cfg_marketplace (config s)));
          ("os_type", Some (cfg_os_type (config s)))].

Definition get_clean_nodeobj (s : State) (k : ObjectKind) (index : nat)
    (vpc : string) : NodeObj :=
  match k with
  | PROCESSOR => get_clean_processor s index vpc
  | WORKLOAD => get_clean_workload s index vpc
  | _ => get_clean_orchestrator s index vpc
  end.

Definition get_clean_vpc (cloud region : string) (index : nat) : VpcObj :=
  mkVpc cloud region index None None.

Definition get_clean_fabric : FabricObj :=
  mkFabric None None None [] [] [] [] None None.

(** ** The action matrix ([set_action_list] in [create_batch]) *)

(** The [actions] dictionary: [{'config': [], 'start': [], 'stop': []}] for
    processors and workloads, [{'config': []}] for orchestrators, whose
    missing keys are [None]. *)
Record Actions : Type := mkActions {
  a_config : list string;
  a_start : option (list string);
  a_stop : option (list string)
}.

(** [actions['config'].append(entity)] and its siblings; [None] is the
    [KeyError] of a missing key. *)
Definition append_config (entity : string) (a : Actions) : option Actions :=
  Some (mkActions (a_config a ++ [entity]) (a_start a) (a_stop a)).

Definition append_start (entity : string) (a : Actions) : option Actions :=
  match a_start a with
  | Some l => Some (mkActions (a_config a) (Some (l ++ [entity])) (a_stop a))
  | None => None
  end.

Definition append_stop (entity : string) (a : Actions) : option Actions :=
  match a_stop a with
  | Some l => Some (mkActions (a_config a) (a_start a) (Some (l ++ [entity])))
  | None => None
  end.

Definition and_then (x : option Actions) (f : Actions -> option Actions)
    : option Actions :=
  match x with
  | Some a => f a
  | None => None
  end.

(** [entity_role in [ObjectKind.WORKLOAD, ObjectKind.PROCESSOR]] *)
Definition role_bearing (k : ObjectKind) : bool :=
  match k with
  | WORKLOAD | PROCESSOR => true
  | _ => false
  end.

Definition is_state (o : option ObjectState) (s : ObjectState) : bool :=
  match o with Some x => state_eqb x s | None => false end.

Definition is_status (o : option ObjectStatus) (s : ObjectStatus) : bool :=
  match o with Some x => status_eqb x s | None => false end.

Definition set_action_list (current_state : option ObjectState)
    (current_status : option ObjectStatus) (target_state : ObjectState)
    (actions : Actions) (entity : string) (entity_role : ObjectKind)
    (batch_entity_conf state_entity_conf : option Conf) : option Actions :=
  let role := role_bearing entity_role in
  let drift := conf_ne batch_entity_conf state_entity_conf in
  let failed := is_status current_status FAILED in
  let target := state_eqb target_state in
  let config := append_config entity actions in
  let start := append_start entity actions in
  let stop := append_stop entity actions in
  let config_start := and_then config (append_start entity) in
  let config_stop := and_then config (append_stop entity) in
  if is_state current_state CREATED then
    if target CONFIGURED then config
    else if target STARTED && role then config_start
    else if target STOPPED && role then config_stop
    else Some actions
  else if is_state current_state CONFIGURED then
    if target CONFIGURED && failed then config
    else if target CONFIGURED && (role && drift) then config
    else if target STARTED && (role && drift) then config_start
    else if target STARTED && (role && failed) then config_start
    else if target STARTED && role then start
    else if target STOPPED && (role && drift) then config_stop
    else if target STOPPED && (role && failed) then config_stop
    else if target STOPPED && role then stop
    else Some actions
  else if is_state current_state STARTED then
    if target STARTED && failed then start
    else if target STARTED && (role && drift) then config_start
    else if target STOPPED && (role && drift) then config_stop
    else if target STOPPED then stop
    else Some actions
  else if is_state current_state STOPPED then
    if target STOPPED && failed then stop
    else if target STOPPED && (role && drift) then config_stop
    else if target STARTED && (role && drift) then config_start
    else if target STARTED then start
    else Some actions
  else Some actions.

(** *** The decision table of the specification, as data *)

Record Plan : Type := mkPlan {
  p_config : bool;
  p_start : bool;
  p_stop : bool
}.

Inductive StatusPat : Type :=
| AnyStatus
| Only (s : ObjectStatus).

(** The config-changed column: a dash, a truth value, or "true or failed". *)
Inductive DriftPat : Type :=
| Dash
| Drift (b : bool)
| DriftOrFailed.

Record Row : Type := mkRow {
  r_current : ObjectState;
  r_status : StatusPat;
  r_target : ObjectState;
  r_drift : DriftPat;
  r_plan : Plan
}.

Definition plan_none : Plan := mkPlan false false false.
Definition plan_config : Plan := mkPlan true false false.
Definition plan_start : Plan := mkPlan false true false.
Definition plan_stop : Plan := mkPlan false false true.
Definition plan_config_start : Plan := mkPlan true true false.
Definition plan_config_stop : Plan := mkPlan true false true.

(** The eighteen rows of the table, in the order the specification lists
    them. *)
Definition table_4_2 : list Row :=
  [ mkRow CREATED AnyStatus CONFIGURED Dash plan_config;
    mkRow CREATED AnyStatus STARTED Dash plan_config_start;
    mkRow CREATED AnyStatus STOPPED Dash plan_config_stop;
    mkRow CONFIGURED (Only FAILED) CONFIGURED Dash plan_config;
    mkRow CONFIGURED (Only SUCCESS) CONFIGURED (Drift true) plan_config;
    mkRow CONFIGURED (Only SUCCESS) CONFIGURED (Drift false) plan_none;
    mkRow CONFIGURED AnyStatus STARTED DriftOrFailed plan_config_start;
    mkRow CONFIGURED (Only SUCCESS) STARTED (Drift false) plan_start;
    mkRow CONFIGURED AnyStatus STOPPED DriftOrFailed plan_config_stop;
    mkRow CONFIGURED (Only SUCCESS) STOPPED (Drift false) plan_stop;
    mkRow STARTED (Only FAILED) STARTED Dash plan_start;
    mkRow STARTED AnyStatus STARTED (Drift true) plan_config_start;
    mkRow STARTED AnyStatus STOPPED (Drift true) plan_config_stop;
    mkRow STARTED (Only SUCCESS) STOPPED (Drift false) plan_stop;
    mkRow STOPPED (Only FAILED) STOPPED Dash plan_stop;
    mkRow STOPPED AnyStatus STOPPED (Drift true) plan_config_stop;
    mkRow STOPPED AnyStatus STARTED (Drift true) plan_config_start;
    mkRow STOPPED (Only SUCCESS) STARTED (Drift false) plan_start ].

(** The table as the code implements it: the two "unchanged" rows that
    leave a started or a stopped state apply to either status. *)
Definition table_4_2_code : list Row :=
  [ mkRow CREATED AnyStatus CONFIGURED Dash plan_config;
    mkRow CREATED AnyStatus STARTED Dash plan_config_start;
    mkRow CREATED AnyStatus STOPPED Dash plan_config_stop;
    mkRow CONFIGURED (Only FAILED) CONFIGURED Dash plan_config;
    mkRow CONFIGURED (Only SUCCESS) CONFIGURED (Drift true) plan_config;
    mkRow CONFIGURED (Only SUCCESS) CONFIGURED (Drift false) plan_none;
    mkRow CONFIGURED AnyStatus STARTED DriftOrFailed plan_config_start;
    mkRow CONFIGURED (Only SUCCESS) STARTED (Drift false) plan_start;
    mkRow CONFIGURED AnyStatus STOPPED DriftOrFailed plan_config_stop;
    mkRow CONFIGURED (Only SUCCESS) STOPPED (Drift false) plan_stop;
    mkRow STARTED (Only FAILED) STARTED Dash plan_start;
    mkRow STARTED AnyStatus STARTED (Drift true) plan_config_start;
    mkRow STARTED AnyStatus STOPPED (Drift true) plan_config_stop;
    mkRow STARTED AnyStatus STOPPED (Drift false) plan_stop;
    mkRow STOPPED (Only FAILED) STOPPED Dash plan_stop;
    mkRow STOPPED AnyStatus STOPPED (Drift true) plan_config_stop;
    mkRow STOPPED AnyStatus STARTED (Drift true) plan_config_start;
    mkRow STOPPED AnyStatus STARTED (Drift false) plan_start ].

Definition status_matches (p : StatusPat) (s : ObjectStatus) : bool :=
  match p with
  | AnyStatus => true
  | Only s' => status_eqb s s'
  end.

Definition drift_matches (p : DriftPat) (s : ObjectStatus) (drift : bool)
    : bool :=
  match p with
  | Dash => true
  | Drift b => Bool.eqb drift b
  | DriftOrFailed => drift || status_eqb s FAILED
  end.

Definition row_matches (current : ObjectState) (status : ObjectStatus)
    (target : ObjectState) (drift : bool) (r : Row) : bool :=
  state_eqb current (r_current r) && status_matches (r_status r) status
  && state_eqb target (r_target r) && drift_matches (r_drift r) status drift.

(** Reading a table top to bottom: the first matching row decides, and a
    combination that no row lists is a no-op. *)
Definition first_match (t : list Row) (current : ObjectState)
    (status : ObjectStatus) (target : ObjectState) (drift : bool) : Plan :=
  match find (row_matches current status target drift) t with
  | Some r => r_plan r
  | None => plan_none
  end.

(** The entity is appended to the list of every action of the plan. *)
Definition apply_plan (p : Plan) (entity : string) (a : Actions)
    : option Actions :=
  let a1 := if p_config p then append_config entity a else Some a in
  let a2 := if p_start p then and_then a1 (append_start entity) else a1 in
  if p_stop p then and_then a2 (append_stop entity) else a2.

(** The three empty lists a processor or a workload starts from. *)
Definition node_actions : Actions := mkActions [] (Some []) (Some []).

(** The single empty list an orchestrator starts from. *)
Definition orch_actions : Actions := mkActions [] None None.

(** ** External collaborators and the command monad *)

(** The calls the engine makes outside itself. *)
Inductive Call : Type :=
| CredentialsGet (fabric_name : string)
| CredentialsGetDocker (fabric_name : string)
| CredentialsCheckSsh (fabric_name key : string)
| TerraformPlanGenerate (fabric_name : string)
| TerraformPlanExecute (fabric_name : string)
| TerraformGetOutput (obj_name var : string)
| AnsibleInventoryGenerate (fabric_name : string) (nodes : list string)
| AnsibleRunPlaybook (fabric_name playbook : string)
| SshConfigGenerate
| StateDump.

(** What a call answers: success, an exit code, a value. *)
Record Answer : Type := mkAnswer {
  ans_ok : bool;
  ans_code : nat;
  ans_value : option string
}.

Inductive Level : Type := Info | Warn | Error | Okay.

Record LogEntry : Type := mkLog {
  log_level : Level;
  log_text : string;
  log_args : list string
}.

(** How a command ends: it returns, it leaves through [sys.exit(code)], or
    an exception that nothing catches ends it. *)
Inductive Res (A : Type) : Type :=
| Ok (a : A)
| Exit (code : nat)
| Crash.

Arguments Ok {A} a.
Arguments Exit {A} code.
Arguments Crash {A}.

Section Engine.
Variable W : Type.
Variable oracle : Call -> W -> Answer * W.

(** [ctx_state] is [ctx.obj.state]; [persisted] is the last state a dump
    wrote. *)
Record Machine : Type := mkMachine {
  ctx_state : State;
  persisted : State;
  world : W;
  trace : list Call;
  logs : list LogEntry
}.

Definition M (A : Type) : Type := Machine -> Res A * Machine.

Definition ret {A : Type} (a : A) : M A := fun m => (Ok a, m).

Definition bind {A B : Type} (c : M A) (k : A -> M B) : M B :=
  fun m => match c m with
           | (Ok a, m') => k a m'
           | (Exit code, m') => (Exit code, m')
           | (Crash, m') => (Crash, m')
           end.

Definition sys_exit {A : Type} (code : nat) : M A := fun m => (Exit code, m).

Definition raise {A : Type} : M A := fun m => (Crash, m).

(** A dictionary or list access that raises when there is nothing there. *)
Definition must {A : Type} (o : option A) : M A :=
  match o with
  | Some a => ret a
  | None => raise
  end.

Definition get_ctx : M State := fun m => (Ok (ctx_state m), m).

(** [ctx.obj.state = deepcopy(temp_state)] *)
Definition set_ctx (s : State) : M unit :=
  fun m => (Ok tt, mkMachine s (persisted m) (world m) (trace m) (logs m)).

Definition call (c : Call) : M Answer :=
  fun m => let (a, w) := oracle c (world m) in
           (Ok a, mkMachine (ctx_state m) (persisted m) w (trace m ++ [c])
                            (logs m)).

Definition log (l : Level) (text : string) (args : list string) : M unit :=
  fun m => (Ok tt, mkMachine (ctx_state m) (persisted m) (world m) (trace m)
                             (logs m ++ [mkLog l text args])).

(** [ctx.obj.state.dump()]: the write may fail, and no caller looks at its
    result. *)
Definition dump : M unit :=
  fun m => let (a, w) := oracle StateDump (world m) in
           (Ok tt, mkMachine (ctx_state m)
                             (if ans_ok a then ctx_state m else persisted m)
                             w (trace m ++ [StateDump]) (logs m)).

(** [ctx.obj.state = deepcopy(temp_state); ctx.obj.state.dump()] *)
Definition commit (s : State) : M unit := bind (set_ctx s) (fun _ => dump).

(** A [for] loop that threads the variables it assigns. *)
Fixpoint for_each {A S : Type} (l : list A) (body : A -> S -> M S) (s : S)
    : M S :=
  match l with
  | [] => ret s
  | x :: l' => bind (body x s) (fun s' => for_each l' body s')
  end.

End Engine.

Arguments ret {W A} a _.
Arguments bind {W A B} c k _.
Arguments sys_exit {W A} code _.
Arguments raise {W A} _.
Arguments must {W A} o _.
Arguments get_ctx {W} _.
Arguments set_ctx {W} s _.
Arguments log {W} l text args _.
Arguments for_each {W A S} l body s _.

Declare Scope engine_scope.
Delimit Scope engine_scope with engine.
Notation "x <- c ;; k" := (bind c (fun x => k))
  (at level 61, c at next level, right associativity) : engine_scope.
Notation "c ;;; k" := (bind c (fun _ => k))
  (at level 61, right associativity) : engine_scope.
Open Scope engine_scope.

(** ** State methods that drive the external tools ([session/state.py]) *)

(** [self.state['fabric'][fabric][kind][name]] updated in place; [None] is
    the [KeyError] of a missing key. *)
Definition update_node (s : State) (fabric_name : string) (k : ObjectKind)
    (name : string) (f : NodeObj -> NodeObj) : option State :=
  match get_fabric s fabric_name with
  | Some fo =>
      match dict_get name (fabric_nodes fo k) with
      | Some o =>
          Some (with_fabrics s
                  (dict_set fabric_name
                     (fabric_with_nodes fo k
                        (dict_set name (f o) (fabric_nodes fo k)))
                     (fabric s)))
      | None => None
      end
  | None => None
  end.

Definition update_vpc (s : State) (fabric_name name : string)
    (f : VpcObj -> VpcObj) : option State :=
  match get_fabric s fabric_name with
  | Some fo =>
      match dict_get name (f_vpc fo) with
      | Some o =>
          Some (with_fabrics s
                  (dict_set fabric_name
                     (fabric_with_vpcs fo (dict_set name (f o) (f_vpc fo)))
                     (fabric s)))
      | None => None
      end
  | None => None
  end.

Definition update_fabric (s : State) (fabric_name : string)
    (f : FabricObj -> FabricObj) : option State :=
  match get_fabric s fabric_name with
  | Some fo => Some (with_fabrics s (dict_set fabric_name (f fo) (fabric s)))
  | None => None
  end.

(** The nodes of an [obj_list] dictionary [{kind: [names]}], in the order
    of the nested loops [for obj_kind in obj_list: for obj_name in ...]. *)
Definition ObjList : Type := list (ObjectKind * list string).

Definition obj_list_nodes (obj_list : ObjList) : list (ObjectKind * string) :=
  flat_map (fun kl => map (pair (fst kl)) (snd kl)) obj_list.

Definition obj_list_names (obj_list : ObjList) : list string :=
  flat_map snd obj_list.

Fixpoint set_nodes_state_status (s : State) (fabric_name : string)
    (nodes : list (ObjectKind * string)) (state : ObjectState)
    (status : ObjectStatus) : option State :=
  match nodes with
  | [] => Some s
  | (k, name) :: nodes' =>
      match update_node s fabric_name k name
              (fun o => set_object_state_status o state status) with
      | Some s' => set_nodes_state_status s' fabric_name nodes' state status
      | None => None
      end
  end.

Fixpoint set_vpcs_state_status (s : State) (fabric_name : string)
    (vpcs : list string) (state : ObjectState) (status : ObjectStatus)
    : option State :=
  match vpcs with
  | [] => Some s
  | name :: vpcs' =>
      match update_vpc s fabric_name name
              (fun o => set_object_state_status o state status) with
      | Some s' => set_vpcs_state_status s' fabric_name vpcs' state status
      | None => None
      end
  end.

Definition set_property (key : string) (v : option string) (o : NodeObj)
    : NodeObj :=
  mkNode (n_index o) (n_vpc o) (n_state o) (n_status o) (n_type o) (n_role o)
         (n_config o) (dict_set key v (n_properties o)).

Definition set_role (r : Role) (o : NodeObj) : NodeObj :=
  mkNode (n_index o) (n_vpc o) (n_state o) (n_status o) (n_type o) r
         (n_config o) (n_properties o).

Definition set_config (c : Conf) (o : NodeObj) : NodeObj :=
  mkNode (n_index o) (n_vpc o) (n_state o) (n_status o) (n_type o) (n_role o)
         c (n_properties o).

(** The processors of a VPC as the workload methods list them:
    [x[1]['vpc'] == obj_vpc]. *)
Definition all_proc (s : State) (fabric_name obj_vpc : string)
    : option (Dict NodeObj) :=
  match get_fabric s fabric_name with
  | Some fo => Some (filter (fun x => String.eqb (n_vpc (snd x)) obj_vpc)
                            (f_processor fo))
  | None => None
  end.

Definition success_proc (s : State) (fabric_name obj_vpc : string)
    : option (Dict NodeObj) :=
  match get_fabric s fabric_name with
  | Some fo => Some (filter (fun x => String.eqb (n_vpc (snd x)) obj_vpc
                                      && check_object_status (snd x) SUCCESS)
                            (f_processor fo))
  | None => None
  end.

(** The [ssh_proxy_host] entry made of a processor [x]: its name and
    [x[1]['properties']['ip']]. [None] is the [KeyError] of a processor
    without the property [ip]; the model keeps the name. *)
Definition proxy_entry (x : string * NodeObj) : option string :=
  match dict_get "ip" (n_properties (snd x)) with
  | Some _ => Some (fst x)
  | None => None
  end.

(** The processor a workload is reached through: the first successful one
    of its VPC when there is one, the first one of its VPC otherwise.
    [Some None] says that the VPC has no processor, [None] is a
    [KeyError]: the fabric is missing or the chosen processor has no
    property [ip]. *)
Definition ssh_proxy_host (s : State) (fabric_name obj_vpc : string)
    : option (option string) :=
  match all_proc s fabric_name obj_vpc, success_proc s fabric_name obj_vpc with
  | Some allp, Some succ =>
      match succ, allp with
      | x :: _, _ => option_map Some (proxy_entry x)
      | [], x :: _ => option_map Some (proxy_entry x)
      | [], [] => Some None
      end
  | _, _ => None
  end.

Definition node_vpc (s : State) (fabric_name : string) (k : ObjectKind)
    (name : string) : option string :=
  match get_fabric s fabric_name with
  | Some fo => option_map n_vpc (dict_get name (fabric_nodes fo k))
  | None => None
  end.

(** [obj_create_check]: every workload to create needs a processor in its
    VPC. [None] is a [KeyError]. *)
Fixpoint obj_create_check_workloads (s : State) (fabric_name : string)
    (names : list string) (failure_in_batch : bool) : option bool :=
  match names with
  | [] => Some failure_in_batch
  | obj_name :: names' =>
      match node_vpc s fabric_name WORKLOAD obj_name with
      | Some obj_vpc =>
          match all_proc s fabric_name obj_vpc with
          | Some [] => obj_create_check_workloads s fabric_name names' true
          | Some _ =>
              obj_create_check_workloads s fabric_name names' failure_in_batch
          | None => None
          end
      | None => None
      end
  end.

Definition obj_list_get (obj_list : ObjList) (k : ObjectKind)
    : option (list string) :=
  option_map snd (find (fun kl => kind_eqb (fst kl) k) obj_list).

Definition obj_create_check (s : State) (fabric_name : string)
    (obj_list : ObjList) : option bool :=
  match obj_list_get obj_list WORKLOAD with
  | Some names =>
      option_map negb (obj_create_check_workloads s fabric_name names false)
  | None => Some true
  end.

Section Methods.
Variable W : Type.
Variable oracle : Call -> W -> Answer * W.

Local Abbreviation M := (M W).
Local Abbreviation call := (call oracle).
Local Abbreviation dump := (dump oracle).
Local Abbreviation commit := (commit oracle).

(** [fabric_create] *)
Definition fabric_create (self : State) (fabric_name : string)
    : M ((bool * nat) * State) :=
  self <- must (update_fabric self fabric_name
                  (fun f => set_object_state_status f CREATED SUCCESS)) ;;
  r <- call (AnsibleRunPlaybook fabric_name "create-fabric.yml") ;;
  if negb (ans_ok r) then
    log Warn "Cannot create resources" [] ;;;
    self <- must (update_fabric self fabric_name
                    (fun f => set_object_state_status f CREATED FAILED)) ;;
    ret ((false, ans_code r), self)
  else ret ((true, 0), self).

(** [fabric_configure] *)
Definition fabric_configure (self : State) (fabric_name : string)
    (skip_ssh : bool) : M ((bool * nat) * State) :=
  self <- must (update_fabric self fabric_name
                  (fun f => set_object_state_status f CONFIGURED SUCCESS)) ;;
  r <- call (AnsibleRunPlaybook fabric_name "configure-fabric-ca.yml") ;;
  if negb (ans_ok r) then
    log Warn "Cannot install CA" [] ;;;
    self <- must (update_fabric self fabric_name
                    (fun f => set_object_state_status f CONFIGURED FAILED)) ;;
    ret ((false, ans_code r), self)
  else if negb skip_ssh then
    r <- call (AnsibleRunPlaybook fabric_name "configure-fabric-ssh-key.yml") ;;
    if negb (ans_ok r) then
      log Warn "Cannot install SSH key" [] ;;;
      self <- must (update_fabric self fabric_name
                      (fun f => set_object_state_status f CONFIGURED FAILED)) ;;
      ret ((false, ans_code r), self)
    else ret ((true, 0), self)
  else ret ((true, 0), self).

(** [vpc_create] *)
Definition vpc_create (self : State) (fabric_name : string)
    (vpc_list : list string) : M ((bool * nat) * State) :=
  c <- call (CredentialsGet fabric_name) ;;
  if negb (ans_ok c) then
    log Error "Cannot create VPC. Not able to get credentials" [] ;;;
    ret ((false, 1), self)
  else
    g <- call (TerraformPlanGenerate fabric_name) ;;
    if negb (ans_ok g) then
      log Error "Cannot create VPC: plan generation" [] ;;;
      self <- must (set_vpcs_state_status self fabric_name vpc_list
                      CREATED FAILED) ;;
      ret ((false, 1), self)
    else
      x <- call (TerraformPlanExecute fabric_name) ;;
      if negb (ans_ok x) then
        log Error "Cannot create VPC: plan execution" [] ;;;
        self <- must (set_vpcs_state_status self fabric_name vpc_list
                        CREATED FAILED) ;;
        ret ((false, ans_code x), self)
      else
        self <- must (set_vpcs_state_status self fabric_name vpc_list
                        CREATED SUCCESS) ;;
        log Okay "VPCs created successfully" vpc_list ;;;
        ret ((true, 0), self).

(** [obj_create]: the first Terraform run. *)
Definition obj_create_all_failed (self : State) (fabric_name : string)
    (obj_list : ObjList) (code : nat) : M ((bool * nat) * State) :=
  self <- must (set_nodes_state_status self fabric_name
                  (obj_list_nodes obj_list) CREATED FAILED) ;;
  ret ((false, code), self).

(** [obj_create]: one Terraform output per node, stored under [key]; a
    missing value marks the node failed. *)
Definition obj_create_outputs (fabric_name : string) (key : string)
    (var_of : ObjectKind -> string) (suffix : string)
    (nodes : list (ObjectKind * string)) (self : State)
    : M (State * bool) :=
  for_each nodes
    (fun kn acc =>
       let '(self, failure_in_batch) := acc in
       v <- call (TerraformGetOutput (String.append (snd kn) suffix)
                                     (var_of (fst kn))) ;;
       self <- must (update_node self fabric_name (fst kn) (snd kn)
                       (set_property key (ans_value v))) ;;
       match ans_value v with
       | None =>
           log Error "created with problems" [snd kn; key] ;;;
           self <- must (update_node self fabric_name (fst kn) (snd kn)
                           (fun o => set_object_state_status o CREATED FAILED)) ;;
           ret (self, true)
       | Some _ => ret (self, failure_in_batch)
       end)
    (self, false).

(** [obj_create]: [dns_enabled] goes from ['false'] to ['true']. *)
Definition enable_dns (o : NodeObj) : option NodeObj :=
  match dict_get "dns_enabled" (n_properties o) with
  | Some v =>
      match v with
      | Some "false" => Some (set_property "dns_enabled" (Some "true") o)
      | _ => Some o
      end
  | None => None
  end.

Fixpoint obj_create_enable_dns (self : State) (fabric_name : string)
    (nodes : list (ObjectKind * string)) : option State :=
  match nodes with
  | [] => Some self
  | (k, name) :: nodes' =>
      match get_fabric self fabric_name with
      | Some fo =>
          match dict_get name (fabric_nodes fo k) with
          | Some o =>
              match enable_dns o with
              | Some o' =>
                  match update_node self fabric_name k name (fun _ => o') with
                  | Some self' => obj_create_enable_dns self' fabric_name nodes'
                  | None => None
                  end
              | None => None
              end
          | None => None
          end
      | None => None
      end
  end.

(** [obj_create]: the SSH proxy of every workload of the list; the flag
    says that some workload has no processor in its VPC. *)
Definition obj_create_proxies (self : State) (fabric_name : string)
    (obj_list : ObjList) : M (Dict (option string) * bool) :=
  for_each (obj_list_nodes obj_list)
    (fun kn acc =>
       let '(vars, failure_in_batch) := acc in
       if kind_eqb (fst kn) WORKLOAD then
         obj_vpc <- must (node_vpc self fabric_name WORKLOAD (snd kn)) ;;
         proxy <- must (ssh_proxy_host self fabric_name obj_vpc) ;;
         match proxy with
         | Some p => ret (dict_set (snd kn) (Some p) vars, failure_in_batch)
         | None =>
             log Error "Cannot provision workload" [snd kn; obj_vpc] ;;;
             ret (dict_set (snd kn) None vars, true)
         end
       else ret acc)
    ([], false).

(** [obj_create]: the reachability check of every node. *)
Definition obj_create_check_online (fabric_name : string)
    (vars : Dict (option string)) (nodes : list (ObjectKind * string))
    (self : State) : M (State * bool * nat) :=
  for_each nodes
    (fun kn acc =>
       let '(self, failure_in_batch, ansible_err_code) := acc in
       nodes_list <-
         (if kind_eqb (fst kn) WORKLOAD then
            p <- must (dict_get (snd kn) vars) ;;
            p <- must p ;;
            ret [snd kn; p]
          else ret [snd kn]) ;;
       i <- call (AnsibleInventoryGenerate fabric_name nodes_list) ;;
       if negb (ans_ok i) then ret (self, true, 1)
       else
         r <- call (AnsibleRunPlaybook fabric_name "check-node-online.yml") ;;
         if negb (ans_ok r) then
           self <- must (update_node self fabric_name (fst kn) (snd kn)
                           (fun o => set_object_state_status o CREATED FAILED)) ;;
           log Error "Node is unreachable" [snd kn] ;;;
           ret (self, true, ans_code r)
         else ret acc)
    (self, false, 0).

(** [obj_create] *)
Definition obj_create (self : State) (fabric_name : string)
    (obj_list : ObjList) : M ((bool * nat) * State) :=
  let nodes := obj_list_nodes obj_list in
  g <- call (TerraformPlanGenerate fabric_name) ;;
  if negb (ans_ok g) then obj_create_all_failed self fabric_name obj_list 1
  else
  x <- call (TerraformPlanExecute fabric_name) ;;
  if negb (ans_ok x) then
    obj_create_all_failed self fabric_name obj_list (ans_code x)
  else
  r <- obj_create_outputs fabric_name "ip"
         (fun k => if kind_eqb k WORKLOAD then "private_ip" else "public_ip")
         "" nodes self ;;
  let '(self, failure_in_batch) := r in
  if failure_in_batch then ret ((false, 1), self)
  else
  self <- must (obj_create_enable_dns self fabric_name nodes) ;;
  g <- call (TerraformPlanGenerate fabric_name) ;;
  if negb (ans_ok g) then obj_create_all_failed self fabric_name obj_list 1
  else
  x <- call (TerraformPlanExecute fabric_name) ;;
  if negb (ans_ok x) then
    obj_create_all_failed self fabric_name obj_list (ans_code x)
  else
  r <- obj_create_outputs fabric_name "fqdn" (fun _ => "fqdn") "-dns"
         nodes self ;;
  let '(self, failure_in_batch) := r in
  if failure_in_batch then ret ((false, 1), self)
  else
  r <- obj_create_proxies self fabric_name obj_list ;;
  let '(vars, failure_in_batch) := r in
  if failure_in_batch then ret ((false, 1), self)
  else
  r <- obj_create_check_online fabric_name vars nodes self ;;
  let '(self, failure_in_batch, ansible_err_code) := r in
  if failure_in_batch then ret ((false, ansible_err_code), self)
  else
  i <- call (AnsibleInventoryGenerate fabric_name (obj_list_names obj_list)) ;;
  if negb (ans_ok i) then ret ((false, 1), self)
  else
  r <- call (AnsibleRunPlaybook fabric_name "create-node.yml") ;;
  if negb (ans_ok r) then
    self <- must (set_nodes_state_status self fabric_name nodes
                    CREATED FAILED) ;;
    log Error "created with problems: Ansible playbook failed"
        (obj_list_names obj_list) ;;;
    ret ((false, ans_code r), self)
  else
    self <- must (set_nodes_state_status self fabric_name nodes
                    CREATED SUCCESS) ;;
    log Okay "created successfully" (obj_list_names obj_list) ;;;
    ret ((true, 0), self).

(** *** Orchestrator configuration *)

(** ['manager' in x[1]['role']] *)
Definition is_manager (o : NodeObj) : bool := role_eqb (n_role o) Manager.

Definition managers (d : Dict NodeObj) : Dict NodeObj :=
  filter (fun x => is_manager (snd x)) d.

(** The first loop of [orchestrator_configure]: [Some false] when an
    orchestrator of the list is in (created, failed), [None] on a name that
    is not in the state. *)
Fixpoint orchestrator_precheck (d : Dict NodeObj) (l : list string)
    : option bool :=
  match l with
  | [] => Some true
  | orchestrator :: l' =>
      match dict_get orchestrator d with
      | Some orch =>
          if check_object_status orch FAILED && check_object_state orch CREATED
          then Some false
          else orchestrator_precheck d l'
      | None => None
      end
  end.

(** The loop that runs when the fabric has no swarm manager: every
    controller of the list becomes manager, every other orchestrator of the
    list becomes worker. *)
Fixpoint assign_roles (self : State) (fabric_name : string) (l : list string)
    (manager_found : bool) : option (State * bool) :=
  match l with
  | [] => Some (self, manager_found)
  | orch :: l' =>
      match get_fabric_objects self ORCHESTRATOR fabric_name with
      | Some d =>
          match dict_get orch d with
          | Some obj =>
              let controller := match n_type obj with
                                | Some Controller => true
                                | _ => false
                                end in
              match update_node self fabric_name ORCHESTRATOR orch
                      (set_role (if controller then Manager else Worker)) with
              | Some self' =>
                  assign_roles self' fabric_name l'
                               (if controller then true else manager_found)
              | None => None
              end
          | None => None
          end
      | None => None
      end
  end.

(** The swarm-manager part of [orchestrator_configure]. *)
Definition assign_manager (self : State) (fabric_name : string)
    (orchestrator_list : list string) : option (State * bool) :=
  match get_fabric_objects self ORCHESTRATOR fabric_name with
  | Some d =>
      match managers d with
      | [] => assign_roles self fabric_name orchestrator_list false
      | _ :: _ => Some (self, true)
      end
  | None => None
  end.

(** The workload loop of [orchestrator_configure]: a warning for every
    workload without a processor in its VPC. *)
Definition warn_unreachable_workloads (self : State) (fabric_name : string)
    : M unit :=
  d <- must (get_fabric_objects self WORKLOAD fabric_name) ;;
  for_each d
    (fun x _ =>
       proxy <- must (ssh_proxy_host self fabric_name (n_vpc (snd x))) ;;
       match proxy with
       | Some _ => ret tt
       | None => log Warn "Workload wont be reachable" [fst x; n_vpc (snd x)]
       end)
    tt.

(** [orchestrator_configure] with [orch_state] at its default,
    [ObjectState.CONFIGURED]. The passwords and the Docker credentials only
    fill Ansible variables and are left out. *)
Definition orchestrator_configure (self : State) (fabric_name : string)
    (orchestrator_list : list string) : M ((bool * nat) * State) :=
  d <- must (get_fabric_objects self ORCHESTRATOR fabric_name) ;;
  pre <- must (orchestrator_precheck d orchestrator_list) ;;
  if negb pre then
    log Error "Cannot configure, orchestrator in failed state" [] ;;;
    ret ((false, 1), self)
  else
  r <- must (assign_manager self fabric_name orchestrator_list) ;;
  let '(self, manager_found) := r in
  if negb manager_found then
    log Error "Cannot configure: controller should be present" [] ;;;
    ret ((false, 1), self)
  else
  d <- must (get_fabric_objects self ORCHESTRATOR fabric_name) ;;
  manager <- must (option_map fst (hd_error (managers d))) ;;
  let ansible_nodes :=
    if list_mem manager orchestrator_list then orchestrator_list
    else orchestrator_list ++ [manager] in
  i <- call (AnsibleInventoryGenerate fabric_name [manager]) ;;
  if negb (ans_ok i) then ret ((false, 1), self)
  else
  r <- call (AnsibleRunPlaybook fabric_name "install-swarm-manager.yml") ;;
  if negb (ans_ok r) then
    log Error "Not able to setup/check swarm manager" [] ;;;
    ret ((false, ans_code r), self)
  else
  warn_unreachable_workloads self fabric_name ;;;
  i <- call (AnsibleInventoryGenerate fabric_name ansible_nodes) ;;
  if negb (ans_ok i) then ret ((false, 1), self)
  else
  r <- call (AnsibleRunPlaybook fabric_name "configure-orchestrator.yml") ;;
  let nodes := map (pair ORCHESTRATOR) orchestrator_list in
  if negb (ans_ok r) then
    self <- must (set_nodes_state_status self fabric_name nodes
                    CONFIGURED FAILED) ;;
    log Error "Install orchestrator failed" [] ;;;
    ret ((false, ans_code r), self)
  else
    self <- must (set_nodes_state_status self fabric_name nodes
                    CONFIGURED SUCCESS) ;;
    log Okay "configured successfully" orchestrator_list ;;;
    ret ((true, 0), self).

(** *** Configure, start and stop of processors and workloads *)

(** The loop that opens the workload methods: [Some false] at the first
    workload without a processor in its VPC. *)
Fixpoint workload_proxy_check (self : State) (fabric_name : string)
    (l : list string) : option bool :=
  match l with
  | [] => Some true
  | name :: l' =>
      match node_vpc self fabric_name WORKLOAD name with
      | Some obj_vpc =>
          match ssh_proxy_host self fabric_name obj_vpc with
          | Some (Some _) => workload_proxy_check self fabric_name l'
          | Some None => Some false
          | None => None
          end
      | None => None
      end
  end.

(** The loop that opens [processor_configure]: it reads the configuration
    of every processor of the list. *)
Fixpoint processor_config_read (self : State) (fabric_name : string)
    (l : list string) : option bool :=
  match l with
  | [] => Some true
  | name :: l' =>
      match node_vpc self fabric_name PROCESSOR name with
      | Some _ => processor_config_read self fabric_name l'
      | None => None
      end
  end.

(** The common shape of the eight methods below: an opening loop, the
    inventory, the playbook, and the new state with the playbook's outcome
    as status on every node of the list. *)
Definition run_nodes (k : ObjectKind) (playbook : string)
    (target : ObjectState)
    (opening : State -> string -> list string -> option bool)
    (self : State) (fabric_name : string) (l : list string)
    : M ((bool * nat) * State) :=
  pre <- must (opening self fabric_name l) ;;
  if negb pre then
    log Error "Cannot provision workload" [] ;;;
    ret ((false, 1), self)
  else
  i <- call (AnsibleInventoryGenerate fabric_name l) ;;
  if negb (ans_ok i) then ret ((false, 1), self)
  else
  r <- call (AnsibleRunPlaybook fabric_name playbook) ;;
  let nodes := map (pair k) l in
  if negb (ans_ok r) then
    log Error "There is issue with ansible playbook execution" [playbook] ;;;
    self <- must (set_nodes_state_status self fabric_name nodes
                    target FAILED) ;;
    ret ((false, ans_code r), self)
  else
    self <- must (set_nodes_state_status self fabric_name nodes
                    target SUCCESS) ;;
    log Okay "successfully" (playbook :: l) ;;;
    ret ((true, 0), self).

Definition no_opening (_ : State) (_ : string) (_ : list string)
    : option bool := Some true.

Definition workload_configure :=
  run_nodes WORKLOAD "configure-workload.yml" CONFIGURED workload_proxy_check.

Definition processor_configure :=
  run_nodes PROCESSOR "configure-processor.yml" CONFIGURED
            processor_config_read.

Definition workload_start :=
  run_nodes WORKLOAD "start-workload.yml" STARTED workload_proxy_check.

Definition processor_start :=
  run_nodes PROCESSOR "start-processor.yml" STARTED no_opening.

Definition workload_stop :=
  run_nodes WORKLOAD "stop-workload.yml" STOPPED workload_proxy_check.

Definition processor_stop :=
  run_nodes PROCESSOR "stop-processor.yml" STOPPED no_opening.

End Methods.

(** *** Node batches that are finished *)

(** The loop body of [nodebatch_check_success]. [None] is an exception: the
    [TypeError] of [... in None] for a name that is not in the state. *)
Definition nodebatch_check_one (self : State) (nodebatch : string)
    (target_obj_state : ObjectState) (nodebatch_type : ObjectKind)
    (nodebatch_targets : list string) : option (State * list string) :=
  match get_nodebatch self nodebatch with
  | Some nodebatch_obj =>
      let nodebatch_curr_type :=
        match nb_processor nodebatch_obj with
        | Some _ => PROCESSOR
        | None => WORKLOAD
        end in
      if check_object_state nodebatch_obj target_obj_state
         && kind_eqb nodebatch_curr_type nodebatch_type
      then
        match delete_nodebatch self nodebatch with
        | Some self' => Some (self', list_remove nodebatch nodebatch_targets)
        | None => None
        end
      else Some (self, nodebatch_targets)
  | None => None
  end.

Fixpoint nodebatch_check_loop (nodebatch_list : list string) (self : State)
    (target_obj_state : ObjectState) (nodebatch_type : ObjectKind)
    (nodebatch_targets : list string) : option (State * list string) :=
  match nodebatch_list with
  | [] => Some (self, nodebatch_targets)
  | nodebatch :: rest =>
      match nodebatch_check_one self nodebatch target_obj_state
              nodebatch_type nodebatch_targets with
      | Some (self', targets') =>
          nodebatch_check_loop rest self' target_obj_state nodebatch_type
                               targets'
      | None => None
      end
  end.

(** [nodebatch_check_success]: the new state and the list
    [nodebatch_targets], which the method edits in place. *)
Definition nodebatch_check_success (self : State)
    (nodebatch_targets : list string) (target_obj_state : ObjectState)
    (nodebatch_type : ObjectKind) : option (State * list string) :=
  nodebatch_check_loop nodebatch_targets self target_obj_state nodebatch_type
                       nodebatch_targets.

(** ** Index allocation and names ([commands/create.py]) *)

(** [{vpc-short}-{char}{index:02d}-{fabric}] as [str.format] builds it in
    [create_orchestrator], [create_processor] and [create_workload]. *)
Definition node_name (vpc obj_char : string) (obj_index : nat)
    (fabric_name : string) : string :=
  String.append (split_dash_0 vpc)
    (String.append "-"
       (String.append obj_char
          (String.append (format_02d obj_index)
             (String.append "-" fabric_name)))).

(** The name a node-batch expansion builds by concatenation:
    [... + char_type + '0' + str(index) + '-' + fabric]. *)
Definition nodebatch_node_name (nodebatch_vpc char_type : string)
    (index : nat) (fabric_name : string) : string :=
  String.append (split_dash_0 nodebatch_vpc)
    (String.append "-"
       (String.append char_type
          (String.append "0"
             (String.append (str index)
                (String.append "-" fabric_name))))).

(** [vpc_cloud + str(vpc_index) + '-vpc-' + fabric] *)
Definition vpc_name (vpc_cloud : string) (vpc_index : nat)
    (fabric_name : string) : string :=
  String.append vpc_cloud
    (String.append (str vpc_index) (String.append "-vpc-" fabric_name)).

Definition obj_char (k : ObjectKind) : string :=
  match k with
  | ORCHESTRATOR => "c"
  | PROCESSOR => "p"
  | _ => "w"
  end.

(** [[x for x in ... .items() if vpc in x[1]['vpc']]]: the nodes of a kind
    whose VPC name contains [vpc]. *)
Definition nodes_in_vpc (d : Dict NodeObj) (vpc : string) : Dict NodeObj :=
  filter (fun x => str_in vpc (n_vpc (snd x))) d.

(** [[x for x in ... .items() if vpc_cloud in x[1]['cloud']]] *)
Definition vpcs_in_cloud (d : Dict VpcObj) (vpc_cloud : string)
    : Dict VpcObj :=
  filter (fun x => str_in vpc_cloud (v_cloud (snd x))) d.

Definition max_index (obj_list : Dict NodeObj) : nat :=
  list_max0 (map (fun x => n_index (snd x)) obj_list).

(** [obj_list[-1][1]] is in (created, failed). *)
Definition last_created_failed (obj_list : Dict NodeObj) : bool :=
  match obj_list with
  | [] => false
  | x :: rest => check_object_state_status (snd (last rest x)) CREATED FAILED
  end.

(** The index [create_orchestrator], [create_processor] and
    [create_workload] give to the node they create. *)
Definition node_index (obj_list : Dict NodeObj) : nat :=
  match obj_list with
  | [] => 1
  | _ :: _ =>
      if last_created_failed obj_list then max_index obj_list
      else max_index obj_list + 1
  end.

(** The index [create_vpc] gives to the VPC it creates. *)
Definition vpc_index (vpc_list : Dict VpcObj) : nat :=
  match vpc_list with
  | [] => 1
  | _ :: _ => list_max0 (map (fun x => v_index (snd x)) vpc_list) + 1
  end.

(** [obj['type'] == t] *)
Definition has_type_of (t : OrchType) (o : NodeObj) : bool :=
  match n_type o with
  | Some t' => otype_eqb t t'
  | None => false
  end.

Section Commands.
Variable W : Type.
Variable oracle : Call -> W -> Answer * W.
Variable cloud_regions : string -> list string.

Local Abbreviation M := (M W).
Local Abbreviation call := (call oracle).
Local Abbreviation commit := (commit oracle).

(** The guard every command opens with:
    [if not ctx.obj.state.get_current_fabric(): log_error(...); sys.exit(1)] *)
Definition require_current_fabric (what : string) : M string :=
  ctx <- get_ctx ;;
  if negb (truthy_name (get_current_fabric ctx)) then
    log Error what [] ;;; sys_exit 1
  else must (get_current_fabric ctx).

(** [normalise_state_obj_name] *)
Definition normalise_state_obj_name (obj name : string) : M string :=
  let norm_name := normalise_string name in
  if String.eqb name norm_name then ret norm_name
  else log Warn "Normalising name" [obj; name; norm_name] ;;; ret norm_name.

(** [SshConfig(ctx.obj.state).generate_config()] and its two messages. *)
Definition generate_ssh_config : M unit :=
  r <- call SshConfigGenerate ;;
  if ans_ok r then ret tt
  else log Warn "Error during SSH config generation" [].

(** Index, name and [dns_enabled] of the node a create command is about
    to add. A retry reads [dns_enabled] from the object that bears the
    derived name, and raises [KeyError] when there is none. *)
Definition create_node_identity (ctx : State) (k : ObjectKind)
    (current_fabric vpc : string) : M (nat * string * option string) :=
  d <- must (get_fabric_objects ctx k current_fabric) ;;
  let obj_list := nodes_in_vpc d vpc in
  let obj_index := node_index obj_list in
  let obj_name := node_name vpc (obj_char k) obj_index current_fabric in
  if last_created_failed obj_list then
    o <- must (dict_get obj_name d) ;;
    dns <- must (dict_get "dns_enabled" (n_properties o)) ;;
    log Warn "There is failed node. Trying to create again..." [obj_name] ;;;
    ret (obj_index, obj_name, dns)
  else ret (obj_index, obj_name, Some "false").

(** [create_orchestrator], [create_processor] and [create_workload]: the
    three commands differ in the kind, in the orchestrator's check for an
    existing orchestrator of the type, and in the workload's [os_type]. *)
Definition create_node (k : ObjectKind) (orchestrator_type : option OrchType)
    (os_type : option string) (vpc : string) : M bool :=
  current_fabric <- require_current_fabric "Fabric should be set before" ;;
  ctx <- get_ctx ;;
  vpc_exists <- must (check_vpc ctx current_fabric vpc) ;;
  if negb vpc_exists then log Error "VPC doesn't exist" [] ;;; sys_exit 1
  else
  d <- must (get_fabric_objects ctx k current_fabric) ;;
  let same_type :=
    match orchestrator_type with
    | Some t =>
        filter (fun x => match n_type (snd x) with
                         | Some t' => otype_eqb t t'
                         | None => false
                         end && check_object_status (snd x) SUCCESS) d
    | None => []
    end in
  match same_type with
  | _ :: _ =>
      log Warn "Orchestrator of type exists in current fabric, skipping..." [] ;;;
      sys_exit 1
  | [] =>
  ident <- create_node_identity ctx k current_fabric vpc ;;
  let '(obj_index, obj_name, obj_dns_enabled) := ident in
  let temp_state := ctx in
  let clean := get_clean_nodeobj temp_state k obj_index vpc in
  let typed := mkNode (n_index clean) (n_vpc clean) (n_state clean)
                      (n_status clean) orchestrator_type (n_role clean)
                      (n_config clean) (n_properties clean) in
  let with_dns := set_property "dns_enabled" obj_dns_enabled typed in
  let new_obj :=
    if kind_eqb k WORKLOAD then
      set_property "os_type"
        (Some (match os_type with
               | Some t => t
               | None => cfg_os_type (config ctx)
               end)) with_dns
    else with_dns in
  temp_state <- must (add_fabric_obj temp_state current_fabric k obj_name
                        new_obj) ;;
  c <- call (CredentialsGet current_fabric) ;;
  if negb (ans_ok c) then
    log Error "Cannot create objects. Not able to get credentials" [] ;;;
    sys_exit 1
  else
  ok <- must (obj_create_check temp_state current_fabric [(k, [obj_name])]) ;;
  if negb ok then sys_exit 1
  else
  r <- obj_create oracle temp_state current_fabric [(k, [obj_name])] ;;
  let '(res, temp_state) := r in
  commit temp_state ;;;
  if negb (fst res) then sys_exit (snd res)
  else generate_ssh_config ;;; ret true
  end.

Definition create_orchestrator (vpc : string) (orchestrator_type : OrchType)
    : M bool :=
  create_node ORCHESTRATOR (Some orchestrator_type) None vpc.

Definition create_processor (vpc : string) : M bool :=
  create_node PROCESSOR None None vpc.

Definition create_workload (vpc : string) (os_type : option string) : M bool :=
  create_node WORKLOAD None os_type vpc.

(** [create_vpc] *)
Definition create_vpc (vpc_cloud vpc_region : string) (dry_run : bool)
    : M bool :=
  current_fabric <-
    require_current_fabric "Cannot create VPC. Please select fabric first." ;;
  if negb (list_mem vpc_region (cloud_regions vpc_cloud)) then
    log Error "Cannot create VPC. Cloud region is not supported" [] ;;;
    sys_exit 1
  else
  ctx <- get_ctx ;;
  d <- must (get_fabric_vpcs ctx current_fabric) ;;
  let vpc_list := vpcs_in_cloud d vpc_cloud in
  let index := vpc_index vpc_list in
  let obj_name := vpc_name vpc_cloud index current_fabric in
  exists_ <- must (check_vpc ctx current_fabric obj_name) ;;
  if exists_ then
    log Error "Cannot create VPC: already exist" [obj_name] ;;; sys_exit 1
  else if dry_run then
    log Warn "VPC to be created (started with --dry-run)" [obj_name] ;;;
    ret true
  else
  let new_obj := get_clean_vpc vpc_cloud vpc_region index in
  temp_state <- must (add_fabric_vpc ctx current_fabric obj_name new_obj) ;;
  r <- vpc_create oracle temp_state current_fabric [obj_name] ;;
  let '(res, temp_state) := r in
  if negb (fst res) then sys_exit (snd res)
  else commit temp_state ;;; ret true.

(** ** Deleting a processor ([commands/delete.py]) *)

(** [[x[0] for x in ... .items() if obj_vpc == x[1]['vpc']]] *)
Definition names_in_vpc (d : Dict NodeObj) (obj_vpc : string) : list string :=
  map fst (filter (fun x => String.eqb obj_vpc (n_vpc (snd x))) d).

Definition delete_processor (processor_name : string) (dry_run : bool)
    : M bool :=
  current_fabric <-
    require_current_fabric "Cannot delete processor. Please select fabric first." ;;
  obj_name <- normalise_state_obj_name "processor" processor_name ;;
  ctx <- get_ctx ;;
  exists_ <- must (check_processor ctx current_fabric obj_name) ;;
  if negb exists_ then
    log Error "Cannot delete. Processor doesn't exist" [obj_name] ;;; sys_exit 1
  else
  obj_vpc <- must (node_vpc ctx current_fabric PROCESSOR obj_name) ;;
  procs <- must (get_fabric_objects ctx PROCESSOR current_fabric) ;;
  wls <- must (get_fabric_objects ctx WORKLOAD current_fabric) ;;
  let processors := names_in_vpc procs obj_vpc in
  let workloads := names_in_vpc wls obj_vpc in
  if Nat.ltb (List.length processors) 2
     && negb (Nat.eqb (List.length workloads) 0) then
    log Error "Cannot delete. At least one processor should left in VPC"
        (obj_name :: obj_vpc :: workloads) ;;;
    sys_exit 1
  else if dry_run then
    log Warn "Processor to be deleted (started with --dry-run)" [obj_name] ;;;
    ret true
  else
  c <- call (CredentialsGet current_fabric) ;;
  if negb (ans_ok c) then
    log Error "Cannot delete processor. Not able to get credentials" [] ;;;
    sys_exit 1
  else
  temp_state <- must (delete_fabric_object ctx PROCESSOR obj_name
                        current_fabric) ;;
  g <- call (TerraformPlanGenerate current_fabric) ;;
  if negb (ans_ok g) then
    log Error "Cannot delete processor: plan generation" [] ;;; sys_exit 1
  else
  x <- call (TerraformPlanExecute current_fabric) ;;
  if negb (ans_ok x) then
    log Error "Cannot delete processor: plan execution" [] ;;;
    sys_exit (ans_code x)
  else
  commit temp_state ;;;
  log Okay "deleted successfully" [obj_name] ;;;
  generate_ssh_config ;;;
  ret true.

(** The targets of [configure orchestrator --all]: every orchestrator of
    the fabric that is neither in (created, failed) nor being deleted. *)
Definition config_all_targets (d : Dict NodeObj) : list string :=
  let obj_all := map fst d in
  let obj_created_failed :=
    map fst (filter (fun x => check_object_state (snd x) CREATED
                              && check_object_status (snd x) FAILED) d) in
  let obj_deleting :=
    map fst (filter (fun x => check_object_state (snd x) DELETING) d) in
  filter (fun x => negb (list_mem x obj_deleting)
                   && negb (list_mem x obj_created_failed)) obj_all.

(** [config_orchestrator]. The generated passwords only fill Ansible
    variables; what is kept of them is whether they are shown. *)
Definition config_orchestrator (orchestrator_name : option string)
    (all_nodes dry_run : bool) : M bool :=
  current_fabric <-
    require_current_fabric "Cannot configure orchestrator. Please select fabric first." ;;
  temp_state <- get_ctx ;;
  d <- must (get_fabric_objects temp_state ORCHESTRATOR current_fabric) ;;
  obj_list <-
    (if all_nodes then
       if truthy_name orchestrator_name then
         log Error "Cannot configure. Either ORCHESTRATOR-NAME or option --all should be used" [] ;;;
         sys_exit 1
       else
         match config_all_targets d with
         | [] =>
             log Error "Cannot configure. There are no orchestrators in states" [] ;;;
             sys_exit 1
         | obj_list => ret obj_list
         end
     else
       match orchestrator_name with
       | None =>
           log Error "Cannot configure. Either ORCHESTRATOR-NAME or option --all should be used" [] ;;;
           sys_exit 1
       | Some name =>
           if negb (truthy_name orchestrator_name) then ret []
           else
           obj_name <- normalise_state_obj_name "orchestrator" name ;;
           exists_ <- must (check_orchestrator temp_state current_fabric
                              obj_name) ;;
           if negb exists_ then
             log Error "Cannot configure. Orchestrator doesn't exist" [obj_name] ;;;
             sys_exit 1
           else
           obj <- must (dict_get name d) ;;
           if check_object_state obj DELETING then
             log Error "Cannot proceed, object is set for deletion!" [] ;;;
             sys_exit 1
           else if check_object_state obj CREATED
                   && check_object_status obj FAILED then
             log Error "Orchestrator was created with failures. Run create orchestrator again before configure" [] ;;;
             sys_exit 1
           else ret [name]
       end) ;;
  if dry_run then
    log Warn "Orchestrators to be configured (used with --dry-run)" obj_list ;;;
    ret true
  else
  let fresh t orch :=
    match dict_get orch d with
    | Some obj => has_type_of t obj && check_object_state obj CREATED
                  && check_object_status obj SUCCESS
    | None => false
    end in
  let passwd_controller := existsb (fresh Controller) obj_list in
  let passwd_grafana := existsb (fresh Telemetry) obj_list in
  for_each obj_list
    (fun orch _ =>
       obj <- must (dict_get orch d) ;;
       if has_type_of Controller obj then
         c <- call (CredentialsGetDocker current_fabric) ;;
         if negb (ans_ok c) then
           log Error "Cannot configure. Not able to get Bayware dockerhub credentials" [] ;;;
           sys_exit 1
         else ret tt
       else ret tt)
    tt ;;;
  r <- orchestrator_configure oracle temp_state current_fabric obj_list ;;
  let '(res, temp_state) := r in
  if negb (fst res) then sys_exit (snd res)
  else
  (if passwd_grafana then log Warn "grafana admin password" [] else ret tt) ;;;
  (if passwd_controller then log Warn "controller admin password" []
   else ret tt) ;;;
  commit temp_state ;;;
  ret true.

End Commands.

(** ** The batch resolver ([create_batch] in [commands/create.py]) *)

(** [batch.get_attr_list(kind)]: the objects of a kind, in file order;
    [add_to_attr_list] appends. *)
Definition get_attr_list (batch_spec : list Entry) (k : ObjectKind)
    : list Entry :=
  filter (fun e => kind_eqb (e_kind e) k) batch_spec.

(** [[element for element in batch.get_attr_list(kind) if
    element['metadata']['name'] == name]] *)
Definition entries_named (batch_spec : list Entry) (k : ObjectKind)
    (name : string) : list Entry :=
  filter (fun e => String.eqb (e_name e) name) (get_attr_list batch_spec k).

(** The value of [create_target[fabric]]: a list of names per kind. *)
Record Target : Type := mkTarget {
  tg_fabric : list string;
  tg_vpc : list string;
  tg_nodebatch : list string;
  tg_workload : list string;
  tg_processor : list string;
  tg_orchestrator : list string
}.

Definition empty_target : Target := mkTarget [] [] [] [] [] [].

Definition target_get (t : Target) (k : ObjectKind) : list string :=
  match k with
  | FABRIC => tg_fabric t
  | VPC => tg_vpc t
  | NODEBATCH => tg_nodebatch t
  | WORKLOAD => tg_workload t
  | PROCESSOR => tg_processor t
  | ORCHESTRATOR => tg_orchestrator t
  | BATCH => []
  end.

Definition target_set (t : Target) (k : ObjectKind) (l : list string)
    : Target :=
  match k with
  | FABRIC => mkTarget l (tg_vpc t) (tg_nodebatch t) (tg_workload t)
                       (tg_processor t) (tg_orchestrator t)
  | VPC => mkTarget (tg_fabric t) l (tg_nodebatch t) (tg_workload t)
                    (tg_processor t) (tg_orchestrator t)
  | NODEBATCH => mkTarget (tg_fabric t) (tg_vpc t) l (tg_workload t)
                          (tg_processor t) (tg_orchestrator t)
  | WORKLOAD => mkTarget (tg_fabric t) (tg_vpc t) (tg_nodebatch t) l
                         (tg_processor t) (tg_orchestrator t)
  | PROCESSOR => mkTarget (tg_fabric t) (tg_vpc t) (tg_nodebatch t)
                          (tg_workload t) l (tg_orchestrator t)
  | ORCHESTRATOR => mkTarget (tg_fabric t) (tg_vpc t) (tg_nodebatch t)
                             (tg_workload t) (tg_processor t) l
  | BATCH => t
  end.

(** The kinds in the order [create_batch] walks them. *)
Definition target_kinds : list ObjectKind :=
  [FABRIC; VPC; NODEBATCH; WORKLOAD; PROCESSOR; ORCHESTRATOR].

(** The fabric an object of the batch belongs to. *)
Definition entry_fabric (e : Entry) : string :=
  match e_kind e with
  | FABRIC => e_name e
  | _ => e_fabric e
  end.

(** "Get objects to be created (by fabric)". *)
Definition build_create_target (batch_spec : list Entry) : Dict Target :=
  fold_left
    (fun create_target obj_kind =>
       fold_left
         (fun create_target obj =>
            let fabric_name := entry_fabric obj in
            let t := match dict_get fabric_name create_target with
                     | Some t => t
                     | None => empty_target
                     end in
            dict_set fabric_name
              (target_set t obj_kind (target_get t obj_kind ++ [e_name obj]))
              create_target)
         (get_attr_list batch_spec obj_kind) create_target)
    target_kinds [].

Definition nonempty_string (o : option string) : bool :=
  match o with
  | Some EmptyString => false
  | Some _ => true
  | None => false
  end.

Definition set_fabric_config (company : option string)
    (credentials_file : option string) (f : FabricObj) : FabricObj :=
  mkFabric company credentials_file (f_privateKey f) (f_orchestrator f)
           (f_processor f) (f_workload f) (f_vpc f) (f_state f) (f_status f).

Definition set_fabric_key (key : option string) (f : FabricObj) : FabricObj :=
  mkFabric (f_companyName f) (f_credentialsFile f) key (f_orchestrator f)
           (f_processor f) (f_workload f) (f_vpc f) (f_state f) (f_status f).

Section CreateBatch.
Variable W : Type.
Variable oracle : Call -> W -> Answer * W.

Local Abbreviation M := (M W).
Local Abbreviation call := (call oracle).
Local Abbreviation commit := (commit oracle).

(** *** Fabric: create and configure *)

(** The block under [if fabric in create_target[fabric][ObjectKind.FABRIC]].
    The result is [false] where the code sets [batch_result_success = False]
    and goes on to the next fabric. *)
Definition fabric_phase (batch_spec : list Entry) (fabric_name : string)
    : M bool :=
  temp_state <- get_ctx ;;
  let fabric_obj := entries_named batch_spec FABRIC fabric_name in
  let existing := get_fabric temp_state fabric_name in
  let new_fabric := match existing with
                    | Some f => f
                    | None => get_clean_fabric
                    end in
  let skip_fabric_create :=
    match existing with
    | Some f => negb (check_object_state f CREATED
                      && check_object_status f FAILED)
    | None => false
    end in
  created <-
    (if skip_fabric_create then
       log Warn "Fabric already exist. Skipping fabric create" [fabric_name] ;;;
       ret (Some new_fabric)
     else
       let new_fabric := set_object_state_status new_fabric CREATED SUCCESS in
       let temp_state := add_fabric temp_state fabric_name new_fabric in
       r <- fabric_create oracle temp_state fabric_name ;;
       let temp_state := snd r in
       commit temp_state ;;;
       f <- must (get_fabric temp_state fabric_name) ;;
       if check_object_status f FAILED then
         log Error "Fabric creation failed. Skipping the rest..."
             [fabric_name] ;;;
         ret None
       else ret (Some f)) ;;
  match created with
  | None => ret false
  | Some new_fabric =>
  temp_state <- get_ctx ;;
  configured <-
    (if check_object_state new_fabric CREATED
        || (check_object_state new_fabric CONFIGURED
            && check_object_status new_fabric FAILED)
     then
       spec <- must (hd_error fabric_obj) ;;
       let batch_key := nonempty_string (e_privateKey spec) in
       let config_key := nonempty_string (cfg_private_key (config temp_state)) in
       let skip_ssh_keygen := batch_key || config_key in
       let ssh_key_name := if batch_key then e_privateKey spec
                           else cfg_private_key (config temp_state) in
       keyed <-
         (if skip_ssh_keygen then
            key <- must ssh_key_name ;;
            c <- call (CredentialsCheckSsh fabric_name key) ;;
            if negb (ans_ok c) then
              log Error "Fabric configuration failed. Skipping the rest..."
                  [fabric_name] ;;;
              ret None
            else ret (Some (set_fabric_key ssh_key_name new_fabric))
          else ret (Some new_fabric)) ;;
       match keyed with
       | None => ret None
       | Some new_fabric =>
           let company :=
             match e_companyName spec with
             | Some c => Some c
             | None =>
                 if nonempty_string (cfg_company_name (config temp_state))
                 then cfg_company_name (config temp_state)
                 else None
             end in
           match company with
           | None =>
               log Error "Cannot configure fabric. Company name is required"
                   [fabric_name] ;;;
               ret None
           | Some _ =>
               let new_fabric :=
                 set_fabric_config company (Some (e_credentialsFile spec))
                                   new_fabric in
               let temp_state := add_fabric temp_state fabric_name new_fabric in
               r <- fabric_configure oracle temp_state fabric_name
                                     skip_ssh_keygen ;;
               let temp_state := snd r in
               commit temp_state ;;;
               f <- must (get_fabric temp_state fabric_name) ;;
               ret (Some f)
           end
       end
     else
       log Warn "Fabric already configured. Skipping fabric configure"
           [fabric_name] ;;;
       ret (Some new_fabric)) ;;
  match configured with
  | None => ret false
  | Some new_fabric =>
      if check_object_status new_fabric FAILED then
        log Error "Fabric configuration failed. Skipping the rest..."
            [fabric_name] ;;;
        ret false
      else ret true
  end
  end.

(** *** VPCs *)

(** The loop "Generate VPC": the working state, the per-cloud counters
    [vpc_index_list] and [create_target[fabric][ObjectKind.VPC]]. *)
Definition vpc_generate (batch_spec : list Entry) (fabric_name : string)
    (vpc : string) (acc : State * Dict nat * list string)
    : M (State * Dict nat * list string) :=
  let '(temp_vpc_state, vpc_index_list, targets) := acc in
  vpc_obj <- must (hd_error (entries_named batch_spec VPC vpc)) ;;
  if negb (check_fabric temp_vpc_state (e_fabric vpc_obj)) then
    log Warn "Cannot proceed, fabric does not exists, skipping..."
        [fabric_name] ;;;
    ret (temp_vpc_state, vpc_index_list, list_remove vpc targets)
  else
  let vpc_cloud := e_cloud vpc_obj in
  vpcs <- must (get_fabric_vpcs temp_vpc_state fabric_name) ;;
  match dict_get vpc vpcs with
  | Some new_vpc =>
      if check_object_state new_vpc CREATED
         && check_object_status new_vpc SUCCESS
      then
        log Warn "VPC already exist. Skipping VPC create" [vpc] ;;;
        ret (temp_vpc_state, vpc_index_list, list_remove vpc targets)
      else
        let new_vpc := mkVpc vpc_cloud (e_region vpc_obj) (v_index new_vpc)
                             (v_state new_vpc) (v_status new_vpc) in
        temp_vpc_state <- must (add_fabric_vpc temp_vpc_state fabric_name vpc
                                  new_vpc) ;;
        ret (temp_vpc_state, vpc_index_list, targets)
  | None =>
      let index :=
        match dict_get vpc_cloud vpc_index_list with
        | None => vpc_index (vpcs_in_cloud vpcs vpc_cloud)
        | Some n => n + 1
        end in
      let new_vpc := get_clean_vpc vpc_cloud (e_region vpc_obj) index in
      temp_vpc_state <- must (add_fabric_vpc temp_vpc_state fabric_name vpc
                                new_vpc) ;;
      ret (temp_vpc_state, dict_set vpc_cloud index vpc_index_list, targets)
  end.

(** The VPC block of a fabric: generation, then [vpc_create] on what is
    left of the list; a failed [vpc_create] leaves through [sys.exit]. The
    result is the list [create_target[fabric][ObjectKind.VPC]]. *)
Definition vpc_phase (batch_spec : list Entry) (fabric_name : string)
    (targets : list string) : M (list string) :=
  temp_vpc_state <- get_ctx ;;
  r <- for_each targets (vpc_generate batch_spec fabric_name)
         (temp_vpc_state, [], targets) ;;
  let '(temp_vpc_state, _, targets) := r in
  match targets with
  | [] => ret targets
  | _ :: _ =>
      r <- vpc_create oracle temp_vpc_state fabric_name targets ;;
      let '(res, temp_vpc_state) := r in
      commit temp_vpc_state ;;;
      if negb (fst res) then sys_exit (snd res) else ret targets
  end.

(** *** Nodes declared in the batch *)

(** A key of [node_index_list[vpc]]: the loop over declared nodes uses the
    [ObjectKind] member, the loop over node-batch members uses the kind's
    string, and the two never meet. *)
Definition IndexKey : Type := (string * ObjectKind * bool)%type.

Definition index_key_eqb (a b : IndexKey) : bool :=
  String.eqb (fst (fst a)) (fst (fst b))
  && kind_eqb (snd (fst a)) (snd (fst b))
  && Bool.eqb (snd a) (snd b).

Definition index_get (key : IndexKey) (l : list (IndexKey * nat))
    : option nat :=
  option_map snd (find (fun x => index_key_eqb (fst x) key) l).

Definition index_put (key : IndexKey) (n : nat) (l : list (IndexKey * nat))
    : list (IndexKey * nat) :=
  (key, n) :: filter (fun x => negb (index_key_eqb (fst x) key)) l.

(** The working variables of the two node loops. *)
Record GenVars : Type := mkGen {
  temp_node_state : State;
  node_index_list : list (IndexKey * nat);
  temp_nodes_list : Target;
  orchestrator_in_batch : OrchType -> bool
}.

Definition gen_drop (k : ObjectKind) (node : string) (g : GenVars) : GenVars :=
  mkGen (temp_node_state g) (node_index_list g)
        (target_set (temp_nodes_list g) k
           (list_remove node (target_get (temp_nodes_list g) k)))
        (orchestrator_in_batch g).

Definition gen_flag (t : OrchType) (g : GenVars) : GenVars :=
  mkGen (temp_node_state g) (node_index_list g) (temp_nodes_list g)
        (fun t' => if otype_eqb t t' then true else orchestrator_in_batch g t').

(** "Get node index": the counter of (VPC, kind) starts one above the
    largest index among the nodes of the kind whose VPC name contains the
    VPC, and then counts up. *)
Definition next_node_index (self : State) (fabric_name : string)
    (k : ObjectKind) (string_key : bool) (node_vpc : string)
    (counters : list (IndexKey * nat)) : option (nat * list (IndexKey * nat)) :=
  let key := (node_vpc, k, string_key) in
  match index_get key counters with
  | Some n => Some (n + 1, index_put key (n + 1) counters)
  | None =>
      match get_fabric_objects self k fabric_name with
      | Some d =>
          let type_node_list := nodes_in_vpc d node_vpc in
          let n := match type_node_list with
                   | [] => 1
                   | _ :: _ => max_index type_node_list + 1
                   end in
          Some (n, index_put key n counters)
      | None => None
      end
  end.

(** Properties of the batch object laid over the node's, then
    [dns_enabled = 'false']. *)
Definition overlay_properties (spec : option (Dict string)) (o : NodeObj)
    : NodeObj :=
  let o' := match spec with
            | Some props =>
                fold_left (fun o kv => set_property (fst kv) (Some (snd kv)) o)
                          props o
            | None => o
            end in
  set_property "dns_enabled" (Some "false") o'.

Definition set_vpc_index (vpc : string) (index : nat) (o : NodeObj)
    : NodeObj :=
  mkNode index vpc (n_state o) (n_status o) (n_type o) (n_role o)
         (n_config o) (n_properties o).

Definition set_role_type (r : Role) (t : OrchType) (o : NodeObj) : NodeObj :=
  mkNode (n_index o) (n_vpc o) (n_state o) (n_status o) (Some t) r
         (n_config o) (n_properties o).

(** [orch_type in x[1]['type']] *)
Definition has_type (t : OrchType) (o : NodeObj) : bool :=
  match n_type o with
  | Some t' => otype_eqb t t'
  | None => false
  end.

(** The orchestrators of the fabric that make a new one of the type
    superfluous: same type, status success, another name. *)
Definition existing_orchestrators (d : Dict NodeObj) (orch_type : OrchType)
    (node : string) : Dict NodeObj :=
  filter (fun x => has_type orch_type (snd x)
                   && check_object_status (snd x) SUCCESS
                   && negb (String.eqb node (fst x))) d.

(** The other orchestrators of the type in the batch file. *)
Definition batch_duplicates (batch_spec : list Entry) (orch_type : OrchType)
    (node : string) : list Entry :=
  filter (fun item => otype_eqb (e_type item) orch_type
                      && negb (String.eqb (e_name item) node))
         (get_attr_list batch_spec ORCHESTRATOR).

(** What the orchestrator block at the head of the loop body decides. *)
Inductive Dedup : Type :=
| DropExisting
| DropDuplicate
| KeepFirst
| Keep.

Definition orchestrator_dedup (batch_spec : list Entry) (d : Dict NodeObj)
    (in_batch : OrchType -> bool) (orch_type : OrchType) (node : string)
    : Dedup :=
  match existing_orchestrators d orch_type node with
  | _ :: _ => DropExisting
  | [] =>
      if in_batch orch_type then DropDuplicate
      else match batch_duplicates batch_spec orch_type node with
           | _ :: _ => KeepFirst
           | [] => Keep
           end
  end.

(** How the second half of a loop body ends for a node: it is stored in
    the working state, or it is skipped because its fabric or VPC is
    missing, or because it exists already. *)
Inductive Placement : Type :=
| Placed (g : GenVars)
| NoParent
| AlreadyExists.

(** The part of the loop body after the orchestrator block, shared with
    the node-batch loop up to the two points where they differ: which
    existing node is created again ([recreate]) and the counter key. *)
Definition gen_place (fabric_name : string) (k : ObjectKind)
    (string_key : bool) (recreate : NodeObj -> bool) (node : string)
    (node_obj : Entry) (g : GenVars) : M Placement :=
  let node_vpc := e_vpc node_obj in
  if negb (check_fabric (temp_node_state g) (e_fabric node_obj)) then
    log Warn "Cannot proceed, fabric does not exists, skipping..."
        [fabric_name] ;;;
    ret NoParent
  else
  vpc_exists <- must (check_vpc (temp_node_state g) fabric_name node_vpc) ;;
  if negb vpc_exists then
    log Warn "Cannot proceed, VPC does not exists, skipping..." [node_vpc] ;;;
    ret NoParent
  else
  d <- must (get_fabric_objects (temp_node_state g) k fabric_name) ;;
  placed <-
    match dict_get node d with
    | Some node_state_obj =>
        if recreate node_state_obj then
          ret (Some (node_state_obj, n_index node_state_obj,
                     node_index_list g))
        else
          log Warn "Node already exist. Skipping" [node] ;;;
          ret None
    | None =>
        r <- must (next_node_index (temp_node_state g) fabric_name k
                     string_key node_vpc (node_index_list g)) ;;
        ret (Some (get_clean_nodeobj (temp_node_state g) k (fst r) node_vpc,
                   fst r, snd r))
    end ;;
  match placed with
  | None => ret AlreadyExists
  | Some (new_node, node_index, counters) =>
      let new_node := set_vpc_index node_vpc node_index new_node in
      let new_node := overlay_properties (e_properties node_obj) new_node in
      let new_node :=
        if kind_eqb k ORCHESTRATOR
        then set_role_type (e_role node_obj) (e_type node_obj) new_node
        else new_node in
      self <- must (add_fabric_obj (temp_node_state g) fabric_name k node
                      new_node) ;;
      ret (Placed (mkGen self counters (temp_nodes_list g)
                         (orchestrator_in_batch g)))
  end.

(** The body of the loop "Generate node" for one name of one kind. *)
Definition gen_node (batch_spec : list Entry) (fabric_name : string)
    (k : ObjectKind) (node : string) (g : GenVars) : M GenVars :=
  node_obj <- must (hd_error (entries_named batch_spec k node)) ;;
  verdict <-
    (if kind_eqb k ORCHESTRATOR then
       d <- must (get_fabric_objects (temp_node_state g) k fabric_name) ;;
       ret (orchestrator_dedup batch_spec d (orchestrator_in_batch g)
                               (e_type node_obj) node)
     else ret Keep) ;;
  match verdict with
  | DropExisting =>
      log Warn "Orchestrator of type exists in current fabric. Skipping orchestrator node creation"
          [node] ;;;
      ret (gen_drop k node g)
  | DropDuplicate => ret (gen_drop k node g)
  | KeepFirst | Keep =>
      g <- (match verdict with
            | KeepFirst =>
                log Warn "Orchestrator of type placed in current batch more than once. Skipping duplicate entities"
                    [node] ;;;
                ret (gen_flag (e_type node_obj) g)
            | _ => ret g
            end) ;;
      r <- gen_place fabric_name k false
             (fun o => check_object_state o CREATED
                       && check_object_status o FAILED)
             node node_obj g ;;
      match r with
      | Placed g' => ret g'
      | NoParent | AlreadyExists => ret (gen_drop k node g)
      end
  end.

(** The kinds of [node_list], in the order of its keys. *)
Definition node_kinds : list ObjectKind := [PROCESSOR; WORKLOAD; ORCHESTRATOR].

(** The loop "Generate node" over the three kinds. *)
Definition gen_nodes (batch_spec : list Entry) (fabric_name : string)
    (t : Target) (g : GenVars) : M GenVars :=
  for_each node_kinds
    (fun k g => for_each (target_get t k) (gen_node batch_spec fabric_name k) g)
    g.

(** The variables of the loop before its first round. *)
Definition gen_init (ctx : State) (t : Target) : GenVars :=
  mkGen ctx []
        (mkTarget [] [] [] (tg_workload t) (tg_processor t) (tg_orchestrator t))
        (fun _ => false).

(** *** Node batches *)

(** The variables the node-batch loop changes: the working variables of
    the node loops, [create_target[fabric]] and the batch file's lists. *)
Record BatchVars : Type := mkBatchVars {
  bv_gen : GenVars;
  bv_target : Target;
  bv_spec : list Entry
}.

(** [node_types_list]: the character of a kind a node batch supports. *)
Definition char_type (k : ObjectKind) : option string :=
  match k with
  | PROCESSOR => Some "p"
  | WORKLOAD => Some "w"
  | _ => None
  end.

(** The member [nb_node] the expansion records for one generated name. *)
Definition nb_node (k : ObjectKind) (fabric_name node_name : string)
    (template : Template) : Entry :=
  mkEntry k node_name fabric_name (t_vpc template) "" "" Controller RoleUnset
          (t_config template) (Some []) (t_state template) [] 0 None None "".

(** "Generate nodes": [for i in range(instanceCount)]. *)
Fixpoint nodebatch_generate (self : State) (nodebatch : string)
    (k : ObjectKind) (char : string) (fabric_name : string)
    (template : Template) (nodebatch_node_index : nat) (i count : nat)
    : option State :=
  match count with
  | 0 => Some self
  | S count' =>
      let node_name := nodebatch_node_name (t_vpc template) char
                         (nodebatch_node_index + i) fabric_name in
      match add_batch_obj self nodebatch k node_name
              (nb_node k fabric_name node_name template) with
      | Some self' =>
          nodebatch_generate self' nodebatch k char fabric_name template
                             nodebatch_node_index (S i) count'
      | None => None
      end
  end.

(** The block under "Check if there is no nodebatch to resume": the batch
    is recorded with state created and its members are generated. *)
Definition nodebatch_expand (self : State) (nodebatch : string)
    (k : ObjectKind) (char : string) (fabric_name : string)
    (template : Template) (instance_count : nat) : option State :=
  let nodebatch_state_obj :=
    set_object_state (nodebatch_with_members (mkNodeBatch None None None) k [])
                     CREATED in
  let self := add_batch self nodebatch nodebatch_state_obj in
  match get_fabric_objects self k fabric_name with
  | Some d =>
      let nodebatch_node_vpc_list := nodes_in_vpc d (t_vpc template) in
      let nodebatch_node_index :=
        match nodebatch_node_vpc_list with
        | [] => 1
        | _ :: _ => max_index nodebatch_node_vpc_list + 1
        end in
      nodebatch_generate self nodebatch k char fabric_name template
                         nodebatch_node_index 0 instance_count
  | None => None
  end.

(** The expansion step of the node-batch loop: a batch that the state does
    not record is expanded and committed, a recorded one is resumed as it
    is. The flag is [nodebatch_state_created]. *)
Definition nodebatch_resolve (self : State) (nodebatch : string)
    (k : ObjectKind) (char : string) (fabric_name : string)
    (template : Template) (instance_count : nat) : M (State * bool) :=
  if negb (check_nodebatch self nodebatch) then
    self <- must (nodebatch_expand self nodebatch k char fabric_name template
                    instance_count) ;;
    commit self ;;;
    ret (self, true)
  else ret (self, false).

(** "Processing nodes": the loop body for one member of the batch. *)
Definition nodebatch_member (fabric_name : string) (k : ObjectKind)
    (members : list Entry) (node : string) (v : BatchVars) : M BatchVars :=
  node_obj <- must (hd_error (filter (fun e => String.eqb (e_name e) node)
                                     members)) ;;
  let g := bv_gen v in
  let g := mkGen (temp_node_state g) (node_index_list g)
                 (target_set (temp_nodes_list g) k
                    (target_get (temp_nodes_list g) k ++ [node]))
                 (orchestrator_in_batch g) in
  let spec := bv_spec v ++ [node_obj] in
  r <- gen_place fabric_name k true
         (fun o => negb (check_object_state o CREATED
                         && check_object_status o SUCCESS))
         node node_obj g ;;
  let listed := target_set (bv_target v) k
                           (target_get (bv_target v) k ++ [node]) in
  match r with
  | Placed g' => ret (mkBatchVars g' listed spec)
  | AlreadyExists => ret (mkBatchVars (gen_drop k node g) listed spec)
  | NoParent => ret (mkBatchVars (gen_drop k node g) (bv_target v) spec)
  end.

(** The body of the loop "Generate objects from batches". *)
Definition nodebatch_body (fabric_name : string) (nodebatch : string)
    (v : BatchVars) : M BatchVars :=
  nodebatch_obj <- must (hd_error (entries_named (bv_spec v) NODEBATCH
                                                 nodebatch)) ;;
  template <- must (match e_template nodebatch_obj with
                    | [] => None
                    | t :: rest => Some (last rest t)
                    end) ;;
  let nodebatch_vpc := t_vpc template in
  let nodebatch_node_type := t_kind template in
  let self := temp_node_state (bv_gen v) in
  let dropped :=
    mkBatchVars (bv_gen v)
                (target_set (bv_target v) NODEBATCH
                   (list_remove nodebatch (target_get (bv_target v) NODEBATCH)))
                (bv_spec v) in
  if negb (check_fabric self fabric_name) then
    log Warn "Cannot proceed, fabric does not exists, skipping..."
        [fabric_name] ;;;
    ret dropped
  else
  vpc_exists <- must (check_vpc self fabric_name nodebatch_vpc) ;;
  if negb vpc_exists then
    log Warn "Cannot proceed, VPC does not exists, skipping..."
        [nodebatch_vpc] ;;;
    ret dropped
  else
  match char_type nodebatch_node_type with
  | None =>
      log Warn "Cannot proceed, node type is not supported in node batch, skipping..."
          [] ;;;
      ret v
  | Some char =>
      r <- nodebatch_resolve self nodebatch nodebatch_node_type char
             fabric_name template (e_instanceCount nodebatch_obj) ;;
      let self := fst r in
      recorded <- must (get_nodebatch self nodebatch) ;;
      members <- must (nodebatch_members recorded nodebatch_node_type) ;;
      let nodebatch_node_obj_list := map snd members in
      let nodebatch_node_list := map e_name nodebatch_node_obj_list in
      let g := bv_gen v in
      for_each nodebatch_node_list
        (nodebatch_member fabric_name nodebatch_node_type
                          nodebatch_node_obj_list)
        (mkBatchVars (mkGen self (node_index_list g) (temp_nodes_list g)
                            (orchestrator_in_batch g))
                     (bv_target v) (bv_spec v))
  end.

(** *** Creating the nodes *)

(** [temp_nodes_list] as the dictionary [obj_create] receives. *)
Definition nodes_obj_list (t : Target) : ObjList :=
  [(PROCESSOR, tg_processor t); (WORKLOAD, tg_workload t);
   (ORCHESTRATOR, tg_orchestrator t)].

(** The block "Create nodes action". [None] is the [continue] that follows
    [batch_result_success = False]. *)
Definition create_nodes_action (fabric_name : string) (g : GenVars)
    : M (option State) :=
  let obj_list := nodes_obj_list (temp_nodes_list g) in
  match obj_list_names obj_list with
  | [] => ret (Some (temp_node_state g))
  | _ :: _ =>
      c <- call (CredentialsGet fabric_name) ;;
      if negb (ans_ok c) then
        log Error "Cannot create objects. Not able to get credentials" [] ;;;
        sys_exit 1
      else
      ok <- must (obj_create_check (temp_node_state g) fabric_name obj_list) ;;
      if negb ok then ret None
      else
      r <- obj_create oracle (temp_node_state g) fabric_name obj_list ;;
      let '(res, self) := r in
      commit self ;;;
      if negb (fst res) then ret None
      else generate_ssh_config oracle ;;; ret (Some self)
  end.

(** "Check if batches are finished": one call of [nodebatch_check_success]
    on the working state and the commit that follows it. *)
Definition check_batches (target_obj_state : ObjectState)
    (nodebatch_type : ObjectKind) (acc : State * Target) : M (State * Target) :=
  r <- must (nodebatch_check_success (fst acc)
               (target_get (snd acc) NODEBATCH) target_obj_state
               nodebatch_type) ;;
  commit (fst r) ;;;
  ret (fst r, target_set (snd acc) NODEBATCH (snd r)).

(** *** Planning *)

(** [get_processor_spec_from_batch] and [get_workload_spec_from_batch]: the
    configuration of a clean node with the batch object's laid over it. *)
Definition spec_from_batch (entity : Entry) : Conf :=
  fold_left (fun c kv => dict_set (fst kv) (snd kv) c) (e_config entity)
            [("orchestrator", VEmpty)].

(** The body of the three planning loops for one name. *)
Definition plan_entity (fabric_name : string) (k : ObjectKind)
    (batch_spec : list Entry) (name : string)
    (acc : State * Target * Actions) : M (State * Target * Actions) :=
  let '(temp_state, t, actions) := acc in
  obj <- must (hd_error (entries_named batch_spec k name)) ;;
  let dropped := target_set t k (list_remove name (target_get t k)) in
  if negb (check_fabric temp_state (e_fabric obj)) then
    log Warn "Cannot proceed, fabric does not exists, skipping..."
        [fabric_name] ;;;
    ret (temp_state, dropped, actions)
  else
  exists_ <- must (check_nodeobj temp_state fabric_name name k) ;;
  if negb exists_ then
    log Warn "Cannot proceed, node does not exists, skipping..." [name] ;;;
    ret (temp_state, dropped, actions)
  else
  d <- must (get_fabric_objects temp_state k fabric_name) ;;
  curr_obj <- must (dict_get name d) ;;
  if kind_eqb k ORCHESTRATOR then
    actions <- must (set_action_list (get_object_state curr_obj)
                       (get_object_status curr_obj) (e_state obj) actions
                       name k None None) ;;
    ret (temp_state, t, actions)
  else
    let batch_entity_config := spec_from_batch obj in
    let state_entity_config := n_config curr_obj in
    actions <- must (set_action_list (get_object_state curr_obj)
                       (get_object_status curr_obj) (e_state obj) actions
                       name k (Some batch_entity_config)
                       (Some state_entity_config)) ;;
    temp_state <-
      (if conf_ne (Some batch_entity_config) (Some state_entity_config) then
         must (update_node temp_state fabric_name k name
                 (set_config batch_entity_config))
       else ret temp_state) ;;
    ret (temp_state, t, actions).

Definition plan_kind (fabric_name : string) (k : ObjectKind)
    (batch_spec : list Entry) (start : Actions) (acc : State * Target)
    : M (State * Target * Actions) :=
  for_each (target_get (snd acc) k) (plan_entity fabric_name k batch_spec)
           (fst acc, snd acc, start).

(** *** Running the actions *)

Definition orch_has_type (self : State) (fabric_name : string)
    (t : OrchType) (orch : string) : bool :=
  match get_fabric_objects self ORCHESTRATOR fabric_name with
  | Some d => match dict_get orch d with
              | Some o => has_type t o
              | None => false
              end
  | None => false
  end.

(** "Get dockerhub credentials": one lookup per controller to configure. *)
Definition docker_credentials (fabric_name : string) (self : State)
    (orchs : list string) : M bool :=
  for_each orchs
    (fun orch orch_stop_batch =>
       if orch_has_type self fabric_name Controller orch then
         c <- call (CredentialsGetDocker fabric_name) ;;
         if negb (ans_ok c) then
           log Error "Cannot configure controller. Not able to get Bayware dockerhub credentials" [] ;;;
           ret true
         else ret orch_stop_batch
       else ret orch_stop_batch)
    false.

Definition some_list (o : option (list string)) : list string :=
  match o with
  | Some l => l
  | None => []
  end.

(** One step of a configure/start/stop ladder: the action when its list is
    not empty, the commit, and the check for finished batches; nothing when
    an earlier step of the ladder failed. *)
Definition ladder_step
    (method : State -> string -> list string -> M ((bool * nat) * State))
    (fabric_name : string) (names : list string)
    (target_obj_state : ObjectState) (k : ObjectKind)
    (acc : State * Target * bool) : M (State * Target * bool) :=
  let '(temp_state, t, stop_batch) := acc in
  if stop_batch then ret acc
  else
    r <- (match names with
          | [] => ret (temp_state, false)
          | _ :: _ =>
              r <- method temp_state fabric_name names ;;
              commit (snd r) ;;;
              ret (snd r, negb (fst (fst r)))
          end) ;;
    c <- check_batches target_obj_state k (fst r, t) ;;
    ret (fst c, snd c, snd r).

(** The configure/start/stop ladder of processors or of workloads. *)
Definition ladder (k : ObjectKind) (fabric_name : string) (actions : Actions)
    (configure start stop :
       State -> string -> list string -> M ((bool * nat) * State))
    (acc : State * Target) : M (State * Target * bool) :=
  r <- ladder_step configure fabric_name (a_config actions) CONFIGURED k
         (fst acc, snd acc, false) ;;
  r <- ladder_step start fabric_name (some_list (a_start actions)) STARTED k
         r ;;
  ladder_step stop fabric_name (some_list (a_stop actions)) STOPPED k r.

(** *** One fabric of the batch *)

(** The variables that live across the fabrics: the batch file's lists,
    [create_target], [batch_result_success], and whether the two password
    variables are bound yet (and to something other than [None]). *)
Record LoopVars : Type := mkLoopVars {
  lv_spec : list Entry;
  lv_target : Dict Target;
  lv_success : bool;
  lv_passwd : option (bool * bool)
}.

Definition failed_fabric (v : LoopVars) : LoopVars :=
  mkLoopVars (lv_spec v) (lv_target v) false (lv_passwd v).

(** The body of [for fabric in create_target]. *)
Definition process_fabric (fabric_name : string) (v : LoopVars) : M LoopVars :=
  t <- must (dict_get fabric_name (lv_target v)) ;;
  proceed <- (if list_mem fabric_name (tg_fabric t)
              then fabric_phase (lv_spec v) fabric_name
              else ret true) ;;
  if negb proceed then ret (failed_fabric v)
  else
  vpcs <- vpc_phase (lv_spec v) fabric_name (tg_vpc t) ;;
  let t := target_set t VPC vpcs in
  ctx <- get_ctx ;;
  g <- gen_nodes (lv_spec v) fabric_name t (gen_init ctx t) ;;
  b <- for_each (tg_nodebatch t) (nodebatch_body fabric_name)
         (mkBatchVars g t (lv_spec v)) ;;
  let t := bv_target b in
  let spec := bv_spec b in
  let v := mkLoopVars spec (dict_set fabric_name t (lv_target v))
                      (lv_success v) (lv_passwd v) in
  created <- create_nodes_action fabric_name (bv_gen b) ;;
  match created with
  | None => ret (failed_fabric v)
  | Some temp_node_state =>
  r <- check_batches CREATED WORKLOAD (temp_node_state, t) ;;
  r <- check_batches CREATED PROCESSOR r ;;
  let t := snd r in
  temp_state <- get_ctx ;;
  r <- plan_kind fabric_name ORCHESTRATOR spec orch_actions (temp_state, t) ;;
  let '(temp_state, t, orch_plan) := r in
  r <- plan_kind fabric_name PROCESSOR spec node_actions (temp_state, t) ;;
  let '(temp_state, t, processor_plan) := r in
  r <- plan_kind fabric_name WORKLOAD spec node_actions (temp_state, t) ;;
  let '(temp_state, t, workload_plan) := r in
  let passwd :=
    (existsb (orch_has_type temp_state fabric_name Controller)
             (a_config orch_plan),
     existsb (orch_has_type temp_state fabric_name Telemetry)
             (a_config orch_plan)) in
  orch_stop_batch <- docker_credentials fabric_name temp_state
                       (a_config orch_plan) ;;
  r <- (match a_config orch_plan with
        | [] => ret (temp_state, orch_stop_batch)
        | _ :: _ =>
            if orch_stop_batch then ret (temp_state, orch_stop_batch)
            else
              r <- orchestrator_configure oracle temp_state fabric_name
                     (a_config orch_plan) ;;
              commit (snd r) ;;;
              ret (snd r, negb (fst (fst r)))
        end) ;;
  let '(temp_state, orch_stop_batch) := r in
  r <- ladder PROCESSOR fabric_name processor_plan
         (processor_configure oracle) (processor_start oracle)
         (processor_stop oracle) (temp_state, t) ;;
  let '(temp_state, t, processor_stop_batch) := r in
  r <- ladder WORKLOAD fabric_name workload_plan
         (workload_configure oracle) (workload_start oracle)
         (workload_stop oracle) (temp_state, t) ;;
  let '(temp_state, t, workload_stop_batch) := r in
  ret (mkLoopVars spec (dict_set fabric_name t (lv_target v))
                  (if orch_stop_batch || processor_stop_batch
                      || workload_stop_batch
                   then false else lv_success v)
                  (Some passwd))
  end.

(** [State.api_version] *)
Definition api_version : string := "fabric.bayware.io/v2".

(** [create_batch] from the parsed batch file on. *)
Definition create_batch (batch_api_version : string) (batch_spec : list Entry)
    : M bool :=
  if negb (String.eqb api_version batch_api_version) then
    log Error "Cannot create. Batch API version doesn't correspond current bwctl API version" [] ;;;
    sys_exit 1
  else
  let create_target := build_create_target batch_spec in
  v <- for_each (dict_keys create_target) process_fabric
         (mkLoopVars batch_spec create_target true None) ;;
  (if lv_success v then log Okay "Batch is finished" []
   else log Error "Batch is finished" []) ;;;
  passwd <- must (lv_passwd v) ;;
  (if snd passwd then log Warn "grafana admin password" [] else ret tt) ;;;
  (if fst passwd then log Warn "controller admin password" [] else ret tt) ;;;
  if negb (lv_success v) then sys_exit 1 else ret true.

End CreateBatch.

(** * Properties *)

(** ** Predicates of the statements *)

(** A fabric the accessor may hand out: configured with success, or being
    deleted. *)
Definition selectable (f : FabricObj) : Prop :=
  (f_state f = Some CONFIGURED /\ f_status f = Some SUCCESS)
  \/ f_state f = Some DELETING.

Definition selectableb (f : FabricObj) : bool :=
  (check_object_state f CONFIGURED && check_object_status f SUCCESS)
  || check_object_state f DELETING.

(** A command is refused: it leaves through [sys.exit(1)], and neither the
    state in memory, nor the persisted state, nor the outside world has
    changed, and no external call was made. *)
Definition refused {W A : Type} (r : Res A * Machine W) (m : Machine W)
    : Prop :=
  fst r = Exit 1 /\ ctx_state (snd r) = ctx_state m /\
  persisted (snd r) = persisted m /\ world (snd r) = world m /\
  trace (snd r) = trace m.

(** The processor [name] is the only processor of its VPC in the fabric,
    and a workload of the fabric lives in that VPC. *)
Definition sole_processor_with_workloads (f : FabricObj) (name : string)
    : Prop :=
  exists p,
    dict_get name (f_processor f) = Some p /\
    (forall n q, In (n, q) (f_processor f) -> n_vpc q = n_vpc p -> n = name) /\
    (exists w, In w (f_workload f) /\ n_vpc (snd w) = n_vpc p).

(** ** Example inputs *)

Definition example_config : Config :=
  mkConfig (Some "f") None (Some "acme") "false" "ubuntu" false.

Definition ok_answer : Answer := mkAnswer true 0 (Some "v").

(** Every external call succeeds. *)
Definition oracle_ok (c : Call) (w : unit) : Answer * unit := (ok_answer, w).

Definition example_regions (cloud : string) : list string := ["us-east-1"].

Definition example_vpc : VpcObj :=
  mkVpc "aws" "us-east-1" 1 (Some CREATED) (Some SUCCESS).

Definition example_processor : NodeObj :=
  mkNode 1 "aws1-vpc-f" (Some STARTED) (Some SUCCESS) None RoleUnset
         [("orchestrator", VStr "c.example")]
         [("dns_enabled", Some "true"); ("ip", Some "10.0.0.1")].

Definition example_workload : NodeObj :=
  mkNode 1 "aws1-vpc-f" (Some STARTED) (Some FAILED) None RoleUnset
         [("orchestrator", VStr "c.example")]
         [("dns_enabled", Some "true"); ("ip", Some "10.0.0.2")].

(** A configured fabric with one VPC and one processor in it. *)
Definition example_fabric : FabricObj :=
  mkFabric (Some "acme") (Some "cred") None [] [("aws1-p01-f", example_processor)]
           [] [("aws1-vpc-f", example_vpc)] (Some CONFIGURED) (Some SUCCESS).

(** The same fabric with a workload next to the processor. *)
Definition example_fabric_workload : FabricObj :=
  mkFabric (Some "acme") (Some "cred") None [] [("aws1-p01-f", example_processor)]
           [("aws1-w01-f", example_workload)] [("aws1-vpc-f", example_vpc)]
           (Some CONFIGURED) (Some SUCCESS).

(** The same fabric before its configuration. *)
Definition example_fabric_created : FabricObj :=
  mkFabric None None None [] [] [] [] (Some CREATED) (Some SUCCESS).

Definition example_state : State :=
  mkState example_config [] [("f", example_fabric)].

Definition example_state_workload : State :=
  mkState example_config [] [("f", example_fabric_workload)].

Definition example_state_created : State :=
  mkState example_config [] [("f", example_fabric_created)].

Definition machine_of (s : State) : Machine unit := mkMachine s s tt [] [].

(** Scenario C: a workload in (started, failed) whose declared
    configuration differs from the applied one. *)
Definition scenario_C_batch_conf : Conf := [("orchestrator", VStr "new.example")].
Definition scenario_C_state_conf : Conf := [("orchestrator", VStr "old.example")].

(** A node batch of workloads with target state started. *)
Definition example_template : Template :=
  mkTemplate WORKLOAD "aws1-vpc-f" [("orchestrator", VStr "c.example")] STARTED.

Definition example_nodebatch (count : nat) : Entry :=
  mkEntry NODEBATCH "nb1" "f" "" "" "" Controller RoleUnset [] None CREATED
          [example_template] count None None "".


(** Name, state and status of the nodes of a dictionary. *)
Definition node_summary (d : Dict NodeObj)
    : list (string * option ObjectState * option ObjectStatus) :=
  map (fun x => (fst x, n_state (snd x), n_status (snd x))) d.

Definition persisted_nodes {W : Type} (r : Res bool * Machine W)
    (fabric_name : string) (k : ObjectKind)
    : option (list (string * option ObjectState * option ObjectStatus)) :=
  option_map node_summary
             (get_fabric_objects (persisted (snd r)) k fabric_name).

(** The names a recorded node batch holds for a kind. *)
Definition recorded_members (s : State) (nodebatch : string) (k : ObjectKind)
    : option (list string) :=
  match get_nodebatch s nodebatch with
  | Some b => option_map (map fst) (nodebatch_members b k)
  | None => None
  end.

(** Two configured fabrics with one VPC each. *)
Definition example_fabric_of (vpc : string) : FabricObj :=
  mkFabric (Some "acme") (Some "cred") None [] [] [] [(vpc, example_vpc)]
           (Some CONFIGURED) (Some SUCCESS).

Definition two_fabrics : State :=
  mkState example_config []
          [("f1", example_fabric_of "aws1-vpc-f1");
           ("f2", example_fabric_of "aws1-vpc-f2")].

Definition vpc_entry (name fabric_name : string) : Entry :=
  mkEntry VPC name fabric_name "" "aws" "us-east-1" Controller RoleUnset []
          None CREATED [] 0 None None "".

Definition processor_entry (name fabric_name vpc : string) : Entry :=
  mkEntry PROCESSOR name fabric_name vpc "" "" Controller RoleUnset [] None
          CREATED [] 0 None None "".

(** A batch with one VPC for each of the two fabrics, and one with a
    processor for each. *)
Definition two_vpcs_batch : list Entry :=
  [vpc_entry "aws2-vpc-f1" "f1"; vpc_entry "aws2-vpc-f2" "f2"].

Definition two_processors_batch : list Entry :=
  [processor_entry "p-a" "f1" "aws1-vpc-f1";
   processor_entry "p-b" "f2" "aws1-vpc-f2"].

(** Terraform fails to apply the plan of fabric [f1]; everything else
    succeeds. *)
Definition oracle_apply_fails_f1 (c : Call) (w : unit) : Answer * unit :=
  match c with
  | TerraformPlanExecute "f1" => (mkAnswer false 1 None, w)
  | _ => (ok_answer, w)
  end.

(** The external calls made on behalf of a fabric. *)
Definition call_for (fabric_name : string) (c : Call) : bool :=
  match c with
  | CredentialsGet f | CredentialsGetDocker f | CredentialsCheckSsh f _
  | TerraformPlanGenerate f | TerraformPlanExecute f
  | AnsibleInventoryGenerate f _ | AnsibleRunPlaybook f _ =>
      String.eqb f fabric_name
  | _ => false
  end.

(** *** Index allocation in the words of the specification *)












(** *** What a computation leaves behind *)

Section Returns.
Variable W : Type.

(** Only the log may differ between two machines: no commit, no dump, no
    external call in between. *)
Definition quiet (m m' : Machine W) : Prop :=
  ctx_state m' = ctx_state m /\ persisted m' = persisted m /\
  world m' = world m /\ trace m' = trace m.

(** What holds whenever a computation returns. *)
Definition returns {A : Type} (c : M W A)
    (R : Machine W -> A -> Machine W -> Prop) : Prop :=
  forall m a m', c m = (Ok a, m') -> R m a m'.

End Returns.

(** The value a computation returned, or a default. *)
Definition ok_or {W A : Type} (default : A) (r : Res A * Machine W) : A :=
  match fst r with
  | Ok a => a
  | _ => default
  end.

(** *** Node-batch expansion in the words of the specification *)









(** *** Orchestrators: duplicates and the swarm manager *)

(** The batch object the loops read for an orchestrator name. *)
Definition orchestrator_entry_of (batch_spec : list Entry) (node : string)
    : option Entry :=
  hd_error (entries_named batch_spec ORCHESTRATOR node).

(** The orchestrator names [temp_nodes_list] still holds: what goes to
    [obj_create]. *)
Definition retained (g : GenVars) : list string :=
  target_get (temp_nodes_list g) ORCHESTRATOR.

(** An orchestrator of the type is in the fabric with status success. *)
Definition exists_with_success (d : Dict NodeObj) (t : OrchType) : Prop :=
  exists x o, dict_get x d = Some o /\ has_type t o = true /\
              check_object_status o SUCCESS = true.

(** The batch object of the name declares the type. *)
Definition declares_type (batch_spec : list Entry) (t : OrchType)
    (node : string) : bool :=
  match orchestrator_entry_of batch_spec node with
  | Some e => otype_eqb (e_type e) t
  | None => false
  end.

(** What the orchestrator rounds of "Generate node" maintain for the names
    [done] they have been through; [d0] holds the orchestrators of the
    fabric before the first round. *)
Definition dedup_invariant (batch_spec : list Entry) (fabric_name : string)
    (d0 : Dict NodeObj) (done : list string) (g : GenVars) : Prop :=
  NoDup (retained g) /\
  (exists d,
     get_fabric_objects (temp_node_state g) ORCHESTRATOR fabric_name = Some d /\
     NoDup (map fst d) /\
     (forall x o, dict_get x d0 = Some o ->
                  check_object_status o SUCCESS = true ->
                  dict_get x d = Some o) /\
     (forall n e, In n done ->
        orchestrator_entry_of batch_spec n = Some e ->
        batch_duplicates batch_spec (e_type e) n <> [] ->
        orchestrator_in_batch g (e_type e) = true \/
        exists x o, x <> n /\ dict_get x d = Some o /\
                    has_type (e_type e) o = true /\
                    check_object_status o SUCCESS = true)) /\
  (forall n e, In n done -> In n (retained g) ->
     orchestrator_entry_of batch_spec n = Some e ->
     batch_duplicates batch_spec (e_type e) n <> [] ->
     orchestrator_in_batch g (e_type e) = true) /\
  (forall n1 n2 e1 e2, In n1 done -> In n2 done ->
     In n1 (retained g) -> In n2 (retained g) ->
     orchestrator_entry_of batch_spec n1 = Some e1 ->
     orchestrator_entry_of batch_spec n2 = Some e2 ->
     e_type e1 = e_type e2 -> n1 = n2) /\
  (forall n e, In n done -> In n (retained g) ->
     orchestrator_entry_of batch_spec n = Some e ->
     ~ exists_with_success d0 (e_type e)) /\
  (forall n e, In n done -> In n (retained g) ->
     orchestrator_entry_of batch_spec n = Some e ->
     find (declares_type batch_spec (e_type e)) done = Some n).

(** The name is a controller of the dictionary. *)
Definition is_controller (d : Dict NodeObj) (orch : string) : bool :=
  match dict_get orch d with
  | Some o => has_type_of Controller o
  | None => false
  end.

(** Name, state, status and role of the orchestrators of fabric [f]. *)
Definition orchestrator_summary (s : State)
    : option (list (string * option ObjectState * option ObjectStatus * Role)) :=
  option_map
    (map (fun x => (fst x, n_state (snd x), n_status (snd x), n_role (snd x))))
    (get_fabric_objects s ORCHESTRATOR "f").

Definition orchestrator_entry (name : string) (t : OrchType) (r : Role)
    (target : ObjectState) : Entry :=
  mkEntry ORCHESTRATOR name "f" "aws1-vpc-f" "" "" t r [] None target [] 0
          None None "".

(** The playbook that configures orchestrators fails. *)
Definition oracle_orchestrator_configure_fails (c : Call) (w : unit)
    : Answer * unit :=
  match c with
  | AnsibleRunPlaybook _ "configure-orchestrator.yml" =>
      (mkAnswer false 2 None, w)
  | _ => (ok_answer, w)
  end.

(** No Ansible inventory can be written. *)
Definition oracle_inventory_fails (c : Call) (w : unit) : Answer * unit :=
  match c with
  | AnsibleInventoryGenerate _ _ => (mkAnswer false 1 None, w)
  | _ => (ok_answer, w)
  end.

(** A batch with one controller, and the batch after a second controller
    was put in front of it. *)
Definition one_controller : list Entry :=
  [orchestrator_entry "aws1-c01-f" Controller RoleUnset CONFIGURED].

Definition two_controllers : list Entry :=
  [orchestrator_entry "aws1-c02-f" Controller RoleUnset CONFIGURED;
   orchestrator_entry "aws1-c01-f" Controller RoleUnset CONFIGURED].

Definition two_controllers_target : Target :=
  mkTarget [] [] [] [] [] ["aws1-c02-f"; "aws1-c01-f"].

(** The first batch runs while the configuration playbook fails; then the
    second batch runs with every tool succeeding. *)
Definition controller_run_1 : Res bool * Machine unit :=
  create_batch oracle_orchestrator_configure_fails api_version one_controller
               (machine_of example_state).

Definition controller_run_2 : Res bool * Machine unit :=
  create_batch oracle_ok api_version two_controllers (snd controller_run_1).

(** "Generate node" of the second run. *)
Definition controller_generation_2 : Res GenVars * Machine unit :=
  gen_nodes two_controllers "f" two_controllers_target
            (gen_init (ctx_state (snd controller_run_1)) two_controllers_target)
            (snd controller_run_1).

(** "Generate node" of the second batch on the example state. *)
Definition controller_generation : Res GenVars * Machine unit :=
  gen_nodes two_controllers "f" two_controllers_target
            (gen_init example_state two_controllers_target)
            (machine_of example_state).

(** Three commands in a row: [create orchestrator controller] while no
    inventory can be written, the same command again with every tool
    succeeding, and [configure orchestrator --all]. *)
Definition manager_step_1 : Res bool * Machine unit :=
  create_orchestrator oracle_inventory_fails "aws1-vpc-f" Controller
                      (machine_of example_state).

Definition manager_step_2 : Res bool * Machine unit :=
  create_orchestrator oracle_ok "aws1-vpc-f" Controller (snd manager_step_1).

Definition manager_step_3 : Res bool * Machine unit :=
  config_orchestrator oracle_ok None true false (snd manager_step_2).

(** A batch whose two orchestrators both declare the role manager. *)
Definition two_declared_managers : list Entry :=
  [orchestrator_entry "aws1-c01-f" Controller Manager CREATED;
   orchestrator_entry "aws1-c02-f" Telemetry Manager CREATED].

Definition declared_managers_run : Res bool * Machine unit :=
  create_batch oracle_ok api_version two_declared_managers
               (machine_of example_state).

(** One controller is created and then configured. *)
Definition single_controller_created : Res bool * Machine unit :=
  create_orchestrator oracle_ok "aws1-vpc-f" Controller
                      (machine_of example_state).

Definition single_controller_configured
    : Res ((bool * nat) * State) * Machine unit :=
  orchestrator_configure oracle_ok
    (ctx_state (snd single_controller_created)) "f" ["aws1-c01-f"]
    (snd single_controller_created).

(** *** Managers across a command *)

(** No fabric has more managers in [s'] than in [s]. *)
Definition no_new_manager (s s' : State) : Prop :=
  forall f d,
    get_fabric_objects s ORCHESTRATOR f = Some d ->
    exists d',
      get_fabric_objects s' ORCHESTRATOR f = Some d' /\
      List.length (managers d') <= List.length (managers d).

(** A computation that never assigns [ctx.obj.state]. *)
Definition keeps_ctx {W A : Type} (c : M W A) : Prop :=
  forall m r m', c m = (r, m') -> ctx_state m' = ctx_state m.

(** Terraform cannot apply any plan. *)
Definition oracle_apply_fails (c : Call) (w : unit) : Answer * unit :=
  match c with
  | TerraformPlanExecute _ => (mkAnswer false 1 None, w)
  | _ => (ok_answer, w)
  end.

(** A run of the batch file whose node creation fails, and the run of the
    same file that follows it with every tool succeeding. *)
Definition resume_run_1 : Res bool * Machine unit :=
  create_batch oracle_apply_fails api_version [example_nodebatch 2]
               (machine_of example_state).

Definition resume_run_2 : Res bool * Machine unit :=
  create_batch oracle_ok api_version [example_nodebatch 2] (snd resume_run_1).

(** ** What the state methods record *)

(** [get_fabric_object]: the object of a kind and a name in a fabric. The
    inner [None] is the [{}] of a name that is not there, the outer one the
    failure on a fabric that is not there. *)
Definition get_fabric_object (s : State) (k : ObjectKind)
    (obj_name fabric_name : string) : option (option NodeObj) :=
  option_map (dict_get obj_name) (get_fabric_objects s k fabric_name).

(** The node is in the state with the given state and status. *)
Definition recorded (s : State) (fabric_name : string) (k : ObjectKind)
    (name : string) (state : ObjectState) (status : ObjectStatus) : Prop :=
  exists o,
    get_fabric_object s k name fabric_name = Some (Some o) /\
    n_state o = Some state /\ n_status o = Some status.

(** [get_fabric_object] for the kind ['vpc']. *)
Definition get_fabric_vpc (s : State) (obj_name fabric_name : string)
    : option (option VpcObj) :=
  option_map (dict_get obj_name) (get_fabric_vpcs s fabric_name).

(** The same for a VPC. *)
Definition recorded_vpc (s : State) (fabric_name name : string)
    (state : ObjectState) (status : ObjectStatus) : Prop :=
  exists o,
    get_fabric_vpc s name fabric_name = Some (Some o) /\
    v_state o = Some state /\ v_status o = Some status.

(** Two states hold the same nodes outside the listed ones of a kind. *)
Definition same_outside (s s' : State) (fabric_name : string)
    (k : ObjectKind) (l : list string) : Prop :=
  forall f' k' n,
    ~ (f' = fabric_name /\ k' = k /\ In n l) ->
    get_fabric_object s' k' n f' = get_fabric_object s k' n f'.

Section Outcomes.
Variable W : Type.

(** What a method that runs a playbook over a list of nodes leaves in the
    state it returns: on success every node of the list has the target
    state with status success; on failure either nothing was changed, or
    every node of the list has the target state with status failed; the
    other nodes are as they were. *)
Definition records_outcome
    (method : State -> string -> list string -> M W ((bool * nat) * State))
    (k : ObjectKind) (target : ObjectState) : Prop :=
  forall self fabric_name l m b code self' m',
    method self fabric_name l m = (Ok ((b, code), self'), m') ->
    (b = true ->
     code = 0 /\
     forall n, In n l -> recorded self' fabric_name k n target SUCCESS) /\
    (b = false ->
     self' = self \/
     forall n, In n l -> recorded self' fabric_name k n target FAILED) /\
    same_outside self self' fabric_name k l.

End Outcomes.

(** The fabric is in the state with the given state and status. *)
Definition recorded_fabric (s : State) (fabric_name : string)
    (state : ObjectState) (status : ObjectStatus) : Prop :=
  exists fo,
    get_fabric s fabric_name = Some fo /\
    f_state fo = Some state /\ f_status fo = Some status.

(** The node is in the state and [P] holds of it. *)
Definition node_has (P : NodeObj -> Prop) (s : State) (fabric_name : string)
    (k : ObjectKind) (name : string) : Prop :=
  exists o, get_fabric_object s k name fabric_name = Some (Some o) /\ P o.

(** The property [key] of the node holds a value. *)
Definition has_property (key : string) (o : NodeObj) : Prop :=
  exists v, dict_get key (n_properties o) = Some (Some v).

(** Two states hold the same nodes outside a list of nodes of a fabric. *)
Definition touches_only (fabric_name : string)
    (nodes : list (ObjectKind * string)) (s s' : State) : Prop :=
  forall f' k n,
    ~ (f' = fabric_name /\ In (k, n) nodes) ->
    get_fabric_object s' k n f' = get_fabric_object s k n f'.

(** A computation that neither assigns [ctx.obj.state] nor dumps it. *)
Definition keeps_state {W A : Type} (c : M W A) : Prop :=
  forall m r m', c m = (r, m') ->
    ctx_state m' = ctx_state m /\ persisted m' = persisted m.

(** What holds of a node and survives a new property value and a new state
    and status. *)
Definition survives_creation (P : NodeObj -> Prop) : Prop :=
  (forall o key v, P o -> P (set_property key (Some v) o)) /\
  (forall o st su, P o -> P (set_object_state_status o st su)).

(** The fields of a node that creation never writes. *)
Definition same_identity (o o' : NodeObj) : Prop :=
  n_index o' = n_index o /\ n_vpc o' = n_vpc o /\ n_type o' = n_type o /\
  n_role o' = n_role o /\ n_config o' = n_config o.

(** ** More of the state document ([session/state.py], [session/session.py]) *)

Module StateObj.

(** [State.delete_fabric]: [del self.state['fabric'][name]]; [None] is the
    [KeyError] of a name that is not there. *)
Definition delete_fabric (s : State) (name : string) : option State :=
  if dict_mem name (fabric s)
  then Some (with_fabrics s (dict_del name (fabric s)))
  else None.

End StateObj.

(** [delete_fabric_object] for the kind ['vpc']. *)
Definition delete_fabric_vpc (s : State) (obj_name fabric_name : string)
    : option State :=
  match get_fabric s fabric_name with
  | Some f =>
      if dict_mem obj_name (f_vpc f) then
        Some (with_fabrics s
                (dict_set fabric_name
                   (fabric_with_vpcs f (dict_del obj_name (f_vpc f)))
                   (fabric s)))
      else None
  | None => None
  end.

Definition with_config (s : State) (c : Config) : State :=
  mkState c (batch s) (fabric s).

(** [a == b] on names that may be [None]. *)
Definition name_eqb (a b : option string) : bool :=
  match a, b with
  | Some x, Some y => String.eqb x y
  | None, None => true
  | _, _ => false
  end.

(** [Session.set_current_fabric]: [config.set_attr('current_fabric',
    fabric)] stores the value when it differs from the present one, and
    says whether it did. [Config.init] always creates the key. The file the
    configuration is written to and the prompt are not part of the state. *)
Definition set_current_fabric (s : State) (fabric_name : option string)
    : bool * State :=
  if negb (name_eqb (cfg_current_fabric (config s)) fabric_name) then
    (true,
     with_config s
       (mkConfig fabric_name (cfg_private_key (config s))
                 (cfg_company_name (config s)) (cfg_marketplace (config s))
                 (cfg_os_type (config s)) (cfg_production (config s))))
  else (false, s).

(** ['worker' in x[1]['role']] *)
Definition is_worker (o : NodeObj) : bool := role_eqb (n_role o) Worker.

(** [obj['type']] as the string the playbook names are built from. *)
Definition orch_type_name (t : OrchType) : string :=
  match t with
  | Controller => "controller"
  | Telemetry => "telemetry"
  | Events => "events"
  end.

(** *** Node batches of a fabric or of a VPC ([nodebatch_delete]) *)

(** What a comprehension of [nodebatch_delete] leaves in [workloads] or in
    [processors]: the members that match when the batch has the key, and
    the value the batch before left there when it has not. *)
Definition nodebatch_select (sel : Entry -> bool)
    (members : option (Dict Entry)) (previous : list Entry) : list Entry :=
  match members with
  | Some d => map snd (filter (fun item => sel (snd item)) d)
  | None => previous
  end.

(** The loop over [self.state['batch']]: the names it collects in
    [nodebatches]. *)
Fixpoint nodebatch_delete_scan (sel : Entry -> bool)
    (batches : Dict NodeBatch) (nodebatches : list string)
    (workloads processors : list Entry) : list string :=
  match batches with
  | [] => nodebatches
  | (b, nb) :: rest =>
      let workloads := nodebatch_select sel (nb_workload nb) workloads in
      let processors := nodebatch_select sel (nb_processor nb) processors in
      let nodes := workloads ++ processors in
      nodebatch_delete_scan sel rest
        (match nodes with
         | [] => nodebatches
         | _ :: _ => nodebatches ++ [b]
         end)
        workloads processors
  end.

(** ** The other commands ([commands/delete.py], [set.py], [leave.py],
    [start.py], [stop.py], [configure.py])

    As in the commands above, the messages of [log_info] are left out. *)

(** How the selection of targets of a start, stop or configure command
    ends: with the [return True] of a node that is in the wanted state
    already, or with [obj_list], which is [None] when neither branch of the
    selection was taken. *)
Inductive Selection : Type :=
| Return (b : bool)
| Targets (obj_list : option (list string)).

(** The targets of [start ... --all] and [stop ... --all]: every node of
    the kind that is neither being deleted nor in state created. *)
Definition start_all_targets (d : Dict NodeObj) : list string :=
  map fst (filter (fun x => negb (check_object_state (snd x) DELETING)
                            && negb (check_object_state (snd x) CREATED)) d).







Section MoreCommands.
Variable W : Type.
Variable oracle : Call -> W -> Answer * W.

Local Abbreviation M := (M W).
Local Abbreviation call := (call oracle).
Local Abbreviation dump := (dump oracle).
Local Abbreviation commit := (commit oracle).

(** [nodebatch_delete(fabric=..., vpc=...)]: a VPC goes before a fabric;
    with neither, the first batch of the loop makes it return false. *)
Definition nodebatch_delete (self : State) (fabric_name vpc : option string)
    : M (bool * State) :=
  let delete sel :=
    match nodebatch_delete_scan sel (batch self) [] [] [] with
    | [] => ret (true, self)
    | nodebatches =>
        log Warn "Active node batches found, going to be deleted"
            nodebatches ;;;
        self <- for_each nodebatches
                  (fun b self => must (delete_nodebatch self b)) self ;;
        ret (true, self)
    end in
  match vpc, fabric_name with
  | Some v, _ => delete (fun e => String.eqb (e_vpc e) v)
  | None, Some f => delete (fun e => String.eqb (e_fabric e) f)
  | None, None =>
      match batch self with
      | [] => ret (true, self)
      | _ :: _ => ret (false, self)
      end
  end.

(** *** Delete *)

(** What [delete_orchestrator] and [delete_workload] end with: the
    credentials, the deletion in a copy of the state, the two Terraform
    steps, and only then the new state. *)
Definition delete_node_apply (k : ObjectKind)
    (kind_name obj_name current_fabric : string) : M bool :=
  ctx <- get_ctx ;;
  c <- call (CredentialsGet current_fabric) ;;
  if negb (ans_ok c) then
    log Error "Cannot delete. Not able to get credentials" [kind_name] ;;;
    sys_exit 1
  else
  temp_state <- must (delete_fabric_object ctx k obj_name current_fabric) ;;
  g <- call (TerraformPlanGenerate current_fabric) ;;
  if negb (ans_ok g) then
    log Error "Cannot delete: plan generation" [kind_name] ;;; sys_exit 1
  else
  x <- call (TerraformPlanExecute current_fabric) ;;
  if negb (ans_ok x) then
    log Error "Cannot delete: plan execution" [kind_name] ;;;
    sys_exit (ans_code x)
  else
  commit temp_state ;;;
  log Okay "deleted successfully" [kind_name; obj_name] ;;;
  generate_ssh_config oracle ;;;
  ret true.

(** [delete_workload] *)
Definition delete_workload (workload_name : string) (dry_run : bool)
    : M bool :=
  current_fabric <-
    require_current_fabric "Cannot delete workload. Please select fabric first." ;;
  obj_name <- normalise_state_obj_name "workload" workload_name ;;
  ctx <- get_ctx ;;
  exists_ <- must (check_workload ctx current_fabric obj_name) ;;
  if negb exists_ then
    log Error "Cannot delete. Workload doesn't exist" [obj_name] ;;; sys_exit 1
  else if dry_run then
    log Warn "Workload to be deleted (started with --dry-run)" [obj_name] ;;;
    ret true
  else delete_node_apply WORKLOAD "workload" obj_name current_fabric.

(** [delete_orchestrator]. The dry run ends before the swarm is looked
    at. *)
Definition delete_orchestrator (orchestrator_name : string) (dry_run : bool)
    : M bool :=
  current_fabric <-
    require_current_fabric "Cannot delete orchestrator. Please select fabric first." ;;
  obj_name <- normalise_state_obj_name "orchestrator" orchestrator_name ;;
  ctx <- get_ctx ;;
  exists_ <- must (check_orchestrator ctx current_fabric obj_name) ;;
  if negb exists_ then
    log Error "Cannot delete. Orchestrator doesn't exist" [obj_name] ;;;
    sys_exit 1
  else if dry_run then
    log Warn "Orchestrator to be deleted (started with --dry-run)" [obj_name] ;;;
    ret true
  else
  d <- must (get_fabric_objects ctx ORCHESTRATOR current_fabric) ;;
  obj <- must (dict_get obj_name d) ;;
  (if negb (check_object_state obj CREATED) then
     obj_type <- must (n_type obj) ;;
     let ansible_playbook :=
       String.append "delete-"
                     (String.append (orch_type_name obj_type) ".yml") in
     let workers := filter (fun x => is_worker (snd x)) d in
     match managers d with
     | [] =>
         log Warn "There is no swarm manager found. Nothing should be done with ansible" []
     | manager :: _ =>
         if is_manager obj && negb (Nat.eqb (List.length workers) 0) then
           log Error "Orchestrator is swarm manager. Remove workers first:"
               (orchestrator_name :: map fst workers) ;;;
           sys_exit 1
         else
           i <- call (AnsibleInventoryGenerate current_fabric
                                               [obj_name; fst manager]) ;;
           if ans_ok i then
             r <- call (AnsibleRunPlaybook current_fabric ansible_playbook) ;;
             if negb (ans_ok r) then
               log Error "Cannot delete orchestrator. There is issue with ansible playbook execution" [] ;;;
               sys_exit (ans_code r)
             else ret tt
           else sys_exit 1
     end
   else ret tt) ;;;
  delete_node_apply ORCHESTRATOR "orchestrator" obj_name current_fabric.

(** [[x for x in ... .items() if obj_name in x[1]['vpc']]] of
    [delete_vpc]: the names of the nodes whose VPC name contains the
    name. *)
Definition nodes_of_vpc (d : Dict NodeObj) (obj_name : string)
    : list string :=
  map fst (filter (fun x => str_in obj_name (n_vpc (snd x))) d).

(** [delete_vpc] *)
Definition delete_vpc (vpc_name : string) (dry_run : bool) : M bool :=
  current_fabric <-
    require_current_fabric "Cannot delete VPC. Please select fabric first." ;;
  obj_name <- normalise_state_obj_name "vpc" vpc_name ;;
  ctx <- get_ctx ;;
  exists_ <- must (check_vpc ctx current_fabric obj_name) ;;
  if negb exists_ then
    log Error "Cannot delete. VPC doesn't exist" [obj_name] ;;; sys_exit 1
  else
  orchs <- must (get_fabric_objects ctx ORCHESTRATOR current_fabric) ;;
  procs <- must (get_fabric_objects ctx PROCESSOR current_fabric) ;;
  wls <- must (get_fabric_objects ctx WORKLOAD current_fabric) ;;
  let node_list := nodes_of_vpc orchs obj_name ++ nodes_of_vpc procs obj_name
                   ++ nodes_of_vpc wls obj_name in
  match node_list with
  | _ :: _ =>
      log Error "Cannot delete. VPC contains nodes, delete them first:"
          (obj_name :: node_list) ;;;
      sys_exit 1
  | [] =>
  if dry_run then
    log Warn "VPC to be deleted (started with --dry-run)" [obj_name] ;;;
    ret true
  else
  c <- call (CredentialsGet current_fabric) ;;
  if negb (ans_ok c) then
    log Error "Cannot delete VPC. Not able to get credentials" [] ;;;
    sys_exit 1
  else
  temp_state <- must (delete_fabric_vpc ctx obj_name current_fabric) ;;
  g <- call (TerraformPlanGenerate current_fabric) ;;
  if negb (ans_ok g) then
    log Error "Cannot delete VPC. There is issue with terraform plan generation" [] ;;;
    sys_exit 1
  else
  x <- call (TerraformPlanExecute current_fabric) ;;
  if negb (ans_ok x) then
    log Error "Cannot delete VPC. There is issue with terraform plan execution" [] ;;;
    sys_exit (ans_code x)
  else
  r <- nodebatch_delete temp_state None (Some obj_name) ;;
  commit (snd r) ;;;
  log Okay "deleted successfully" [obj_name] ;;;
  ret true
  end.

(** [delete_fabric]. It works on [ctx.obj.state] itself, so every change
    is in the state in memory at once; the dump comes last. *)
Definition delete_fabric (fabric_name : string) : M bool :=
  fabric_name <- normalise_state_obj_name "fabric" fabric_name ;;
  ctx <- get_ctx ;;
  if negb (check_fabric ctx fabric_name) then
    log Error "Cannot delete. Fabric doesn't exist" [fabric_name] ;;;
    sys_exit 1
  else
  vpc_list <- must (get_fabric_vpcs ctx fabric_name) ;;
  match vpc_list with
  | _ :: _ =>
      log Error "Cannot delete. Fabric contains VPCs, delete them first:"
          (fabric_name :: map fst vpc_list) ;;;
      sys_exit 1
  | [] =>
  orchs <- must (get_fabric_objects ctx ORCHESTRATOR fabric_name) ;;
  procs <- must (get_fabric_objects ctx PROCESSOR fabric_name) ;;
  wls <- must (get_fabric_objects ctx WORKLOAD fabric_name) ;;
  match dict_keys orchs ++ dict_keys procs ++ dict_keys wls with
  | _ :: _ =>
      log Error "Cannot delete. Fabric contains nodes, delete them first:"
          [fabric_name] ;;;
      sys_exit 1
  | [] =>
  r <- call (AnsibleRunPlaybook fabric_name "delete-fabric.yml") ;;
  if negb (ans_ok r) then
    log Error "Cannot delete fabric. There is issue with ansible playbook execution" [] ;;;
    sys_exit (ans_code r)
  else
  (if name_eqb (get_current_fabric ctx) (Some fabric_name)
   then set_ctx (snd (set_current_fabric ctx None))
   else ret tt) ;;;
  ctx <- get_ctx ;;
  ctx <- must (StateObj.delete_fabric ctx fabric_name) ;;
  set_ctx ctx ;;;
  r <- nodebatch_delete ctx (Some fabric_name) None ;;
  set_ctx (snd r) ;;;
  log Okay "Fabric deleted successfully" [fabric_name] ;;;
  dump ;;;
  ret true
  end
  end.

(** *** Set and leave *)

(** [set_fabric] *)
Definition set_fabric (fabric_name : string) : M bool :=
  ctx <- get_ctx ;;
  if negb (check_fabric ctx fabric_name) then
    log Error "Fabric doesn't exist" [fabric_name] ;;; sys_exit 1
  else
  f <- must (get_fabric ctx fabric_name) ;;
  if check_object_state f DELETING then
    log Warn "Proceeding, but object is set for deletion!" [] ;;;
    set_ctx (snd (set_current_fabric ctx (Some fabric_name))) ;;;
    log Okay "Active fabric" [fabric_name] ;;;
    ret true
  else if negb (check_object_state f CONFIGURED)
          || negb (check_object_status f SUCCESS) then
    log Error "Cannot activate, configure fabric first" [fabric_name] ;;;
    sys_exit 1
  else
    set_ctx (snd (set_current_fabric ctx (Some fabric_name))) ;;;
    log Okay "Active fabric" [fabric_name] ;;;
    ret true.

(** [leave_fabric] *)
Definition leave_fabric : M bool :=
  ctx <- get_ctx ;;
  if negb (truthy_name (get_current_fabric ctx)) then
    log Error "Cannot leave. Please select fabric first." [] ;;; sys_exit 1
  else
    let r := set_current_fabric ctx None in
    set_ctx (snd r) ;;;
    ret (fst r).

(** *** Start and stop *)

(** What the start and stop commands do once the targets are chosen: the
    dry run, the method on a copy of the state, and the copy as the new
    state whatever the method returned. Without targets ([obj_list] is
    [None]) the method fails on its first line. *)
Definition run_selection (what : string)
    (method : State -> string -> list string -> M ((bool * nat) * State))
    (current_fabric : string) (dry_run : bool) (sel : Selection) : M bool :=
  match sel with
  | Return b => ret b
  | Targets obj_list =>
      if dry_run then log Warn what [] ;;; ret true
      else
        temp_state <- get_ctx ;;
        obj_list <- must obj_list ;;
        r <- method temp_state current_fabric obj_list ;;
        let '(res, temp_state) := r in
        commit temp_state ;;;
        if negb (fst res) then sys_exit (snd res) else ret true
  end.

(** [start_workload] and [start_processor], which differ in the kind and
    in the method they call. *)
Definition start_node (k : ObjectKind) (kind_name : string)
    (method : State -> string -> list string -> M ((bool * nat) * State))
    (node_name : option string) (dry_run all_nodes : bool) : M bool :=
  current_fabric <-
    require_current_fabric "Cannot start. Please select fabric first." ;;
  ctx <- get_ctx ;;
  sel <-
    (if all_nodes then
       if truthy_name node_name then
         log Error "Cannot start. Either NAME or option --all should be used" [] ;;;
         sys_exit 1
       else
         d <- must (get_fabric_objects ctx k current_fabric) ;;
         match start_all_targets d with
         | [] => log Error "Cannot start. There are no configured" [kind_name] ;;;
                 sys_exit 1
         | obj_list => ret (Targets (Some obj_list))
         end
     else
       match node_name with
       | None =>
           log Error "Cannot start. Either NAME or option --all should be used" [] ;;;
           sys_exit 1
       | Some name =>
           if negb (truthy_name node_name) then ret (Targets None)
           else
           obj_name <- normalise_state_obj_name kind_name name ;;
           exists_ <- must (check_nodeobj ctx current_fabric obj_name k) ;;
           if negb exists_ then
             log Error "Cannot start. Doesn't exist" [kind_name; obj_name] ;;;
             sys_exit 1
           else
           d <- must (get_fabric_objects ctx k current_fabric) ;;
           obj <- must (dict_get obj_name d) ;;
           if check_object_state obj DELETING then
             log Error "Cannot proceed, object is set for deletion!" [] ;;;
             sys_exit 1
           else if check_object_state obj STARTED
                   && check_object_status obj SUCCESS then
             log Warn "is already started" [kind_name; obj_name] ;;;
             ret (Return true)
           else if negb (check_object_state obj CONFIGURED
                         || check_object_state obj STOPPED) then
             log Error "Cannot start. Should be configured" [kind_name; obj_name] ;;;
             sys_exit 1
           else ret (Targets (Some [name]))
       end) ;;
  run_selection "to be started (used with --dry-run)" method current_fabric
                dry_run sel.

(** [stop_workload] and [stop_processor] *)
Definition stop_node (k : ObjectKind) (kind_name : string)
    (method : State -> string -> list string -> M ((bool * nat) * State))
    (node_name : option string) (dry_run all_nodes : bool) : M bool :=
  current_fabric <-
    require_current_fabric "Cannot stop. Please select fabric first." ;;
  ctx <- get_ctx ;;
  sel <-
    (if all_nodes then
       if truthy_name node_name then
         log Error "Cannot stop. Either NAME or option --all should be used" [] ;;;
         sys_exit 1
       else
         d <- must (get_fabric_objects ctx k current_fabric) ;;
         match start_all_targets d with
         | [] => log Error "Cannot stop. There are no configured" [kind_name] ;;;
                 sys_exit 1
         | obj_list => ret (Targets (Some obj_list))
         end
     else
       match node_name with
       | None =>
           log Error "Cannot stop. Either NAME or option --all should be used" [] ;;;
           sys_exit 1
       | Some name =>
           if negb (truthy_name node_name) then ret (Targets None)
           else
           obj_name <- normalise_state_obj_name kind_name name ;;
           exists_ <- must (check_nodeobj ctx current_fabric obj_name k) ;;
           if negb exists_ then
             log Error "Cannot stop. Doesn't exist" [kind_name; obj_name] ;;;
             sys_exit 1
           else
           d <- must (get_fabric_objects ctx k current_fabric) ;;
           obj <- must (dict_get obj_name d) ;;
           if check_object_state obj DELETING then
             log Error "Cannot proceed, object is set for deletion!" [] ;;;
             sys_exit 1
           else if check_object_state obj STOPPED
                   && check_object_status obj SUCCESS then
             log Warn "is already stopped" [kind_name; obj_name] ;;;
             ret (Return true)
           else if negb (check_object_state obj STARTED) then
             log Error "Cannot stop. Should be started" [kind_name; obj_name] ;;;
             sys_exit 1
           else ret (Targets (Some [name]))
       end) ;;
  run_selection "to be stopped (used with --dry-run)" method current_fabric
                dry_run sel.

Definition start_workload := start_node WORKLOAD "workload" (workload_start oracle).
Definition start_processor :=
  start_node PROCESSOR "processor" (processor_start oracle).
Definition stop_workload := stop_node WORKLOAD "workload" (workload_stop oracle).
Definition stop_processor :=
  stop_node PROCESSOR "processor" (processor_stop oracle).

(** *** Configure *)












(** *** Create fabric *)

(** [create_fabric]. A fabric that is in the state is taken up again only
    when its status is failed and it is not configured; what the method
    recorded reaches the state only when it returned true. *)
Definition create_fabric (fabric_name : string) : M bool :=
  fabric_name <- normalise_state_obj_name "fabric" fabric_name ;;
  temp_state <- get_ctx ;;
  temp_state <-
    (if check_fabric temp_state fabric_name then
       obj <- must (get_fabric temp_state fabric_name) ;;
       if negb (check_object_status obj FAILED)
          || check_object_state obj CONFIGURED then
         log Error "Cannot create. Fabric already exists" [fabric_name] ;;;
         sys_exit 1
       else ret temp_state
     else ret (add_fabric temp_state fabric_name get_clean_fabric)) ;;
  temp_state <- must (update_fabric temp_state fabric_name
                        (fun f => set_object_state_status f CREATED SUCCESS)) ;;
  r <- fabric_create oracle temp_state fabric_name ;;
  let '(res, temp_state) := r in
  if negb (fst res) then sys_exit (snd res)
  else
  obj <- must (get_fabric temp_state fabric_name) ;;
  (if negb (check_object_status obj FAILED) then
     log Okay "Fabric created successfully" [fabric_name]
   else ret tt) ;;;
  commit temp_state ;;;
  ret true.

End MoreCommands.

(** *** What a delete command leaves behind *)

(** A command that deletes the node [obj_name] of a kind: a dry run makes
    no external call and changes nothing; whenever the command does not
    return true, the state in memory and the state on disk are as they
    were; and when it returns true without dry run, the node was in the
    current fabric and the new state is the old one without it. *)
Definition deletes_node {W : Type} (cmd : bool -> M W bool)
    (k : ObjectKind) (obj_name : string) : Prop :=
  forall dry_run m r m',
    cmd dry_run m = (r, m') ->
    (dry_run = true -> quiet m m') /\
    (r <> Ok true ->
     ctx_state m' = ctx_state m /\ persisted m' = persisted m) /\
    (r = Ok true -> dry_run = false ->
     exists f d,
       get_current_fabric (ctx_state m) = Some f /\
       get_fabric_objects (ctx_state m) k f = Some d /\
       dict_mem obj_name d = true /\
       get_fabric_objects (ctx_state m') k f = Some (dict_del obj_name d) /\
       (NoDup (dict_keys d) ->
        get_fabric_object (ctx_state m') k obj_name f = Some None) /\
       (forall f' k' n,
          ~ (f' = f /\ k' = k /\ n = obj_name) ->
          get_fabric_object (ctx_state m') k' n f'
          = get_fabric_object (ctx_state m) k' n f') /\
       (forall f', get_fabric_vpcs (ctx_state m') f'
                   = get_fabric_vpcs (ctx_state m) f') /\
       batch (ctx_state m') = batch (ctx_state m)).

(** *** What [nodebatch_delete] looks for *)

(** The test [nodebatch_delete] applies to the members of a batch: the VPC
    of the member when a VPC is given, its fabric otherwise. *)
Definition nodebatch_scope (fabric_name vpc : option string) (e : Entry)
    : bool :=
  match vpc, fabric_name with
  | Some v, _ => String.eqb (e_vpc e) v
  | None, Some f => String.eqb (e_fabric e) f
  | None, None => false
  end.

(** The batch records a workload or a processor that passes the test. *)
Definition has_member (sel : Entry -> bool) (nb : NodeBatch) : Prop :=
  exists n e,
    sel e = true /\
    ((exists d, nb_workload nb = Some d /\ In (n, e) d) \/
     (exists d, nb_processor nb = Some d /\ In (n, e) d)).

(** *** What a start or stop command leaves behind *)

(** A start or stop command with [--all] and without dry run, in a fabric
    whose nodes of the kind are [d]: when it returns true, every node that
    is neither being deleted nor in state created has the target state
    with status success; when it leaves through [sys.exit], either the
    state is as it was or every such node has the target state with status
    failed; no other node changes, and a crash changes nothing. *)
Definition runs_on_all {W : Type}
    (cmd : option string -> bool -> bool -> M W bool)
    (k : ObjectKind) (target : ObjectState) : Prop :=
  forall m f d r m',
    get_current_fabric (ctx_state m) = Some f ->
    get_fabric_objects (ctx_state m) k f = Some d ->
    cmd None false true m = (r, m') ->
    (r = Ok true ->
     forall n o, In (n, o) d ->
       check_object_state o DELETING = false ->
       check_object_state o CREATED = false ->
       recorded (ctx_state m') f k n target SUCCESS) /\
    (forall code, r = Exit code ->
     ctx_state m' = ctx_state m \/
     forall n o, In (n, o) d ->
       check_object_state o DELETING = false ->
       check_object_state o CREATED = false ->
       recorded (ctx_state m') f k n target FAILED) /\
    (r = Crash -> ctx_state m' = ctx_state m) /\
    same_outside (ctx_state m) (ctx_state m') f k (start_all_targets d).

(** A start or stop command with a name. A node that has the target state
    with status success already makes it return true with no external call
    and nothing changed, with or without dry run. A name that is no key of
    the nodes of the kind is never acted on: without dry run the state in
    memory is as it was, and the command returns true only when the node
    of the normalised name is in the target state already. *)
Definition runs_on_name {W : Type}
    (cmd : option string -> bool -> bool -> M W bool)
    (k : ObjectKind) (target : ObjectState) : Prop :=
  forall name m f d,
    get_current_fabric (ctx_state m) = Some f ->
    truthy_name (Some f) = true ->
    get_fabric_objects (ctx_state m) k f = Some d ->
    truthy_name (Some name) = true ->
    (forall obj dry_run,
       dict_get (normalise_string name) d = Some obj ->
       n_state obj = Some target -> n_status obj = Some SUCCESS ->
       exists m',
         cmd (Some name) dry_run false m = (Ok true, m') /\ quiet m m') /\
    (dict_get name d = None ->
     forall r m',
       cmd (Some name) false false m = (r, m') ->
       ctx_state m' = ctx_state m /\
       (r = Ok true ->
        exists obj,
          dict_get (normalise_string name) d = Some obj /\
          n_state obj = Some target /\ n_status obj = Some SUCCESS)).

(** *** What a configure command leaves behind *)



(** *** What the plan of [create_batch] holds *)

(** [create_target[fabric][kind]], and nothing for a fabric the plan does
    not have. *)
Definition target_names (create_target : Dict Target) (fabric_name : string)
    (k : ObjectKind) : list string :=
  match dict_get fabric_name create_target with
  | Some t => target_get t k
  | None => []
  end.

(** The names of the objects of a kind that a batch declares for a
    fabric, in file order. *)
Definition declared_names (batch_spec : list Entry) (fabric_name : string)
    (k : ObjectKind) : list string :=
  map e_name (filter (fun e => String.eqb (entry_fabric e) fabric_name)
                     (get_attr_list batch_spec k)).

(** *** More example inputs *)

(** A telemetry orchestrator that was created, in a fabric without swarm
    manager. *)
Definition example_telemetry : NodeObj :=
  mkNode 1 "aws1-vpc-f" (Some CREATED) (Some SUCCESS) (Some Telemetry)
         RoleUnset []
         [("dns_enabled", Some "true"); ("ip", Some "10.0.0.3")].

Definition example_fabric_telemetry : FabricObj :=
  mkFabric (Some "acme") (Some "cred") None
           [("aws1-c01-f", example_telemetry)]
           [("aws1-p01-f", example_processor)] []
           [("aws1-vpc-f", example_vpc)] (Some CONFIGURED) (Some SUCCESS).

Definition example_state_telemetry : State :=
  mkState example_config [] [("f", example_fabric_telemetry)].

(** A workload in a VPC that has no processor. *)
Definition example_orphan : NodeObj :=
  mkNode 1 "aws2-vpc-f" (Some CONFIGURED) (Some SUCCESS) None RoleUnset
         [("orchestrator", VStr "c.example")]
         [("dns_enabled", Some "true"); ("ip", Some "10.0.1.2")].

Definition example_fabric_orphan : FabricObj :=
  mkFabric (Some "acme") (Some "cred") None []
           [("aws1-p01-f", example_processor)]
           [("aws2-w01-f", example_orphan)]
           [("aws1-vpc-f", example_vpc); ("aws2-vpc-f", example_vpc)]
           (Some CONFIGURED) (Some SUCCESS).

Definition example_state_orphan : State :=
  mkState example_config [] [("f", example_fabric_orphan)].

(** A run of [obj_create] on the processor of the example state, and one
    of [create_vpc]. *)
Definition example_obj_create : Res ((bool * nat) * State) * Machine unit :=
  obj_create oracle_ok example_state "f" [(PROCESSOR, ["aws1-p01-f"])]
             (machine_of example_state).

Definition example_create_vpc : Res bool * Machine unit :=
  create_vpc oracle_ok example_regions "aws" "us-east-1" false
             (machine_of example_state).

(** A swarm of two orchestrators: a manager and a worker. *)
Definition example_manager : NodeObj :=
  mkNode 1 "aws1-vpc-f" (Some CONFIGURED) (Some SUCCESS) (Some Controller)
         Manager [] [("ip", Some "10.0.0.4")].

Definition example_worker : NodeObj :=
  mkNode 2 "aws1-vpc-f" (Some CONFIGURED) (Some SUCCESS) (Some Telemetry)
         Worker [] [("ip", Some "10.0.0.5")].

Definition example_fabric_swarm : FabricObj :=
  mkFabric (Some "acme") (Some "cred") None
           [("aws1-c01-f", example_manager); ("aws1-c02-f", example_worker)]
           [] [] [("aws1-vpc-f", example_vpc)] (Some CONFIGURED) (Some SUCCESS).

Definition example_state_swarm : State :=
  mkState example_config [] [("f", example_fabric_swarm)].

(** A state with a node batch that records a workload of a VPC that is
    empty by now, and a run of [delete_vpc] on that VPC. *)
Definition workload_entry (name fabric_name vpc : string) : Entry :=
  mkEntry WORKLOAD name fabric_name vpc "" "" Controller RoleUnset [] None
          CREATED [] 0 None None "".

Definition example_recorded_batch : NodeBatch :=
  mkNodeBatch (Some CREATED) None
              (Some [("aws2-w01-f", workload_entry "aws2-w01-f" "f" "aws2-vpc-f")]).

Definition example_fabric_two_vpcs : FabricObj :=
  mkFabric (Some "acme") (Some "cred") None []
           [("aws1-p01-f", example_processor)] []
           [("aws1-vpc-f", example_vpc); ("aws2-vpc-f", example_vpc)]
           (Some CONFIGURED) (Some SUCCESS).

Definition example_state_batch : State :=
  mkState example_config [("nb1", example_recorded_batch)]
          [("f", example_fabric_two_vpcs)].

Definition example_delete_vpc : Res bool * Machine unit :=
  delete_vpc oracle_ok "aws2-vpc-f" false (machine_of example_state_batch).

(** An empty fabric next to the current one, with a node batch that still
    records one of its workloads, and a run of [delete_fabric] on it. *)
Definition example_stale_batch : NodeBatch :=
  mkNodeBatch (Some CREATED) None
              (Some [("aws1-w01-g", workload_entry "aws1-w01-g" "g" "aws1-vpc-g")]).

Definition example_state_empty_fabric : State :=
  mkState example_config [("nb1", example_stale_batch)]
          [("f", example_fabric); ("g", example_fabric_created)].

Definition example_delete_fabric : Res bool * Machine unit :=
  delete_fabric oracle_ok "g" (machine_of example_state_empty_fabric).




(** A processor whose creation failed: a clean object recorded as
    (created, failed), which has no property [ip]; and a workload of the
    same VPC next to it. *)
Definition example_failed_processor : NodeObj :=
  set_object_state_status (get_clean_processor example_state 1 "aws1-vpc-f")
                          CREATED FAILED.

Definition example_fabric_failed_proxy : FabricObj :=
  mkFabric (Some "acme") (Some "cred") None []
           [("aws1-p01-f", example_failed_processor)]
           [("aws1-w01-f", example_workload)]
           [("aws1-vpc-f", example_vpc)]
           (Some CONFIGURED) (Some SUCCESS).

Definition example_state_failed_proxy : State :=
  mkState example_config [] [("f", example_fabric_failed_proxy)].

(** [create fabric F2] on the example state, with every tool succeeding. *)
Definition example_create_fabric : Res bool * Machine unit :=
  create_fabric oracle_ok "F2" (machine_of example_state).

(** * Theorems *)

(** ** Enumerations and dictionaries *)

Lemma state_eqb_eq : forall a b, state_eqb a b = true <-> a = b.
Proof. destruct a, b; simpl; split; intro H; try reflexivity; discriminate. Qed.

Lemma status_eqb_eq : forall a b, status_eqb a b = true <-> a = b.
Proof. destruct a, b; simpl; split; intro H; try reflexivity; discriminate. Qed.

Lemma otype_eqb_eq : forall a b, otype_eqb a b = true <-> a = b.
Proof. destruct a, b; simpl; split; intro H; try reflexivity; discriminate. Qed.

Lemma kind_eqb_eq : forall a b, kind_eqb a b = true <-> a = b.
Proof. destruct a, b; simpl; split; intro H; try reflexivity; discriminate. Qed.

Lemma dict_get_In : forall (V : Type) k (v : V) d,
  dict_get k d = Some v -> In (k, v) d.
Proof.
  induction d as [|[k' v'] d IH]; simpl; [discriminate|].
  destruct (String.eqb k k') eqn:E.
  - apply String.eqb_eq in E. subst. intro H. injection H as ->.
    left; reflexivity.
  - intro H. right. apply IH. exact H.
Qed.

(** ** The action matrix *)

(** C1, as the specification states it, fails on Scenario C: for a workload
    in (started, failed) with target started and a changed configuration the
    code plans a start only, not a configuration followed by a start. *)
Lemma set_action_list_scenario_C_counterexample :
  conf_ne (Some scenario_C_batch_conf) (Some scenario_C_state_conf) = true /\
  set_action_list (Some STARTED) (Some FAILED) STARTED node_actions
                  "aws1-w01-f" WORKLOAD (Some scenario_C_batch_conf)
                  (Some scenario_C_state_conf)
  = apply_plan plan_start "aws1-w01-f" node_actions /\
  set_action_list (Some STARTED) (Some FAILED) STARTED node_actions
                  "aws1-w01-f" WORKLOAD (Some scenario_C_batch_conf)
                  (Some scenario_C_state_conf)
  <> apply_plan plan_config_start "aws1-w01-f" node_actions.
Proof. repeat split; try reflexivity. discriminate. Qed.

(** C1 (amended): for a processor and for a workload, in every current
    state, status, target state and for every pair of configurations, the
    planner appends the entity to exactly the action lists of the first
    matching row of the table, where the two rows for an unchanged
    configuration that leave a started or a stopped state apply to either
    status; a combination without a row plans nothing. A retry row comes
    first, so (started, failed) with target started plans a start whether or
    not the configuration changed. *)
Theorem set_action_list_table :
  forall (current : ObjectState) (status : ObjectStatus)
         (target : ObjectState) (batch_conf state_conf : option Conf)
         (entity : string) (c s t : list string),
    let actions := mkActions c (Some s) (Some t) in
    let plan := first_match table_4_2_code current status target
                            (conf_ne batch_conf state_conf) in
    set_action_list (Some current) (Some status) target actions entity
                    PROCESSOR batch_conf state_conf
    = apply_plan plan entity actions /\
    set_action_list (Some current) (Some status) target actions entity
                    WORKLOAD batch_conf state_conf
    = apply_plan plan entity actions /\
    first_match table_4_2_code STARTED FAILED STARTED true = plan_start /\
    first_match table_4_2_code STARTED FAILED STARTED false = plan_start.
Proof.
  intros current status target batch_conf state_conf entity c s t.
  unfold set_action_list.
  destruct (conf_ne batch_conf state_conf);
    destruct current, status, target; repeat split; reflexivity.
Qed.

(** The table as the specification prints it and the table the code
    implements, both read top to bottom, give the same plan wherever the
    printed table has a row. *)
Lemma table_4_2_code_agrees :
  forall current status target drift,
    (exists r, find (row_matches current status target drift) table_4_2
               = Some r) ->
    first_match table_4_2_code current status target drift
    = first_match table_4_2 current status target drift.
Proof.
  intros current status target drift [r H].
  destruct current, status, target, drift; try reflexivity;
    vm_compute in H; discriminate.
Qed.

(** ** The current fabric *)

Lemma selectableb_spec : forall f, selectableb f = true <-> selectable f.
Proof.
  intro f.
  unfold selectableb, selectable, check_object_state, check_object_status,
    get_object_state, get_object_status. simpl.
  destruct (f_state f) as [[]|]; destruct (f_status f) as [[]|]; simpl;
    split; intro H; try discriminate; try reflexivity; auto;
    destruct H as [[H1 H2]|H]; discriminate.
Qed.

Lemma get_current_fabric_iff : forall (s : State) (name : string),
  get_current_fabric s = Some name <->
  cfg_current_fabric (config s) = Some name /\
  exists f, dict_get name (fabric s) = Some f /\ selectable f.
Proof.
  intros s name. unfold get_current_fabric, check_fabric, dict_mem.
  destruct (cfg_current_fabric (config s)) as [cf|].
  2:{ split; [discriminate | intros [H _]; discriminate]. }
  destruct (dict_get cf (fabric s)) as [f|] eqn:Hf.
  2:{ split; [discriminate |].
      intros [H [f [Hg _]]]. injection H as ->. congruence. }
  fold (selectableb f). destruct (selectableb f) eqn:Hsel.
  - split.
    + intro H. injection H as <-. split; [reflexivity|]. exists f.
      split; [exact Hf|]. apply selectableb_spec; exact Hsel.
    + intros [H _]. exact H.
  - split; [discriminate|]. intros [H [f' [Hg Hs]]]. injection H as <-.
    rewrite Hf in Hg. injection Hg as <-. apply selectableb_spec in Hs.
    congruence.
Qed.

Section Guards.
Variable W : Type.
Variable oracle : Call -> W -> Answer * W.
Variable cloud_regions : string -> list string.

Lemma require_current_fabric_falsy : forall what (m : Machine W),
  truthy_name (get_current_fabric (ctx_state m)) = false ->
  require_current_fabric what m =
  (Exit 1, mkMachine (ctx_state m) (persisted m) (world m) (trace m)
                     (logs m ++ [mkLog Error what []])).
Proof.
  intros what m H. unfold require_current_fabric, bind, get_ctx. simpl.
  rewrite H. reflexivity.
Qed.

Lemma refused_without_fabric :
  forall (A : Type) what (k : string -> M W A) (m : Machine W),
    truthy_name (get_current_fabric (ctx_state m)) = false ->
    refused (bind (require_current_fabric what) k m) m.
Proof.
  intros A what k m H. unfold bind.
  rewrite (require_current_fabric_falsy what m H).
  repeat split; reflexivity.
Qed.

(** C10: the accessor returns the configured name exactly when a fabric of
    that name exists and is configured with success or being deleted; in
    every other case it returns [None], and then the commands that need a
    current fabric (here the create and delete commands of the model) are
    refused before they touch anything. *)
Theorem get_current_fabric_selectable_only :
  forall (s : State),
    (forall name,
        get_current_fabric s = Some name <->
        cfg_current_fabric (config s) = Some name /\
        exists f, dict_get name (fabric s) = Some f /\ selectable f) /\
    (forall name f,
        cfg_current_fabric (config s) = Some name ->
        dict_get name (fabric s) = Some f ->
        f_state f = Some CREATED
        \/ (f_state f = Some CONFIGURED /\ f_status f = Some FAILED) ->
        get_current_fabric s = None) /\
    (get_current_fabric s = None ->
     forall (m : Machine W), ctx_state m = s ->
       (forall name dry_run, refused (delete_processor oracle name dry_run m) m) /\
       (forall k t os vpc, refused (create_node oracle k t os vpc m) m) /\
       (forall cloud region dry_run,
           refused (create_vpc oracle cloud_regions cloud region dry_run m) m)).
Proof.
  intro s. split; [intro name; apply get_current_fabric_iff|]. split.
  - intros name f Hc Hf Hst.
    destruct (get_current_fabric s) as [n|] eqn:Hg; [|reflexivity].
    apply get_current_fabric_iff in Hg. destruct Hg as [Hn [f' [Hf' Hsel]]].
    rewrite Hc in Hn. injection Hn as <-. rewrite Hf in Hf'.
    injection Hf' as <-. exfalso.
    destruct Hsel as [[H1 H2]|H1]; destruct Hst as [H3|[H3 H4]]; congruence.
  - intros Hnone m Hm.
    assert (Hf : truthy_name (get_current_fabric (ctx_state m)) = false)
      by (rewrite Hm, Hnone; reflexivity).
    repeat split; intros; apply refused_without_fabric; exact Hf.
Qed.

(** ** Deleting the last processor of a VPC *)

Lemma names_in_vpc_sole : forall d vpc name,
  NoDup (dict_keys d) ->
  (forall n q, In (n, q) d -> n_vpc q = vpc -> n = name) ->
  List.length (names_in_vpc d vpc) < 2.
Proof.
  unfold names_in_vpc.
  induction d as [|[k v] d IH]; intros vpc name Hnd Hall; simpl.
  - lia.
  - inversion Hnd as [|? ? Hnot Hnd']; subst.
    destruct (String.eqb vpc (n_vpc v)) eqn:E; simpl.
    + apply String.eqb_eq in E.
      assert (k = name) by (apply (Hall k v); [left; reflexivity | auto]).
      subst k.
      destruct (filter (fun x => String.eqb vpc (n_vpc (snd x))) d)
        as [|[k' v'] r] eqn:F; [simpl; lia|].
      exfalso.
      assert (Hin : In (k', v')
                      (filter (fun x => String.eqb vpc (n_vpc (snd x))) d))
        by (rewrite F; left; reflexivity).
      apply filter_In in Hin. destruct Hin as [Hin Hv]. simpl in Hv.
      apply String.eqb_eq in Hv.
      assert (k' = name) by (apply (Hall k' v'); [right; exact Hin | auto]).
      subst k'. apply Hnot. unfold dict_keys.
      change name with (fst (name, v')). apply in_map. exact Hin.
    + apply (IH vpc name Hnd'). intros n q Hin. apply Hall. right. exact Hin.
Qed.

Lemma names_in_vpc_nonempty : forall d vpc w,
  In w d -> n_vpc (snd w) = vpc ->
  Nat.eqb (List.length (names_in_vpc d vpc)) 0 = false.
Proof.
  intros d vpc w Hin Hv. unfold names_in_vpc.
  assert (H : In w (filter (fun x => String.eqb vpc (n_vpc (snd x))) d)).
  { apply filter_In. split; [exact Hin|]. rewrite Hv. apply String.eqb_refl. }
  destruct (filter (fun x => String.eqb vpc (n_vpc (snd x))) d);
    [destruct H | reflexivity].
Qed.

(** C7: when the named processor is the only processor of its VPC in the
    current fabric and a workload lives in that VPC, [delete processor]
    leaves through [sys.exit(1)] before any external call, and the state in
    memory and the persisted state are what they were. *)
Theorem delete_processor_guard :
  forall (m : Machine W) (processor_name : string) (dry_run : bool)
         (fabric_name : string) (f : FabricObj),
    get_current_fabric (ctx_state m) = Some fabric_name ->
    dict_get fabric_name (fabric (ctx_state m)) = Some f ->
    NoDup (dict_keys (f_processor f)) ->
    sole_processor_with_workloads f (normalise_string processor_name) ->
    refused (delete_processor oracle processor_name dry_run m) m.
Proof.
  intros m pn dry fname f Hcur Hf Hnd [p [Hp [Hsole [w [Hw Hwv]]]]].
  assert (Hlt : Nat.ltb (List.length (names_in_vpc (f_processor f) (n_vpc p)))
                        2 = true).
  { apply Nat.ltb_lt.
    apply names_in_vpc_sole with (name := normalise_string pn); auto. }
  assert (Hne : Nat.eqb (List.length (names_in_vpc (f_workload f) (n_vpc p)))
                        0 = false).
  { apply names_in_vpc_nonempty with (w := w); auto. }
  unfold refused, delete_processor, require_current_fabric,
    normalise_state_obj_name.
  unfold bind, get_ctx, must, log, sys_exit, ret.
  cbn [ctx_state persisted world trace logs fst snd].
  rewrite Hcur.
  destruct (truthy_name (Some fname));
    cbn [negb fst snd ctx_state persisted world trace logs];
    [| repeat split; reflexivity].
  unfold check_processor, check_nodeobj, node_vpc, get_fabric_objects,
    get_fabric, dict_mem.
  destruct (String.eqb pn (normalise_string pn));
    cbn [fst snd ctx_state persisted world trace logs];
    rewrite Hf; cbn [fabric_nodes option_map]; rewrite Hp;
    cbn [negb option_map fst snd ctx_state persisted world trace logs];
    rewrite Hlt, Hne;
    cbn [negb andb fst snd ctx_state persisted world trace logs];
    repeat split; reflexivity.
Qed.

End Guards.

(** The guard of C10 at work on a fabric that is created but not yet
    configured. *)
Lemma get_current_fabric_selectable_only_witness :
  get_current_fabric example_state_created = None /\
  refused (delete_processor oracle_ok "aws1-p01-f" false
                            (machine_of example_state_created))
          (machine_of example_state_created).
Proof.
  split; [reflexivity|].
  apply (get_current_fabric_selectable_only oracle_ok example_regions
           example_state_created); reflexivity.
Defined.

(** The guard of C7 at work: the only processor of a VPC that hosts a
    workload. *)
Lemma delete_processor_guard_witness :
  get_current_fabric example_state_workload = Some "f" /\
  sole_processor_with_workloads example_fabric_workload "aws1-p01-f" /\
  refused (delete_processor oracle_ok "AWS1-P01-f" false
                            (machine_of example_state_workload))
          (machine_of example_state_workload).
Proof.
  assert (Hsole : sole_processor_with_workloads example_fabric_workload
                                                "aws1-p01-f").
  { exists example_processor. split; [reflexivity|]. split.
    - intros n q [H|[]] _. injection H as <- _. reflexivity.
    - exists ("aws1-w01-f", example_workload). split; [left|]; reflexivity. }
  split; [reflexivity|]. split; [exact Hsole|].
  apply (delete_processor_guard oracle_ok (machine_of example_state_workload)
           "AWS1-P01-f" false (fabric_name := "f")
           (f := example_fabric_workload)).
  - reflexivity.
  - reflexivity.
  - repeat constructor; simpl; intuition discriminate.
  - exact Hsole.
Defined.

(** ** Derived names *)

(** The create commands build the name with [{:02d}]: index, name and DNS
    flag of a first node or of an advance. *)
Lemma create_node_identity_name :
  forall (W : Type) (ctx : State) (k : ObjectKind) (fabric_name vpc : string)
         (d : Dict NodeObj) (m : Machine W),
    get_fabric_objects ctx k fabric_name = Some d ->
    last_created_failed (nodes_in_vpc d vpc) = false ->
    create_node_identity ctx k fabric_name vpc m
    = (Ok (node_index (nodes_in_vpc d vpc),
           node_name vpc (obj_char k) (node_index (nodes_in_vpc d vpc))
                     fabric_name,
           Some "false"), m).
Proof.
  intros W ctx k fabric_name vpc d m Hd Hl.
  unfold create_node_identity, bind, must, ret. rewrite Hd. simpl.
  rewrite Hl. reflexivity.
Qed.

(** Below ten the name of a node-batch member has the same form. *)
Lemma nodebatch_node_name_below_ten :
  forall (vpc char fabric_name : string) (index : nat),
    index < 10 ->
    nodebatch_node_name vpc char index fabric_name
    = node_name vpc char index fabric_name.
Proof.
  intros vpc char fabric_name index H.
  unfold nodebatch_node_name, node_name, format_02d.
  apply Nat.ltb_lt in H. rewrite H. reflexivity.
Qed.

(** C4 fails on the code: the expansion of a node batch writes ['0' +
    str(index)], so the tenth member of a batch in an empty VPC is named
    [aws1-w010-f], where [{index:02d}] gives [aws1-w10-f]. *)
Theorem nodebatch_name_not_02d :
  option_map (fun s => recorded_members s "nb1" WORKLOAD)
             (nodebatch_expand example_state "nb1" WORKLOAD "w" "f"
                               example_template 10)
  = Some (Some ["aws1-w01-f"; "aws1-w02-f"; "aws1-w03-f"; "aws1-w04-f";
                "aws1-w05-f"; "aws1-w06-f"; "aws1-w07-f"; "aws1-w08-f";
                "aws1-w09-f"; "aws1-w010-f"]) /\
  nodebatch_node_name "aws1-vpc-f" "w" 10 "f" = "aws1-w010-f" /\
  node_name "aws1-vpc-f" "w" 10 "f" = "aws1-w10-f".
Proof. repeat split; reflexivity. Qed.

(** ** Node batches that are finished *)

(** Whether a batch is removed does not depend on the nodes of any fabric:
    the check reads the batch entry only. *)
Lemma nodebatch_check_ignores_nodes :
  forall (targets rest : list string) (s : State) (d : Dict FabricObj)
         (state : ObjectState) (k : ObjectKind),
    option_map (fun r => (batch (fst r), snd r))
               (nodebatch_check_loop rest (with_fabrics s d) state k targets)
    = option_map (fun r => (batch (fst r), snd r))
                 (nodebatch_check_loop rest s state k targets).
Proof.
  intros targets rest. revert targets.
  induction rest as [|nb rest IH]; intros targets s d state k; simpl;
    [reflexivity|].
  unfold nodebatch_check_one, get_nodebatch, delete_nodebatch. simpl.
  destruct (dict_get nb (batch s)) as [b|]; [|reflexivity].
  destruct (check_object_state b state
            && kind_eqb match nb_processor b with
                        | Some _ => PROCESSOR
                        | None => WORKLOAD
                        end k).
  - destruct (dict_mem nb (batch s)); [|reflexivity].
    change (with_batches (with_fabrics s d) (dict_del nb (batch s)))
      with (with_fabrics (with_batches s (dict_del nb (batch s))) d).
    apply IH.
  - apply IH.
Qed.


(** ** Failures inside a batch *)

(** A failed node creation in one fabric sets the flag and the next fabric
    is processed. *)
Lemma create_batch_node_failure_continues :
  let r := create_batch oracle_apply_fails_f1 api_version
                        two_processors_batch (machine_of two_fabrics) in
  fst r = Exit 1 /\
  persisted_nodes r "f1" PROCESSOR = Some [("p-a", Some CREATED, Some FAILED)] /\
  persisted_nodes r "f2" PROCESSOR = Some [("p-b", Some CREATED, Some SUCCESS)].
Proof. vm_compute. repeat split; reflexivity. Qed.

(** C5 fails on the code: when Terraform fails on the VPC of the first
    fabric, [create_batch] leaves through [sys.exit] with the tool's code
    at once; no call is made for the second fabric and its VPC is never
    recorded. *)
Theorem create_batch_vpc_failure_aborts :
  let r := create_batch oracle_apply_fails_f1 api_version two_vpcs_batch
                        (machine_of two_fabrics) in
  fst r = Exit 1 /\
  filter (call_for "f2") (trace (snd r)) = [] /\
  option_map (fun d => dict_mem "aws2-vpc-f2" d)
             (get_fabric_vpcs (persisted (snd r)) "f2") = Some false /\
  fst (create_batch oracle_ok api_version two_vpcs_batch
                    (machine_of two_fabrics)) = Ok true.
Proof. vm_compute. repeat split; reflexivity. Qed.

(** ** Index allocation *)






Lemma dict_set_fresh : forall (V : Type) k (v : V) d,
  dict_get k d = None -> dict_set k v d = d ++ [(k, v)].
Proof.
  induction d as [|[k' v'] d IH]; simpl; intro H; [reflexivity|].
  destruct (String.eqb k k'); [discriminate|]. rewrite IH by exact H.
  reflexivity.
Qed.






















(** ** Reasoning about commands *)

Ltac break_hyp E :=
  match type of E with
  | context [match ?x with _ => _ end] =>
      match x with
      | context [match _ with _ => _ end] => fail 1
      | _ => destruct x eqn:?
      end
  end.

(** Symbolic execution of a command in a hypothesis [c m = (Ok a, m')]. *)
Ltac run E :=
  repeat (first [ discriminate E
                | progress (unfold bind, ret, must, log, raise, sys_exit in E;
                            cbv beta iota zeta in E)
                | break_hyp E ]).

Section ReturnsFacts.
Variable W : Type.



Lemma returns_for_each :
  forall (A S : Type) (body : A -> S -> M W S)
         (I : Machine W -> S -> Machine W -> S -> Prop),
    (forall m s, I m s m s) ->
    (forall m0 s0 m1 s1 m2 s2,
        I m0 s0 m1 s1 -> I m1 s1 m2 s2 -> I m0 s0 m2 s2) ->
    (forall x s, returns (body x s) (fun m s' m' => I m s m' s')) ->
    forall l s, returns (for_each l body s) (fun m s' m' => I m s m' s').
Proof.
  intros A S body I Hrefl Htrans Hbody.
  induction l as [|x l IH]; intros s m s' m' E; simpl in E.
  - injection E as <- <-. apply Hrefl.
  - unfold bind in E.
    destruct (body x s m) as [[s1| |] m1] eqn:Eb; try discriminate.
    apply (Htrans m s m1 s1 m' s');
      [apply (Hbody x s m s1 m1 Eb) | apply (IH s1 m1 s' m' E)].
Qed.

End ReturnsFacts.

(** ** Dictionaries and names *)

Lemma dict_get_set_same : forall (V : Type) k (v : V) d,
  dict_get k (dict_set k v d) = Some v.
Proof.
  induction d as [|[k' v'] d IH]; simpl.
  - rewrite String.eqb_refl. reflexivity.
  - destruct (String.eqb k k') eqn:E; simpl.
    + rewrite String.eqb_refl. reflexivity.
    + rewrite E. exact IH.
Qed.

Lemma dict_get_set_other : forall (V : Type) k k' (v : V) d,
  k' <> k -> dict_get k' (dict_set k v d) = dict_get k' d.
Proof.
  intros V k k' v d Hne. apply String.eqb_neq in Hne.
  induction d as [|[k0 v0] d IH]; simpl.
  - rewrite Hne. reflexivity.
  - destruct (String.eqb k k0) eqn:E; simpl.
    + apply String.eqb_eq in E. subst k0. rewrite Hne. reflexivity.
    + rewrite IH. reflexivity.
Qed.

Lemma dict_mem_set : forall (V : Type) k k' (v : V) d,
  dict_mem k' (dict_set k v d) = String.eqb k' k || dict_mem k' d.
Proof.
  intros V k k' v d. unfold dict_mem.
  destruct (String.eqb k' k) eqn:E.
  - apply String.eqb_eq in E. subst k'. rewrite dict_get_set_same.
    reflexivity.
  - apply String.eqb_neq in E. rewrite dict_get_set_other by exact E.
    reflexivity.
Qed.







(** ** Node batches: expansion and resume *)






Section Resume.
Variable W : Type.
Variable oracle : Call -> W -> Answer * W.







End Resume.



(** A whole run that resumes: the first run records the batch and fails
    to create its two members, so the entry stays in the state; the second
    run finds it, generates no member, creates the two recorded ones and
    starts them. *)
Lemma create_batch_resumes_recorded_batch :
  recorded_members (persisted (snd resume_run_1)) "nb1" WORKLOAD
  = Some ["aws1-w01-f"; "aws1-w02-f"] /\
  persisted_nodes resume_run_1 "f" WORKLOAD
  = Some [("aws1-w01-f", Some CREATED, Some FAILED);
          ("aws1-w02-f", Some CREATED, Some FAILED)] /\
  fst resume_run_2 = Ok true /\
  persisted_nodes resume_run_2 "f" WORKLOAD
  = Some [("aws1-w01-f", Some STARTED, Some SUCCESS);
          ("aws1-w02-f", Some STARTED, Some SUCCESS)].
Proof. vm_compute. repeat split; reflexivity. Qed.

(** ** Orchestrators: the swarm manager *)

Lemma update_node_orchestrators : forall s fabric_name n g s' d,
  update_node s fabric_name ORCHESTRATOR n g = Some s' ->
  get_fabric_objects s ORCHESTRATOR fabric_name = Some d ->
  exists o, dict_get n d = Some o /\
            get_fabric_objects s' ORCHESTRATOR fabric_name
            = Some (dict_set n (g o) d).
Proof.
  intros s fabric_name n g s' d Hu Hd.
  unfold update_node in Hu. unfold get_fabric_objects in *.
  destruct (get_fabric s fabric_name) as [fo|] eqn:Hf; [|discriminate].
  injection Hd as <-.
  destruct (dict_get n (fabric_nodes fo ORCHESTRATOR)) as [o|] eqn:Ho;
    [|discriminate].
  injection Hu as <-. exists o. split; [exact Ho|].
  unfold get_fabric, with_fabrics. simpl. rewrite dict_get_set_same.
  reflexivity.
Qed.

Lemma managers_dict_set_same : forall n o o' d,
  dict_get n d = Some o -> is_manager o' = is_manager o ->
  map fst (managers (dict_set n o' d)) = map fst (managers d).
Proof.
  intros n o o' d. induction d as [|[k v] d IH]; simpl; intros Hg Hm.
  - discriminate.
  - destruct (String.eqb n k) eqn:E.
    + injection Hg as ->. apply String.eqb_eq in E. subst k.
      unfold managers. simpl. rewrite Hm. destruct (is_manager o); reflexivity.
    + unfold managers in *. simpl. destruct (is_manager v); simpl;
        rewrite (IH Hg Hm); reflexivity.
Qed.

Lemma managers_dict_set_le : forall n o o' d,
  dict_get n d = Some o ->
  List.length (managers (dict_set n o' d))
  <= List.length (managers d) + (if is_manager o' then 1 else 0).
Proof.
  intros n o o' d. induction d as [|[k v] d IH]; simpl; intros Hg.
  - discriminate.
  - destruct (String.eqb n k) eqn:E.
    + unfold managers. simpl.
      destruct (is_manager o'), (is_manager v); simpl; lia.
    + unfold managers in *. simpl. specialize (IH Hg).
      destruct (is_manager v); simpl; lia.
Qed.

Lemma is_controller_dict_set : forall n o o' d x,
  dict_get n d = Some o -> n_type o' = n_type o ->
  is_controller (dict_set n o' d) x = is_controller d x.
Proof.
  intros n o o' d x Hg Ht. unfold is_controller.
  destruct (String.eqb x n) eqn:E.
  - apply String.eqb_eq in E. subst x. rewrite dict_get_set_same, Hg.
    unfold has_type_of. rewrite Ht. reflexivity.
  - apply String.eqb_neq in E. rewrite dict_get_set_other by exact E.
    reflexivity.
Qed.

Lemma assign_roles_managers : forall fabric_name l self found self' found' d,
  assign_roles self fabric_name l found = Some (self', found') ->
  get_fabric_objects self ORCHESTRATOR fabric_name = Some d ->
  exists d',
    get_fabric_objects self' ORCHESTRATOR fabric_name = Some d' /\
    List.length (managers d')
    <= List.length (managers d) + List.length (filter (is_controller d) l).
Proof.
  intros fabric_name. induction l as [|orch l IH];
    intros self found self' found' d Ha Hd; simpl in Ha.
  - injection Ha as <- <-. exists d. split; [exact Hd | simpl; lia].
  - rewrite Hd in Ha.
    destruct (dict_get orch d) as [obj|] eqn:Ho; [|discriminate].
    destruct (update_node _ _ _ _ _) as [self1|] eqn:Hu; [|discriminate].
    destruct (@update_node_orchestrators _ _ _ _ _ _ Hu Hd) as [o [Ho' Hd1]].
    rewrite Ho in Ho'. injection Ho' as <-.
    destruct (IH _ _ _ _ _ Ha Hd1) as [d' [Hd' Hle]].
    exists d'. split; [exact Hd'|].
    rewrite (filter_ext _ (is_controller d)) in Hle
      by (intro x; apply (@is_controller_dict_set orch obj _ d x Ho);
          reflexivity).
    pose proof (@managers_dict_set_le orch obj
                  (set_role (if match n_type obj with
                                 | Some Controller => true
                                 | _ => false
                                 end then Manager else Worker) obj) d Ho)
      as Hs.
    assert (Hic : is_controller d orch = has_type_of Controller obj)
      by (unfold is_controller; rewrite Ho; reflexivity).
    change (filter (is_controller d) (orch :: l))
      with (if is_controller d orch then orch :: filter (is_controller d) l
            else filter (is_controller d) l).
    rewrite Hic.
    assert (Hc : has_type_of Controller obj
                 = match n_type obj with
                   | Some Controller => true
                   | _ => false
                   end).
    { unfold has_type_of. destruct (n_type obj) as [[]|]; reflexivity. }
    rewrite Hc.
    destruct (match n_type obj with Some Controller => true | _ => false end);
      simpl in *; lia.
Qed.

Lemma set_nodes_state_status_managers :
  forall fabric_name state status l s s' d,
    set_nodes_state_status s fabric_name (map (pair ORCHESTRATOR) l) state
                           status = Some s' ->
    get_fabric_objects s ORCHESTRATOR fabric_name = Some d ->
    exists d',
      get_fabric_objects s' ORCHESTRATOR fabric_name = Some d' /\
      map fst (managers d') = map fst (managers d).
Proof.
  intros fabric_name state status. induction l as [|n l IH];
    intros s s' d Hs Hd; simpl in Hs.
  - injection Hs as <-. exists d. split; [exact Hd | reflexivity].
  - destruct (update_node _ _ _ _ _) as [s1|] eqn:Hu; [|discriminate].
    destruct (@update_node_orchestrators _ _ _ _ _ _ Hu Hd) as [o [Ho Hd1]].
    destruct (IH _ _ _ Hs Hd1) as [d' [Hd' Hm]].
    exists d'. split; [exact Hd'|]. rewrite Hm.
    apply (@managers_dict_set_same n o _ _ Ho). reflexivity.
Qed.

Lemma assign_manager_managers : forall self fabric_name l self1 found d,
  assign_manager self fabric_name l = Some (self1, found) ->
  get_fabric_objects self ORCHESTRATOR fabric_name = Some d ->
  exists d1,
    get_fabric_objects self1 ORCHESTRATOR fabric_name = Some d1 /\
    List.length (managers d1)
    <= Nat.max (List.length (managers d))
               (List.length (filter (is_controller d) l)).
Proof.
  intros self fabric_name l self1 found d Ha Hd. unfold assign_manager in Ha.
  rewrite Hd in Ha. destruct (managers d) as [|x ms] eqn:Hm.
  - destruct (@assign_roles_managers _ _ _ _ _ _ _ Ha Hd) as [d1 [Hd1 Hle]].
    exists d1. split; [exact Hd1|]. rewrite Hm in Hle. simpl in *. lia.
  - injection Ha as <- <-. exists d. split; [exact Hd|]. rewrite Hm. lia.
Qed.

Section Configure.
Variable W : Type.
Variable oracle : Call -> W -> Answer * W.

(** A call of [orchestrator_configure] that returns leaves at most as many
    managers as there were, or as the list has controllers. *)
Lemma orchestrator_configure_managers :
  forall self fabric_name l (m : Machine W) res self' m' d,
    get_fabric_objects self ORCHESTRATOR fabric_name = Some d ->
    orchestrator_configure oracle self fabric_name l m
    = (Ok (res, self'), m') ->
    exists d',
      get_fabric_objects self' ORCHESTRATOR fabric_name = Some d' /\
      List.length (managers d')
      <= Nat.max (List.length (managers d))
                 (List.length (filter (is_controller d) l)).
Proof.
  intros self fabric_name l m res self' m' d Hd E.
  unfold orchestrator_configure in E.
  unfold bind at 1 in E. unfold must at 1 in E. rewrite Hd in E.
  unfold ret at 1 in E. cbv beta iota zeta in E.
  unfold bind at 1 in E. unfold must at 1 in E.
  destruct (orchestrator_precheck d l) as [pre|]; [|discriminate E].
  unfold ret at 1 in E. cbv beta iota zeta in E.
  destruct (negb pre).
  { run E. injection E as <- <- <-. exists d. split; [exact Hd | lia]. }
  unfold bind at 1 in E. unfold must at 1 in E.
  destruct (assign_manager self fabric_name l) as [[self1 found]|] eqn:Ha;
    [|discriminate E].
  destruct (@assign_manager_managers _ _ _ _ _ _ Ha Hd) as [d1 [Hd1 Hle]].
  unfold ret at 1 in E. cbv beta iota zeta in E.
  run E; injection E as <- <- <-;
    try match goal with
        | H : Some _ = Some d1 |- _ => injection H as H; subst
        end.
  all: try (eexists; split; [eassumption | exact Hle]).
  all: match goal with
       | H : set_nodes_state_status ?s1 _ _ _ _ = Some _,
         Hg : get_fabric_objects ?s1 _ _ = Some _ |- _ =>
           destruct (@set_nodes_state_status_managers _ _ _ _ _ _ _ H Hg)
             as [d' [Hd' Hm]];
           exists d'; split; [exact Hd'|];
           rewrite <- (length_map fst), Hm, length_map; exact Hle
       end.
Qed.

(** [orchestrator_configure] keeps the fabric at no more than one manager
    when the list it is given names at most one controller of the fabric. *)
Lemma orchestrator_configure_one_manager :
  forall self fabric_name l (m : Machine W) res self' m' d,
    get_fabric_objects self ORCHESTRATOR fabric_name = Some d ->
    List.length (managers d) <= 1 ->
    List.length (filter (is_controller d) l) <= 1 ->
    orchestrator_configure oracle self fabric_name l m
    = (Ok (res, self'), m') ->
    exists d',
      get_fabric_objects self' ORCHESTRATOR fabric_name = Some d' /\
      List.length (managers d') <= 1.
Proof.
  intros self fabric_name l m res self' m' d Hd Hm Hc E.
  destruct (@orchestrator_configure_managers self fabric_name l m res self' m'
              d Hd E) as [d' [Hd' Hle]].
  exists d'. split; [exact Hd' | lia].
Qed.

End Configure.

(** ** Orchestrators: creation adds no manager *)

Lemma no_new_manager_refl : forall s, no_new_manager s s.
Proof. intros s f d H. exists d. split; [exact H | lia]. Qed.

Lemma no_new_manager_trans : forall s1 s2 s3,
  no_new_manager s1 s2 -> no_new_manager s2 s3 -> no_new_manager s1 s3.
Proof.
  intros s1 s2 s3 H12 H23 f d Hd.
  destruct (H12 f d Hd) as [d2 [Hd2 Hle2]].
  destruct (H23 f d2 Hd2) as [d3 [Hd3 Hle3]].
  exists d3. split; [exact Hd3 | lia].
Qed.

Lemma managers_dict_set_not_manager : forall n o' d,
  is_manager o' = false ->
  List.length (managers (dict_set n o' d)) <= List.length (managers d).
Proof.
  intros n o' d Hm. induction d as [|[k v] d IH]; simpl.
  - unfold managers. simpl. rewrite Hm. simpl. lia.
  - destruct (String.eqb n k).
    + unfold managers. simpl. rewrite Hm. destruct (is_manager v); simpl; lia.
    + unfold managers in *. simpl. destruct (is_manager v); simpl; lia.
Qed.

(** The orchestrators of every fabric after one fabric object is
    replaced. *)
Lemma get_fabric_objects_replaced : forall s cf fo fo' f,
  get_fabric s cf = Some fo ->
  get_fabric_objects (with_fabrics s (dict_set cf fo' (fabric s)))
                     ORCHESTRATOR f
  = if String.eqb f cf then Some (f_orchestrator fo')
    else get_fabric_objects s ORCHESTRATOR f.
Proof.
  intros s cf fo fo' f Hf. unfold get_fabric_objects, get_fabric. simpl.
  destruct (String.eqb f cf) eqn:E.
  - apply String.eqb_eq in E. subst f. rewrite dict_get_set_same. reflexivity.
  - apply String.eqb_neq in E. rewrite dict_get_set_other by exact E.
    reflexivity.
Qed.

Lemma replaced_no_new_manager : forall s cf fo fo',
  get_fabric s cf = Some fo ->
  List.length (managers (f_orchestrator fo'))
  <= List.length (managers (f_orchestrator fo)) ->
  no_new_manager s (with_fabrics s (dict_set cf fo' (fabric s))).
Proof.
  intros s cf fo fo' Hf Hle f d Hd.
  rewrite (@get_fabric_objects_replaced s cf fo fo' f Hf).
  destruct (String.eqb f cf) eqn:E.
  - apply String.eqb_eq in E. subst f. unfold get_fabric_objects in Hd.
    rewrite Hf in Hd. injection Hd as <-.
    exists (f_orchestrator fo'). split; [reflexivity | exact Hle].
  - exists d. split; [exact Hd | lia].
Qed.

Lemma update_node_no_new_manager : forall s cf k n g s',
  update_node s cf k n g = Some s' ->
  (forall fo o, get_fabric s cf = Some fo ->
                dict_get n (fabric_nodes fo k) = Some o ->
                is_manager (g o) = is_manager o) ->
  no_new_manager s s'.
Proof.
  intros s cf k n g s' Hu Hg. unfold update_node in Hu.
  destruct (get_fabric s cf) as [fo|] eqn:Hf; [|discriminate].
  destruct (dict_get n (fabric_nodes fo k)) as [o|] eqn:Ho; [|discriminate].
  injection Hu as <-. apply (@replaced_no_new_manager s cf fo _ Hf).
  specialize (Hg fo o eq_refl Ho).
  destruct k; try (simpl; lia). simpl in *.
  rewrite <- (length_map fst),
    (@managers_dict_set_same n o (g o) (f_orchestrator fo) Ho Hg),
    length_map. lia.
Qed.

Lemma add_fabric_obj_no_new_manager : forall s cf k n o s',
  add_fabric_obj s cf k n o = Some s' ->
  is_manager o = false ->
  no_new_manager s s'.
Proof.
  intros s cf k n o s' Ha Hm. unfold add_fabric_obj in Ha.
  destruct (get_fabric s cf) as [fo|] eqn:Hf; [|discriminate].
  injection Ha as <-. apply (@replaced_no_new_manager s cf fo _ Hf).
  destruct k; simpl; try lia.
  apply managers_dict_set_not_manager. exact Hm.
Qed.

Lemma set_nodes_state_status_no_new_manager :
  forall cf state status nodes s s',
    set_nodes_state_status s cf nodes state status = Some s' ->
    no_new_manager s s'.
Proof.
  intros cf state status. induction nodes as [|[k n] nodes IH];
    intros s s' H; simpl in H.
  - injection H as <-. apply no_new_manager_refl.
  - destruct (update_node s cf k n _) as [s1|] eqn:Hu; [|discriminate].
    apply (@no_new_manager_trans s s1 s').
    + apply (@update_node_no_new_manager _ _ _ _ _ _ Hu). reflexivity.
    + apply IH. exact H.
Qed.

Lemma enable_dns_role : forall o o',
  enable_dns o = Some o' -> is_manager o' = is_manager o.
Proof.
  intros o o' H. unfold enable_dns in H.
  destruct (dict_get "dns_enabled" (n_properties o)) as [v|]; [|discriminate].
  repeat match type of H with
         | context [match ?x with _ => _ end] => is_var x; destruct x
         end;
    injection H as <-; reflexivity.
Qed.

Lemma obj_create_enable_dns_no_new_manager : forall cf nodes s s',
  obj_create_enable_dns s cf nodes = Some s' -> no_new_manager s s'.
Proof.
  intros cf. induction nodes as [|[k n] nodes IH]; intros s s' H; simpl in H.
  - injection H as <-. apply no_new_manager_refl.
  - destruct (get_fabric s cf) as [fo|] eqn:Hf; [|discriminate].
    destruct (dict_get n (fabric_nodes fo k)) as [o|] eqn:Ho; [|discriminate].
    destruct (enable_dns o) as [o'|] eqn:He; [|discriminate].
    destruct (update_node s cf k n _) as [s1|] eqn:Hu; [|discriminate].
    apply (@no_new_manager_trans s s1 s').
    + apply (@update_node_no_new_manager _ _ _ _ _ _ Hu).
      intros fo0 o0 Hf0 Ho0. rewrite Hf in Hf0. injection Hf0 as <-.
      rewrite Ho in Ho0. injection Ho0 as <-.
      apply (@enable_dns_role _ _ He).
    + apply IH. exact H.
Qed.

(** Chains the steps that changed the state. *)
Ltac managers_chain :=
  repeat match goal with
         | H : update_node _ _ _ _ _ = Some _ |- _ =>
             apply update_node_no_new_manager in H;
             [|intros; reflexivity]
         | H : set_nodes_state_status _ _ _ _ _ = Some _ |- _ =>
             apply set_nodes_state_status_no_new_manager in H
         | H : obj_create_enable_dns _ _ _ = Some _ |- _ =>
             apply obj_create_enable_dns_no_new_manager in H
         end;
  repeat (eapply no_new_manager_trans; [eassumption|]);
  try apply no_new_manager_refl; try assumption.

Section Creation.
Variable W : Type.
Variable oracle : Call -> W -> Answer * W.

Lemma keeps_ret : forall (A : Type) (a : A), keeps_ctx (W := W) (ret a).
Proof. intros A a m r m' E. injection E as <- <-. reflexivity. Qed.

Lemma keeps_exit : forall (A : Type) code,
  keeps_ctx (W := W) (A := A) (sys_exit code).
Proof. intros A code m r m' E. injection E as <- <-. reflexivity. Qed.

Lemma keeps_must : forall (A : Type) (o : option A),
  keeps_ctx (W := W) (must o).
Proof.
  intros A o m r m' E. unfold must in E.
  destruct o; injection E as <- <-; reflexivity.
Qed.

Lemma keeps_log : forall l text args, keeps_ctx (W := W) (log l text args).
Proof. intros l text args m r m' E. injection E as <- <-. reflexivity. Qed.

Lemma keeps_call : forall c, keeps_ctx (call oracle c).
Proof.
  intros c m r m' E. unfold call in E.
  destruct (oracle c (world m)). injection E as <- <-. reflexivity.
Qed.

Lemma keeps_bind : forall (A B : Type) (c : M W A) (k : A -> M W B),
  keeps_ctx c -> (forall a, keeps_ctx (k a)) -> keeps_ctx (bind c k).
Proof.
  intros A B c k Hc Hk m r m' E. unfold bind in E.
  destruct (c m) as [[a| |] m1] eqn:Ec.
  - rewrite (Hk a m1 r m' E). exact (Hc m _ m1 Ec).
  - injection E as <- <-. exact (Hc m _ m1 Ec).
  - injection E as <- <-. exact (Hc m _ m1 Ec).
Qed.

Lemma keeps_for_each : forall (A S : Type) (body : A -> S -> M W S) l s,
  (forall x s0, keeps_ctx (body x s0)) -> keeps_ctx (for_each l body s).
Proof.
  intros A S body l. induction l as [|x l IH]; intros s Hb; simpl.
  - apply keeps_ret.
  - apply keeps_bind; [apply Hb | intro a; apply IH, Hb].
Qed.

Ltac keeps :=
  repeat first
    [ apply keeps_ret | apply keeps_exit | apply keeps_must | apply keeps_log
    | apply keeps_call
    | apply keeps_for_each; intros
    | apply keeps_bind; [|intros]
    | match goal with
      | |- keeps_ctx (if ?b then _ else _) => destruct b
      | |- keeps_ctx (match ?x with _ => _ end) => destruct x
      end ].

Lemma obj_create_keeps_ctx : forall self cf obj_list,
  keeps_ctx (obj_create oracle self cf obj_list).
Proof.
  intros self cf obj_list.
  unfold obj_create, obj_create_all_failed, obj_create_outputs,
    obj_create_proxies, obj_create_check_online.
  keeps.
Qed.

Lemma obj_create_outputs_no_new_manager :
  forall cf key var_of suffix nodes self,
    returns (obj_create_outputs oracle cf key var_of suffix nodes self)
            (fun (_ : Machine W) r _ => no_new_manager self (fst r)).
Proof.
  intros cf key var_of suffix nodes self m r m' E.
  unfold obj_create_outputs in E.
  apply returns_for_each
    with (I := fun (_ : Machine W) (a : State * bool) (_ : Machine W)
                   (b : State * bool) => no_new_manager (fst a) (fst b))
    in E.
  - exact E.
  - intros. apply no_new_manager_refl.
  - intros m0 s0 m1 s1 m2 s2. apply no_new_manager_trans.
  - intros kn [s0 flag] m0 [s1 flag1] m1 E1. simpl.
    run E1; injection E1 as <- <- <-; managers_chain.
Qed.

Lemma obj_create_check_online_no_new_manager :
  forall cf vars nodes self,
    returns (obj_create_check_online oracle cf vars nodes self)
            (fun (_ : Machine W) r _ => no_new_manager self (fst (fst r))).
Proof.
  intros cf vars nodes self m r m' E.
  unfold obj_create_check_online in E.
  apply returns_for_each
    with (I := fun (_ : Machine W) (a : State * bool * nat) (_ : Machine W)
                   (b : State * bool * nat) =>
                 no_new_manager (fst (fst a)) (fst (fst b)))
    in E.
  - exact E.
  - intros. apply no_new_manager_refl.
  - intros m0 s0 m1 s1 m2 s2. apply no_new_manager_trans.
  - intros kn [[s0 flag] code] m0 [[s1 flag1] code1] m1 E1. simpl.
    run E1; injection E1 as <- <- <- <-; managers_chain.
Qed.

Lemma obj_create_no_new_manager : forall self cf obj_list,
  returns (obj_create oracle self cf obj_list)
          (fun (_ : Machine W) r _ => no_new_manager self (snd r)).
Proof.
  intros self cf obj_list m [res self'] m' E. simpl.
  unfold obj_create, obj_create_all_failed in E.
  set (ip_var := fun k : ObjectKind =>
                   if kind_eqb k WORKLOAD then "private_ip" else "public_ip")
    in E.
  run E; inversion E; subst; clear E.
  all: repeat match goal with
       | H : obj_create_outputs _ _ _ _ _ _ _ _ = (Ok _, _) |- _ =>
           apply obj_create_outputs_no_new_manager in H; simpl in H
       | H : obj_create_check_online _ _ _ _ _ _ = (Ok _, _) |- _ =>
           apply obj_create_check_online_no_new_manager in H; simpl in H
       end.
  all: managers_chain.
Qed.

(** Symbolic execution of a command whatever its outcome. *)
Ltac run_all E :=
  repeat first
    [ progress (unfold bind, ret, must, log, raise, sys_exit, get_ctx, set_ctx,
                 call, commit, dump in E;
               cbv beta iota zeta in E)
    | break_hyp E ].

(** [create_orchestrator], however it ends, leaves no fabric with more
    managers than it had. *)
Lemma create_orchestrator_no_new_manager :
  forall vpc orchestrator_type (m : Machine W) r m',
    create_orchestrator oracle vpc orchestrator_type m = (r, m') ->
    no_new_manager (ctx_state m) (ctx_state m').
Proof.
  intros vpc orchestrator_type m r m' E.
  unfold create_orchestrator, create_node, require_current_fabric,
    create_node_identity, generate_ssh_config in E.
  set (same_type := fun x : string * NodeObj =>
                      match n_type (snd x) with
                      | Some t' => otype_eqb orchestrator_type t'
                      | None => false
                      end && check_object_status (snd x) SUCCESS) in E.
  run_all E; inversion E; subst; clear E; simpl.
  all: try apply no_new_manager_refl.
  all: repeat match goal with
       | H : obj_create _ _ _ _ ?m0 = (_, ?m1) |- _ =>
           let Hk := fresh "Hk" in
           pose proof (@obj_create_keeps_ctx _ _ _ _ _ _ H) as Hk;
           simpl in Hk;
           first [ apply obj_create_no_new_manager in H; simpl in H
                 | clear H ]
       | H : add_fabric_obj _ _ _ _ _ = Some _ |- _ =>
           apply add_fabric_obj_no_new_manager in H; [|reflexivity]
       end.
  all: try (rewrite Hk; apply no_new_manager_refl).
  all: managers_chain.
Qed.

End Creation.

(** ** Orchestrators: duplicates in a batch *)

Lemma add_fabric_obj_orchestrators : forall s fabric_name n o s' d,
  add_fabric_obj s fabric_name ORCHESTRATOR n o = Some s' ->
  get_fabric_objects s ORCHESTRATOR fabric_name = Some d ->
  get_fabric_objects s' ORCHESTRATOR fabric_name = Some (dict_set n o d).
Proof.
  intros s fabric_name n o s' d Ha Hd.
  unfold add_fabric_obj in Ha. unfold get_fabric_objects in *.
  destruct (get_fabric s fabric_name) as [fo|] eqn:Hf; [|discriminate].
  injection Hd as <-. injection Ha as <-.
  unfold get_fabric, with_fabrics. simpl. rewrite dict_get_set_same.
  reflexivity.
Qed.

Lemma add_fabric_obj_other_kind : forall s fabric_name k n o s',
  add_fabric_obj s fabric_name k n o = Some s' ->
  k <> ORCHESTRATOR ->
  get_fabric_objects s' ORCHESTRATOR fabric_name
  = get_fabric_objects s ORCHESTRATOR fabric_name.
Proof.
  intros s fabric_name k n o s' Ha Hk.
  unfold add_fabric_obj in Ha. unfold get_fabric_objects.
  destruct (get_fabric s fabric_name) as [fo|] eqn:Hf; [|discriminate].
  injection Ha as <-.
  unfold get_fabric, with_fabrics in *. simpl. rewrite dict_get_set_same.
  destruct k; try reflexivity. congruence.
Qed.

Lemma list_remove_incl : forall x l, incl (list_remove x l) l.
Proof.
  intros x l. induction l as [|y l IH]; simpl; [apply incl_refl|].
  destruct (String.eqb x y).
  - apply incl_tl, incl_refl.
  - intros z [<-|Hz]; [left; reflexivity | right; apply IH, Hz].
Qed.

Lemma list_remove_NoDup : forall x l, NoDup l -> NoDup (list_remove x l).
Proof.
  intros x l H. induction H as [|y l Hy H IH]; simpl; [constructor|].
  destruct (String.eqb x y); [exact H|].
  constructor; [|exact IH]. intro C. apply Hy. apply (@list_remove_incl x l).
  exact C.
Qed.

Lemma list_remove_not_in : forall x l, NoDup l -> ~ In x (list_remove x l).
Proof.
  intros x l H. induction H as [|y l Hy H IH]; simpl; [tauto|].
  destruct (String.eqb x y) eqn:E.
  - apply String.eqb_eq in E. subst y. exact Hy.
  - apply String.eqb_neq in E. intros [C|C]; [congruence | tauto].
Qed.

Lemma status_success_not_failed : forall o : NodeObj,
  check_object_status o SUCCESS = true -> check_object_status o FAILED = false.
Proof.
  intros o H. unfold check_object_status in *.
  destruct (get_object_status o) as [[]|]; simpl in *; congruence.
Qed.

Section Dedup.
Variable W : Type.

Lemma gen_place_orchestrator :
  forall fabric_name string_key recreate n e g (m : Machine W) p m' d,
    get_fabric_objects (temp_node_state g) ORCHESTRATOR fabric_name = Some d ->
    gen_place fabric_name ORCHESTRATOR string_key recreate n e g m
    = (Ok p, m') ->
    match p with
    | Placed g' =>
        temp_nodes_list g' = temp_nodes_list g /\
        orchestrator_in_batch g' = orchestrator_in_batch g /\
        exists new_node,
          get_fabric_objects (temp_node_state g') ORCHESTRATOR fabric_name
          = Some (dict_set n new_node d) /\
          (forall o, dict_get n d = Some o -> recreate o = true) /\
          n_role new_node = e_role e
    | _ => True
    end.
Proof.
  intros fabric_name string_key recreate n e g m p m' d Hd E.
  unfold gen_place in E. rewrite Hd in E.
  run E; injection E as <- <-; try exact I.
  all: try match goal with
           | H : kind_eqb ORCHESTRATOR ORCHESTRATOR = false |- _ =>
               simpl in H; discriminate H
           end.
  all: match goal with
       | H : add_fabric_obj _ _ _ _ _ = Some _ |- _ =>
           pose proof (@add_fabric_obj_orchestrators _ _ _ _ _ _ H Hd) as Hs
       end.
  all: simpl; split; [reflexivity|]; split; [reflexivity|];
       eexists; split; [exact Hs|].
  all: split; [intros o Ho; congruence | reflexivity].
Qed.

Lemma gen_node_orchestrator :
  forall batch_spec fabric_name n g (m : Machine W) g' m' d,
    get_fabric_objects (temp_node_state g) ORCHESTRATOR fabric_name = Some d ->
    gen_node batch_spec fabric_name ORCHESTRATOR n g m = (Ok g', m') ->
    exists e,
      orchestrator_entry_of batch_spec n = Some e /\
      (forall t, orchestrator_in_batch g t = true ->
                 orchestrator_in_batch g' t = true) /\
      ((retained g' = list_remove n (retained g) /\
        temp_node_state g' = temp_node_state g)
       \/
       (retained g' = retained g /\
        existing_orchestrators d (e_type e) n = [] /\
        orchestrator_in_batch g (e_type e) = false /\
        (batch_duplicates batch_spec (e_type e) n <> [] ->
         orchestrator_in_batch g' (e_type e) = true) /\
        exists new_node,
          get_fabric_objects (temp_node_state g') ORCHESTRATOR fabric_name
          = Some (dict_set n new_node d) /\
          (forall o, dict_get n d = Some o ->
                     check_object_status o FAILED = true) /\
          n_role new_node = e_role e)).
Proof.
  intros batch_spec fabric_name n g m g' m' d Hd E.
  unfold gen_node in E. unfold orchestrator_entry_of.
  unfold bind at 1 in E. unfold must at 1 in E.
  destruct (hd_error (entries_named batch_spec ORCHESTRATOR n)) as [e|];
    [|discriminate E].
  exists e. split; [reflexivity|].
  unfold ret at 1 in E. cbv beta iota zeta in E.
  change (kind_eqb ORCHESTRATOR ORCHESTRATOR) with true in E.
  cbv beta iota in E. rewrite Hd in E.
  unfold bind at 1 in E. unfold bind at 1 in E. unfold must at 1 in E.
  unfold ret at 1 in E. cbv beta iota zeta in E.
  unfold ret at 1 in E. cbv beta iota zeta in E.
  unfold orchestrator_dedup in E.
  destruct (existing_orchestrators d (e_type e) n) as [|x xs] eqn:Hex.
  2:{ run E. injection E as <- <-. split; [auto|]. left. split; reflexivity. }
  destruct (orchestrator_in_batch g (e_type e)) eqn:Hflag.
  { run E. injection E as <- <-. split; [auto|]. left. split; reflexivity. }
  destruct (batch_duplicates batch_spec (e_type e) n) as [|y ys] eqn:Hdup.
  - unfold bind at 1 in E. unfold ret at 1 in E. cbv beta iota zeta in E.
    unfold bind at 1 in E.
    match type of E with
    | context [gen_place ?a ?b ?c ?r ?n0 ?e0 ?g0 ?m0] =>
        destruct (gen_place a b c r n0 e0 g0 m0) as [[p| |] m1] eqn:Ep;
        try discriminate E;
        pose proof (@gen_place_orchestrator a c r n0 e0 g0 m0 p m1 d Hd Ep)
          as Hp
    end.
    destruct p as [g1| |]; unfold ret in E; injection E as <- <-.
    + destruct Hp as (Hl & Hf & new_node & Hs & Hr & Hrole).
      split; [intros t Ht; rewrite Hf; exact Ht|]. right.
      split; [unfold retained; rewrite Hl; reflexivity|].
      split; [reflexivity|]. split; [reflexivity|].
      split; [intro C; congruence|].
      exists new_node. split; [exact Hs|]. split; [|exact Hrole].
      intros o Ho. specialize (Hr o Ho). apply andb_prop in Hr. tauto.
    + split; [auto|]. left. split; reflexivity.
    + split; [auto|]. left. split; reflexivity.
  - unfold bind at 1 in E. unfold bind at 1 in E. unfold log at 1 in E.
    cbv beta iota zeta in E. unfold ret at 1 in E. cbv beta iota zeta in E.
    unfold bind at 1 in E.
    assert (Hd1 : get_fabric_objects
                    (temp_node_state (gen_flag (e_type e) g)) ORCHESTRATOR
                    fabric_name = Some d) by exact Hd.
    assert (Hmono : forall t, orchestrator_in_batch g t = true ->
                    orchestrator_in_batch (gen_flag (e_type e) g) t = true).
    { intros t Ht. simpl. rewrite Ht. destruct (otype_eqb _ _); reflexivity. }
    assert (Hset : orchestrator_in_batch (gen_flag (e_type e) g) (e_type e)
                   = true).
    { simpl. destruct (e_type e); reflexivity. }
    match type of E with
    | context [gen_place ?a ?b ?c ?r ?n0 ?e0 ?g0 ?m0] =>
        destruct (gen_place a b c r n0 e0 g0 m0) as [[p| |] m1] eqn:Ep;
        try discriminate E;
        pose proof (@gen_place_orchestrator a c r n0 e0 g0 m0 p m1 d Hd1 Ep)
          as Hp
    end.
    destruct p as [g1| |]; unfold ret in E; injection E as <- <-.
    + destruct Hp as (Hl & Hf & new_node & Hs & Hr & Hrole).
      split; [intros t Ht; rewrite Hf; apply Hmono, Ht|]. right.
      split; [unfold retained; rewrite Hl; reflexivity|].
      split; [reflexivity|]. split; [reflexivity|].
      split; [intros _; rewrite Hf; exact Hset|].
      exists new_node. split; [exact Hs|]. split; [|exact Hrole].
      intros o Ho. specialize (Hr o Ho). apply andb_prop in Hr. tauto.
    + split; [exact Hmono|]. left. split; reflexivity.
    + split; [exact Hmono|]. left. split; reflexivity.
Qed.

Lemma orchestrator_entry_of_named : forall batch_spec n e,
  orchestrator_entry_of batch_spec n = Some e ->
  In e (get_attr_list batch_spec ORCHESTRATOR) /\ e_name e = n.
Proof.
  intros batch_spec n e H. unfold orchestrator_entry_of, entries_named in H.
  destruct (filter _ _) as [|e' l] eqn:Hf; [discriminate|].
  injection H as ->.
  assert (Hin : In e (filter (fun e0 => String.eqb (e_name e0) n)
                             (get_attr_list batch_spec ORCHESTRATOR)))
    by (rewrite Hf; left; reflexivity).
  apply filter_In in Hin. destruct Hin as [Hin Hn].
  apply String.eqb_eq in Hn. split; assumption.
Qed.

Lemma batch_duplicates_other : forall batch_spec n1 n2 e2 t,
  orchestrator_entry_of batch_spec n2 = Some e2 ->
  e_type e2 = t -> n2 <> n1 ->
  batch_duplicates batch_spec t n1 <> [].
Proof.
  intros batch_spec n1 n2 e2 t He Ht Hne C.
  destruct (orchestrator_entry_of_named _ _ He) as [Hin Hn].
  assert (Hd : In e2 (batch_duplicates batch_spec t n1)).
  { unfold batch_duplicates. apply filter_In. split; [exact Hin|].
    rewrite Ht, Hn. apply andb_true_intro. split.
    - destruct t; reflexivity.
    - apply negb_true_iff, String.eqb_neq. exact Hne. }
  rewrite C in Hd. exact Hd.
Qed.

Lemma gen_node_orchestrator_flag :
  forall batch_spec fabric_name n g (m : Machine W) g' m' d e,
    get_fabric_objects (temp_node_state g) ORCHESTRATOR fabric_name = Some d ->
    gen_node batch_spec fabric_name ORCHESTRATOR n g m = (Ok g', m') ->
    orchestrator_entry_of batch_spec n = Some e ->
    batch_duplicates batch_spec (e_type e) n <> [] ->
    orchestrator_in_batch g' (e_type e) = true \/
    existing_orchestrators d (e_type e) n <> [].
Proof.
  intros batch_spec fabric_name n g m g' m' d e Hd E He Hdup.
  destruct (existing_orchestrators d (e_type e) n) as [|x xs] eqn:Hex;
    [|right; discriminate].
  left.
  unfold gen_node in E. unfold orchestrator_entry_of in He.
  unfold bind at 1 in E. unfold must at 1 in E. rewrite He in E.
  unfold ret at 1 in E. cbv beta iota zeta in E.
  change (kind_eqb ORCHESTRATOR ORCHESTRATOR) with true in E.
  cbv beta iota in E. rewrite Hd in E.
  unfold bind at 1 in E. unfold bind at 1 in E. unfold must at 1 in E.
  unfold ret at 1 in E. cbv beta iota zeta in E.
  unfold ret at 1 in E. cbv beta iota zeta in E.
  unfold orchestrator_dedup in E. rewrite Hex in E.
  destruct (orchestrator_in_batch g (e_type e)) eqn:Hflag.
  { run E. injection E as <- <-. exact Hflag. }
  destruct (batch_duplicates batch_spec (e_type e) n) as [|y ys];
    [congruence|].
  unfold bind at 1 in E. unfold bind at 1 in E. unfold log at 1 in E.
  cbv beta iota zeta in E. unfold ret at 1 in E. cbv beta iota zeta in E.
  unfold bind at 1 in E.
  assert (Hd1 : get_fabric_objects
                  (temp_node_state (gen_flag (e_type e) g)) ORCHESTRATOR
                  fabric_name = Some d) by exact Hd.
  assert (Hset : orchestrator_in_batch (gen_flag (e_type e) g) (e_type e)
                 = true).
  { simpl. destruct (e_type e); reflexivity. }
  match type of E with
  | context [gen_place ?a ?b ?c ?r ?n0 ?e0 ?g0 ?m0] =>
      destruct (gen_place a b c r n0 e0 g0 m0) as [[p| |] m1] eqn:Ep;
      try discriminate E;
      pose proof (@gen_place_orchestrator a c r n0 e0 g0 m0 p m1 d Hd1 Ep)
        as Hp
  end.
  destruct p as [g1| |]; unfold ret in E; injection E as <- <-.
  - destruct Hp as (_ & Hf & _). rewrite Hf. exact Hset.
  - exact Hset.
  - exact Hset.
Qed.

Lemma dict_set_keys_NoDup : forall (V : Type) k (v : V) d,
  NoDup (map fst d) -> NoDup (map fst (dict_set k v d)).
Proof.
  intros V k v d H.
  destruct (dict_get k d) as [v0|] eqn:Hg.
  - assert (Hk : forall d0 : Dict V, dict_get k d0 <> None ->
                 map fst (dict_set k v d0) = map fst d0).
    { induction d0 as [|[k' v'] d0 IH]; simpl; intro Hn; [congruence|].
      destruct (String.eqb k k') eqn:E; simpl.
      - apply String.eqb_eq in E. subst k'. reflexivity.
      - rewrite IH by exact Hn. reflexivity. }
    rewrite Hk by congruence. exact H.
  - rewrite dict_set_fresh by exact Hg. rewrite map_app. simpl.
    apply NoDup_app; [exact H | repeat constructor; intros [] |].
    intros x Hx [Hk|[]]. subst x.
    apply in_map_iff in Hx. destruct Hx as [[k' v'] [Hk' Hin]].
    simpl in Hk'. subst k'.
    clear H. induction d as [|[k0 v0] d IH]; [exact Hin|].
    simpl in Hg. destruct (String.eqb k k0) eqn:E; [discriminate|].
    apply String.eqb_neq in E. destruct Hin as [Hin|Hin].
    + injection Hin as -> _. congruence.
    + exact (IH Hg Hin).
Qed.

Lemma NoDup_dict_get : forall (V : Type) k (v : V) d,
  NoDup (map fst d) -> In (k, v) d -> dict_get k d = Some v.
Proof.
  intros V k v d. induction d as [|[k' v'] d IH]; simpl; intros Hnd Hin;
    [contradiction|].
  inversion Hnd as [|? ? Hk' Hnd']; subst.
  destruct Hin as [Hin|Hin].
  - injection Hin as -> ->. rewrite String.eqb_refl. reflexivity.
  - destruct (String.eqb k k') eqn:E.
    + apply String.eqb_eq in E. subst k'. exfalso. apply Hk'.
      exact (in_map fst _ _ Hin).
    + apply IH; assumption.
Qed.

Lemma find_app_some : forall (A : Type) (f : A -> bool) l l' x,
  find f l = Some x -> find f (l ++ l') = Some x.
Proof.
  intros A f l l' x. induction l as [|y l IH]; simpl; [discriminate|].
  destruct (f y); [auto | exact IH].
Qed.

Lemma find_app_none : forall (A : Type) (f : A -> bool) l l',
  find f l = None -> find f (l ++ l') = find f l'.
Proof.
  intros A f l l'. induction l as [|y l IH]; simpl; [reflexivity|].
  destruct (f y); [discriminate | exact IH].
Qed.

Lemma declares_type_entry : forall batch_spec t n,
  declares_type batch_spec t n = true ->
  exists e, orchestrator_entry_of batch_spec n = Some e /\ e_type e = t.
Proof.
  intros batch_spec t n H. unfold declares_type in H.
  destruct (orchestrator_entry_of batch_spec n) as [e|]; [|discriminate].
  exists e. split; [reflexivity|]. apply otype_eqb_eq. exact H.
Qed.

(** A successful orchestrator of the type under another name stops the
    creation of the name. *)
Lemma existing_orchestrators_in : forall d t n x o,
  dict_get x d = Some o -> has_type t o = true ->
  check_object_status o SUCCESS = true -> x <> n ->
  existing_orchestrators d t n <> [].
Proof.
  intros d t n x o Hx Hty Hok Hne C.
  assert (Hin : In (x, o) (existing_orchestrators d t n)).
  { unfold existing_orchestrators. apply filter_In.
    split; [apply dict_get_In; exact Hx|]. simpl.
    rewrite Hty, Hok. simpl. apply negb_true_iff, String.eqb_neq.
    congruence. }
  rewrite C in Hin. exact Hin.
Qed.

Lemma dedup_invariant_step :
  forall batch_spec fabric_name d0 done n g (m : Machine W) g' m',
    ~ In n done ->
    dedup_invariant batch_spec fabric_name d0 done g ->
    gen_node batch_spec fabric_name ORCHESTRATOR n g m = (Ok g', m') ->
    dedup_invariant batch_spec fabric_name d0 (done ++ [n]) g' /\
    incl (retained g') (retained g).
Proof.
  intros batch_spec fabric_name d0 done n g m g' m' Hnew
         (Hnd & (d & Hd & Hkeys & Hst & HK) & HJ & HP1 & HP3 & HP5) E.
  pose proof (@gen_node_orchestrator_flag batch_spec fabric_name n g m g' m'
                d) as Hflagged.
  destruct (@gen_node_orchestrator batch_spec fabric_name n g m g' m' d Hd E)
    as (e & He & Hmono & [[Hret Hs] | (Hret & Hex & Hflag & Hdup & new_node
                                        & Hd' & Hfail & _)]).
  - (* the name is dropped *)
    assert (Hincl : incl (retained g') (retained g))
      by (rewrite Hret; apply list_remove_incl).
    assert (Hout : forall n0, In n0 (done ++ [n]) -> In n0 (retained g') ->
                   In n0 done /\ In n0 (retained g)).
    { intros n0 Hin Hr. split; [|apply Hincl, Hr].
      apply in_app_or in Hin. destruct Hin as [Hin|[<-|[]]]; [exact Hin|].
      exfalso. rewrite Hret in Hr.
      exact (@list_remove_not_in n (retained g) Hnd Hr). }
    split; [|exact Hincl]. repeat split.
    + rewrite Hret. apply list_remove_NoDup, Hnd.
    + exists d. rewrite Hs. split; [exact Hd|]. split; [exact Hkeys|].
      split; [exact Hst|]. intros n0 e0 Hin He0 Hd0.
      apply in_app_or in Hin. destruct Hin as [Hin|[<-|[]]].
      * destruct (HK n0 e0 Hin He0 Hd0) as [Hf|Hx];
          [left; apply Hmono, Hf | right; exact Hx].
      * destruct (Hflagged e0 Hd E He0 Hd0) as [Hf|Hx]; [left; exact Hf|].
        right.
        destruct (existing_orchestrators d (e_type e0) n) as [|[x o] xs]
          eqn:Hex; [congruence|].
        assert (Hin : In (x, o) (existing_orchestrators d (e_type e0) n))
          by (rewrite Hex; left; reflexivity).
        unfold existing_orchestrators in Hin. apply filter_In in Hin.
        destruct Hin as [Hin Hp]. simpl in Hp.
        apply andb_prop in Hp. destruct Hp as [Hp Hne].
        apply andb_prop in Hp. destruct Hp as [Hty Hok].
        apply negb_true_iff, String.eqb_neq in Hne.
        exists x, o. split; [congruence|].
        split; [apply NoDup_dict_get; assumption|]. split; assumption.
    + intros n0 e0 Hin Hr He0 Hd0. destruct (Hout n0 Hin Hr) as [Hin' Hr'].
      apply Hmono. exact (HJ n0 e0 Hin' Hr' He0 Hd0).
    + intros n1 n2 e1 e2 H1 H2 Hr1 Hr2 He1 He2 Ht.
      destruct (Hout n1 H1 Hr1), (Hout n2 H2 Hr2).
      exact (HP1 n1 n2 e1 e2 ltac:(assumption) ltac:(assumption)
                 ltac:(assumption) ltac:(assumption) He1 He2 Ht).
    + intros n0 e0 Hin Hr He0. destruct (Hout n0 Hin Hr) as [Hin' Hr'].
      exact (HP3 n0 e0 Hin' Hr' He0).
    + intros n0 e0 Hin Hr He0. destruct (Hout n0 Hin Hr) as [Hin' Hr'].
      apply find_app_some. exact (HP5 n0 e0 Hin' Hr' He0).
  - (* the name is kept *)
    split; [|rewrite Hret; apply incl_refl].
    unfold dedup_invariant. rewrite Hret.
    assert (Hclash : forall n1 e1, In n1 done ->
              orchestrator_entry_of batch_spec n1 = Some e1 ->
              e_type e1 = e_type e -> False).
    { intros n1 e1 H1 He1 Ht.
      assert (Hne : n1 <> n) by (intro C; subst n1; exact (Hnew H1)).
      assert (Hdup1 : batch_duplicates batch_spec (e_type e1) n1 <> []).
      { apply (@batch_duplicates_other batch_spec n1 n e (e_type e1) He);
          [symmetry; exact Ht | congruence]. }
      destruct (HK n1 e1 H1 He1 Hdup1) as [Hf1|(x & o & Hx1 & Hx & Hty & Hok)].
      - rewrite Ht in Hf1. congruence.
      - rewrite Ht in Hty. destruct (string_dec x n) as [->|Hxn].
        + pose proof (Hfail o Hx) as Hf.
          rewrite (status_success_not_failed _ Hok) in Hf. discriminate.
        + exact (@existing_orchestrators_in d (e_type e) n x o Hx Hty Hok
                   Hxn Hex). }
    repeat split.
    + exact Hnd.
    + exists (dict_set n new_node d). split; [exact Hd'|].
      split; [apply dict_set_keys_NoDup; exact Hkeys|]. split.
      * intros x o Hx Hok. pose proof (Hst x o Hx Hok) as Hxd.
        destruct (string_dec x n) as [->|Hne].
        -- pose proof (Hfail o Hxd) as Hf.
           rewrite (status_success_not_failed _ Hok) in Hf. discriminate.
        -- rewrite dict_get_set_other by exact Hne. exact Hxd.
      * intros n0 e0 Hin He0 Hd0.
        apply in_app_or in Hin. destruct Hin as [Hin|[<-|[]]].
        -- destruct (HK n0 e0 Hin He0 Hd0)
             as [Hf|(x & o & Hx0 & Hx & Hty & Hok)];
             [left; apply Hmono, Hf|].
           right. exists x, o. split; [exact Hx0|]. split; [|split; assumption].
           destruct (string_dec x n) as [->|Hne].
           ++ pose proof (Hfail o Hx) as Hf.
              rewrite (status_success_not_failed _ Hok) in Hf. discriminate.
           ++ rewrite dict_get_set_other by exact Hne. exact Hx.
        -- rewrite He in He0. injection He0 as <-. left. exact (Hdup Hd0).
    + intros n0 e0 Hin Hr He0 Hd0.
      apply in_app_or in Hin. destruct Hin as [Hin|[<-|[]]].
      * apply Hmono. exact (HJ n0 e0 Hin Hr He0 Hd0).
      * rewrite He in He0. injection He0 as <-. exact (Hdup Hd0).
    + intros n1 n2 e1 e2 H1 H2 Hr1 Hr2 He1 He2 Ht.
      apply in_app_or in H1. apply in_app_or in H2.
      destruct H1 as [H1|[<-|[]]], H2 as [H2|[<-|[]]].
      * exact (HP1 n1 n2 e1 e2 H1 H2 Hr1 Hr2 He1 He2 Ht).
      * rewrite He in He2. injection He2 as <-.
        exfalso. exact (Hclash n1 e1 H1 He1 Ht).
      * rewrite He in He1. injection He1 as <-.
        exfalso. exact (Hclash n2 e2 H2 He2 (eq_sym Ht)).
      * reflexivity.
    + intros n0 e0 Hin Hr He0.
      apply in_app_or in Hin. destruct Hin as [Hin|[<-|[]]].
      * exact (HP3 n0 e0 Hin Hr He0).
      * rewrite He in He0. injection He0 as <-.
        intros (x & o & Hx & Hty & Hok).
        pose proof (Hst x o Hx Hok) as Hxd.
        destruct (string_dec x n) as [->|Hne].
        -- pose proof (Hfail o Hxd) as Hf.
           rewrite (status_success_not_failed _ Hok) in Hf. discriminate.
        -- exact (@existing_orchestrators_in d (e_type e) n x o Hxd Hty Hok
                    Hne Hex).
    + intros n0 e0 Hin Hr He0.
      apply in_app_or in Hin. destruct Hin as [Hin|[<-|[]]].
      * apply find_app_some. exact (HP5 n0 e0 Hin Hr He0).
      * rewrite He in He0. injection He0 as <-.
        destruct (find (declares_type batch_spec (e_type e)) done)
          as [n1|] eqn:Hfind.
        -- exfalso. apply find_some in Hfind. destruct Hfind as [H1 Hdec].
           destruct (declares_type_entry _ _ _ Hdec) as [e1 [He1 Ht]].
           exact (Hclash n1 e1 H1 He1 Ht).
        -- rewrite find_app_none by exact Hfind. simpl.
           unfold declares_type. rewrite He.
           destruct (e_type e); reflexivity.
Qed.

Lemma dedup_invariant_loop :
  forall batch_spec fabric_name d0 l done g (m : Machine W) g' m',
    NoDup (done ++ l) ->
    dedup_invariant batch_spec fabric_name d0 done g ->
    for_each l (gen_node batch_spec fabric_name ORCHESTRATOR) g m = (Ok g', m') ->
    dedup_invariant batch_spec fabric_name d0 (done ++ l) g' /\
    incl (retained g') (retained g).
Proof.
  intros batch_spec fabric_name d0.
  induction l as [|n l IH]; intros done g m g' m' Hnd Hinv E; simpl in E.
  - injection E as <- <-. rewrite app_nil_r. split; [exact Hinv|].
    apply incl_refl.
  - unfold bind in E.
    destruct (gen_node batch_spec fabric_name ORCHESTRATOR n g m)
      as [[g1| |] m1] eqn:En; try discriminate E.
    assert (Hnew : ~ In n done).
    { intro C. apply NoDup_remove_2 in Hnd. apply Hnd.
      apply in_or_app. left. exact C. }
    destruct (@dedup_invariant_step batch_spec fabric_name d0 done n g m g1 m1
                Hnew Hinv En) as [H1 Hi1].
    assert (Hnd1 : NoDup ((done ++ [n]) ++ l))
      by (rewrite <- app_assoc; exact Hnd).
    destruct (IH (done ++ [n])%list g1 m1 g' m' Hnd1 H1 E) as [H2 Hi2].
    rewrite <- app_assoc in H2. split; [exact H2|].
    intros x Hx. apply Hi1, Hi2, Hx.
Qed.

Lemma gen_place_other_kind :
  forall fabric_name k string_key recreate n e g (m : Machine W) p m',
    k <> ORCHESTRATOR ->
    gen_place fabric_name k string_key recreate n e g m = (Ok p, m') ->
    match p with
    | Placed g' =>
        temp_nodes_list g' = temp_nodes_list g /\
        orchestrator_in_batch g' = orchestrator_in_batch g /\
        get_fabric_objects (temp_node_state g') ORCHESTRATOR fabric_name
        = get_fabric_objects (temp_node_state g) ORCHESTRATOR fabric_name
    | _ => True
    end.
Proof.
  intros fabric_name k string_key recreate n e g m p m' Hk E.
  unfold gen_place in E.
  run E; injection E as <- <-; try exact I.
  all: match goal with
       | H : add_fabric_obj _ _ _ _ _ = Some _ |- _ =>
           pose proof (@add_fabric_obj_other_kind _ _ _ _ _ _ H Hk) as Hs
       end.
  all: simpl; split; [reflexivity|]; split; [reflexivity | exact Hs].
Qed.

Lemma retained_gen_drop : forall k n g,
  k <> ORCHESTRATOR -> retained (gen_drop k n g) = retained g.
Proof. intros k n g Hk. destruct k; try reflexivity. congruence. Qed.

Lemma gen_node_other_kind :
  forall batch_spec fabric_name k n g (m : Machine W) g' m',
    k <> ORCHESTRATOR ->
    gen_node batch_spec fabric_name k n g m = (Ok g', m') ->
    retained g' = retained g /\
    orchestrator_in_batch g' = orchestrator_in_batch g /\
    get_fabric_objects (temp_node_state g') ORCHESTRATOR fabric_name
    = get_fabric_objects (temp_node_state g) ORCHESTRATOR fabric_name.
Proof.
  intros batch_spec fabric_name k n g m g' m' Hk E.
  unfold gen_node in E.
  unfold bind at 1 in E. unfold must at 1 in E.
  destruct (hd_error (entries_named batch_spec k n)) as [e|];
    [|discriminate E].
  unfold ret at 1 in E. cbv beta iota zeta in E.
  assert (Hkb : kind_eqb k ORCHESTRATOR = false)
    by (destruct k; try reflexivity; congruence).
  rewrite Hkb in E.
  unfold bind at 1 in E. unfold ret at 1 in E. cbv beta iota zeta in E.
  unfold bind at 1 in E. unfold ret at 1 in E. cbv beta iota zeta in E.
  unfold bind at 1 in E.
  match type of E with
  | context [gen_place ?a ?b ?c ?r ?n0 ?e0 ?g0 ?m0] =>
      destruct (gen_place a b c r n0 e0 g0 m0) as [[p| |] m1] eqn:Ep;
      try discriminate E;
      pose proof (@gen_place_other_kind a b c r n0 e0 g0 m0 p m1 Hk Ep) as Hp
  end.
  destruct p as [g1| |]; unfold ret in E; injection E as <- <-.
  - destruct Hp as (Hl & Hf & Hs). unfold retained. rewrite Hl. auto.
  - rewrite retained_gen_drop by exact Hk. auto.
  - rewrite retained_gen_drop by exact Hk. auto.
Qed.

Lemma gen_nodes_other_kind :
  forall batch_spec fabric_name k l g (m : Machine W) g' m',
    k <> ORCHESTRATOR ->
    for_each l (gen_node batch_spec fabric_name k) g m = (Ok g', m') ->
    retained g' = retained g /\
    orchestrator_in_batch g' = orchestrator_in_batch g /\
    get_fabric_objects (temp_node_state g') ORCHESTRATOR fabric_name
    = get_fabric_objects (temp_node_state g) ORCHESTRATOR fabric_name.
Proof.
  intros batch_spec fabric_name k l g m g' m' Hk.
  revert g m. induction l as [|n l IH]; intros g m E; simpl in E.
  - injection E as <- <-. auto.
  - unfold bind in E.
    destruct (gen_node batch_spec fabric_name k n g m) as [[g1| |] m1] eqn:En;
      try discriminate E.
    destruct (@gen_node_other_kind _ _ _ _ _ _ _ _ Hk En) as (H1 & H2 & H3).
    destruct (IH g1 m1 E) as (H4 & H5 & H6).
    repeat split; congruence.
Qed.

(** *** The first declared orchestrator of a type is retained *)

Lemma list_remove_In_other : forall x y l,
  x <> y -> In y l -> In y (list_remove x l).
Proof.
  intros x y l Hne. induction l as [|z l IH]; simpl; [tauto|].
  destruct (String.eqb x z) eqn:E.
  - apply String.eqb_eq in E. subst z. intros [C|C]; [congruence | exact C].
  - intros [C|C]; [left; exact C | right; exact (IH C)].
Qed.

Lemma find_split : forall (A : Type) (p : A -> bool) l x,
  find p l = Some x ->
  exists l1 l2, l = l1 ++ x :: l2 /\ p x = true /\
                forall y, In y l1 -> p y = false.
Proof.
  intros A p l x. induction l as [|z l IH]; simpl; [discriminate|].
  destruct (p z) eqn:Ez.
  - intro H. injection H as ->. exists [], l.
    split; [reflexivity|]. split; [exact Ez|]. intros y [].
  - intro H. destruct (IH H) as (l1 & l2 & -> & Hx & Hl1).
    exists (z :: l1), l2. split; [reflexivity|]. split; [exact Hx|].
    intros y [<-|Hy]; [exact Ez | exact (Hl1 y Hy)].
Qed.

Lemma for_each_app_ok :
  forall (A S : Type) (body : A -> S -> M W S) l1 l2 s (m : Machine W) s' m',
    for_each (l1 ++ l2) body s m = (Ok s', m') ->
    exists s1 m1, for_each l1 body s m = (Ok s1, m1) /\
                  for_each l2 body s1 m1 = (Ok s', m').
Proof.
  intros A S body l1 l2. induction l1 as [|x l1 IH]; intros s m s' m' E.
  - exists s, m. split; [reflexivity | exact E].
  - simpl in E. unfold bind in E.
    destruct (body x s m) as [[s0| |] m0] eqn:Eb; try discriminate E.
    destruct (IH _ _ _ _ E) as (s1 & m1 & E1 & E2).
    exists s1, m1. split; [|exact E2].
    simpl. unfold bind. rewrite Eb. exact E1.
Qed.

Lemma fabric_with_nodes_vpc : forall fo k d,
  f_vpc (fabric_with_nodes fo k d) = f_vpc fo.
Proof. intros fo k d. destruct k; reflexivity. Qed.

(** Fabrics and VPCs are as they were after [add_fabric_obj]. *)
Lemma add_fabric_obj_parents : forall s fabric_name k n o s',
  add_fabric_obj s fabric_name k n o = Some s' ->
  (forall x, check_fabric s' x = check_fabric s x) /\
  (forall v, check_vpc s' fabric_name v = check_vpc s fabric_name v).
Proof.
  intros s f k n o s' Ha. unfold add_fabric_obj in Ha.
  destruct (get_fabric s f) as [fo|] eqn:Hf; [|discriminate].
  injection Ha as <-. unfold get_fabric in Hf. split.
  - intro x. unfold check_fabric, with_fabrics. simpl. rewrite dict_mem_set.
    destruct (String.eqb x f) eqn:E; [|reflexivity].
    apply String.eqb_eq in E. subst x. unfold dict_mem. rewrite Hf.
    reflexivity.
  - intro v. unfold check_vpc, get_fabric, with_fabrics. simpl.
    rewrite dict_get_set_same, Hf, fabric_with_nodes_vpc. reflexivity.
Qed.

Lemma gen_place_frame :
  forall fabric_name k string_key recreate n e g (m : Machine W) p m',
    gen_place fabric_name k string_key recreate n e g m = (Ok p, m') ->
    (exists extra, logs m' = logs m ++ extra) /\
    match p with
    | Placed g' =>
        (forall x, check_fabric (temp_node_state g') x
                   = check_fabric (temp_node_state g) x) /\
        (forall v, check_vpc (temp_node_state g') fabric_name v
                   = check_vpc (temp_node_state g) fabric_name v)
    | _ => True
    end.
Proof.
  intros fabric_name k string_key recreate n e g m p m' E.
  unfold gen_place in E.
  run E; injection E as <- <-; cbn [logs].
  all: (split; [first [ exists []; rewrite app_nil_r; reflexivity
                      | eexists; reflexivity ]|]); try exact I.
  all: match goal with
       | H : add_fabric_obj _ _ _ _ _ = Some _ |- _ =>
           exact (add_fabric_obj_parents _ _ _ _ _ H)
       end.
Qed.

(** A round of "Generate node", whatever the kind: the log grows, and the
    fabrics and VPCs of the working state stay. *)
Lemma gen_node_frame :
  forall batch_spec fabric_name k n g (m : Machine W) g' m',
    gen_node batch_spec fabric_name k n g m = (Ok g', m') ->
    (exists extra, logs m' = logs m ++ extra) /\
    (forall x, check_fabric (temp_node_state g') x
               = check_fabric (temp_node_state g) x) /\
    (forall v, check_vpc (temp_node_state g') fabric_name v
               = check_vpc (temp_node_state g) fabric_name v).
Proof.
  intros batch_spec fabric_name k n g m g' m' E.
  unfold gen_node in E.
  run E; injection E as <- <-; cbn [logs temp_node_state gen_drop].
  all: repeat match goal with
       | H : gen_place _ _ _ _ _ _ _ _ = (Ok _, _) |- _ =>
           apply gen_place_frame in H; cbn [logs temp_node_state gen_flag] in H;
           destruct H as [[extra Hlog] Hp]
       end.
  all: (split; [first [ exists []; rewrite app_nil_r; reflexivity
                      | eexists; reflexivity
                      | rewrite Hlog; try rewrite <- app_assoc;
                        eexists; reflexivity ]|]).
  all: first [ exact Hp | split; reflexivity ].
Qed.

Lemma gen_nodes_frame :
  forall batch_spec fabric_name k l g (m : Machine W) g' m',
    for_each l (gen_node batch_spec fabric_name k) g m = (Ok g', m') ->
    (exists extra, logs m' = logs m ++ extra) /\
    (forall x, check_fabric (temp_node_state g') x
               = check_fabric (temp_node_state g) x) /\
    (forall v, check_vpc (temp_node_state g') fabric_name v
               = check_vpc (temp_node_state g) fabric_name v).
Proof.
  intros batch_spec fabric_name k.
  induction l as [|n l IH]; intros g m g' m' E; simpl in E.
  - injection E as <- <-. split; [exists []; rewrite app_nil_r; reflexivity|].
    split; reflexivity.
  - unfold bind in E.
    destruct (gen_node batch_spec fabric_name k n g m) as [[g1| |] m1] eqn:En;
      try discriminate E.
    destruct (gen_node_frame _ _ _ _ _ _ En) as ([x1 L1] & F1 & V1).
    destruct (IH _ _ _ _ E) as ([x2 L2] & F2 & V2).
    split; [exists (x1 ++ x2); rewrite L2, L1, app_assoc; reflexivity|].
    split; intro y; [rewrite F2, F1 | rewrite V2, V1]; reflexivity.
Qed.

(** A node that can be placed is placed, without a message. *)
Lemma gen_place_placed :
  forall fabric_name k string_key recreate n e g (m : Machine W) p m' d,
    check_fabric (temp_node_state g) (e_fabric e) = true ->
    check_vpc (temp_node_state g) fabric_name (e_vpc e) = Some true ->
    get_fabric_objects (temp_node_state g) k fabric_name = Some d ->
    (forall o, dict_get n d = Some o -> recreate o = true) ->
    gen_place fabric_name k string_key recreate n e g m = (Ok p, m') ->
    logs m' = logs m /\
    exists g1, p = Placed g1 /\ temp_nodes_list g1 = temp_nodes_list g /\
               orchestrator_in_batch g1 = orchestrator_in_batch g.
Proof.
  intros fabric_name k string_key recreate n e g m p m' d Hf Hv Hd Hre E.
  unfold gen_place in E. cbv zeta in E. rewrite Hf, Hv, Hd in E.
  run E; injection E as <- <-.
  all: try match goal with
           | H : negb true = true |- _ => cbn in H; discriminate H
           end.
  all: try (split; [reflexivity|]; eexists; split; [reflexivity|];
            split; reflexivity).
  all: exfalso;
       match goal with
       | H : _ ?o = false |- _ =>
           rewrite (Hre o eq_refl) in H; discriminate H
       end.
Qed.

Lemma gen_place_orchestrator_type :
  forall fabric_name string_key recreate n e g (m : Machine W) g' m' d,
    get_fabric_objects (temp_node_state g) ORCHESTRATOR fabric_name = Some d ->
    gen_place fabric_name ORCHESTRATOR string_key recreate n e g m
    = (Ok (Placed g'), m') ->
    orchestrator_in_batch g' = orchestrator_in_batch g /\
    exists new_node,
      get_fabric_objects (temp_node_state g') ORCHESTRATOR fabric_name
      = Some (dict_set n new_node d) /\
      n_type new_node = Some (e_type e).
Proof.
  intros fabric_name string_key recreate n e g m g' m' d Hd E.
  unfold gen_place in E. rewrite Hd in E.
  run E; injection E as <- <-.
  all: try match goal with
           | H : kind_eqb ORCHESTRATOR ORCHESTRATOR = false |- _ =>
               simpl in H; discriminate H
           end.
  all: match goal with
       | H : add_fabric_obj _ _ _ _ _ = Some _ |- _ =>
           pose proof (@add_fabric_obj_orchestrators _ _ _ _ _ _ H Hd) as Hs
       end.
  all: simpl; split; [reflexivity|]; eexists; split; [exact Hs|];
       reflexivity.
Qed.

(** A round for an orchestrator name touches the flag of its own type
    only, and what it stores has the type its batch object declares. *)
Lemma gen_node_orchestrator_frame :
  forall batch_spec fabric_name n g (m : Machine W) g' m' d,
    get_fabric_objects (temp_node_state g) ORCHESTRATOR fabric_name = Some d ->
    gen_node batch_spec fabric_name ORCHESTRATOR n g m = (Ok g', m') ->
    exists e,
      orchestrator_entry_of batch_spec n = Some e /\
      (forall t, t <> e_type e ->
                 orchestrator_in_batch g' t = orchestrator_in_batch g t) /\
      (get_fabric_objects (temp_node_state g') ORCHESTRATOR fabric_name
       = Some d \/
       exists new_node,
         get_fabric_objects (temp_node_state g') ORCHESTRATOR fabric_name
         = Some (dict_set n new_node d) /\
         n_type new_node = Some (e_type e)).
Proof.
  intros batch_spec fabric_name n g m g' m' d Hd E.
  unfold gen_node in E. unfold orchestrator_entry_of.
  unfold bind at 1 in E. unfold must at 1 in E.
  destruct (hd_error (entries_named batch_spec ORCHESTRATOR n)) as [e|];
    [|discriminate E].
  exists e. split; [reflexivity|].
  assert (Hflag : forall t, t <> e_type e ->
            orchestrator_in_batch (gen_flag (e_type e) g) t
            = orchestrator_in_batch g t).
  { intros t Ht. simpl. destruct (otype_eqb (e_type e) t) eqn:Et;
      [|reflexivity]. apply otype_eqb_eq in Et. congruence. }
  change (kind_eqb ORCHESTRATOR ORCHESTRATOR) with true in E.
  rewrite Hd in E.
  run E; injection E as <- <-;
    cbn [temp_node_state orchestrator_in_batch gen_drop].
  all: repeat match goal with
       | H : gen_place _ ORCHESTRATOR _ _ _ _ ?g0 _ = (Ok (Placed _), _)
         |- _ =>
           apply (@gen_place_orchestrator_type _ _ _ _ _ g0 _ _ _ d Hd) in H;
           destruct H as [Hf (new_node & Hs & Hty)]
       end.
  all: try (split; [intros t Ht; first [ rewrite Hf; exact (Hflag t Ht)
                                       | rewrite Hf; reflexivity
                                       | exact (Hflag t Ht)
                                       | reflexivity ]|]).
  all: first [ left; exact Hd
             | right; exists new_node; split; [exact Hs | exact Hty] ].
Qed.

Lemma existing_orchestrators_set : forall d t n n' v,
  has_type t v = false ->
  existing_orchestrators d t n = [] ->
  existing_orchestrators (dict_set n' v d) t n = [].
Proof.
  intros d t n n' v Hv. unfold existing_orchestrators.
  induction d as [|[k0 v0] d IH]; simpl.
  - rewrite Hv. reflexivity.
  - destruct (String.eqb n' k0); simpl.
    + rewrite Hv. simpl.
      destruct (has_type t v0 && check_object_status v0 SUCCESS
                && negb (String.eqb n k0)); [discriminate | auto].
    + destruct (has_type t v0 && check_object_status v0 SUCCESS
                && negb (String.eqb n k0)); [discriminate | exact IH].
Qed.

Lemma no_success_no_existing : forall d t n,
  NoDup (map fst d) -> ~ exists_with_success d t ->
  existing_orchestrators d t n = [].
Proof.
  intros d t n Hnd Hno. unfold existing_orchestrators.
  destruct (filter _ d) as [|[x o] l] eqn:E; [reflexivity|]. exfalso.
  assert (Hin : In (x, o)
                   (filter (fun x => has_type t (snd x)
                                     && check_object_status (snd x) SUCCESS
                                     && negb (String.eqb n (fst x))) d))
    by (rewrite E; left; reflexivity).
  apply filter_In in Hin. destruct Hin as [Hin Hp]. simpl in Hp.
  apply andb_prop in Hp. destruct Hp as [Hp _].
  apply andb_prop in Hp. destruct Hp as [Hty Hst].
  apply Hno. exists x, o. split; [exact (NoDup_dict_get _ _ _ Hnd Hin)|].
  split; assumption.
Qed.

(** The round of a name that can go to creation keeps it in the creation
    list, with the warning when its type is declared again. *)
Lemma gen_node_orchestrator_kept :
  forall batch_spec fabric_name n e g (m : Machine W) g' m' d,
    orchestrator_entry_of batch_spec n = Some e ->
    get_fabric_objects (temp_node_state g) ORCHESTRATOR fabric_name = Some d ->
    existing_orchestrators d (e_type e) n = [] ->
    orchestrator_in_batch g (e_type e) = false ->
    check_fabric (temp_node_state g) (e_fabric e) = true ->
    check_vpc (temp_node_state g) fabric_name (e_vpc e) = Some true ->
    (forall o, dict_get n d = Some o ->
               check_object_state_status o CREATED FAILED = true) ->
    gen_node batch_spec fabric_name ORCHESTRATOR n g m = (Ok g', m') ->
    retained g' = retained g /\
    (batch_duplicates batch_spec (e_type e) n <> [] ->
     logs m'
     = logs m ++
       [mkLog Warn "Orchestrator of type placed in current batch more than once. Skipping duplicate entities"
              [n]]).
Proof.
  intros batch_spec fabric_name n e g m g' m' d He Hd Hex Hflag Hf Hv Hre E.
  unfold gen_node in E. unfold orchestrator_entry_of in He.
  unfold bind at 1 in E. unfold must at 1 in E. rewrite He in E.
  unfold ret at 1 in E. cbv beta iota zeta in E.
  change (kind_eqb ORCHESTRATOR ORCHESTRATOR) with true in E.
  cbv beta iota in E. rewrite Hd in E.
  unfold bind at 1 in E. unfold bind at 1 in E. unfold must at 1 in E.
  unfold ret at 1 in E. cbv beta iota zeta in E.
  unfold ret at 1 in E. cbv beta iota zeta in E.
  unfold orchestrator_dedup in E. rewrite Hex, Hflag in E.
  destruct (batch_duplicates batch_spec (e_type e) n) as [|y ys] eqn:Hdup.
  - unfold bind at 1 in E. unfold ret at 1 in E. cbv beta iota zeta in E.
    unfold bind at 1 in E.
    match type of E with
    | context [gen_place ?a ?b ?c ?r ?n0 ?e0 ?g0 ?m0] =>
        destruct (gen_place a b c r n0 e0 g0 m0) as [[p| |] m1] eqn:Ep;
        try discriminate E;
        destruct (@gen_place_placed a b c r n0 e0 g0 m0 p m1 d Hf Hv Hd Hre Ep)
          as (Hl & g1 & -> & Hr & _)
    end.
    unfold ret in E. injection E as <- <-.
    split; [unfold retained; rewrite Hr; reflexivity|].
    intro C. exfalso. apply C. reflexivity.
  - unfold bind at 1 in E. unfold bind at 1 in E. unfold log at 1 in E.
    cbv beta iota zeta in E. unfold ret at 1 in E. cbv beta iota zeta in E.
    unfold bind at 1 in E.
    match type of E with
    | context [gen_place ?a ?b ?c ?r ?n0 ?e0 ?g0 ?m0] =>
        destruct (gen_place a b c r n0 e0 g0 m0) as [[p| |] m1] eqn:Ep;
        try discriminate E;
        destruct (@gen_place_placed a b c r n0 e0 g0 m0 p m1 d Hf Hv Hd Hre Ep)
          as (Hl & g1 & -> & Hr & _)
    end.
    unfold ret in E. injection E as <- <-.
    split; [unfold retained; rewrite Hr; reflexivity|].
    intros _. rewrite Hl. reflexivity.
Qed.

(** The rounds before the first name of a type leave it ready for
    creation. *)
Lemma first_of_type_ready :
  forall batch_spec fabric_name n e l g (m : Machine W) g' m' d,
    (forall n', In n' l ->
                n' <> n /\ declares_type batch_spec (e_type e) n' = false) ->
    get_fabric_objects (temp_node_state g) ORCHESTRATOR fabric_name = Some d ->
    existing_orchestrators d (e_type e) n = [] ->
    orchestrator_in_batch g (e_type e) = false ->
    In n (retained g) ->
    for_each l (gen_node batch_spec fabric_name ORCHESTRATOR) g m
    = (Ok g', m') ->
    In n (retained g') /\
    orchestrator_in_batch g' (e_type e) = false /\
    exists d',
      get_fabric_objects (temp_node_state g') ORCHESTRATOR fabric_name
      = Some d' /\
      existing_orchestrators d' (e_type e) n = [] /\
      dict_get n d' = dict_get n d.
Proof.
  intros batch_spec fabric_name n e.
  induction l as [|n' l IH]; intros g m g' m' d Hl Hd Hex Hflag Hin E;
    simpl in E.
  - injection E as <- <-. split; [exact Hin|]. split; [exact Hflag|].
    exists d. auto.
  - unfold bind in E.
    destruct (gen_node batch_spec fabric_name ORCHESTRATOR n' g m)
      as [[g1| |] m1] eqn:En; try discriminate E.
    destruct (Hl n' (or_introl eq_refl)) as [Hne Hdecl].
    destruct (@gen_node_orchestrator_frame _ _ _ _ _ _ _ d Hd En)
      as (e' & He' & Hfl & Hst).
    destruct (@gen_node_orchestrator _ _ _ _ _ _ _ d Hd En)
      as (e'' & _ & _ & Hret).
    assert (Hty : e_type e' <> e_type e).
    { intro C. unfold declares_type in Hdecl. rewrite He' in Hdecl.
      rewrite C in Hdecl.
      rewrite (proj2 (otype_eqb_eq (e_type e) (e_type e)) eq_refl) in Hdecl.
      discriminate Hdecl. }
    assert (Hin1 : In n (retained g1)).
    { destruct Hret as [[-> _]|[-> _]]; [|exact Hin].
      apply list_remove_In_other; assumption. }
    assert (Hflag1 : orchestrator_in_batch g1 (e_type e) = false).
    { rewrite Hfl by (intro C; apply Hty; symmetry; exact C). exact Hflag. }
    assert (Hl1 : forall x, In x l ->
              x <> n /\ declares_type batch_spec (e_type e) x = false)
      by (intros x Hx; apply Hl; right; exact Hx).
    destruct Hst as [Hs|(new_node & Hs & Hnt)].
    + exact (IH _ _ _ _ d Hl1 Hs Hex Hflag1 Hin1 E).
    + assert (Hex1 : existing_orchestrators (dict_set n' new_node d)
                                            (e_type e) n = []).
      { apply existing_orchestrators_set; [|exact Hex].
        unfold has_type. rewrite Hnt.
        destruct (otype_eqb (e_type e) (e_type e')) eqn:Et; [|reflexivity].
        apply otype_eqb_eq in Et. congruence. }
      destruct (IH _ _ _ _ _ Hl1 Hs Hex1 Hflag1 Hin1 E)
        as (R1 & R2 & d' & R3 & R4 & R5).
      split; [exact R1|]. split; [exact R2|]. exists d'.
      split; [exact R3|]. split; [exact R4|].
      rewrite R5. apply dict_get_set_other.
      intro C. apply Hne. symmetry. exact C.
Qed.

(** The rounds of other names leave a name in the creation list. *)
Lemma kept_by_other_rounds :
  forall batch_spec fabric_name n l g (m : Machine W) g' m' d,
    ~ In n l ->
    get_fabric_objects (temp_node_state g) ORCHESTRATOR fabric_name = Some d ->
    In n (retained g) ->
    for_each l (gen_node batch_spec fabric_name ORCHESTRATOR) g m
    = (Ok g', m') ->
    In n (retained g').
Proof.
  intros batch_spec fabric_name n.
  induction l as [|n' l IH]; intros g m g' m' d Hl Hd Hin E; simpl in E.
  - injection E as <- <-. exact Hin.
  - unfold bind in E.
    destruct (gen_node batch_spec fabric_name ORCHESTRATOR n' g m)
      as [[g1| |] m1] eqn:En; try discriminate E.
    assert (Hne : n' <> n) by (intro C; apply Hl; left; exact C).
    assert (Hl1 : ~ In n l) by (intro C; apply Hl; right; exact C).
    destruct (@gen_node_orchestrator _ _ _ _ _ _ _ d Hd En)
      as (e' & _ & _ & [[Hr Hs]|(Hr & _ & _ & _ & new_node & Hs & _)]).
    + apply (IH g1 m1 g' m' d Hl1);
        [ rewrite Hs; exact Hd
        | rewrite Hr; apply list_remove_In_other; assumption
        | exact E ].
    + apply (IH g1 m1 g' m' _ Hl1 Hs); [rewrite Hr; exact Hin | exact E].
Qed.

(** The first declared orchestrator of a type goes to creation when it can
    be created, and the warning about its duplicates is in the log. *)
Lemma first_declared_retained :
  forall batch_spec fabric_name t ctx (m : Machine W) g' m' d0 n e,
    NoDup (tg_orchestrator t) ->
    get_fabric_objects ctx ORCHESTRATOR fabric_name = Some d0 ->
    NoDup (map fst d0) ->
    gen_nodes batch_spec fabric_name t (gen_init ctx t) m = (Ok g', m') ->
    find (declares_type batch_spec (e_type e)) (tg_orchestrator t) = Some n ->
    orchestrator_entry_of batch_spec n = Some e ->
    ~ exists_with_success d0 (e_type e) ->
    check_fabric ctx (e_fabric e) = true ->
    check_vpc ctx fabric_name (e_vpc e) = Some true ->
    (forall o, dict_get n d0 = Some o ->
               check_object_state_status o CREATED FAILED = true) ->
    In n (retained g') /\
    (batch_duplicates batch_spec (e_type e) n <> [] ->
     In (mkLog Warn "Orchestrator of type placed in current batch more than once. Skipping duplicate entities"
               [n])
        (logs m')).
Proof.
  intros batch_spec fabric_name t ctx m g' m' d0 n e Hnd Hd0 Hkeys E
         Hfind He Hno Hf Hv Hre.
  unfold gen_nodes, node_kinds in E. cbn [for_each target_get] in E.
  unfold bind at 1 in E.
  destruct (for_each (tg_processor t)
              (gen_node batch_spec fabric_name PROCESSOR) (gen_init ctx t) m)
    as [[g1| |] m1] eqn:E1; try discriminate E.
  unfold bind at 1 in E.
  destruct (for_each (tg_workload t)
              (gen_node batch_spec fabric_name WORKLOAD) g1 m1)
    as [[g2| |] m2] eqn:E2; try discriminate E.
  unfold bind at 1 in E.
  destruct (for_each (tg_orchestrator t)
              (gen_node batch_spec fabric_name ORCHESTRATOR) g2 m2)
    as [[g3| |] m3] eqn:E3; try discriminate E.
  unfold ret in E. injection E as <- <-.
  destruct (@gen_nodes_other_kind batch_spec fabric_name PROCESSOR _ _ _ _ _
              ltac:(discriminate) E1) as (R1 & F1 & S1).
  destruct (@gen_nodes_other_kind batch_spec fabric_name WORKLOAD _ _ _ _ _
              ltac:(discriminate) E2) as (R2 & F2 & S2).
  destruct (gen_nodes_frame _ _ _ _ _ _ E1) as (_ & P1 & V1).
  destruct (gen_nodes_frame _ _ _ _ _ _ E2) as (_ & P2 & V2).
  assert (Hr : retained g2 = tg_orchestrator t)
    by (rewrite R2, R1; reflexivity).
  assert (Hd2 : get_fabric_objects (temp_node_state g2) ORCHESTRATOR
                                   fabric_name = Some d0)
    by (rewrite S2, S1; exact Hd0).
  assert (Hflag2 : orchestrator_in_batch g2 (e_type e) = false)
    by (rewrite F2, F1; reflexivity).
  destruct (find_split _ _ Hfind) as (l1 & l2 & Hl & _ & Hl1).
  rewrite Hl in Hnd, E3, Hr.
  pose proof (NoDup_remove_2 _ _ _ Hnd) as Hnotin.
  destruct (for_each_app_ok _ _ _ _ _ E3) as (ga & ma & Ea & Eb).
  simpl in Eb. unfold bind in Eb.
  destruct (gen_node batch_spec fabric_name ORCHESTRATOR n ga ma)
    as [[gb| |] mb] eqn:En; try discriminate Eb.
  destruct (gen_nodes_frame _ _ _ _ _ _ Ea) as (_ & Pa & Va).
  destruct (@first_of_type_ready batch_spec fabric_name n e l1 g2 m2 ga ma d0)
    as (Hin & Hflag & d' & Hd' & Hex' & Hget); try assumption.
  { intros n' Hn'. split; [|exact (Hl1 n' Hn')].
    intro C. subst n'. apply Hnotin. apply in_or_app. left. exact Hn'. }
  { exact (no_success_no_existing n Hkeys Hno). }
  { rewrite Hr. apply in_or_app. right. left. reflexivity. }
  destruct (@gen_node_orchestrator_kept batch_spec fabric_name n e ga ma gb mb
              d' He Hd' Hex' Hflag) as [Hkept Hwarn]; try assumption.
  { rewrite Pa, P2, P1. exact Hf. }
  { rewrite Va, V2, V1. exact Hv. }
  { intros o Ho. apply Hre. rewrite <- Hget. exact Ho. }
  destruct (@gen_node_orchestrator_frame _ _ _ _ _ _ _ d' Hd' En)
    as (e' & _ & _ & Hst).
  destruct (gen_nodes_frame _ _ _ _ _ _ Eb) as ([extra Hlog] & _ & _).
  split.
  - assert (Hinb : In n (retained gb)) by (rewrite Hkept; exact Hin).
    assert (Hl2 : ~ In n l2)
      by (intro C; apply Hnotin; apply in_or_app; right; exact C).
    destruct Hst as [Hs|(new_node & Hs & _)];
      exact (@kept_by_other_rounds _ _ _ _ _ _ _ _ _ Hl2 Hs Hinb Eb).
  - intro Hdup. rewrite Hlog, (Hwarn Hdup).
    apply in_or_app. left. apply in_or_app. right. left. reflexivity.
Qed.

(** C6 (amended): of the orchestrators a batch declares for a fabric under
    pairwise different names, only the first declared one of each type
    is retained for creation: the list that goes to creation keeps at most
    one name of each type, which is the first declared name of the type,
    and it keeps no name whose type is already in the fabric with status
    success. That first name is retained whenever it can be created -- its
    type is not in the fabric with status success, its fabric and VPC
    exist and its name is free or left by a failed creation -- and the
    warning about the duplicates of its type is then in the log of the
    run. A name that comes up after its type was flagged as a duplicate is
    removed from the list without a message of its own, and the planning
    loop skips a declared orchestrator that is not in the fabric with a
    warning and no action. *)
Theorem orchestrator_dedup_creation :
  forall batch_spec fabric_name t ctx (m : Machine W) g' m' d0,
    NoDup (tg_orchestrator t) ->
    get_fabric_objects ctx ORCHESTRATOR fabric_name = Some d0 ->
    NoDup (map fst d0) ->
    gen_nodes batch_spec fabric_name t (gen_init ctx t) m = (Ok g', m') ->
    incl (retained g') (tg_orchestrator t) /\
    (forall n1 n2 e1 e2,
        In n1 (retained g') -> In n2 (retained g') ->
        orchestrator_entry_of batch_spec n1 = Some e1 ->
        orchestrator_entry_of batch_spec n2 = Some e2 ->
        e_type e1 = e_type e2 -> n1 = n2) /\
    (forall n e,
        In n (retained g') -> orchestrator_entry_of batch_spec n = Some e ->
        find (declares_type batch_spec (e_type e)) (tg_orchestrator t)
        = Some n) /\
    (forall n e,
        In n (retained g') -> orchestrator_entry_of batch_spec n = Some e ->
        ~ exists_with_success d0 (e_type e)) /\
    (forall n e,
        find (declares_type batch_spec (e_type e)) (tg_orchestrator t)
        = Some n ->
        orchestrator_entry_of batch_spec n = Some e ->
        ~ exists_with_success d0 (e_type e) ->
        check_fabric ctx (e_fabric e) = true ->
        check_vpc ctx fabric_name (e_vpc e) = Some true ->
        (forall o, dict_get n d0 = Some o ->
                   check_object_state_status o CREATED FAILED = true) ->
        In n (retained g') /\
        (batch_duplicates batch_spec (e_type e) n <> [] ->
         In (mkLog Warn "Orchestrator of type placed in current batch more than once. Skipping duplicate entities"
                   [n])
            (logs m'))) /\
    (forall n e g d (m1 : Machine W),
        orchestrator_entry_of batch_spec n = Some e ->
        get_fabric_objects (temp_node_state g) ORCHESTRATOR fabric_name
        = Some d ->
        existing_orchestrators d (e_type e) n = [] ->
        orchestrator_in_batch g (e_type e) = true ->
        gen_node batch_spec fabric_name ORCHESTRATOR n g m1
        = (Ok (gen_drop ORCHESTRATOR n g), m1)) /\
    (forall n e temp_state t1 actions (m1 : Machine W),
        orchestrator_entry_of batch_spec n = Some e ->
        check_fabric temp_state (e_fabric e) = true ->
        check_nodeobj temp_state fabric_name n ORCHESTRATOR = Some false ->
        exists m2,
          plan_entity fabric_name ORCHESTRATOR batch_spec n
                      (temp_state, t1, actions) m1
          = (Ok (temp_state,
                 target_set t1 ORCHESTRATOR
                            (list_remove n (target_get t1 ORCHESTRATOR)),
                 actions), m2) /\
          quiet m1 m2).
Proof.
  intros batch_spec fabric_name t ctx m g' m' d0 Hnd Hd0 Hkeys E.
  pose proof (fun n e =>
                @first_declared_retained batch_spec fabric_name t ctx m g' m'
                  d0 n e Hnd Hd0 Hkeys E) as Hfirst.
  unfold gen_nodes, node_kinds in E. cbn [for_each target_get] in E.
  unfold bind at 1 in E.
  destruct (for_each (tg_processor t)
              (gen_node batch_spec fabric_name PROCESSOR) (gen_init ctx t) m)
    as [[g1| |] m1] eqn:E1; try discriminate E.
  unfold bind at 1 in E.
  destruct (for_each (tg_workload t)
              (gen_node batch_spec fabric_name WORKLOAD) g1 m1)
    as [[g2| |] m2] eqn:E2; try discriminate E.
  unfold bind at 1 in E.
  destruct (for_each (tg_orchestrator t)
              (gen_node batch_spec fabric_name ORCHESTRATOR) g2 m2)
    as [[g3| |] m3] eqn:E3; try discriminate E.
  unfold ret in E. injection E as <- <-.
  destruct (@gen_nodes_other_kind batch_spec fabric_name PROCESSOR _ _ _ _ _
              ltac:(discriminate) E1) as (R1 & F1 & S1).
  destruct (@gen_nodes_other_kind batch_spec fabric_name WORKLOAD _ _ _ _ _
              ltac:(discriminate) E2) as (R2 & F2 & S2).
  assert (Hr : retained g2 = tg_orchestrator t)
    by (rewrite R2, R1; reflexivity).
  assert (Hinv : dedup_invariant batch_spec fabric_name d0 [] g2).
  { repeat split.
    - rewrite Hr. exact Hnd.
    - exists d0. split; [rewrite S2, S1; exact Hd0|].
      split; [exact Hkeys|]. split; [auto|]. intros n e [].
    - intros n e [].
    - intros n1 n2 e1 e2 [].
    - intros n e [].
    - intros n e []. }
  destruct (@dedup_invariant_loop batch_spec fabric_name d0 _ [] _ _ _ _
              Hnd Hinv E3) as [(_ & _ & _ & HP1 & HP3 & HP5) Hincl].
  simpl in HP1, HP3, HP5. rewrite Hr in Hincl.
  split; [exact Hincl|]. split; [|split; [|split; [|split; [|split]]]].
  - intros n1 n2 e1 e2 H1 H2. apply HP1; auto.
  - intros n e H1. apply HP5; auto.
  - intros n e H1. apply HP3; auto.
  - exact Hfirst.
  - intros n e g d m0 He Hd Hex Hflag. unfold gen_node.
    unfold orchestrator_entry_of in He. unfold bind, must, ret.
    rewrite He. simpl. rewrite Hd. unfold orchestrator_dedup.
    rewrite Hex, Hflag. reflexivity.
  - intros n e temp_state t1 actions m0 He Hf Hn. unfold plan_entity.
    unfold orchestrator_entry_of in He. unfold bind, must, ret, log.
    rewrite He. cbv beta iota. rewrite Hf. cbn [negb]. cbv beta iota.
    rewrite Hn. cbn [negb]. cbv beta iota.
    eexists. split; [reflexivity | repeat split].
Qed.
End Dedup.

(** C6, as the specification states it, fails on the part "produces no
    action". The controller [aws1-c01-f] is in the fabric in (configured,
    failed) after a first run. The second run declares a new controller in
    front of it: the new one is kept with the one warning of the run,
    [aws1-c01-f] is dropped from the creation list as the later duplicate,
    and the planning loop, which reads the list of declared names, still
    configures it. *)
Lemma dropped_duplicate_configured_counterexample :
  orchestrator_summary (persisted (snd controller_run_1))
  = Some [("aws1-c01-f", Some CONFIGURED, Some FAILED, Manager)] /\
  option_map tg_orchestrator
             (dict_get "f" (build_create_target two_controllers))
  = Some ["aws1-c02-f"; "aws1-c01-f"] /\
  retained (ok_or (gen_init example_state empty_target)
                  controller_generation_2)
  = ["aws1-c02-f"] /\
  map (fun l => (log_text l, log_args l))
      (filter (fun l => match log_level l with Warn => true | _ => false end)
              (skipn (List.length (logs (snd controller_run_1)))
                     (logs (snd controller_run_2))))
  = [("Orchestrator of type placed in current batch more than once. Skipping duplicate entities",
      ["aws1-c02-f"]);
     ("controller admin password", [])] /\
  In (AnsibleInventoryGenerate "f" ["aws1-c02-f"; "aws1-c01-f"])
     (skipn (List.length (trace (snd controller_run_1)))
            (trace (snd controller_run_2))) /\
  orchestrator_summary (persisted (snd controller_run_2))
  = Some [("aws1-c01-f", Some CONFIGURED, Some SUCCESS, Manager);
          ("aws1-c02-f", Some CONFIGURED, Some SUCCESS, RoleUnset)].
Proof.
  vm_compute. repeat split; try reflexivity.
  do 19 right. left. reflexivity.
Qed.

(** The amended C6 on the batch of two controllers in a fabric without
    orchestrators: the first goes to creation, with the warning, and the
    second does not. *)
Lemma orchestrator_dedup_creation_witness :
  NoDup (tg_orchestrator two_controllers_target) /\
  NoDup (map fst (@nil (string * NodeObj))) /\
  incl (retained (ok_or (gen_init example_state empty_target)
                        controller_generation))
       (tg_orchestrator two_controllers_target) /\
  In "aws1-c02-f"
     (retained (ok_or (gen_init example_state empty_target)
                      controller_generation)) /\
  In (mkLog Warn "Orchestrator of type placed in current batch more than once. Skipping duplicate entities"
            ["aws1-c02-f"])
     (logs (snd controller_generation)) /\
  ~ In "aws1-c01-f"
       (retained (ok_or (gen_init example_state empty_target)
                        controller_generation)).
Proof.
  assert (Hnd : NoDup (tg_orchestrator two_controllers_target))
    by (repeat constructor; simpl; intuition discriminate).
  split; [exact Hnd|]. split; [constructor|].
  destruct (@orchestrator_dedup_creation unit two_controllers "f"
              two_controllers_target example_state (machine_of example_state)
              (ok_or (gen_init example_state empty_target)
                     controller_generation)
              (snd controller_generation) [] Hnd)
    as (Hincl & _ & Hfirst & _ & Hkept & _).
  - vm_compute; reflexivity.
  - constructor.
  - vm_compute; reflexivity.
  - destruct (Hkept "aws1-c02-f"
                (orchestrator_entry "aws1-c02-f" Controller RoleUnset
                                    CONFIGURED))
      as [Hin Hwarn].
    + reflexivity.
    + reflexivity.
    + intros (x & o & Hx & _). discriminate Hx.
    + reflexivity.
    + reflexivity.
    + intros o Ho. discriminate Ho.
    + split; [exact Hincl|]. split; [exact Hin|].
      split; [apply Hwarn; discriminate|].
      intro C.
      specialize (Hfirst "aws1-c01-f"
                    (orchestrator_entry "aws1-c01-f" Controller RoleUnset
                                        CONFIGURED) C eq_refl).
      discriminate Hfirst.
Defined.

(** ** Orchestrators: at most one manager *)

(** C9 (amended): orchestrator configuration keeps a fabric at no more than
    one manager when the list it configures names at most one controller of
    the fabric; orchestrator creation, however it ends, leaves a fabric
    that had at most one manager with at most one; and an orchestrator that
    batch processing generates bears the role its batch object declares. *)
Theorem at_most_one_manager_preserved :
  forall (W : Type) (oracle : Call -> W -> Answer * W),
    (forall self fabric_name l (m : Machine W) res self' m' d,
        get_fabric_objects self ORCHESTRATOR fabric_name = Some d ->
        List.length (managers d) <= 1 ->
        List.length (filter (is_controller d) l) <= 1 ->
        orchestrator_configure oracle self fabric_name l m
        = (Ok (res, self'), m') ->
        exists d',
          get_fabric_objects self' ORCHESTRATOR fabric_name = Some d' /\
          List.length (managers d') <= 1) /\
    (forall vpc orchestrator_type (m : Machine W) r m' fabric_name d,
        get_fabric_objects (ctx_state m) ORCHESTRATOR fabric_name = Some d ->
        List.length (managers d) <= 1 ->
        create_orchestrator oracle vpc orchestrator_type m = (r, m') ->
        exists d',
          get_fabric_objects (ctx_state m') ORCHESTRATOR fabric_name
          = Some d' /\
          List.length (managers d') <= 1) /\
    (forall batch_spec fabric_name n g (m : Machine W) g' m' d,
        get_fabric_objects (temp_node_state g) ORCHESTRATOR fabric_name
        = Some d ->
        gen_node batch_spec fabric_name ORCHESTRATOR n g m = (Ok g', m') ->
        exists e,
          orchestrator_entry_of batch_spec n = Some e /\
          (temp_node_state g' = temp_node_state g \/
           exists new_node,
             get_fabric_objects (temp_node_state g') ORCHESTRATOR fabric_name
             = Some (dict_set n new_node d) /\
             n_role new_node = e_role e)).
Proof.
  intros W oracle. split; [|split].
  - intros self fabric_name l m res self' m' d Hd Hm Hc E.
    exact (@orchestrator_configure_one_manager W oracle self fabric_name l m
             res self' m' d Hd Hm Hc E).
  - intros vpc orchestrator_type m r m' fabric_name d Hd Hm E.
    destruct (@create_orchestrator_no_new_manager W oracle vpc
                orchestrator_type m r m' E fabric_name d Hd) as [d' [Hd' Hle]].
    exists d'. split; [exact Hd' | lia].
  - intros batch_spec fabric_name n g m g' m' d Hd E.
    destruct (@gen_node_orchestrator W batch_spec fabric_name n g m g' m' d
                Hd E)
      as (e & He & _ & [[_ Hs] | (_ & _ & _ & _ & new_node & Hd' & _
                                  & Hrole)]).
    + exists e. split; [exact He|]. left. exact Hs.
    + exists e. split; [exact He|]. right. exists new_node.
      split; [exact Hd' | exact Hrole].
Qed.

(** C9, as the specification states it, fails. A first
    [create orchestrator controller] stops where the inventory cannot be
    written and leaves [aws1-c01-f] in the state without state or status; a
    second one succeeds and adds [aws1-c02-f]; [configure orchestrator --all]
    then hands both to [orchestrator_configure], which finds no manager and
    makes every controller of its list manager. A batch whose orchestrators
    declare the role gets there in one run, the role being copied from the
    batch file. *)
Lemma two_managers_counterexample :
  orchestrator_summary example_state = Some [] /\
  fst manager_step_1 = Exit 1 /\
  orchestrator_summary (persisted (snd manager_step_1))
  = Some [("aws1-c01-f", None, None, RoleUnset)] /\
  fst manager_step_2 = Ok true /\
  orchestrator_summary (persisted (snd manager_step_2))
  = Some [("aws1-c01-f", None, None, RoleUnset);
          ("aws1-c02-f", Some CREATED, Some SUCCESS, RoleUnset)] /\
  fst manager_step_3 = Ok true /\
  orchestrator_summary (persisted (snd manager_step_3))
  = Some [("aws1-c01-f", Some CONFIGURED, Some SUCCESS, Manager);
          ("aws1-c02-f", Some CONFIGURED, Some SUCCESS, Manager)] /\
  fst declared_managers_run = Ok true /\
  orchestrator_summary (persisted (snd declared_managers_run))
  = Some [("aws1-c01-f", Some CREATED, Some SUCCESS, Manager);
          ("aws1-c02-f", Some CREATED, Some SUCCESS, Manager)].
Proof. vm_compute. repeat split; reflexivity. Qed.

(** The amended C9 on one controller, created and then configured. *)
Lemma at_most_one_manager_preserved_witness :
  orchestrator_summary (ctx_state (snd single_controller_created))
  = Some [("aws1-c01-f", Some CREATED, Some SUCCESS, RoleUnset)] /\
  (exists d',
     get_fabric_objects (ctx_state (snd single_controller_created))
                        ORCHESTRATOR "f" = Some d' /\
     List.length (managers d') <= 1) /\
  (exists d',
     get_fabric_objects
       (snd (ok_or ((false, 0), example_state) single_controller_configured))
       ORCHESTRATOR "f" = Some d' /\
     List.length (managers d') <= 1).
Proof.
  split; [vm_compute; reflexivity|].
  destruct (@at_most_one_manager_preserved unit oracle_ok)
    as [Hconf [Hnew _]].
  split.
  - eapply (Hnew "aws1-vpc-f" Controller (machine_of example_state)
                 (fst single_controller_created)
                 (snd single_controller_created) "f").
    + vm_compute; reflexivity.
    + vm_compute; lia.
    + vm_compute; reflexivity.
  - eapply (Hconf (ctx_state (snd single_controller_created)) "f"
                  ["aws1-c01-f"] (snd single_controller_created)
                  (fst (ok_or ((false, 0), example_state)
                              single_controller_configured))
                  _ (snd single_controller_configured)).
    + vm_compute; reflexivity.
    + vm_compute; lia.
    + vm_compute; lia.
    + vm_compute; reflexivity.
Defined.

(** ** What the state methods record *)

Lemma fabric_nodes_with_nodes : forall fo k k' d,
  role_bearing k = true \/ k = ORCHESTRATOR ->
  fabric_nodes (fabric_with_nodes fo k d) k'
  = if kind_eqb k' k then d else fabric_nodes fo k'.
Proof.
  intros fo k k' d Hk.
  destruct k; destruct Hk as [Hk|Hk]; try discriminate;
    destruct k'; reflexivity.
Qed.

Lemma get_fabric_object_replaced : forall s f fo' k n f',
  get_fabric_object (with_fabrics s (dict_set f fo' (fabric s))) k n f'
  = if String.eqb f' f then Some (dict_get n (fabric_nodes fo' k))
    else get_fabric_object s k n f'.
Proof.
  intros s f fo' k n f'.
  unfold get_fabric_object, get_fabric_objects, get_fabric, with_fabrics.
  cbn [fabric].
  destruct (String.eqb f' f) eqn:E.
  - apply String.eqb_eq in E. subst f'. rewrite dict_get_set_same.
    reflexivity.
  - apply String.eqb_neq in E. rewrite dict_get_set_other by exact E.
    reflexivity.
Qed.

Lemma get_fabric_object_some : forall s f fo k n,
  get_fabric s f = Some fo ->
  get_fabric_object s k n f = Some (dict_get n (fabric_nodes fo k)).
Proof.
  intros s f fo k n H. unfold get_fabric_object, get_fabric_objects.
  rewrite H. reflexivity.
Qed.

Lemma node_eq_dec : forall a b : ObjectKind * string, {a = b} + {a <> b}.
Proof. decide equality; [apply string_dec | decide equality]. Qed.

Lemma kind_eqb_refl : forall k, kind_eqb k k = true.
Proof. destruct k; reflexivity. Qed.

Lemma update_node_object : forall s f k n g s',
  update_node s f k n g = Some s' ->
  exists o,
    get_fabric_object s k n f = Some (Some o) /\
    get_fabric_object s' k n f = Some (Some (g o)) /\
    forall f' k' n',
      ~ (f' = f /\ k' = k /\ n' = n) ->
      get_fabric_object s' k' n' f' = get_fabric_object s k' n' f'.
Proof.
  intros s f k n g s' Hu. unfold update_node in Hu.
  destruct (get_fabric s f) as [fo|] eqn:Hf; [|discriminate].
  destruct (dict_get n (fabric_nodes fo k)) as [o|] eqn:Ho; [|discriminate].
  injection Hu as <-.
  assert (Hk : role_bearing k = true \/ k = ORCHESTRATOR).
  { destruct k; simpl in Ho; try discriminate; auto. }
  exists o. split; [rewrite (get_fabric_object_some _ _ _ _ Hf), Ho; reflexivity|].
  split.
  - rewrite get_fabric_object_replaced, String.eqb_refl.
    rewrite (@fabric_nodes_with_nodes fo k _ _ Hk), kind_eqb_refl.
    rewrite dict_get_set_same. reflexivity.
  - intros f' k' n' Hne. rewrite get_fabric_object_replaced.
    destruct (String.eqb f' f) eqn:Ef; [|reflexivity].
    apply String.eqb_eq in Ef. subst f'.
    rewrite (get_fabric_object_some _ _ _ _ Hf).
    rewrite (@fabric_nodes_with_nodes fo k _ _ Hk).
    destruct (kind_eqb k' k) eqn:Ek; [|reflexivity].
    apply kind_eqb_eq in Ek. subst k'.
    rewrite dict_get_set_other; [reflexivity|].
    intro En. apply Hne. auto.
Qed.

Lemma set_nodes_state_status_recorded :
  forall f state status nodes s s',
    set_nodes_state_status s f nodes state status = Some s' ->
    (forall k n, In (k, n) nodes -> recorded s' f k n state status) /\
    (forall f' k n, ~ (f' = f /\ In (k, n) nodes) ->
       get_fabric_object s' k n f' = get_fabric_object s k n f').
Proof.
  intros f state status. induction nodes as [|[k n] nodes IH];
    intros s s' H; simpl in H.
  - injection H as <-. split; [intros k n []|reflexivity].
  - destruct (update_node s f k n _) as [s1|] eqn:Hu; [|discriminate].
    destruct (update_node_object _ _ _ _ _ Hu) as [o [Ho [Ho1 Hother]]].
    destruct (IH _ _ H) as [Hin Hout]. split.
    + intros k' n' [E|Hin']; [|exact (Hin _ _ Hin')].
      injection E as <- <-.
      destruct (in_dec node_eq_dec (k, n) nodes) as [Hd|Hd].
      * exact (Hin _ _ Hd).
      * exists (set_object_state_status o state status).
        rewrite (Hout f k n) by (intros [_ Hc]; exact (Hd Hc)).
        rewrite Ho1. repeat split.
    + intros f' k' n' Hne. rewrite (Hout f' k' n').
      * apply Hother. intros [-> [-> ->]]. apply Hne. split; [reflexivity|].
        left. reflexivity.
      * intros [-> Hc]. apply Hne. split; [reflexivity|]. right. exact Hc.
Qed.

Lemma in_map_pair : forall (k : ObjectKind) (n : string) l,
  In (k, n) (map (pair k) l) <-> In n l.
Proof.
  intros k n l. rewrite in_map_iff. split.
  - intros [x [E H]]. injection E as ->. exact H.
  - intro H. exists n. split; [reflexivity | exact H].
Qed.

Lemma same_outside_refl : forall s f k l, same_outside s s f k l.
Proof. intros s f k l f' k' n _. reflexivity. Qed.

Lemma set_nodes_state_status_kind :
  forall f k l state status s s',
    set_nodes_state_status s f (map (pair k) l) state status = Some s' ->
    (forall n, In n l -> recorded s' f k n state status) /\
    same_outside s s' f k l.
Proof.
  intros f k l state status s s' H.
  destruct (set_nodes_state_status_recorded _ _ _ _ _ H) as [Hin Hout].
  split.
  - intros n Hn. apply Hin. apply in_map_pair. exact Hn.
  - intros f' k' n Hne. apply Hout. intros [-> Hc]. apply Hne.
    apply in_map_iff in Hc. destruct Hc as [x [E Hx]].
    injection E as <- <-. auto.
Qed.

Section OutcomeFacts.
Variable W : Type.
Variable oracle : Call -> W -> Answer * W.

Lemma run_nodes_records_outcome : forall k playbook target opening,
  records_outcome (run_nodes oracle k playbook target opening) k target.
Proof.
  intros k playbook target opening self f l m b code self' m' E.
  unfold run_nodes in E.
  run E; inversion E; subst; clear E.
  all: repeat match goal with
       | H : set_nodes_state_status _ _ _ _ _ = Some _ |- _ =>
           apply set_nodes_state_status_kind in H; destruct H as [? ?]
       end.
  all: repeat split; try discriminate; try assumption;
       try apply same_outside_refl; intros; auto.
Qed.

(** The six methods that run a playbook over a list of processors or
    workloads record its outcome on every node of the list: the target
    state with status success when they return true, the target state with
    status failed when the playbook failed, nothing at all when they gave
    up before the playbook; no other node changes. *)
Theorem node_methods_record_outcome :
  records_outcome (workload_configure oracle) WORKLOAD CONFIGURED /\
  records_outcome (processor_configure oracle) PROCESSOR CONFIGURED /\
  records_outcome (workload_start oracle) WORKLOAD STARTED /\
  records_outcome (processor_start oracle) PROCESSOR STARTED /\
  records_outcome (workload_stop oracle) WORKLOAD STOPPED /\
  records_outcome (processor_stop oracle) PROCESSOR STOPPED.
Proof.
  repeat apply conj; apply run_nodes_records_outcome.
Qed.

End OutcomeFacts.

(** *** VPCs and fabrics *)

(** Symbolic execution of a command in a hypothesis [c m = (r, m')],
    whatever the outcome [r]. *)
Ltac run_any E :=
  repeat first
    [ progress (unfold bind, ret, must, log, raise, sys_exit, get_ctx, set_ctx,
                 call, commit, dump in E;
               cbv beta iota zeta in E;
               cbn [ctx_state persisted world trace logs] in E)
    | break_hyp E ].

Lemma update_vpc_object : forall s f n g s',
  update_vpc s f n g = Some s' ->
  exists o,
    get_fabric_vpc s n f = Some (Some o) /\
    get_fabric_vpc s' n f = Some (Some (g o)) /\
    (forall f' n', ~ (f' = f /\ n' = n) ->
       get_fabric_vpc s' n' f' = get_fabric_vpc s n' f') /\
    (forall f' k, get_fabric_objects s' k f' = get_fabric_objects s k f').
Proof.
  intros s f n g s' Hu. unfold update_vpc in Hu.
  destruct (get_fabric s f) as [fo|] eqn:Hf; [|discriminate].
  destruct (dict_get n (f_vpc fo)) as [o|] eqn:Ho; [|discriminate].
  injection Hu as <-. exists o.
  unfold get_fabric_vpc, get_fabric_vpcs, get_fabric_objects, get_fabric,
    with_fabrics in *. cbn [fabric].
  rewrite Hf. cbn [option_map]. rewrite Ho.
  split; [reflexivity|]. split; [|split].
  - rewrite dict_get_set_same. cbn [option_map fabric_with_vpcs f_vpc].
    rewrite dict_get_set_same. reflexivity.
  - intros f' n' Hne. destruct (String.eqb f' f) eqn:Ef.
    + apply String.eqb_eq in Ef. subst f'. rewrite dict_get_set_same, Hf.
      cbn [option_map fabric_with_vpcs f_vpc].
      rewrite dict_get_set_other; [reflexivity|]. intro En. apply Hne. auto.
    + apply String.eqb_neq in Ef. rewrite dict_get_set_other by exact Ef.
      reflexivity.
  - intros f' k. destruct (String.eqb f' f) eqn:Ef.
    + apply String.eqb_eq in Ef. subst f'. rewrite dict_get_set_same, Hf.
      destruct k; reflexivity.
    + apply String.eqb_neq in Ef. rewrite dict_get_set_other by exact Ef.
      reflexivity.
Qed.

Lemma set_vpcs_state_status_recorded :
  forall f state status l s s',
    set_vpcs_state_status s f l state status = Some s' ->
    (forall n, In n l -> recorded_vpc s' f n state status) /\
    (forall f' n, ~ (f' = f /\ In n l) ->
       get_fabric_vpc s' n f' = get_fabric_vpc s n f') /\
    (forall f' k, get_fabric_objects s' k f' = get_fabric_objects s k f').
Proof.
  intros f state status. induction l as [|n l IH]; intros s s' H; simpl in H.
  - injection H as <-. split; [intros n []|]. split; reflexivity.
  - destruct (update_vpc s f n _) as [s1|] eqn:Hu; [|discriminate].
    destruct (update_vpc_object _ _ _ _ Hu) as [o [Ho [Ho1 [Hother Hnodes]]]].
    destruct (IH _ _ H) as [Hin [Hout Hn]]. split; [|split].
    + intros n' [<-|Hin']; [|exact (Hin _ Hin')].
      destruct (in_dec string_dec n l) as [Hd|Hd]; [exact (Hin _ Hd)|].
      exists (set_object_state_status o state status).
      rewrite (Hout f n) by (intros [_ Hc]; exact (Hd Hc)).
      rewrite Ho1. repeat split.
    + intros f' n' Hne. rewrite (Hout f' n').
      * apply Hother. intros [-> ->]. apply Hne. split; [reflexivity|].
        left. reflexivity.
      * intros [-> Hc]. apply Hne. split; [reflexivity|]. right. exact Hc.
    + intros f' k. rewrite Hn. apply Hnodes.
Qed.

Lemma set_vpcs_state_status_total :
  forall f state status l s,
    (forall n, In n l -> exists o, get_fabric_vpc s n f = Some (Some o)) ->
    exists s', set_vpcs_state_status s f l state status = Some s'.
Proof.
  intros f state status. induction l as [|n l IH]; intros s Hall;
    cbn [set_vpcs_state_status].
  - exists s. reflexivity.
  - destruct (Hall n (or_introl eq_refl)) as [o Ho].
    assert (Hu : exists s1, update_vpc s f n
                   (fun o => set_object_state_status o state status) = Some s1).
    { unfold update_vpc. unfold get_fabric_vpc, get_fabric_vpcs in Ho.
      destruct (get_fabric s f) as [fo|]; [|discriminate].
      simpl in Ho. injection Ho as Ho. rewrite Ho. eexists. reflexivity. }
    destruct Hu as [s1 Hu]. rewrite Hu.
    destruct (update_vpc_object _ _ _ _ Hu) as [o1 [Ho1 [Ho2 [Hother _]]]].
    apply IH. intros n' Hn'.
    destruct (string_dec n' n) as [->|Hne].
    + eexists. exact Ho2.
    + rewrite Hother by (intros [_ E]; exact (Hne E)).
      apply Hall. right. exact Hn'.
Qed.

Section VpcFabricFacts.
Variable W : Type.
Variable oracle : Call -> W -> Answer * W.

(** [vpc_create] on VPCs that are in the state always returns. When it
    returns true, every VPC of the list is (created, success). When it
    returns false, either the credentials were missing and nothing changed,
    or every VPC of the list is (created, failed). The other VPCs and all
    nodes are as they were. *)
Theorem vpc_create_records_outcome :
  forall self fabric_name vpc_list (m : Machine W),
    (forall n, In n vpc_list ->
       exists o, get_fabric_vpc self n fabric_name = Some (Some o)) ->
    exists b code self' m',
      vpc_create oracle self fabric_name vpc_list m
      = (Ok ((b, code), self'), m') /\
      (b = true ->
       code = 0 /\
       forall n, In n vpc_list ->
         recorded_vpc self' fabric_name n CREATED SUCCESS) /\
      (b = false ->
       (self' = self /\ trace m' = trace m ++ [CredentialsGet fabric_name]) \/
       forall n, In n vpc_list ->
         recorded_vpc self' fabric_name n CREATED FAILED) /\
      (forall f' n, ~ (f' = fabric_name /\ In n vpc_list) ->
         get_fabric_vpc self' n f' = get_fabric_vpc self n f') /\
      (forall f' k, get_fabric_objects self' k f' = get_fabric_objects self k f').
Proof.
  intros self f l m Hall.
  destruct (vpc_create oracle self f l m) as [r m'] eqn:E.
  unfold vpc_create in E.
  run_any E; inversion E; subst; clear E.
  all: try (exfalso;
            match goal with
            | H : set_vpcs_state_status _ _ _ ?st ?su = None |- _ =>
                destruct (set_vpcs_state_status_total f st su l self Hall)
                  as [? Ht]; congruence
            end).
  all: do 4 eexists; (split; [reflexivity|]).
  all: repeat match goal with
       | H : set_vpcs_state_status _ _ _ _ _ = Some _ |- _ =>
           apply set_vpcs_state_status_recorded in H; destruct H as [? [? ?]]
       end.
  all: cbn [trace]; repeat apply conj; try discriminate; try assumption;
       try reflexivity; intros; auto.
Qed.

End VpcFabricFacts.

Lemma update_fabric_object : forall s f g s',
  update_fabric s f g = Some s' ->
  exists fo,
    get_fabric s f = Some fo /\ get_fabric s' f = Some (g fo) /\
    config s' = config s /\
    forall f', f' <> f -> get_fabric s' f' = get_fabric s f'.
Proof.
  intros s f g s' H. unfold update_fabric in H.
  destruct (get_fabric s f) as [fo|] eqn:Hf; [|discriminate].
  injection H as <-. exists fo. split; [reflexivity|].
  unfold get_fabric, with_fabrics. cbn [fabric config].
  rewrite dict_get_set_same. repeat split.
  intros f' Hne. rewrite dict_get_set_other by exact Hne. reflexivity.
Qed.

Section FabricFacts.
Variable W : Type.
Variable oracle : Call -> W -> Answer * W.

(** [fabric_create] and [fabric_configure] on a fabric that is in the
    state always return, and record the outcome whatever step failed: the
    fabric is created (configured), with status success exactly when the
    method returns true. So the fabric can be the current one after
    [fabric_configure] exactly when that returned true, and never right
    after [fabric_create]. *)
Theorem fabric_methods_record_outcome :
  forall self fabric_name fo skip_ssh (m : Machine W),
    get_fabric self fabric_name = Some fo ->
    cfg_current_fabric (config self) = Some fabric_name ->
    (exists b code self' m',
        fabric_create oracle self fabric_name m
        = (Ok ((b, code), self'), m') /\
        (b = true -> code = 0) /\
        recorded_fabric self' fabric_name CREATED
                        (if b then SUCCESS else FAILED) /\
        get_current_fabric self' = None) /\
    (exists b code self' m',
        fabric_configure oracle self fabric_name skip_ssh m
        = (Ok ((b, code), self'), m') /\
        (b = true -> code = 0) /\
        recorded_fabric self' fabric_name CONFIGURED
                        (if b then SUCCESS else FAILED) /\
        get_current_fabric self' = if b then Some fabric_name else None).
Proof.
  intros self f fo skip m Hf Hc.
  assert (Hsel : forall s' (b : bool) st,
             st = CREATED \/ st = CONFIGURED ->
             config s' = config self ->
             recorded_fabric s' f st (if b then SUCCESS else FAILED) ->
             get_current_fabric s'
             = if state_eqb st CONFIGURED && b then Some f else None).
  { intros s' b st Hor Hcfg [fo' [Hf' [Hst Hsu]]].
    unfold get_current_fabric, check_fabric, dict_mem.
    rewrite Hcfg, Hc. unfold get_fabric in Hf'. rewrite Hf'.
    unfold check_object_state, check_object_status, get_object_state,
      get_object_status. cbn [obj_state obj_status FabricObj_Stateful].
    rewrite Hst, Hsu. destruct Hor; subst st; destruct b; reflexivity. }
  assert (Hup : forall s st su,
             get_fabric s f <> None ->
             exists s', update_fabric s f
                          (fun x => set_object_state_status x st su) = Some s').
  { intros s st su Hs. unfold update_fabric.
    destruct (get_fabric s f); [eexists; reflexivity | congruence]. }
  split.
  - destruct (fabric_create oracle self f m) as [r m'] eqn:E.
    unfold fabric_create in E.
    run_any E; inversion E; subst; clear E.
    all: repeat match goal with
         | H : update_fabric _ _ _ = Some _ |- _ =>
             apply update_fabric_object in H;
             destruct H as [? [? [? [? ?]]]]
         | H : update_fabric ?s _ (fun x => set_object_state_status x ?st ?su)
               = None |- _ =>
             exfalso; destruct (Hup s st su) as [? ?]; congruence
         end.
    all: do 4 eexists; (split; [reflexivity|]).
    all: (split; [try discriminate; reflexivity|]).
    all: match goal with
         | |- recorded_fabric ?s _ ?st ?su /\ _ =>
             assert (Hr : recorded_fabric s f st su)
               by (eexists; split; [eassumption|]; split; reflexivity);
             split; [exact Hr|];
             first [ rewrite (Hsel s true st) by (auto; congruence)
                   | rewrite (Hsel s false st) by (auto; congruence) ];
             reflexivity
         end.
  - destruct (fabric_configure oracle self f skip m) as [r m'] eqn:E.
    unfold fabric_configure in E.
    run_any E; inversion E; subst; clear E.
    all: repeat match goal with
         | H : update_fabric _ _ _ = Some _ |- _ =>
             apply update_fabric_object in H;
             destruct H as [? [? [? [? ?]]]]
         | H : update_fabric ?s _ (fun x => set_object_state_status x ?st ?su)
               = None |- _ =>
             exfalso; destruct (Hup s st su) as [? ?]; congruence
         end.
    all: do 4 eexists; (split; [reflexivity|]).
    all: (split; [try discriminate; reflexivity|]).
    all: match goal with
         | |- recorded_fabric ?s _ ?st ?su /\ _ =>
             assert (Hr : recorded_fabric s f st su)
               by (eexists; split; [eassumption|]; split; reflexivity);
             split; [exact Hr|];
             first [ rewrite (Hsel s true st) by (auto; congruence)
                   | rewrite (Hsel s false st) by (auto; congruence) ];
             reflexivity
         end.
Qed.

End FabricFacts.

(** *** Orchestrators *)

Lemma orchestrator_precheck_total : forall d l,
  (forall n, In n l -> dict_mem n d = true) ->
  exists b, orchestrator_precheck d l = Some b.
Proof.
  intros d. induction l as [|n l IH]; intro Hall; cbn [orchestrator_precheck].
  - exists true. reflexivity.
  - pose proof (Hall n (or_introl eq_refl)) as Hn. unfold dict_mem in Hn.
    destruct (dict_get n d) as [o|]; [|discriminate].
    destruct (check_object_status o FAILED && check_object_state o CREATED).
    + exists false. reflexivity.
    + apply IH. intros n' Hn'. apply Hall. right. exact Hn'.
Qed.

Lemma orchestrator_precheck_failed : forall d l,
  (forall n, In n l -> dict_mem n d = true) ->
  (exists n o, In n l /\ dict_get n d = Some o /\
               n_state o = Some CREATED /\ n_status o = Some FAILED) ->
  orchestrator_precheck d l = Some false.
Proof.
  intros d. induction l as [|n l IH]; intros Hall [x [o [Hin [Ho [Hst Hsu]]]]];
    cbn [orchestrator_precheck].
  - destruct Hin.
  - pose proof (Hall n (or_introl eq_refl)) as Hn. unfold dict_mem in Hn.
    destruct (dict_get n d) as [o'|] eqn:Ho'; [|discriminate].
    destruct (check_object_status o' FAILED && check_object_state o' CREATED)
      eqn:Ec; [reflexivity|].
    apply IH; [intros n' Hn'; apply Hall; right; exact Hn'|].
    destruct Hin as [<-|Hin].
    + exfalso. rewrite Ho in Ho'. injection Ho' as <-.
      unfold check_object_status, check_object_state, get_object_state,
        get_object_status in Ec.
      cbn [obj_state obj_status NodeObj_Stateful] in Ec.
      rewrite Hst, Hsu in Ec. discriminate.
    + exists x, o. auto.
Qed.

Lemma assign_roles_no_controller : forall f l self found d,
  get_fabric_objects self ORCHESTRATOR f = Some d ->
  (forall n, In n l -> exists o, dict_get n d = Some o /\
                                 n_type o <> Some Controller) ->
  exists self', assign_roles self f l found = Some (self', found).
Proof.
  intros f. induction l as [|n l IH]; intros self found d Hd Hall;
    cbn [assign_roles].
  - exists self. reflexivity.
  - rewrite Hd. destruct (Hall n (or_introl eq_refl)) as [o [Ho Ht]].
    rewrite Ho.
    assert (Hc : match n_type o with Some Controller => true | _ => false end
                 = false).
    { destruct (n_type o) as [[]|]; congruence. }
    rewrite Hc.
    assert (Hu : exists s1, update_node self f ORCHESTRATOR n (set_role Worker)
                            = Some s1).
    { unfold update_node. unfold get_fabric_objects in Hd.
      destruct (get_fabric self f) as [fo|]; [|discriminate].
      injection Hd as Hd. cbn [fabric_nodes] in *. rewrite Hd, Ho.
      eexists. reflexivity. }
    destruct Hu as [s1 Hu]. rewrite Hu.
    destruct (@update_node_orchestrators _ _ _ _ _ _ Hu Hd) as [o' [Ho' Hd1]].
    apply (IH s1 found _ Hd1).
    intros n' Hn'. destruct (string_dec n' n) as [->|Hne].
    + rewrite dict_get_set_same. eexists. split; [reflexivity|].
      rewrite Ho in Ho'. injection Ho' as <-. exact Ht.
    + rewrite dict_get_set_other by exact Hne. apply Hall. right. exact Hn'.
Qed.

Lemma same_outside_trans : forall s1 s2 s3 f k l,
  same_outside s1 s2 f k l -> same_outside s2 s3 f k l ->
  same_outside s1 s3 f k l.
Proof.
  intros s1 s2 s3 f k l H12 H23 f' k' n Hne.
  rewrite (H23 f' k' n Hne). apply H12. exact Hne.
Qed.

Lemma assign_roles_same_outside : forall f l self found self' found',
  assign_roles self f l found = Some (self', found') ->
  same_outside self self' f ORCHESTRATOR l.
Proof.
  intros f. induction l as [|n l IH]; intros self found self' found' H;
    cbn [assign_roles] in H.
  - injection H as <- <-. apply same_outside_refl.
  - destruct (get_fabric_objects self ORCHESTRATOR f) as [d|]; [|discriminate].
    destruct (dict_get n d) as [obj|]; [|discriminate].
    destruct (update_node self f ORCHESTRATOR n _) as [s1|] eqn:Hu;
      [|discriminate].
    destruct (update_node_object _ _ _ _ _ Hu) as [o [_ [_ Hother]]].
    specialize (IH _ _ _ _ H).
    intros f' k' n' Hne. rewrite (IH f' k' n').
    + apply Hother. intros [-> [-> ->]]. apply Hne. repeat split. left.
      reflexivity.
    + intros [-> [-> Hin]]. apply Hne. repeat split. right. exact Hin.
Qed.

Lemma assign_manager_same_outside : forall f l self self' found,
  assign_manager self f l = Some (self', found) ->
  same_outside self self' f ORCHESTRATOR l.
Proof.
  intros f l self self' found H. unfold assign_manager in H.
  destruct (get_fabric_objects self ORCHESTRATOR f) as [d|]; [|discriminate].
  destruct (managers d).
  - exact (@assign_roles_same_outside _ _ _ _ _ _ H).
  - injection H as <- <-. apply same_outside_refl.
Qed.

Section OrchestratorFacts.
Variable W : Type.
Variable oracle : Call -> W -> Answer * W.

(** [orchestrator_configure] gives up with [(False, 1)] before any call to
    Ansible when an orchestrator of the list is in (created, failed), and
    when the fabric has no swarm manager and the list names no controller. *)
Theorem orchestrator_configure_refuses :
  forall self fabric_name l (m : Machine W) d,
    get_fabric_objects self ORCHESTRATOR fabric_name = Some d ->
    (forall n, In n l -> dict_mem n d = true) ->
    (exists n o, In n l /\ dict_get n d = Some o /\
                 n_state o = Some CREATED /\ n_status o = Some FAILED)
    \/ (managers d = [] /\
        forall n o, In n l -> dict_get n d = Some o ->
                    n_type o <> Some Controller) ->
    exists self' m',
      orchestrator_configure oracle self fabric_name l m
      = (Ok ((false, 1), self'), m') /\
      quiet m m'.
Proof.
  intros self f l m d Hd Hall Hcase.
  destruct (orchestrator_precheck_total d l Hall) as [pre Hpre].
  assert (Hgo : pre = false \/
                (pre = true /\ managers d = [] /\
                 forall n o, In n l -> dict_get n d = Some o ->
                             n_type o <> Some Controller)).
  { destruct Hcase as [Hfail|[Hm Hnc]].
    - left. rewrite (orchestrator_precheck_failed d l Hall Hfail) in Hpre.
      congruence.
    - destruct pre; auto. }
  unfold orchestrator_configure, bind, must, ret, log.
  rewrite Hd. cbv beta iota zeta. rewrite Hpre. cbv beta iota zeta.
  destruct Hgo as [->|[-> [Hm Hnc]]]; cbn [negb].
  - do 2 eexists. split; [reflexivity|]. repeat split.
  - unfold assign_manager. rewrite Hd, Hm.
    destruct (@assign_roles_no_controller f l self false d Hd) as [s1 Hs1].
    { intros n Hn. pose proof (Hall n Hn) as Hmem. unfold dict_mem in Hmem.
      destruct (dict_get n d) as [o|] eqn:Ho; [|discriminate].
      exists o. split; [reflexivity|]. exact (Hnc n o Hn Ho). }
    rewrite Hs1. cbv beta iota zeta. cbn [negb].
    do 2 eexists. split; [reflexivity|]. repeat split.
Qed.

Lemma orchestrator_configure_true :
  forall self fabric_name l (m : Machine W) code self' m',
    orchestrator_configure oracle self fabric_name l m
    = (Ok ((true, code), self'), m') ->
    code = 0 /\
    (forall n, In n l ->
       recorded self' fabric_name ORCHESTRATOR n CONFIGURED SUCCESS) /\
    (exists d', get_fabric_objects self' ORCHESTRATOR fabric_name = Some d' /\
                managers d' <> []) /\
    same_outside self self' fabric_name ORCHESTRATOR l.
Proof.
  intros self f l m code self' m' E.
  unfold orchestrator_configure in E.
  run E; inversion E; subst; clear E.
  all: match goal with
       | Hs : set_nodes_state_status ?s1 _ _ _ _ = Some _,
         Hg : get_fabric_objects ?s1 _ _ = Some ?d1,
         Hh : option_map fst (hd_error (managers ?d1)) = Some _,
         Ha : assign_manager _ _ _ = Some _ |- _ =>
           destruct (@set_nodes_state_status_managers _ _ _ _ _ _ _ Hs Hg)
             as [d' [Hd' Hm]];
           apply set_nodes_state_status_kind in Hs;
           destruct Hs as [Hrec Hout];
           apply assign_manager_same_outside in Ha;
           split; [reflexivity|]; split; [exact Hrec|]; split;
           [ exists d'; split; [exact Hd'|]; intro Hnil; rewrite Hnil in Hm;
             destruct (managers d1); [discriminate Hh | discriminate Hm]
           | exact (same_outside_trans Ha Hout) ]
       end.
Qed.

(** When [orchestrator_configure] returns true, every orchestrator of the
    list is (configured, success), the fabric has a swarm manager, and no
    node outside the list has changed. *)
Theorem orchestrator_configure_success :
  forall self fabric_name l (m : Machine W) code self' m',
    orchestrator_configure oracle self fabric_name l m
    = (Ok ((true, code), self'), m') ->
    code = 0 /\
    (forall n, In n l ->
       recorded self' fabric_name ORCHESTRATOR n CONFIGURED SUCCESS) /\
    (exists d', get_fabric_objects self' ORCHESTRATOR fabric_name = Some d' /\
                managers d' <> []) /\
    same_outside self self' fabric_name ORCHESTRATOR l.
Proof.
  intros self f l m code self' m' E.
  exact (@orchestrator_configure_true self f l m code self' m' E).
Qed.

End OrchestratorFacts.

(** *** Node creation *)

Lemma touches_only_refl : forall f nodes s, touches_only f nodes s s.
Proof. intros f nodes s f' k n _. reflexivity. Qed.

Lemma touches_only_trans : forall f nodes s1 s2 s3,
  touches_only f nodes s1 s2 -> touches_only f nodes s2 s3 ->
  touches_only f nodes s1 s3.
Proof.
  intros f nodes s1 s2 s3 H12 H23 f' k n Hne.
  rewrite (H23 f' k n Hne). apply H12. exact Hne.
Qed.

Lemma touches_only_incl : forall f nodes nodes' s s',
  incl nodes nodes' -> touches_only f nodes s s' ->
  touches_only f nodes' s s'.
Proof.
  intros f nodes nodes' s s' Hi H f' k n Hne. apply H.
  intros [-> Hin]. apply Hne. split; [reflexivity|]. apply Hi. exact Hin.
Qed.

Lemma update_node_transfer : forall s f k n g s',
  update_node s f k n g = Some s' ->
  (forall P : NodeObj -> Prop,
      (forall o, P o -> P (g o)) ->
      forall k' n', node_has P s f k' n' -> node_has P s' f k' n') /\
  touches_only f [(k, n)] s s'.
Proof.
  intros s f k n g s' Hu.
  destruct (update_node_object _ _ _ _ _ Hu) as [o [Ho [Ho' Hother]]].
  split.
  - intros P HP k' n' [o1 [Ho1 HPo]].
    destruct (node_eq_dec (k', n') (k, n)) as [E|Hne].
    + injection E as -> ->. rewrite Ho in Ho1. injection Ho1 as <-.
      exists (g o). split; [exact Ho' | apply HP; exact HPo].
    + exists o1. split; [|exact HPo]. rewrite Hother; [exact Ho1|].
      intros [_ [-> ->]]. apply Hne. reflexivity.
  - intros f' k' n' Hne. apply Hother. intros [-> [-> ->]]. apply Hne.
    split; [reflexivity | left; reflexivity].
Qed.

Lemma set_nodes_state_status_transfer :
  forall f state status nodes s s',
    set_nodes_state_status s f nodes state status = Some s' ->
    forall P : NodeObj -> Prop,
      (forall o st su, P o -> P (set_object_state_status o st su)) ->
      forall k n, node_has P s f k n -> node_has P s' f k n.
Proof.
  intros f state status. induction nodes as [|[k n] nodes IH];
    intros s s' H P HP k' n' Hn; cbn [set_nodes_state_status] in H.
  - injection H as <-. exact Hn.
  - destruct (update_node s f k n _) as [s1|] eqn:Hu; [|discriminate].
    apply (IH _ _ H P HP). apply (proj1 (update_node_transfer _ _ _ _ _ Hu) P).
    + intros o Ho. apply HP. exact Ho.
    + exact Hn.
Qed.

Lemma has_property_set_property : forall key key' v o,
  has_property key o -> has_property key (set_property key' (Some v) o).
Proof.
  intros key key' v o [v0 H]. unfold has_property, set_property.
  cbn [n_properties]. destruct (string_dec key key') as [->|Hne].
  - exists v. apply dict_get_set_same.
  - exists v0. rewrite dict_get_set_other by exact Hne. exact H.
Qed.

Lemma has_property_set_state : forall key o st su,
  has_property key o -> has_property key (set_object_state_status o st su).
Proof. intros key o st su H. exact H. Qed.

Lemma has_property_survives : forall key,
  survives_creation (has_property key).
Proof.
  intro key. split.
  - intros o key' v H. apply has_property_set_property. exact H.
  - intros o st su H. exact H.
Qed.

Lemma same_identity_survives : forall o,
  survives_creation (same_identity o).
Proof. intro o. split; intros o' ? ? H; exact H. Qed.

Lemma enable_dns_survives : forall P o o',
  survives_creation P -> enable_dns o = Some o' -> P o -> P o'.
Proof.
  intros P o o' HP H Hp. unfold enable_dns in H.
  destruct (dict_get "dns_enabled" (n_properties o)) as [v|]; [|discriminate].
  destruct v as [v|]; [|injection H as <-; exact Hp].
  destruct (String.eqb v "false") eqn:E.
  - apply String.eqb_eq in E. subst v. injection H as <-.
    apply (proj1 HP). exact Hp.
  - assert (Hs : Some o = Some o').
    { rewrite <- H. clear H.
      repeat (destruct v as [|[[] [] [] [] [] [] [] []] v];
              try reflexivity; try discriminate E). }
    injection Hs as <-. exact Hp.
Qed.

Lemma obj_create_enable_dns_transfer : forall f nodes self self',
  obj_create_enable_dns self f nodes = Some self' ->
  (forall P, survives_creation P ->
     forall k n, node_has P self f k n -> node_has P self' f k n) /\
  touches_only f nodes self self'.
Proof.
  intros f. induction nodes as [|[k n] nodes IH]; intros self self' H;
    cbn [obj_create_enable_dns] in H.
  - injection H as <-. split; [auto | apply touches_only_refl].
  - destruct (get_fabric self f) as [fo|] eqn:Hf; [|discriminate].
    destruct (dict_get n (fabric_nodes fo k)) as [o|] eqn:Ho; [|discriminate].
    destruct (enable_dns o) as [o'|] eqn:He; [|discriminate].
    destruct (update_node self f k n _) as [s1|] eqn:Hu; [|discriminate].
    destruct (IH _ _ H) as [IH1 IH2].
    destruct (update_node_object _ _ _ _ _ Hu) as [o0 [Ho0 [Ho1 Hother]]].
    rewrite (get_fabric_object_some _ _ _ _ Hf), Ho in Ho0.
    injection Ho0 as <-. split.
    + intros P HP k' n' [o1 [Ho1' Hp]]. apply (IH1 P HP).
      destruct (node_eq_dec (k', n') (k, n)) as [E|Hne].
      * injection E as -> ->.
        rewrite (get_fabric_object_some _ _ _ _ Hf), Ho in Ho1'.
        injection Ho1' as <-. exists o'. split; [exact Ho1|].
        exact (@enable_dns_survives P _ _ HP He Hp).
      * exists o1. split; [|exact Hp]. rewrite Hother; [exact Ho1'|].
        intros [_ [-> ->]]. apply Hne. reflexivity.
    + apply touches_only_trans with (s2 := s1).
      * intros f' k' n' Hne. apply Hother. intros [-> [-> ->]]. apply Hne.
        split; [reflexivity | left; reflexivity].
      * apply touches_only_incl with (nodes := nodes);
          [intros x Hx; right; exact Hx | exact IH2].
Qed.

Section CreationFacts.
Variable W : Type.
Variable oracle : Call -> W -> Answer * W.

Lemma obj_create_outputs_spec :
  forall f key var_of suffix nodes self flag (m : Machine W) self' m',
    for_each nodes
      (fun kn acc =>
         let '(self, failure_in_batch) := acc in
         v <- call oracle (TerraformGetOutput (String.append (snd kn) suffix)
                                              (var_of (fst kn))) ;;
         self <- must (update_node self f (fst kn) (snd kn)
                         (set_property key (ans_value v))) ;;
         match ans_value v with
         | None =>
             log Error "created with problems" [snd kn; key] ;;;
             self <- must (update_node self f (fst kn) (snd kn)
                             (fun o => set_object_state_status o CREATED FAILED)) ;;
             ret (self, true)
         | Some _ => ret (self, failure_in_batch)
         end)
      (self, flag) m = (Ok (self', false), m') ->
    flag = false /\
    (forall k n, In (k, n) nodes -> node_has (has_property key) self' f k n) /\
    (forall P, survives_creation P ->
       forall k n, node_has P self f k n -> node_has P self' f k n) /\
    touches_only f nodes self self'.
Proof.
  intros f key var_of suffix.
  induction nodes as [|[k n] nodes IH]; intros self flag m self' m' E;
    cbn [for_each] in E.
  - injection E as <- <- <-.
    split; [reflexivity|]. split; [intros k n []|].
    split; [auto | apply touches_only_refl].
  - unfold bind at 1 in E.
    match type of E with
    | context [match ?c with _ => _ end] =>
        destruct c as [[[s1 flag1]| |] m1] eqn:Eb; try discriminate E
    end.
    destruct (IH _ _ _ _ _ E) as [-> [IH1 [IH2 IH3]]]. clear IH E.
    cbn [fst snd] in Eb. run Eb; injection Eb as <- <- <-.
    match goal with
    | Hu : update_node _ _ _ _ _ = Some _ |- _ =>
        destruct (update_node_transfer _ _ _ _ _ Hu) as [T1 T2];
        destruct (update_node_object _ _ _ _ _ Hu) as [o [Ho [Ho' _]]]
    end.
    split; [reflexivity|]. split; [|split].
    + intros k' n' [Ek|Hin]; [|exact (IH1 _ _ Hin)].
      injection Ek as <- <-.
      apply (IH2 _ (has_property_survives key)).
      eexists. split; [exact Ho'|].
      eexists. unfold set_property. cbn [n_properties].
      apply dict_get_set_same.
    + intros P HP k' n' Hn. apply (IH2 P HP). apply (T1 P).
      * intros o0 Hp. apply (proj1 HP). exact Hp.
      * exact Hn.
    + eapply touches_only_trans.
      * apply touches_only_incl with (nodes := [(k, n)]); [|exact T2].
        intros x [<-|[]]. left. reflexivity.
      * apply touches_only_incl with (nodes := nodes); [|exact IH3].
        intros x Hx. right. exact Hx.
Qed.

Lemma obj_create_check_online_spec :
  forall f vars nodes self flag code (m : Machine W) self' code' m',
    for_each nodes
      (fun kn acc =>
         let '(self, failure_in_batch, ansible_err_code) := acc in
         nodes_list <-
           (if kind_eqb (fst kn) WORKLOAD then
              p <- must (dict_get (snd kn) vars) ;;
              p <- must p ;;
              ret [snd kn; p]
            else ret [snd kn]) ;;
         i <- call oracle (AnsibleInventoryGenerate f nodes_list) ;;
         if negb (ans_ok i) then ret (self, true, 1)
         else
           r <- call oracle (AnsibleRunPlaybook f "check-node-online.yml") ;;
           if negb (ans_ok r) then
             self <- must (update_node self f (fst kn) (snd kn)
                             (fun o => set_object_state_status o CREATED FAILED)) ;;
             log Error "Node is unreachable" [snd kn] ;;;
             ret (self, true, ans_code r)
           else ret acc)
      (self, flag, code) m = (Ok (self', false, code'), m') ->
    self' = self /\ flag = false /\ code' = code.
Proof.
  intros f vars. induction nodes as [|[k n] nodes IH];
    intros self flag code m self' code' m' E; cbn [for_each] in E.
  - injection E as <- <- <- <-. repeat split.
  - unfold bind at 1 in E.
    match type of E with
    | context [match ?c with _ => _ end] =>
        destruct c as [[[[s1 flag1] code1]| |] m1] eqn:Eb; try discriminate E
    end.
    destruct (IH _ _ _ _ _ _ _ E) as [-> [-> ->]]. clear IH E.
    cbn [fst snd] in Eb. run Eb; injection Eb as <- <- <- <-; repeat split.
Qed.

Lemma obj_create_true :
  forall self f obj_list (m : Machine W) code self' m',
    obj_create oracle self f obj_list m = (Ok ((true, code), self'), m') ->
    code = 0 /\
    (forall k n, In (k, n) (obj_list_nodes obj_list) ->
       recorded self' f k n CREATED SUCCESS /\
       node_has (has_property "ip") self' f k n /\
       node_has (has_property "fqdn") self' f k n) /\
    touches_only f (obj_list_nodes obj_list) self self' /\
    (forall P, survives_creation P ->
       forall k n, node_has P self f k n -> node_has P self' f k n).
Proof.
  intros self f obj_list m code self' m' E.
  unfold obj_create, obj_create_all_failed in E.
  set (ip_var := fun k : ObjectKind =>
                   if kind_eqb k WORKLOAD then "private_ip" else "public_ip")
    in E.
  set (fqdn_var := fun _ : ObjectKind => "fqdn") in E.
  run E; inversion E; subst; clear E.
  repeat match goal with
         | H : obj_create_outputs _ _ _ _ _ _ _ _ = _ |- _ =>
             unfold obj_create_outputs in H;
             apply obj_create_outputs_spec in H;
             destruct H as [_ [? [? ?]]]
         | H : obj_create_check_online _ _ _ _ _ _ = _ |- _ =>
             unfold obj_create_check_online in H;
             apply obj_create_check_online_spec in H;
             destruct H as [-> [_ _]]
         | H : obj_create_enable_dns _ _ _ = Some _ |- _ =>
             apply obj_create_enable_dns_transfer in H; destruct H as [? ?]
         end.
  match goal with
  | H : set_nodes_state_status _ _ _ _ _ = Some _ |- _ =>
      pose proof (@set_nodes_state_status_transfer _ _ _ _ _ _ H) as Hkeep;
      apply set_nodes_state_status_recorded in H; destruct H as [Hrec Hout]
  end.
  assert (Hall : forall P, survives_creation P ->
            forall k n, node_has P self f k n -> node_has P self' f k n).
  { intros P HP k x Hn. apply Hkeep; [apply (proj2 HP)|]. auto. }
  split; [reflexivity|]. split; [|split; [|exact Hall]].
  - intros k x Hin. split; [exact (Hrec _ _ Hin)|].
    split; (apply Hkeep; [apply (proj2 (has_property_survives _))|]);
      auto using has_property_survives.
  - match goal with
    | A : touches_only _ _ self ?a, B : touches_only _ _ ?a ?b,
      C : touches_only _ _ ?b ?c |- _ =>
        exact (touches_only_trans
                 (touches_only_trans (touches_only_trans A B) C) Hout)
    end.
Qed.

(** When [obj_create] returns true, every node of the list is (created,
    success) and holds an address under [ip] and a name under [fqdn]. No
    node outside the list has changed, and every node that was there keeps
    its index, VPC, type, role and configuration. *)
Theorem obj_create_success :
  forall self fabric_name obj_list (m : Machine W) code self' m',
    obj_create oracle self fabric_name obj_list m
    = (Ok ((true, code), self'), m') ->
    code = 0 /\
    (forall k n, In (k, n) (obj_list_nodes obj_list) ->
       recorded self' fabric_name k n CREATED SUCCESS /\
       node_has (has_property "ip") self' fabric_name k n /\
       node_has (has_property "fqdn") self' fabric_name k n) /\
    touches_only fabric_name (obj_list_nodes obj_list) self self' /\
    (forall k n o,
       get_fabric_object self k n fabric_name = Some (Some o) ->
       node_has (same_identity o) self' fabric_name k n).
Proof.
  intros self f obj_list m code self' m' E.
  destruct (obj_create_true _ _ _ _ E) as [H1 [H2 [H3 H4]]].
  repeat split; try assumption; try apply H2; try assumption.
  intros k n o Ho. apply (H4 _ (same_identity_survives o)).
  exists o. split; [exact Ho|]. repeat split.
Qed.

End CreationFacts.

(** *** The processor a workload is reached through *)

Lemma filter_nil_weaker : forall (A : Type) (p q : A -> bool) l,
  (forall x, q x = true -> p x = true) ->
  filter p l = [] -> filter q l = [].
Proof.
  intros A p q l Hpq. induction l as [|x l IH]; simpl; intro H; [reflexivity|].
  destruct (p x) eqn:Ep; [discriminate|].
  destruct (q x) eqn:Eq; [|exact (IH H)].
  rewrite (Hpq x Eq) in Ep. discriminate.
Qed.

Lemma proxy_entry_ip : forall x,
  dict_mem "ip" (n_properties (snd x)) = true ->
  proxy_entry x = Some (fst x).
Proof.
  intros x H. unfold proxy_entry, dict_mem in *.
  destruct (dict_get "ip" (n_properties (snd x))); [reflexivity|discriminate].
Qed.

Lemma proxy_entry_cases : forall x,
  (proxy_entry x = Some (fst x) /\
   dict_mem "ip" (n_properties (snd x)) = true) \/
  (proxy_entry x = None /\ dict_get "ip" (n_properties (snd x)) = None).
Proof.
  intro x. unfold proxy_entry, dict_mem.
  destruct (dict_get "ip" (n_properties (snd x)));
    [left | right]; split; reflexivity.
Qed.

(** The processor the proxy code reads: none when the VPC has no processor,
    otherwise a processor [y] of the VPC that has status success whenever
    the VPC has a processor with that status. *)
Lemma ssh_proxy_host_cases : forall s f vpc fo,
  get_fabric s f = Some fo ->
  (all_proc s f vpc = Some [] /\ ssh_proxy_host s f vpc = Some None) \/
  (exists x allp y,
     all_proc s f vpc = Some (x :: allp) /\
     In y (f_processor fo) /\ n_vpc (snd y) = vpc /\
     (n_status (snd y) = Some SUCCESS \/
      forall q o', In (q, o') (f_processor fo) -> n_vpc o' = vpc ->
                   n_status o' <> Some SUCCESS) /\
     ssh_proxy_host s f vpc = option_map Some (proxy_entry y)).
Proof.
  intros s f vpc fo Hf. unfold ssh_proxy_host, all_proc, success_proc.
  rewrite Hf.
  set (ps := fun x : string * NodeObj =>
               String.eqb (n_vpc (snd x)) vpc
               && check_object_status (snd x) SUCCESS).
  set (pa := fun x : string * NodeObj => String.eqb (n_vpc (snd x)) vpc).
  destruct (filter ps (f_processor fo)) as [|y succ] eqn:Es.
  - destruct (filter pa (f_processor fo)) as [|y allp] eqn:Ea.
    + left. split; reflexivity.
    + right. exists y, allp, y. split; [reflexivity|].
      assert (Hin : In y (filter pa (f_processor fo)))
        by (rewrite Ea; left; reflexivity).
      apply filter_In in Hin. destruct Hin as [Hin Hp]. unfold pa in Hp.
      apply String.eqb_eq in Hp.
      split; [exact Hin|]. split; [exact Hp|]. split; [|reflexivity].
      right. intros q o' Hq Hv Hs.
      assert (Hc : In (q, o') (filter ps (f_processor fo))).
      { apply filter_In. split; [exact Hq|]. unfold ps. simpl.
        apply andb_true_iff. split; [apply String.eqb_eq; exact Hv|].
        unfold check_object_status, get_object_status.
        cbn [obj_status NodeObj_Stateful]. rewrite Hs. reflexivity. }
      rewrite Es in Hc. exact Hc.
  - assert (Hin : In y (filter ps (f_processor fo)))
      by (rewrite Es; left; reflexivity).
    apply filter_In in Hin. destruct Hin as [Hin Hp]. unfold ps in Hp.
    apply andb_true_iff in Hp. destruct Hp as [Hv Hs].
    apply String.eqb_eq in Hv.
    assert (Ha : In y (filter pa (f_processor fo))).
    { apply filter_In. split; [exact Hin|]. unfold pa.
      apply String.eqb_eq. exact Hv. }
    destruct (filter pa (f_processor fo)) as [|x allp]; [destruct Ha|].
    right. exists x, allp, y. split; [reflexivity|].
    split; [exact Hin|]. split; [exact Hv|]. split; [|reflexivity].
    left. unfold check_object_status, get_object_status in Hs.
    cbn [obj_status NodeObj_Stateful] in Hs.
    destruct (n_status (snd y)) as [[]|]; try discriminate. reflexivity.
Qed.

(** The proxy of a workload is a processor of the workload's VPC that has
    the property [ip]; it is one whose status is success whenever the VPC
    has such a processor. There is no proxy only when the VPC has no
    processor at all, and the code raises only when the processor it picks
    -- again one of the VPC, with status success whenever the VPC has such
    a processor -- has no property [ip]. *)
Theorem ssh_proxy_host_choice :
  forall s fabric_name obj_vpc fo,
    get_fabric s fabric_name = Some fo ->
    match ssh_proxy_host s fabric_name obj_vpc with
    | Some (Some p) =>
        exists o,
          In (p, o) (f_processor fo) /\ n_vpc o = obj_vpc /\
          dict_mem "ip" (n_properties o) = true /\
          (n_status o = Some SUCCESS \/
           forall q o', In (q, o') (f_processor fo) -> n_vpc o' = obj_vpc ->
                        n_status o' <> Some SUCCESS)
    | Some None =>
        forall q o', In (q, o') (f_processor fo) -> n_vpc o' <> obj_vpc
    | None =>
        exists p o,
          In (p, o) (f_processor fo) /\ n_vpc o = obj_vpc /\
          dict_get "ip" (n_properties o) = None /\
          (n_status o = Some SUCCESS \/
           forall q o', In (q, o') (f_processor fo) -> n_vpc o' = obj_vpc ->
                        n_status o' <> Some SUCCESS)
    end.
Proof.
  intros s f vpc fo Hf.
  destruct (@ssh_proxy_host_cases s f vpc fo Hf)
    as [[Ha ->]|[x [allp [[p o] [Ha [Hin [Hv [Hs ->]]]]]]]].
  - intros q o' Hq Hv. unfold all_proc in Ha. rewrite Hf in Ha.
    injection Ha as Ha.
    assert (Hc : In (q, o')
                    (filter (fun x : string * NodeObj =>
                               String.eqb (n_vpc (snd x)) vpc)
                            (f_processor fo))).
    { apply filter_In. split; [exact Hq|]. apply String.eqb_eq. exact Hv. }
    rewrite Ha in Hc. exact Hc.
  - cbn [snd] in Hv, Hs.
    destruct (proxy_entry_cases (p, o)) as [[-> Hip]|[-> Hip]];
      cbn [option_map fst snd] in *.
    + exists o. repeat split; assumption.
    + exists p, o. repeat split; assumption.
Qed.

Lemma ssh_proxy_host_none_iff : forall s f vpc,
  ssh_proxy_host s f vpc = Some None <-> all_proc s f vpc = Some [].
Proof.
  intros s f vpc.
  destruct (get_fabric s f) as [fo|] eqn:Hf.
  - destruct (@ssh_proxy_host_cases s f vpc fo Hf)
      as [[Ha Hp]|[x [allp [y [Ha [_ [_ [_ Hp]]]]]]]];
      rewrite Ha, Hp.
    + split; reflexivity.
    + destruct (proxy_entry y); split; discriminate.
  - unfold ssh_proxy_host, all_proc. rewrite Hf. split; discriminate.
Qed.

Lemma ssh_proxy_host_some : forall s f fo vpc x allp,
  get_fabric s f = Some fo ->
  (forall p o, In (p, o) (f_processor fo) ->
               dict_mem "ip" (n_properties o) = true) ->
  all_proc s f vpc = Some (x :: allp) ->
  exists p, ssh_proxy_host s f vpc = Some (Some p).
Proof.
  intros s f fo vpc x allp Hf Hip H.
  destruct (@ssh_proxy_host_cases s f vpc fo Hf)
    as [[Ha _]|[x' [allp' [[p o] [_ [Hin [_ [_ Hp]]]]]]]].
  - rewrite Ha in H. discriminate.
  - exists p. rewrite Hp, (@proxy_entry_ip (p, o) (Hip p o Hin)).
    reflexivity.
Qed.

Lemma all_proc_missing : forall s f vpc,
  all_proc s f vpc = None -> ssh_proxy_host s f vpc = None.
Proof.
  intros s f vpc H. unfold ssh_proxy_host. rewrite H. reflexivity.
Qed.

(** The creation check against the opening loop of the workload methods,
    for every list of workloads. *)
Lemma proxy_check_passes_create_check : forall s f l flag,
  workload_proxy_check s f l = Some true ->
  obj_create_check_workloads s f l flag = Some flag.
Proof.
  intros s f. induction l as [|n l IH]; intros flag H;
    cbn [obj_create_check_workloads workload_proxy_check] in *.
  - reflexivity.
  - destruct (node_vpc s f WORKLOAD n) as [vpc|]; [|discriminate H].
    destruct (all_proc s f vpc) as [[|x allp]|] eqn:Ea.
    + rewrite (proj2 (ssh_proxy_host_none_iff s f vpc) Ea) in H.
      discriminate H.
    + destruct (ssh_proxy_host s f vpc) as [[p|]|]; try discriminate H.
      exact (IH flag H).
    + rewrite (all_proc_missing _ _ _ Ea) in H. discriminate H.
Qed.

Lemma create_check_never_fails_proxy_check : forall s f l flag,
  obj_create_check_workloads s f l flag = Some false ->
  flag = false /\ workload_proxy_check s f l <> Some false.
Proof.
  intros s f. induction l as [|n l IH]; intros flag H;
    cbn [obj_create_check_workloads workload_proxy_check] in *.
  - injection H as ->. split; [reflexivity|discriminate].
  - destruct (node_vpc s f WORKLOAD n) as [vpc|]; [|discriminate H].
    destruct (all_proc s f vpc) as [[|x allp]|] eqn:Ea.
    + destruct (IH true H) as [Hx _]. discriminate Hx.
    + destruct (IH flag H) as [Hflag Hl]. split; [exact Hflag|].
      destruct (ssh_proxy_host s f vpc) as [[p|]|] eqn:Ep.
      * exact Hl.
      * apply ssh_proxy_host_none_iff in Ep. congruence.
      * discriminate.
    + discriminate H.
Qed.

Lemma create_check_passes_proxy_check : forall s f fo l flag,
  get_fabric s f = Some fo ->
  (forall p o, In (p, o) (f_processor fo) ->
               dict_mem "ip" (n_properties o) = true) ->
  obj_create_check_workloads s f l flag = Some false ->
  workload_proxy_check s f l = Some true.
Proof.
  intros s f fo l flag Hf Hip. revert flag.
  induction l as [|n l IH]; intros flag H;
    cbn [obj_create_check_workloads workload_proxy_check] in *.
  - reflexivity.
  - destruct (node_vpc s f WORKLOAD n) as [vpc|]; [|discriminate H].
    destruct (all_proc s f vpc) as [[|x allp]|] eqn:Ea.
    + destruct (create_check_never_fails_proxy_check _ _ _ _ H) as [Hx _].
      discriminate Hx.
    + destruct (@ssh_proxy_host_some _ _ _ _ _ _ Hf Hip Ea) as [p ->].
      exact (IH flag H).
    + discriminate H.
Qed.

(** The creation check and the opening loop of the workload methods: a
    list of workloads that passes the proxy loop of [workload_configure],
    [workload_start] and [workload_stop] passes [obj_create_check]; a list
    that passes [obj_create_check] is never refused by the proxy loop,
    which accepts it or raises the [KeyError] of a processor without the
    property [ip]; and the two agree when every processor of the fabric
    has that property. *)
Theorem obj_create_check_agrees :
  forall s fabric_name obj_list names,
    obj_list_get obj_list WORKLOAD = Some names ->
    (workload_proxy_check s fabric_name names = Some true ->
     obj_create_check s fabric_name obj_list = Some true) /\
    (obj_create_check s fabric_name obj_list = Some true ->
     workload_proxy_check s fabric_name names <> Some false) /\
    (forall fo,
       get_fabric s fabric_name = Some fo ->
       (forall p o, In (p, o) (f_processor fo) ->
                    dict_mem "ip" (n_properties o) = true) ->
       (obj_create_check s fabric_name obj_list = Some true <->
        workload_proxy_check s fabric_name names = Some true)).
Proof.
  intros s f obj_list names Hn. unfold obj_create_check. rewrite Hn.
  assert (Hfwd : workload_proxy_check s f names = Some true ->
                 option_map negb (obj_create_check_workloads s f names false)
                 = Some true).
  { intro H. rewrite (proxy_check_passes_create_check _ _ _ false H).
    reflexivity. }
  assert (Hinv : option_map negb (obj_create_check_workloads s f names false)
                 = Some true ->
                 obj_create_check_workloads s f names false = Some false).
  { destruct (obj_create_check_workloads s f names false) as [[|]|];
      cbn [option_map negb]; intro H; try discriminate H; reflexivity. }
  split; [exact Hfwd|]. split.
  - intro H.
    exact (proj2 (create_check_never_fails_proxy_check _ _ _ _ (Hinv H))).
  - intros fo Hf Hip. split; [|exact Hfwd].
    intro H. exact (@create_check_passes_proxy_check _ _ _ _ _ Hf Hip (Hinv H)).
Qed.

(** Where the two part: next to a processor whose creation failed the
    workload passes [obj_create_check], and the proxy loop raises. *)
Example proxy_without_ip_raises :
  obj_create_check example_state_failed_proxy "f"
                   [(WORKLOAD, ["aws1-w01-f"])] = Some true /\
  ssh_proxy_host example_state_failed_proxy "f" "aws1-vpc-f" = None /\
  workload_proxy_check example_state_failed_proxy "f" ["aws1-w01-f"] = None /\
  fst (workload_start oracle_ok example_state_failed_proxy "f" ["aws1-w01-f"]
                      (machine_of example_state_failed_proxy)) = Crash.
Proof. repeat split; vm_compute; reflexivity. Qed.

Lemma all_proc_nil : forall s f fo vpc,
  get_fabric s f = Some fo ->
  (forall q p, In (q, p) (f_processor fo) -> n_vpc p <> vpc) ->
  all_proc s f vpc = Some [].
Proof.
  intros s f fo vpc Hf Hno. unfold all_proc. rewrite Hf. f_equal.
  destruct (filter _ (f_processor fo)) as [|[q p] l] eqn:E; [reflexivity|].
  exfalso.
  assert (Hin : In (q, p) (filter (fun x : string * NodeObj =>
                                     String.eqb (n_vpc (snd x)) vpc)
                                  (f_processor fo)))
    by (rewrite E; left; reflexivity).
  apply filter_In in Hin. destruct Hin as [Hin Hv]. simpl in Hv.
  apply String.eqb_eq in Hv. exact (Hno q p Hin Hv).
Qed.

(** A list with a workload whose VPC has no processor never passes the
    opening loop of the workload methods. *)
Lemma workload_proxy_check_not_true : forall s f fo l,
  get_fabric s f = Some fo ->
  (exists n o, In n l /\ dict_get n (f_workload fo) = Some o /\
               forall q p, In (q, p) (f_processor fo) -> n_vpc p <> n_vpc o) ->
  workload_proxy_check s f l <> Some true.
Proof.
  intros s f fo l Hf. induction l as [|n l IH]; intros [x [o [Hin [Ho Hno]]]];
    cbn [workload_proxy_check].
  - destruct Hin.
  - unfold node_vpc. rewrite Hf. cbn [fabric_nodes].
    destruct (dict_get n (f_workload fo)) as [o'|] eqn:Ho';
      cbn [option_map]; [|discriminate].
    destruct (ssh_proxy_host s f (n_vpc o')) as [[p|]|] eqn:Ep;
      [|discriminate|discriminate].
    destruct Hin as [<-|Hin]; [|apply IH; exists x, o; auto].
    exfalso. rewrite Ho in Ho'. injection Ho' as <-.
    rewrite (proj2 (ssh_proxy_host_none_iff s f (n_vpc o))
               (@all_proc_nil _ _ _ _ Hf Hno)) in Ep. discriminate.
Qed.

(** It fails it, rather than raising, when the workloads are in the state
    and every processor has the property [ip]. *)
Lemma workload_proxy_check_false : forall s f fo l,
  get_fabric s f = Some fo ->
  (forall n, In n l -> dict_mem n (f_workload fo) = true) ->
  (forall p o, In (p, o) (f_processor fo) ->
               dict_mem "ip" (n_properties o) = true) ->
  (exists n o, In n l /\ dict_get n (f_workload fo) = Some o /\
               forall q p, In (q, p) (f_processor fo) -> n_vpc p <> n_vpc o) ->
  workload_proxy_check s f l = Some false.
Proof.
  intros s f fo l Hf Hall Hip Hno.
  pose proof (@workload_proxy_check_not_true _ _ _ l Hf Hno) as Hnt.
  clear Hno. induction l as [|n l IH]; cbn [workload_proxy_check] in *.
  - exfalso. apply Hnt. reflexivity.
  - pose proof (Hall n (or_introl eq_refl)) as Hn. unfold dict_mem in Hn.
    unfold node_vpc in *. rewrite Hf in *. cbn [fabric_nodes] in *.
    destruct (dict_get n (f_workload fo)) as [o'|] eqn:Ho'; [|discriminate].
    cbn [option_map] in *.
    destruct (all_proc s f (n_vpc o')) as [[|x allp]|] eqn:Ea.
    + rewrite (proj2 (ssh_proxy_host_none_iff s f (n_vpc o')) Ea).
      reflexivity.
    + destruct (@ssh_proxy_host_some _ _ _ _ _ _ Hf Hip Ea) as [p Hp].
      rewrite Hp in *. apply IH; [|exact Hnt].
      intros n' Hn'. apply Hall. right. exact Hn'.
    + unfold all_proc in Ea. rewrite Hf in Ea. discriminate Ea.
Qed.

Section WorkloadFacts.
Variable W : Type.
Variable oracle : Call -> W -> Answer * W.

(** The three workload methods never get to Ansible when a workload of the
    list lives in a VPC without a processor: they make no external call,
    leave the state as it was and either give up with [(False, 1)] or
    raise the [KeyError] of a proxy without the property [ip], met at a
    workload listed earlier. They give up with [(False, 1)] when the
    workloads of the list are in the state and every processor of the
    fabric has that property. *)
Theorem workload_methods_need_processor :
  forall self fabric_name fo l (m : Machine W),
    get_fabric self fabric_name = Some fo ->
    (exists n o, In n l /\ dict_get n (f_workload fo) = Some o /\
                 forall q p, In (q, p) (f_processor fo) ->
                             n_vpc p <> n_vpc o) ->
    forall method,
      In method [workload_configure oracle; workload_start oracle;
                 workload_stop oracle] ->
      exists r m',
        method self fabric_name l m = (r, m') /\
        quiet m m' /\
        (r = Ok ((false, 1), self) \/ r = Crash) /\
        ((forall n, In n l -> dict_mem n (f_workload fo) = true) ->
         (forall p o, In (p, o) (f_processor fo) ->
                      dict_mem "ip" (n_properties o) = true) ->
         r = Ok ((false, 1), self)).
Proof.
  intros self f fo l m Hf Hno method Hin.
  pose proof (@workload_proxy_check_not_true _ _ _ l Hf Hno) as Hnt.
  pose proof (fun Hall Hip =>
                @workload_proxy_check_false _ _ _ l Hf Hall Hip Hno) as Hc.
  destruct Hin as [<-|[<-|[<-|[]]]];
    unfold workload_configure, workload_start, workload_stop, run_nodes,
      bind, must, ret, log, raise;
    destruct (workload_proxy_check self f l) as [[|]|];
    try (exfalso; apply Hnt; reflexivity);
    cbv beta iota zeta; cbn [negb];
    eexists; eexists; (split; [reflexivity|]);
    (split; [repeat split|]);
    (split; [first [left; reflexivity | right; reflexivity]|]);
    intros Hall Hip; first [reflexivity | discriminate (Hc Hall Hip)].
Qed.

End WorkloadFacts.

(** *** The action matrix for orchestrators *)

(** For an orchestrator that is not recorded as started or stopped,
    [set_action_list] never raises, never plans a start or a stop, and
    plans [config] exactly when the target state is configured and the
    orchestrator is created, or configured with status failed. A changed
    configuration alone plans nothing. *)
Theorem set_action_list_orchestrator :
  forall current_state current_status target_state config entity bc sc,
    current_state <> Some STARTED -> current_state <> Some STOPPED ->
    set_action_list current_state current_status target_state
                    (mkActions config None None) entity ORCHESTRATOR bc sc
    = Some (mkActions
              (if state_eqb target_state CONFIGURED
                  && (is_state current_state CREATED
                      || (is_state current_state CONFIGURED
                          && is_status current_status FAILED))
               then config ++ [entity] else config)
              None None).
Proof.
  intros cs cst target config entity bc sc H1 H2.
  unfold set_action_list.
  destruct cs as [[]|]; try congruence;
    destruct cst as [[]|]; destruct target; reflexivity.
Qed.

(** ** Commands: what reaches the state *)

Section KeepsState.
Variable W : Type.
Variable oracle : Call -> W -> Answer * W.

Lemma keeps_state_ret : forall (A : Type) (a : A), keeps_state (W := W) (ret a).
Proof. intros A a m r m' E. injection E as <- <-. split; reflexivity. Qed.

Lemma keeps_state_exit : forall (A : Type) code,
  keeps_state (W := W) (A := A) (sys_exit code).
Proof. intros A code m r m' E. injection E as <- <-. split; reflexivity. Qed.

Lemma keeps_state_raise : forall (A : Type),
  keeps_state (W := W) (A := A) raise.
Proof. intros A m r m' E. injection E as <- <-. split; reflexivity. Qed.

Lemma keeps_state_must : forall (A : Type) (o : option A),
  keeps_state (W := W) (must o).
Proof.
  intros A o m r m' E. unfold must in E.
  destruct o; injection E as <- <-; split; reflexivity.
Qed.

Lemma keeps_state_log : forall l text args,
  keeps_state (W := W) (log l text args).
Proof. intros l text args m r m' E. injection E as <- <-. split; reflexivity. Qed.

Lemma keeps_state_call : forall c, keeps_state (call oracle c).
Proof.
  intros c m r m' E. unfold call in E.
  destruct (oracle c (world m)). injection E as <- <-. split; reflexivity.
Qed.

Lemma keeps_state_get_ctx : keeps_state (W := W) get_ctx.
Proof. intros m r m' E. injection E as <- <-. split; reflexivity. Qed.

Lemma keeps_state_bind : forall (A B : Type) (c : M W A) (k : A -> M W B),
  keeps_state c -> (forall a, keeps_state (k a)) -> keeps_state (bind c k).
Proof.
  intros A B c k Hc Hk m r m' E. unfold bind in E.
  destruct (c m) as [[a| |] m1] eqn:Ec.
  - destruct (Hk a m1 r m' E) as [-> ->]. exact (Hc m _ m1 Ec).
  - injection E as <- <-. exact (Hc m _ m1 Ec).
  - injection E as <- <-. exact (Hc m _ m1 Ec).
Qed.

Lemma keeps_state_for_each : forall (A S : Type) (body : A -> S -> M W S) l s,
  (forall x s0, keeps_state (body x s0)) -> keeps_state (for_each l body s).
Proof.
  intros A S body l. induction l as [|x l IH]; intros s Hb; simpl.
  - apply keeps_state_ret.
  - apply keeps_state_bind; [apply Hb | intro a; apply IH, Hb].
Qed.

End KeepsState.

Ltac keeps_st :=
  repeat first
    [ apply keeps_state_ret | apply keeps_state_exit | apply keeps_state_raise
    | apply keeps_state_must | apply keeps_state_log | apply keeps_state_call
    | apply keeps_state_get_ctx
    | apply keeps_state_for_each; intros
    | apply keeps_state_bind; [|intros]
    | match goal with
      | |- keeps_state (if ?b then _ else _) => destruct b
      | |- keeps_state (match ?x with _ => _ end) => destruct x
      | |- keeps_state (let '(_, _) := ?x in _) => destruct x
      end ].

Section MethodsKeepState.
Variable W : Type.
Variable oracle : Call -> W -> Answer * W.

Lemma vpc_create_keeps_state : forall self f l,
  keeps_state (vpc_create oracle self f l).
Proof. intros. unfold vpc_create. keeps_st. Qed.

Lemma obj_create_keeps_state : forall self f obj_list,
  keeps_state (obj_create oracle self f obj_list).
Proof.
  intros. unfold obj_create, obj_create_all_failed, obj_create_outputs,
    obj_create_proxies, obj_create_check_online.
  keeps_st.
Qed.


Lemma run_nodes_keeps_state : forall k playbook target opening self f l,
  keeps_state (run_nodes oracle k playbook target opening self f l).
Proof. intros. unfold run_nodes. keeps_st. Qed.

Lemma generate_ssh_config_keeps_state :
  keeps_state (generate_ssh_config oracle).
Proof. unfold generate_ssh_config. keeps_st. Qed.

End MethodsKeepState.

Lemma add_fabric_vpc_object : forall s f n o s',
  add_fabric_vpc s f n o = Some s' ->
  get_fabric_vpc s' n f = Some (Some o) /\
  (forall f' n', ~ (f' = f /\ n' = n) ->
     get_fabric_vpc s' n' f' = get_fabric_vpc s n' f') /\
  (forall f' k, get_fabric_objects s' k f' = get_fabric_objects s k f') /\
  config s' = config s.
Proof.
  intros s f n o s' H. unfold add_fabric_vpc in H.
  destruct (get_fabric s f) as [fo|] eqn:Hf; [|discriminate].
  injection H as <-.
  unfold get_fabric_vpc, get_fabric_vpcs, get_fabric_objects, get_fabric,
    with_fabrics in *. cbn [fabric config].
  split; [|split; [|split; [|reflexivity]]].
  - rewrite dict_get_set_same. cbn [option_map fabric_with_vpcs f_vpc].
    rewrite dict_get_set_same. reflexivity.
  - intros f' n' Hne. destruct (String.eqb f' f) eqn:Ef.
    + apply String.eqb_eq in Ef. subst f'. rewrite dict_get_set_same, Hf.
      cbn [option_map fabric_with_vpcs f_vpc].
      rewrite dict_get_set_other; [reflexivity|]. intro En. apply Hne. auto.
    + apply String.eqb_neq in Ef. rewrite dict_get_set_other by exact Ef.
      reflexivity.
  - intros f' k. destruct (String.eqb f' f) eqn:Ef.
    + apply String.eqb_eq in Ef. subst f'. rewrite dict_get_set_same, Hf.
      destruct k; reflexivity.
    + apply String.eqb_neq in Ef. rewrite dict_get_set_other by exact Ef.
      reflexivity.
Qed.

Section CreateVpcFacts.
Variable W : Type.
Variable oracle : Call -> W -> Answer * W.
Variable cloud_regions : string -> list string.

Lemma vpc_create_true : forall self f l (m : Machine W) code self' m',
  vpc_create oracle self f l m = (Ok ((true, code), self'), m') ->
  set_vpcs_state_status self f l CREATED SUCCESS = Some self'.
Proof.
  intros self f l m code self' m' E. unfold vpc_create in E.
  run E; inversion E; subst; clear E. reflexivity.
Qed.

(** [create_vpc] reaches the state only when it succeeds. With [--dry-run]
    it makes no external call and changes nothing. When it does not return
    true, the state in memory and the state on disk are as they were. When
    it returns true without [--dry-run], the state holds one more VPC: it
    was not there before, it bears the name derived from the cloud, the
    next index and the fabric, and it is (created, success); every other
    VPC and every node is as it was. *)
Theorem create_vpc_transactional :
  forall vpc_cloud vpc_region dry_run (m : Machine W) r m',
    create_vpc oracle cloud_regions vpc_cloud vpc_region dry_run m = (r, m') ->
    (dry_run = true -> quiet m m') /\
    (r <> Ok true ->
     ctx_state m' = ctx_state m /\ persisted m' = persisted m) /\
    (r = Ok true -> dry_run = false ->
     exists f d,
       get_current_fabric (ctx_state m) = Some f /\
       get_fabric_vpcs (ctx_state m) f = Some d /\
       let index := vpc_index (vpcs_in_cloud d vpc_cloud) in
       let name := vpc_name vpc_cloud index f in
       dict_get name d = None /\
       get_fabric_vpc (ctx_state m') name f
       = Some (Some (mkVpc vpc_cloud vpc_region index (Some CREATED)
                           (Some SUCCESS))) /\
       (forall f' n, ~ (f' = f /\ n = name) ->
          get_fabric_vpc (ctx_state m') n f'
          = get_fabric_vpc (ctx_state m) n f') /\
       (forall f' k, get_fabric_objects (ctx_state m') k f'
                     = get_fabric_objects (ctx_state m) k f')).
Proof.
  intros cloud region dry m r m' E.
  unfold create_vpc, require_current_fabric in E.
  run_any E; inversion E; subst; clear E;
    cbn [ctx_state persisted world trace logs].
  all: repeat match goal with
       | p : (bool * nat)%type |- _ => destruct p as [? ?]
       end; cbn [fst snd] in *.
  all: repeat match goal with
       | H : negb ?b = false |- _ =>
           is_var b; destruct b; [clear H | discriminate H]
       end.
  all: repeat match goal with
       | H : vpc_create _ _ _ _ ?m0 = (_, ?m1) |- _ =>
           let Hk := fresh "Hk" in
           pose proof (@vpc_create_keeps_state _ _ _ _ _ _ _ _ H) as Hk;
           cbn [ctx_state persisted] in Hk; destruct Hk as [Hk1 Hk2];
           first [ apply vpc_create_true in H | clear H ]
       end.
  all: (split; [intro Hd; try discriminate Hd; repeat split; reflexivity|]).
  all: (split; [intro Hr; try (exfalso; apply Hr; reflexivity);
                split; congruence|]).
  all: intros Hr Hd; try discriminate Hr; try discriminate Hd.
  all: match goal with
       | Ha : add_fabric_vpc _ _ _ _ = Some _,
         Hs : set_vpcs_state_status _ _ _ _ _ = Some _,
         Hc : check_vpc _ _ _ = Some false |- _ =>
           apply add_fabric_vpc_object in Ha;
           destruct Ha as [A1 [A2 [A3 _]]];
           cbn [set_vpcs_state_status] in Hs;
           match type of Hs with
           | context [update_vpc ?s ?f ?n ?g] =>
               destruct (update_vpc s f n g) as [s2|] eqn:Hu;
               [injection Hs as <- | discriminate Hs]
           end;
           apply update_vpc_object in Hu;
           destruct Hu as [o [U1 [U2 [U3 U4]]]];
           rewrite A1 in U1; injection U1 as <-;
           do 2 eexists; split; [reflexivity|]; split; [eassumption|];
           unfold check_vpc in Hc
       end.
  all: match goal with
       | Hc : match get_fabric ?s0 ?f with _ => _ end = Some false,
         Hd : get_fabric_vpcs ?s0 ?f = Some _ |- _ =>
           unfold get_fabric_vpcs in Hd;
           destruct (get_fabric s0 f) as [fo|]; [|discriminate Hd];
           injection Hd as <-; injection Hc as Hc; unfold dict_mem in Hc
       end.
  all: split;
       [ match goal with
         | |- dict_get ?n ?d = None =>
             destruct (dict_get n d); [discriminate | reflexivity]
         end |].
  all: split; [exact U2|].
  all: split; [intros f' n' Hne; rewrite (U3 f' n' Hne); exact (A2 f' n' Hne)|].
  all: intros f' k; rewrite U4; apply A3.
Qed.

End CreateVpcFacts.

Lemma add_fabric_obj_object : forall s f k n o s',
  add_fabric_obj s f k n o = Some s' ->
  role_bearing k = true \/ k = ORCHESTRATOR ->
  get_fabric_object s' k n f = Some (Some o) /\
  touches_only f [(k, n)] s s'.
Proof.
  intros s f k n o s' H Hk. unfold add_fabric_obj in H.
  destruct (get_fabric s f) as [fo|] eqn:Hf; [|discriminate].
  injection H as <-. split.
  - rewrite get_fabric_object_replaced, String.eqb_refl.
    rewrite (@fabric_nodes_with_nodes fo k _ _ Hk), kind_eqb_refl.
    rewrite dict_get_set_same. reflexivity.
  - intros f' k' n' Hne. rewrite get_fabric_object_replaced.
    destruct (String.eqb f' f) eqn:Ef; [|reflexivity].
    apply String.eqb_eq in Ef. subst f'.
    rewrite (get_fabric_object_some _ _ _ _ Hf).
    rewrite (@fabric_nodes_with_nodes fo k _ _ Hk).
    destruct (kind_eqb k' k) eqn:Ek; [|reflexivity].
    apply kind_eqb_eq in Ek. subst k'.
    rewrite dict_get_set_other; [reflexivity|].
    intro En. apply Hne. split; [reflexivity|]. left. subst n'. reflexivity.
Qed.

Section CreateNodeFacts.
Variable W : Type.
Variable oracle : Call -> W -> Answer * W.

(** When [create_orchestrator], [create_processor] or [create_workload]
    returns true, the state holds the node under the name derived from the
    VPC, the kind, the index and the fabric: it lives in the VPC that was
    asked for, has the type that was asked for, is (created, success) and
    has an address and a DNS name. No other node has changed. *)
Theorem create_node_success :
  forall k orchestrator_type os_type vpc (m : Machine W) m',
    k = ORCHESTRATOR \/ k = PROCESSOR \/ k = WORKLOAD ->
    create_node oracle k orchestrator_type os_type vpc m = (Ok true, m') ->
    exists f d,
      get_current_fabric (ctx_state m) = Some f /\
      get_fabric_objects (ctx_state m) k f = Some d /\
      let index := node_index (nodes_in_vpc d vpc) in
      let name := node_name vpc (obj_char k) index f in
      recorded (ctx_state m') f k name CREATED SUCCESS /\
      node_has (fun o => n_index o = index /\ n_vpc o = vpc /\
                         n_type o = orchestrator_type)
               (ctx_state m') f k name /\
      node_has (has_property "ip") (ctx_state m') f k name /\
      node_has (has_property "fqdn") (ctx_state m') f k name /\
      touches_only f [(k, name)] (ctx_state m) (ctx_state m').
Proof.
  intros k t os vpc m m' Hkind E.
  assert (Hk : role_bearing k = true \/ k = ORCHESTRATOR)
    by (destruct Hkind as [-> | [-> | ->]]; auto).
  unfold create_node, require_current_fabric, create_node_identity,
    generate_ssh_config in E.
  assert (Hfin : forall s1 s2 f name new_obj (m0 m1 : Machine W) code index,
            add_fabric_obj (ctx_state m) f k name new_obj = Some s1 ->
            obj_create oracle s1 f [(k, [name])] m0
            = (Ok ((true, code), s2), m1) ->
            n_index new_obj = index /\ n_vpc new_obj = vpc /\
            n_type new_obj = t ->
            recorded s2 f k name CREATED SUCCESS /\
            node_has (fun o => n_index o = index /\ n_vpc o = vpc /\
                               n_type o = t) s2 f k name /\
            node_has (has_property "ip") s2 f k name /\
            node_has (has_property "fqdn") s2 f k name /\
            touches_only f [(k, name)] (ctx_state m) s2).
  { intros s1 s2 f name new_obj m0 m1 code index Ha Ho Hnew.
    apply obj_create_true in Ho. destruct Ho as [_ [C1 [C2 C3]]].
    apply add_fabric_obj_object in Ha; [|exact Hk]. destruct Ha as [A1 A2].
    destruct (C1 k name (or_introl eq_refl)) as [R [Pip Pfq]].
    split; [exact R|]. split; [|split; [exact Pip|split; [exact Pfq|]]].
    - apply C3; [split; intros; assumption|].
      exists new_obj. split; [exact A1 | exact Hnew].
    - exact (touches_only_trans A2 C2). }
  destruct t as [ty|].
  - set (same_type := fun x : string * NodeObj =>
                        match n_type (snd x) with
                        | Some t' => otype_eqb ty t'
                        | None => false
                        end && check_object_status (snd x) SUCCESS) in E.
    run_any E; try discriminate E; inversion E; subst; clear E;
      cbn [ctx_state persisted world trace logs].
    all: repeat match goal with
         | p : (bool * nat)%type |- _ => destruct p as [? ?]
         end; cbn [fst snd] in *.
    all: repeat match goal with
         | H : negb ?b = false |- _ =>
             is_var b; destruct b; [clear H | discriminate H]
         end.
    all: do 2 eexists; (split; [reflexivity|]); (split; [eassumption|]);
         cbv zeta; eapply Hfin; [eassumption | eassumption |].
    all: destruct Hkind as [-> | [-> | ->]]; repeat split.
  - run_any E; try discriminate E; inversion E; subst; clear E;
      cbn [ctx_state persisted world trace logs].
    all: repeat match goal with
         | p : (bool * nat)%type |- _ => destruct p as [? ?]
         end; cbn [fst snd] in *.
    all: repeat match goal with
         | H : negb ?b = false |- _ =>
             is_var b; destruct b; [clear H | discriminate H]
         end.
    all: do 2 eexists; (split; [reflexivity|]); (split; [eassumption|]);
         cbv zeta; eapply Hfin; [eassumption | eassumption |].
    all: destruct Hkind as [-> | [-> | ->]]; repeat split.
Qed.

(** The create commands are refused, with nothing changed and no external
    call, when the VPC is not in the current fabric, and when the fabric
    already has an orchestrator of the type with status success. *)
Theorem create_node_guards :
  forall k orchestrator_type os_type vpc (m : Machine W) f fo,
    get_current_fabric (ctx_state m) = Some f ->
    get_fabric (ctx_state m) f = Some fo ->
    dict_mem vpc (f_vpc fo) = false
    \/ (exists ty n o,
          orchestrator_type = Some ty /\ In (n, o) (fabric_nodes fo k) /\
          n_type o = Some ty /\ n_status o = Some SUCCESS) ->
    refused (create_node oracle k orchestrator_type os_type vpc m) m.
Proof.
  intros k t os vpc m f fo Hcur Hf Hcase.
  unfold refused, create_node, require_current_fabric.
  unfold bind, get_ctx, must, log, sys_exit, ret.
  cbn [ctx_state persisted world trace logs fst snd].
  rewrite Hcur.
  destruct (truthy_name (Some f));
    cbn [negb fst snd ctx_state persisted world trace logs];
    [| repeat split; reflexivity].
  unfold check_vpc, get_fabric_objects. rewrite Hf.
  destruct (dict_mem vpc (f_vpc fo)) eqn:Hv;
    cbn [negb fst snd ctx_state persisted world trace logs];
    [| repeat split; reflexivity].
  destruct Hcase as [Hc|[ty [n [o [-> [Hin [Hty Hst]]]]]]]; [discriminate Hc|].
  match goal with
  | |- context [filter ?p (fabric_nodes fo k)] =>
      assert (Hn : In (n, o) (filter p (fabric_nodes fo k)));
      [ apply filter_In; split; [exact Hin|]; cbn [snd];
        unfold check_object_status, get_object_status;
        cbn [obj_status NodeObj_Stateful]; rewrite Hty, Hst;
        destruct ty; reflexivity
      | destruct (filter p (fabric_nodes fo k)); [destruct Hn|];
        cbn [fst snd ctx_state persisted world trace logs];
        repeat split; reflexivity ]
  end.
Qed.

End CreateNodeFacts.

(** ** Deleting *)

Lemma dict_get_del_other : forall (V : Type) k k' (d : Dict V),
  k' <> k -> dict_get k' (dict_del k d) = dict_get k' d.
Proof.
  intros V k k' d Hne. induction d as [|[k0 v0] d IH]; simpl; [reflexivity|].
  destruct (String.eqb k k0) eqn:E.
  - apply String.eqb_eq in E. subst k0.
    apply String.eqb_neq in Hne. rewrite Hne. reflexivity.
  - simpl. rewrite IH. reflexivity.
Qed.

Lemma dict_get_none_not_in : forall (V : Type) k (d : Dict V),
  ~ In k (map fst d) -> dict_get k d = None.
Proof.
  intros V k d. induction d as [|[k0 v0] d IH]; simpl; intro H; [reflexivity|].
  destruct (String.eqb k k0) eqn:E.
  - apply String.eqb_eq in E. subst k0. exfalso. apply H. left. reflexivity.
  - apply IH. intro Hin. apply H. right. exact Hin.
Qed.

Lemma dict_get_del_same : forall (V : Type) k (d : Dict V),
  NoDup (map fst d) -> dict_get k (dict_del k d) = None.
Proof.
  intros V k d. induction d as [|[k0 v0] d IH]; simpl; intro H; [reflexivity|].
  inversion H as [|? ? Hnotin Hnd]; subst.
  destruct (String.eqb k k0) eqn:E.
  - apply String.eqb_eq in E. subst k0. apply dict_get_none_not_in.
    exact Hnotin.
  - simpl. rewrite E. apply IH. exact Hnd.
Qed.

Lemma delete_fabric_object_spec : forall s k n f s',
  delete_fabric_object s k n f = Some s' ->
  role_bearing k = true \/ k = ORCHESTRATOR ->
  exists d,
    get_fabric_objects s k f = Some d /\
    dict_mem n d = true /\
    get_fabric_objects s' k f = Some (dict_del n d) /\
    (NoDup (dict_keys d) -> get_fabric_object s' k n f = Some None) /\
    (forall f' k' n',
       ~ (f' = f /\ k' = k /\ n' = n) ->
       get_fabric_object s' k' n' f' = get_fabric_object s k' n' f') /\
    (forall f', get_fabric_vpcs s' f' = get_fabric_vpcs s f') /\
    batch s' = batch s.
Proof.
  intros s k n f s' H Hk. unfold delete_fabric_object in H.
  destruct (get_fabric s f) as [fo|] eqn:Hf; [|discriminate].
  destruct (dict_mem n (fabric_nodes fo k)) eqn:Hm; [|discriminate].
  injection H as <-. exists (fabric_nodes fo k).
  split; [unfold get_fabric_objects; rewrite Hf; reflexivity|].
  split; [exact Hm|].
  assert (Hobj : get_fabric_objects
                   (with_fabrics s
                      (dict_set f (fabric_with_nodes fo k
                                     (dict_del n (fabric_nodes fo k)))
                                (fabric s))) k f
                 = Some (dict_del n (fabric_nodes fo k))).
  { unfold get_fabric_objects, get_fabric, with_fabrics. cbn [fabric].
    rewrite dict_get_set_same.
    rewrite (@fabric_nodes_with_nodes fo k _ _ Hk), kind_eqb_refl.
    reflexivity. }
  split; [exact Hobj|]. split; [|split; [|split]].
  - intro Hnd. unfold get_fabric_object. rewrite Hobj. cbn [option_map].
    rewrite dict_get_del_same by exact Hnd. reflexivity.
  - intros f' k' n' Hne. rewrite get_fabric_object_replaced.
    destruct (String.eqb f' f) eqn:Ef; [|reflexivity].
    apply String.eqb_eq in Ef. subst f'.
    rewrite (get_fabric_object_some _ _ _ _ Hf).
    rewrite (@fabric_nodes_with_nodes fo k _ _ Hk).
    destruct (kind_eqb k' k) eqn:Ek; [|reflexivity].
    apply kind_eqb_eq in Ek. subst k'.
    rewrite dict_get_del_other; [reflexivity|].
    intro En. apply Hne. auto.
  - intro f'. unfold get_fabric_vpcs, get_fabric, with_fabrics. cbn [fabric].
    destruct (String.eqb f' f) eqn:Ef.
    + apply String.eqb_eq in Ef. subst f'. rewrite dict_get_set_same.
      unfold get_fabric in Hf. rewrite Hf.
      destruct k; reflexivity.
    + apply String.eqb_neq in Ef. rewrite dict_get_set_other by exact Ef.
      reflexivity.
  - reflexivity.
Qed.

Section DeleteFacts.
Variable W : Type.
Variable oracle : Call -> W -> Answer * W.

Lemma delete_node_apply_spec :
  forall k kind_name obj_name f (m : Machine W) r m',
    delete_node_apply oracle k kind_name obj_name f m = (r, m') ->
    (r <> Ok true ->
     ctx_state m' = ctx_state m /\ persisted m' = persisted m) /\
    (r = Ok true ->
     delete_fabric_object (ctx_state m) k obj_name f = Some (ctx_state m')).
Proof.
  intros k kind_name obj_name f m r m' E.
  unfold delete_node_apply, generate_ssh_config in E.
  run_any E; inversion E; subst; clear E;
    cbn [ctx_state persisted world trace logs].
  all: split; intro Hr; try discriminate Hr;
       try (exfalso; apply Hr; reflexivity); try (split; reflexivity).
  all: assumption.
Qed.

Lemma deleted_node :
  forall (s s' : State) k obj_name f (current : option string),
    role_bearing k = true \/ k = ORCHESTRATOR ->
    current = Some f ->
    delete_fabric_object s k obj_name f = Some s' ->
    exists f0 d,
      current = Some f0 /\
      get_fabric_objects s k f0 = Some d /\
      dict_mem obj_name d = true /\
      get_fabric_objects s' k f0 = Some (dict_del obj_name d) /\
      (NoDup (dict_keys d) ->
       get_fabric_object s' k obj_name f0 = Some None) /\
      (forall f' k' n,
         ~ (f' = f0 /\ k' = k /\ n = obj_name) ->
         get_fabric_object s' k' n f' = get_fabric_object s k' n f') /\
      (forall f', get_fabric_vpcs s' f' = get_fabric_vpcs s f') /\
      batch s' = batch s.
Proof.
  intros s s' k obj_name f current Hk Hcur Hdel.
  destruct (@delete_fabric_object_spec _ _ _ _ _ Hdel Hk)
    as [d [H1 [H2 [H3 [H4 [H5 [H6 H7]]]]]]].
  exists f, d. repeat split; assumption.
Qed.

Lemma delete_workload_deletes : forall name,
  deletes_node (delete_workload oracle name) WORKLOAD (normalise_string name).
Proof.
  intros name dry m r m' E.
  unfold delete_workload, require_current_fabric, normalise_state_obj_name
    in E.
  run_any E;
    first [ apply delete_node_apply_spec in E;
            cbn [ctx_state persisted world trace logs] in E;
            destruct E as [En Ey]
          | inversion E; subst; clear E ];
    cbn [ctx_state persisted world trace logs].
  all: (split; [intro Hd; try discriminate Hd; repeat split; reflexivity|]).
  all: (split; [intro Hr; try (exfalso; apply Hr; reflexivity);
                try (split; reflexivity); try (apply En; exact Hr)|]).
  all: intros Hr Hd; try discriminate Hr; try discriminate Hd.
  all: eapply deleted_node;
       [left; reflexivity | reflexivity | apply Ey; exact Hr].
Qed.

Lemma delete_orchestrator_deletes : forall name,
  deletes_node (delete_orchestrator oracle name) ORCHESTRATOR
               (normalise_string name).
Proof.
  intros name dry m r m' E.
  unfold delete_orchestrator, require_current_fabric,
    normalise_state_obj_name in E.
  run_any E;
    first [ apply delete_node_apply_spec in E;
            cbn [ctx_state persisted world trace logs] in E;
            destruct E as [En Ey]
          | inversion E; subst; clear E ];
    cbn [ctx_state persisted world trace logs].
  all: (split; [intro Hd; try discriminate Hd; repeat split; reflexivity|]).
  all: (split; [intro Hr; try (exfalso; apply Hr; reflexivity);
                try (split; reflexivity); try (apply En; exact Hr)|]).
  all: intros Hr Hd; try discriminate Hr; try discriminate Hd.
  all: eapply deleted_node;
       [right; reflexivity | reflexivity | apply Ey; exact Hr].
Qed.

Lemma delete_processor_deletes : forall name,
  deletes_node (delete_processor oracle name) PROCESSOR
               (normalise_string name).
Proof.
  intros name dry m r m' E.
  unfold delete_processor, require_current_fabric,
    normalise_state_obj_name, generate_ssh_config in E.
  run_any E; inversion E; subst; clear E;
    cbn [ctx_state persisted world trace logs].
  all: (split; [intro Hd; try discriminate Hd; repeat split; reflexivity|]).
  all: (split; [intro Hr; try (exfalso; apply Hr; reflexivity);
                split; reflexivity|]).
  all: intros Hr Hd; try discriminate Hr; try discriminate Hd.
  all: eapply deleted_node; [left; reflexivity | reflexivity | eassumption].
Qed.

(** [delete_workload], [delete_orchestrator] and [delete_processor] reach
    the state only when they succeed. A dry run makes no external call and
    changes nothing. Whenever they do not return true, the state in memory
    and the state on disk are as they were, whatever step failed. When
    they return true without dry run, the node of the normalised name was
    in the current fabric, the new state no longer has it, and every other
    node, every VPC and every node batch is as it was. *)
Theorem delete_node_commands_transactional :
  forall name,
    deletes_node (delete_workload oracle name) WORKLOAD
                 (normalise_string name) /\
    deletes_node (delete_orchestrator oracle name) ORCHESTRATOR
                 (normalise_string name) /\
    deletes_node (delete_processor oracle name) PROCESSOR
                 (normalise_string name).
Proof.
  intro name. split; [|split].
  - apply delete_workload_deletes.
  - apply delete_orchestrator_deletes.
  - apply delete_processor_deletes.
Qed.

(** [delete_orchestrator] refuses to delete the swarm manager while the
    fabric has workers: for an orchestrator that is past state created,
    has a type and the role manager, in a fabric with a worker, the command
    leaves through [sys.exit(1)] with nothing changed and no external
    call. The dry run of the same command ends before that check and
    returns true. *)
Theorem delete_orchestrator_manager_guard :
  forall name (m : Machine W) f fo obj,
    get_current_fabric (ctx_state m) = Some f ->
    truthy_name (Some f) = true ->
    get_fabric (ctx_state m) f = Some fo ->
    dict_get (normalise_string name) (f_orchestrator fo) = Some obj ->
    n_state obj <> Some CREATED ->
    n_type obj <> None ->
    n_role obj = Manager ->
    (exists w o, In (w, o) (f_orchestrator fo) /\ n_role o = Worker) ->
    refused (delete_orchestrator oracle name false m) m /\
    exists m',
      delete_orchestrator oracle name true m = (Ok true, m') /\ quiet m m'.
Proof.
  intros name m f fo obj Hcur Htruthy Hf Hobj Hst Hty Hrole [w [o [Hw Hwr]]].
  assert (Hcre : check_object_state obj CREATED = false).
  { unfold check_object_state, get_object_state.
    cbn [obj_state NodeObj_Stateful].
    destruct (n_state obj) as [[]|]; try reflexivity. congruence. }
  destruct (n_type obj) as [ty|] eqn:Hty'; [clear Hty | congruence].
  assert (Hman : is_manager obj = true)
    by (unfold is_manager; rewrite Hrole; reflexivity).
  assert (Hmgrs : exists mg rest, managers (f_orchestrator fo) = mg :: rest).
  { assert (Hin : In (normalise_string name, obj)
                     (managers (f_orchestrator fo))).
    { apply filter_In. split; [|exact Hman].
      apply dict_get_In. exact Hobj. }
    destruct (managers (f_orchestrator fo)) as [|mg rest];
      [destruct Hin | eauto]. }
  destruct Hmgrs as [mg [rest Hmgrs]].
  assert (Hworkers : Nat.eqb (List.length
                       (filter (fun x : string * NodeObj => is_worker (snd x))
                               (f_orchestrator fo))) 0 = false).
  { assert (Hin : In (w, o) (filter (fun x : string * NodeObj =>
                                       is_worker (snd x))
                                    (f_orchestrator fo))).
    { apply filter_In. split; [exact Hw|]. unfold is_worker. cbn [snd].
      rewrite Hwr. reflexivity. }
    destruct (filter _ (f_orchestrator fo)); [destruct Hin | reflexivity]. }
  unfold refused, delete_orchestrator, require_current_fabric,
    normalise_state_obj_name.
  unfold bind, get_ctx, must, log, sys_exit, ret.
  cbn [ctx_state persisted world trace logs fst snd].
  rewrite Hcur, Htruthy.
  cbn [negb fst snd ctx_state persisted world trace logs].
  unfold check_orchestrator, check_nodeobj, get_fabric_objects, dict_mem.
  destruct (String.eqb name (normalise_string name));
    cbn [fst snd ctx_state persisted world trace logs];
    rewrite Hf; cbn [fabric_nodes]; rewrite Hobj;
    cbn [negb fst snd ctx_state persisted world trace logs];
    rewrite Hcre, Hty', Hmgrs, Hman, Hworkers;
    cbn [negb andb fst snd ctx_state persisted world trace logs];
    (split; [repeat split; reflexivity|]);
    eexists; (split; [reflexivity|]); repeat split; reflexivity.
Qed.

End DeleteFacts.

(** ** Node batches of a fabric or of a VPC *)

Lemma nodebatch_select_member : forall sel members previous n e d,
  members = Some d -> In (n, e) d -> sel e = true ->
  nodebatch_select sel members previous <> [].
Proof.
  intros sel members previous n e d -> Hin Hsel. unfold nodebatch_select.
  assert (H : In e (map snd (filter (fun item : string * Entry =>
                                       sel (snd item)) d))).
  { apply in_map_iff. exists (n, e). split; [reflexivity|].
    apply filter_In. split; [exact Hin | exact Hsel]. }
  intro Hnil. rewrite Hnil in H. exact H.
Qed.

Lemma nodebatch_select_none : forall sel members,
  (forall d n e, members = Some d -> In (n, e) d -> sel e = false) ->
  nodebatch_select sel members [] = [].
Proof.
  intros sel [d|] H; [|reflexivity]. unfold nodebatch_select.
  specialize (H d).
  induction d as [|[n e] d IH]; [reflexivity|]. simpl.
  rewrite (H n e eq_refl (or_introl eq_refl)). apply IH.
  intros n' e' _ Hin. apply (H n' e' eq_refl). right. exact Hin.
Qed.

Lemma nodebatch_delete_scan_spec : forall sel batches acc wl pr,
  exists found,
    nodebatch_delete_scan sel batches acc wl pr = acc ++ found /\
    incl found (map fst batches) /\
    (NoDup (map fst batches) -> NoDup found) /\
    (forall b nb, In (b, nb) batches -> has_member sel nb -> In b found) /\
    (wl = [] -> pr = [] ->
     (forall b nb, In (b, nb) batches -> ~ has_member sel nb) ->
     found = []).
Proof.
  intros sel. induction batches as [|[b nb] rest IH]; intros acc wl pr;
    cbn [nodebatch_delete_scan].
  - exists []. rewrite app_nil_r. split; [reflexivity|].
    split; [intros x []|]. split; [intros _; constructor|].
    split; [intros b nb []|]. reflexivity.
  - set (wl' := nodebatch_select sel (nb_workload nb) wl).
    set (pr' := nodebatch_select sel (nb_processor nb) pr).
    destruct (wl' ++ pr') as [|x nodes] eqn:Hnodes.
    + destruct (IH acc wl' pr') as [found [E [Hincl [Hnd [Hall Hnone]]]]].
      exists found. split; [exact E|].
      split; [intros y Hy; right; exact (Hincl y Hy)|].
      split; [intro H; inversion H; subst; apply Hnd; assumption|].
      split.
      * intros b' nb' [Hb|Hin] Hm; [|exact (Hall b' nb' Hin Hm)].
        injection Hb as <- <-. exfalso.
        apply app_eq_nil in Hnodes. destruct Hnodes as [Hw Hp].
        destruct Hm as [n [e [Hsel [[d [Hd Hin]]|[d [Hd Hin]]]]]].
        -- exact (@nodebatch_select_member sel _ wl n e d Hd Hin Hsel Hw).
        -- exact (@nodebatch_select_member sel _ pr n e d Hd Hin Hsel Hp).
      * intros Hwl Hpr Hno. apply app_eq_nil in Hnodes.
        destruct Hnodes as [Hw Hp]. apply Hnone; [exact Hw | exact Hp |].
        intros b' nb' Hin. apply (Hno b' nb'). right. exact Hin.
    + destruct (IH (acc ++ [b]) wl' pr') as [found [E [Hincl [Hnd [Hall Hnone]]]]].
      exists (b :: found). split; [rewrite E, <- app_assoc; reflexivity|].
      split.
      { intros y [<-|Hy]; [left; reflexivity | right; exact (Hincl y Hy)]. }
      split.
      { intro H. inversion H as [|? ? Hnotin Hnd']; subst. constructor.
        - intro Hin. apply Hnotin. exact (Hincl b Hin).
        - apply Hnd. exact Hnd'. }
      split.
      * intros b' nb' [Hb|Hin] Hm.
        -- injection Hb as <- _. left. reflexivity.
        -- right. exact (Hall b' nb' Hin Hm).
      * intros Hwl Hpr Hno. exfalso. subst wl pr.
        assert (Hw : wl' = []).
        { apply nodebatch_select_none. intros d n e Hd Hin.
          destruct (sel e) eqn:Hsel; [|reflexivity]. exfalso.
          apply (Hno b nb (or_introl eq_refl)).
          exists n, e. split; [exact Hsel|]. left. exists d. auto. }
        assert (Hp : pr' = []).
        { apply nodebatch_select_none. intros d n e Hd Hin.
          destruct (sel e) eqn:Hsel; [|reflexivity]. exfalso.
          apply (Hno b nb (or_introl eq_refl)).
          exists n, e. split; [exact Hsel|]. right. exists d. auto. }
        rewrite Hw, Hp in Hnodes. discriminate Hnodes.
Qed.

Lemma dict_del_keys_incl : forall (V : Type) k (d : Dict V) x,
  In x (map fst (dict_del k d)) -> In x (map fst d).
Proof.
  intros V k d x. induction d as [|[k0 v0] d IH]; simpl; [auto|].
  destruct (String.eqb k k0); simpl; [auto|].
  intros [H|H]; [left; exact H | right; exact (IH H)].
Qed.

Lemma dict_del_keys_NoDup : forall (V : Type) k (d : Dict V),
  NoDup (map fst d) -> NoDup (map fst (dict_del k d)).
Proof.
  intros V k d. induction d as [|[k0 v0] d IH]; simpl; intro H; [exact H|].
  inversion H as [|? ? Hnotin Hnd]; subst.
  destruct (String.eqb k k0); simpl; [exact Hnd|].
  constructor; [|exact (IH Hnd)].
  intro Hin. apply Hnotin. exact (dict_del_keys_incl _ _ _ Hin).
Qed.

Section NodebatchDeleteFacts.
Variable W : Type.
Variable oracle : Call -> W -> Answer * W.

Lemma delete_nodebatches_spec : forall l self (m : Machine W),
  NoDup l -> NoDup (dict_keys (batch self)) ->
  (forall b, In b l -> dict_mem b (batch self) = true) ->
  exists self',
    for_each l (fun b self => must (delete_nodebatch self b)) self m
    = (Ok self', m) /\
    fabric self' = fabric self /\ config self' = config self /\
    (forall b, In b l -> dict_get b (batch self') = None) /\
    (forall b, ~ In b l -> dict_get b (batch self') = dict_get b (batch self)).
Proof.
  induction l as [|b l IH]; intros self m Hnd Hkeys Hall; cbn [for_each].
  - exists self. repeat split; intros b [].
  - inversion Hnd as [|? ? Hnotin Hnd']; subst.
    unfold bind. unfold delete_nodebatch at 1.
    rewrite (Hall b (or_introl eq_refl)). unfold must at 1, ret at 1.
    set (s1 := with_batches self (dict_del b (batch self))).
    destruct (IH s1 m Hnd') as [self' [E [Hf [Hc [Hin Hout]]]]].
    + unfold s1, with_batches. cbn [batch].
      apply dict_del_keys_NoDup. exact Hkeys.
    + intros b' Hb'. unfold s1, with_batches, dict_mem. cbn [batch].
      rewrite dict_get_del_other by (intro Heq; subst b'; exact (Hnotin Hb')).
      apply Hall. right. exact Hb'.
    + exists self'. split; [exact E|]. split; [exact Hf|].
      split; [exact Hc|]. split.
      * intros b' [<-|Hb']; [|exact (Hin b' Hb')].
        rewrite (Hout b Hnotin). unfold s1, with_batches. cbn [batch].
        apply dict_get_del_same. exact Hkeys.
      * intros b' Hb'. rewrite Hout by (intro Hc'; apply Hb'; right; exact Hc').
        unfold s1, with_batches. cbn [batch].
        apply dict_get_del_other. intro Heq. apply Hb'. left. congruence.
Qed.

Lemma nodebatch_delete_spec :
  forall self fabric_name vpc (m : Machine W),
    fabric_name <> None \/ vpc <> None ->
    NoDup (dict_keys (batch self)) ->
    exists self' m',
      nodebatch_delete self fabric_name vpc m = (Ok (true, self'), m') /\
      quiet m m' /\
      fabric self' = fabric self /\ config self' = config self /\
      (forall b nb,
         dict_get b (batch self) = Some nb ->
         has_member (nodebatch_scope fabric_name vpc) nb ->
         dict_get b (batch self') = None) /\
      (forall b nb,
         dict_get b (batch self') = Some nb ->
         dict_get b (batch self) = Some nb) /\
      ((forall b nb, In (b, nb) (batch self) ->
                     ~ has_member (nodebatch_scope fabric_name vpc) nb) ->
       self' = self).
Proof.
  intros self fabric_name vpc m Hscope Hkeys.
  destruct (nodebatch_delete_scan_spec (nodebatch_scope fabric_name vpc)
              (batch self) [] [] [])
    as [found [E [Hincl [Hnd [Hall Hnone]]]]].
  cbn [app] in E.
  assert (Hrun : exists self' m',
             (match nodebatch_delete_scan (nodebatch_scope fabric_name vpc)
                      (batch self) [] [] [] with
              | [] => ret (true, self)
              | nodebatches =>
                  log Warn "Active node batches found, going to be deleted"
                      nodebatches ;;;
                  self <- for_each nodebatches
                            (fun b self => must (delete_nodebatch self b))
                            self ;;
                  ret (true, self)
              end) m = (Ok (true, self'), m') /\
             quiet m m' /\
             fabric self' = fabric self /\ config self' = config self /\
             (forall b, In b found -> dict_get b (batch self') = None) /\
             (forall b, ~ In b found ->
                        dict_get b (batch self') = dict_get b (batch self)) /\
             (found = [] -> self' = self)).
  { rewrite E. destruct found as [|b0 found'] eqn:Hfound.
    - exists self, m. split; [reflexivity|]. split; [repeat split|].
      repeat split; intros b [].
    - clear Hfound. unfold bind, log. cbv beta iota zeta.
      match goal with
      | |- context [for_each (b0 :: found') ?body self ?m0] =>
          destruct (@delete_nodebatches_spec (b0 :: found') self m0
                      (Hnd Hkeys) Hkeys)
            as [self' [E' [Hf [Hc [Hin Hout]]]]]
      end.
      { intros b Hb. unfold dict_mem.
        destruct (dict_get b (batch self)) eqn:Hg; [reflexivity|].
        exfalso. apply Hincl in Hb. apply in_map_iff in Hb.
        destruct Hb as [[b' nb] [Hb' Hin']]. cbn [fst] in Hb'. subst b'.
        rewrite (@NoDup_dict_get _ _ _ _ Hkeys Hin') in Hg. discriminate. }
      rewrite E'. unfold ret. eexists. eexists. split; [reflexivity|].
      split; [repeat split|]. split; [exact Hf|]. split; [exact Hc|].
      split; [exact Hin|]. split; [exact Hout|]. discriminate. }
  destruct Hrun as [self' [m' [Hr [Hq [Hf [Hc [Hin [Hout Hsame]]]]]]]].
  exists self', m'. split.
  { unfold nodebatch_delete.
    destruct vpc as [v|]; [exact Hr|].
    destruct fabric_name as [f|]; [exact Hr|].
    destruct Hscope as [H|H]; congruence. }
  split; [exact Hq|]. split; [exact Hf|]. split; [exact Hc|]. split; [|split].
  - intros b nb Hb Hm. apply Hin. apply (Hall b nb); [|exact Hm].
    apply dict_get_In. exact Hb.
  - intros b nb Hb.
    destruct (in_dec string_dec b found) as [Hi|Hi].
    + rewrite (Hin b Hi) in Hb. discriminate.
    + rewrite <- (Hout b Hi). exact Hb.
  - intro Hno. apply Hsame. apply Hnone; auto.
Qed.

(** [nodebatch_delete] for a fabric or for a VPC returns true, makes no
    external call and touches neither the fabrics nor the configuration.
    Every batch that records a workload or a processor of the fabric (of
    the VPC) is gone afterwards; a batch that is still there is as it was;
    and when no batch records such a member, the state is unchanged. *)
Theorem nodebatch_delete_removes :
  forall self fabric_name vpc (m : Machine W),
    fabric_name <> None \/ vpc <> None ->
    NoDup (dict_keys (batch self)) ->
    exists self' m',
      nodebatch_delete self fabric_name vpc m = (Ok (true, self'), m') /\
      quiet m m' /\
      fabric self' = fabric self /\ config self' = config self /\
      (forall b nb,
         dict_get b (batch self) = Some nb ->
         has_member (nodebatch_scope fabric_name vpc) nb ->
         dict_get b (batch self') = None) /\
      (forall b nb,
         dict_get b (batch self') = Some nb ->
         dict_get b (batch self) = Some nb) /\
      ((forall b nb, In (b, nb) (batch self) ->
                     ~ has_member (nodebatch_scope fabric_name vpc) nb) ->
       self' = self).
Proof.
  intros self fabric_name vpc m Hscope Hkeys.
  exact (@nodebatch_delete_spec self fabric_name vpc m Hscope Hkeys).
Qed.

End NodebatchDeleteFacts.

(** ** Deleting a VPC or a fabric *)

Lemma delete_fabric_vpc_spec : forall s n f s',
  delete_fabric_vpc s n f = Some s' ->
  exists fo,
    get_fabric s f = Some fo /\
    dict_mem n (f_vpc fo) = true /\
    get_fabric_vpcs s' f = Some (dict_del n (f_vpc fo)) /\
    (forall f', f' <> f -> get_fabric_vpcs s' f' = get_fabric_vpcs s f') /\
    (forall f' k, get_fabric_objects s' k f' = get_fabric_objects s k f') /\
    batch s' = batch s /\ config s' = config s.
Proof.
  intros s n f s' H. unfold delete_fabric_vpc in H.
  destruct (get_fabric s f) as [fo|] eqn:Hf; [|discriminate].
  destruct (dict_mem n (f_vpc fo)) eqn:Hm; [|discriminate].
  injection H as <-. exists fo. split; [reflexivity|]. split; [exact Hm|].
  unfold get_fabric_vpcs, get_fabric_objects, get_fabric, with_fabrics in *.
  cbn [fabric batch config].
  split; [rewrite dict_get_set_same; reflexivity|].
  split; [|split; [|split; reflexivity]].
  - intros f' Hne. rewrite dict_get_set_other by exact Hne. reflexivity.
  - intros f' k. destruct (String.eqb f' f) eqn:Ef.
    + apply String.eqb_eq in Ef. subst f'. rewrite dict_get_set_same, Hf.
      destruct k; reflexivity.
    + apply String.eqb_neq in Ef. rewrite dict_get_set_other by exact Ef.
      reflexivity.
Qed.

Lemma nodes_of_vpc_nil : forall d obj_name,
  nodes_of_vpc d obj_name = [] ->
  forall x o, In (x, o) d -> str_in obj_name (n_vpc o) = false.
Proof.
  intros d obj_name H x o Hin.
  destruct (str_in obj_name (n_vpc o)) eqn:E; [|reflexivity]. exfalso.
  assert (Hx : In x (nodes_of_vpc d obj_name)).
  { unfold nodes_of_vpc. apply in_map_iff. exists (x, o).
    split; [reflexivity|]. apply filter_In. split; [exact Hin | exact E]. }
  rewrite H in Hx. exact Hx.
Qed.

Section DeleteVpcFacts.
Variable W : Type.
Variable oracle : Call -> W -> Answer * W.

Lemma nodebatch_delete_keeps_state : forall self fabric_name vpc,
  keeps_state (W := W) (nodebatch_delete self fabric_name vpc).
Proof.
  intros self fabric_name vpc. unfold nodebatch_delete.
  destruct vpc; [|destruct fabric_name]; keeps_st.
Qed.

(** [delete_vpc] reaches the state only when it succeeds. A dry run makes
    no external call and changes nothing; whenever the command does not
    return true, the state in memory and on disk are as they were. When it
    returns true without dry run, the VPC was in the current fabric and no
    node of the fabric had a VPC name containing its name; the new state
    is without the VPC and without the node batches that record a member
    in it, and every node is as it was. *)
Theorem delete_vpc_transactional :
  forall name dry_run (m : Machine W) r m',
    NoDup (dict_keys (batch (ctx_state m))) ->
    delete_vpc oracle name dry_run m = (r, m') ->
    (dry_run = true -> quiet m m') /\
    (r <> Ok true ->
     ctx_state m' = ctx_state m /\ persisted m' = persisted m) /\
    (r = Ok true -> dry_run = false ->
     exists f fo,
       get_current_fabric (ctx_state m) = Some f /\
       get_fabric (ctx_state m) f = Some fo /\
       dict_mem (normalise_string name) (f_vpc fo) = true /\
       (forall k x o, In (x, o) (fabric_nodes fo k) ->
                      str_in (normalise_string name) (n_vpc o) = false) /\
       get_fabric_vpcs (ctx_state m') f
       = Some (dict_del (normalise_string name) (f_vpc fo)) /\
       (forall f' k, get_fabric_objects (ctx_state m') k f'
                     = get_fabric_objects (ctx_state m) k f') /\
       (forall b nb,
          dict_get b (batch (ctx_state m)) = Some nb ->
          has_member (nodebatch_scope None (Some (normalise_string name))) nb ->
          dict_get b (batch (ctx_state m')) = None)).
Proof.
  intros name dry m r m' Hkeys E.
  unfold delete_vpc, require_current_fabric, normalise_state_obj_name in E.
  run_any E; inversion E; subst; clear E;
    cbn [ctx_state persisted world trace logs fst snd].
  all: repeat match goal with
       | H : nodebatch_delete _ _ _ ?m0 = (_, ?m1) |- _ =>
           let Hk := fresh "Hk" in
           pose proof (@nodebatch_delete_keeps_state _ _ _ _ _ _ H) as Hk;
           cbn [ctx_state persisted] in Hk; destruct Hk as [Hk1 Hk2]
       end.
  all: (split; [intro Hd; try discriminate Hd; repeat split; reflexivity|]).
  all: (split; [intro Hr; try (exfalso; apply Hr; reflexivity);
                split; congruence|]).
  all: intros Hr Hd; try discriminate Hr; try discriminate Hd.
  all: match goal with
       | Hdel : delete_fabric_vpc _ _ _ = Some ?s1,
         Hnb : nodebatch_delete ?s1 None (Some ?n) ?m0 = (Ok ?p, _) |- _ =>
           apply delete_fabric_vpc_spec in Hdel;
           destruct Hdel as [fo [Hf [Hm [Hv [_ [Hn [Hb _]]]]]]];
           destruct (@nodebatch_delete_spec W s1 None (Some n) m0)
             as [s2 [m2 [Enb [_ [Hfab [_ [Hgone _]]]]]]];
           [ right; discriminate
           | rewrite Hb; exact Hkeys
           | rewrite Enb in Hnb; injection Hnb as <- <- ]
       end.
  all: cbn [snd].
  all: do 2 eexists; (split; [reflexivity|]); (split; [exact Hf|]);
       (split; [exact Hm|]).
  all: repeat match goal with
       | H : get_fabric_objects _ _ _ = Some _ |- _ =>
           unfold get_fabric_objects in H; rewrite Hf in H;
           injection H as <-
       | H : match ?l with [] => _ | _ :: _ => _ end = _ |- _ => fail
       end.
  all: repeat match goal with
       | H : ?a ++ ?b = [] |- _ =>
           apply app_eq_nil in H; destruct H as [? ?]
       end.
  all: split;
       [ intros k x o Hin; destruct k; cbn [fabric_nodes] in Hin;
         try (destruct Hin);
         match goal with
         | Hnil : nodes_of_vpc ?d _ = [], Hi : In _ ?d |- _ =>
             exact (@nodes_of_vpc_nil _ _ Hnil _ _ Hi)
         end |].
  all: split;
       [ unfold get_fabric_vpcs, get_fabric in *; rewrite Hfab; exact Hv |].
  all: split;
       [ intros f' k; unfold get_fabric_objects, get_fabric in *;
         rewrite Hfab; apply Hn
       | intros b' nb Hg Hmem; apply (Hgone b' nb); [rewrite Hb; exact Hg|];
         exact Hmem ].
Qed.

End DeleteVpcFacts.

Lemma state_delete_fabric_spec : forall s n s',
  StateObj.delete_fabric s n = Some s' ->
  fabric s' = dict_del n (fabric s) /\
  batch s' = batch s /\ config s' = config s.
Proof.
  intros s n s' H. unfold StateObj.delete_fabric in H.
  destruct (dict_mem n (fabric s)); [|discriminate].
  injection H as <-. repeat split.
Qed.

Lemma set_current_fabric_spec : forall s v,
  cfg_current_fabric (config (snd (set_current_fabric s v))) = v /\
  fabric (snd (set_current_fabric s v)) = fabric s /\
  batch (snd (set_current_fabric s v)) = batch s /\
  fst (set_current_fabric s v)
  = negb (name_eqb (cfg_current_fabric (config s)) v).
Proof.
  intros s v. unfold set_current_fabric.
  destruct (name_eqb (cfg_current_fabric (config s)) v) eqn:E;
    cbn [negb fst snd]; [|repeat split].
  repeat split.
  destruct (cfg_current_fabric (config s)) as [x|], v as [y|];
    try discriminate E; [|reflexivity].
  apply String.eqb_eq in E. congruence.
Qed.

Section DeleteFabricFacts.
Variable W : Type.
Variable oracle : Call -> W -> Answer * W.

(** [delete_fabric] changes the state only when it succeeds: whenever it
    does not return true, the state in memory and on disk are as they
    were. When it returns true, the fabric of the normalised name existed
    and had neither VPCs nor nodes; afterwards it is gone, it is not the
    current fabric, every other fabric is as it was, and the node batches
    that record a member of the fabric are gone. *)
Theorem delete_fabric_result :
  forall name (m : Machine W) r m',
    NoDup (dict_keys (batch (ctx_state m))) ->
    NoDup (dict_keys (fabric (ctx_state m))) ->
    delete_fabric oracle name m = (r, m') ->
    (r <> Ok true ->
     ctx_state m' = ctx_state m /\ persisted m' = persisted m) /\
    (r = Ok true ->
     exists fo,
       get_fabric (ctx_state m) (normalise_string name) = Some fo /\
       f_vpc fo = [] /\ f_orchestrator fo = [] /\ f_processor fo = [] /\
       f_workload fo = [] /\
       get_fabric (ctx_state m') (normalise_string name) = None /\
       (forall f', f' <> normalise_string name ->
          get_fabric (ctx_state m') f' = get_fabric (ctx_state m) f') /\
       get_current_fabric (ctx_state m') <> Some (normalise_string name) /\
       (forall b nb,
          dict_get b (batch (ctx_state m)) = Some nb ->
          has_member (nodebatch_scope (Some (normalise_string name)) None)
                     nb ->
          dict_get b (batch (ctx_state m')) = None)).
Proof.
  intros name m r m' Hbk Hfk E.
  assert (Hnb : forall s1 (m0 : Machine W),
             batch s1 = batch (ctx_state m) ->
             exists s2 m2,
               nodebatch_delete s1 (Some (normalise_string name)) None m0
               = (Ok (true, s2), m2) /\
               ctx_state m2 = ctx_state m0 /\ persisted m2 = persisted m0 /\
               fabric s2 = fabric s1 /\ config s2 = config s1 /\
               forall b nb,
                 dict_get b (batch (ctx_state m)) = Some nb ->
                 has_member (nodebatch_scope (Some (normalise_string name))
                                             None) nb ->
                 dict_get b (batch s2) = None).
  { intros s1 m0 Hb.
    destruct (@nodebatch_delete_spec W s1 (Some (normalise_string name)) None
                m0)
      as [s2 [m2 [Enb [Hq [Hfab [Hcfg [Hgone _]]]]]]].
    - left. discriminate.
    - rewrite Hb. exact Hbk.
    - exists s2, m2. split; [exact Enb|]. destruct Hq as [Q1 [Q2 _]].
      split; [exact Q1|]. split; [exact Q2|]. split; [exact Hfab|].
      split; [exact Hcfg|]. intros b nb Hg. apply Hgone. rewrite Hb.
      exact Hg. }
  destruct (set_current_fabric_spec (ctx_state m) None)
    as [_ [Hsf [Hsb _]]].
  unfold delete_fabric, normalise_state_obj_name in E.
  run_any E; try (inversion E; subst; clear E);
    cbn [ctx_state persisted world trace logs fst snd] in *.
  all: try (split; [intro Hr; try (exfalso; apply Hr; reflexivity);
                    split; reflexivity
                   | intro Hr; discriminate Hr ]).
  all: try match goal with
       | H : StateObj.delete_fabric _ _ = None,
         Hc : negb (check_fabric _ _) = false |- _ =>
           exfalso; unfold StateObj.delete_fabric in H;
           try rewrite Hsf in H; unfold check_fabric in Hc;
           apply negb_false_iff in Hc; rewrite Hc in H; discriminate H
       end.
  all: match goal with
       | H : StateObj.delete_fabric _ _ = Some _ |- _ =>
           apply state_delete_fabric_spec in H;
           destruct H as [Hfab [Hbat _]]
       end.
  all: match goal with
       | H : nodebatch_delete ?s _ _ ?m0 = (_, _) |- _ =>
           destruct (Hnb s m0) as [s2 [m2 [Enb [_ [_ [Hf2 [_ Hgone]]]]]]];
           [congruence|]; rewrite Enb in H; inversion H; subst; clear H
       end.
  all: cbn [snd].
  all: (split; [intro Hr; exfalso; apply Hr; reflexivity | intros _]).
  all: match goal with
       | H : get_fabric_vpcs _ _ = Some [] |- _ =>
           unfold get_fabric_vpcs in H;
           destruct (get_fabric (ctx_state m) (normalise_string name))
             as [fo|] eqn:Hfo; [|discriminate H]; injection H as Hv
       end.
  all: repeat match goal with
       | H : get_fabric_objects _ _ _ = Some _ |- _ =>
           unfold get_fabric_objects in H; rewrite Hfo in H;
           injection H as <-
       end.
  all: cbn [fabric_nodes] in *.
  all: repeat match goal with
       | H : _ ++ _ = [] |- _ => apply app_eq_nil in H; destruct H as [? ?]
       | H : dict_keys _ = [] |- _ => unfold dict_keys in H;
                                       apply map_eq_nil in H
       end.
  all: exists fo; (split; [reflexivity|]); (split; [exact Hv|]);
       (do 3 (split; [assumption|])).
  all: unfold dict_keys in Hfk.
  all: split;
       [ unfold get_fabric; rewrite Hf2, Hfab; try rewrite Hsf;
         apply dict_get_del_same; exact Hfk |].
  all: split;
       [ intros f' Hne; unfold get_fabric; rewrite Hf2, Hfab;
         try rewrite Hsf; apply dict_get_del_other; exact Hne |].
  all: split; [|exact Hgone].
  all: intro Hc; apply get_current_fabric_iff in Hc;
       destruct Hc as [_ [f [Hg _]]]; rewrite Hf2, Hfab in Hg;
       try rewrite Hsf in Hg; rewrite dict_get_del_same in Hg by exact Hfk;
       discriminate Hg.
Qed.

End DeleteFabricFacts.

(** ** Selecting and leaving a fabric *)

Lemma get_current_fabric_set : forall s name f,
  dict_get name (fabric s) = Some f -> selectableb f = true ->
  get_current_fabric (snd (set_current_fabric s (Some name))) = Some name.
Proof.
  intros s name f Hf Hsel.
  destruct (set_current_fabric_spec s (Some name)) as [Hc [Hfab _]].
  apply get_current_fabric_iff. split; [exact Hc|]. exists f.
  rewrite Hfab. split; [exact Hf|]. apply selectableb_spec. exact Hsel.
Qed.

Section SetFabricFacts.
Variable W : Type.

(** [set_fabric] returns true exactly for a fabric of the state that is
    configured with success or set for deletion, and that fabric is the
    current fabric afterwards, with the fabrics and batches untouched. In
    every other case the command leaves through [sys.exit(1)] and the
    state is as it was. *)
Theorem set_fabric_selects :
  forall name (m : Machine W) r m',
    set_fabric name m = (r, m') ->
    (r = Ok true <->
     exists f, get_fabric (ctx_state m) name = Some f /\ selectable f) /\
    (r = Ok true ->
     get_current_fabric (ctx_state m') = Some name /\
     fabric (ctx_state m') = fabric (ctx_state m) /\
     batch (ctx_state m') = batch (ctx_state m)) /\
    (r <> Ok true -> r = Exit 1 /\ ctx_state m' = ctx_state m).
Proof.
  intros name m r m' E.
  destruct (set_current_fabric_spec (ctx_state m) (Some name))
    as [_ [Hfab [Hbat _]]].
  unfold set_fabric in E.
  run_any E; inversion E; subst; clear E;
    cbn [ctx_state persisted world trace logs fst snd].
  all: unfold check_fabric, dict_mem, get_fabric in *.
  all: repeat match goal with
       | H : negb _ = true |- _ => apply negb_true_iff in H
       | H : negb _ = false |- _ => apply negb_false_iff in H
       | H : _ || _ = false |- _ =>
           apply orb_false_iff in H; destruct H as [? ?]
       end.
  all: try match goal with
       | H : match dict_get ?n ?d with Some _ => true | None => false end = _
         |- _ => destruct (dict_get n d) as [f0|] eqn:Hf0;
                 try discriminate H; clear H
       end.
  all: repeat match goal with
       | H : Some _ = Some _ |- _ => injection H as ->
       | H : None = Some _ |- _ => discriminate H
       | H : Some _ = None |- _ => discriminate H
       end.
  - split; [split; [discriminate | intros [f [Hf _]]; discriminate Hf]|].
    split; [discriminate|]. intros _. split; reflexivity.
  - assert (Hsel : selectableb f = true).
    { unfold selectableb.
      repeat match goal with
             | H : check_object_state f _ = _ |- _ => rewrite H
             | H : check_object_status f _ = _ |- _ => rewrite H
             end.
      apply orb_true_r. }
    split.
    { split; [|reflexivity]. intros _. exists f. split; [reflexivity|].
      apply selectableb_spec. exact Hsel. }
    split; [|intro Hr; exfalso; apply Hr; reflexivity].
    intros _. split; [|split; assumption].
    apply (@get_current_fabric_set (ctx_state m) name f Hf0 Hsel).
  - assert (Hsel : selectableb f = false).
    { unfold selectableb.
      match goal with
      | H : check_object_state f DELETING = _ |- _ => rewrite H
      end.
      rewrite orb_false_r.
      match goal with
      | H : negb _ || negb _ = true |- _ =>
          rewrite <- negb_andb in H; apply negb_true_iff in H; exact H
      end. }
    split.
    { split; [discriminate|]. intros [f1 [Heq Hs]]. injection Heq as <-.
      apply selectableb_spec in Hs. congruence. }
    split; [discriminate|]. intros _. split; reflexivity.
  - assert (Hsel : selectableb f = true).
    { unfold selectableb.
      repeat match goal with
             | H : check_object_state f _ = _ |- _ => rewrite H
             | H : check_object_status f _ = _ |- _ => rewrite H
             end.
      reflexivity. }
    split.
    { split; [|reflexivity]. intros _. exists f. split; [reflexivity|].
      apply selectableb_spec. exact Hsel. }
    split; [|intro Hr; exfalso; apply Hr; reflexivity].
    intros _. split; [|split; assumption].
    apply (@get_current_fabric_set (ctx_state m) name f Hf0 Hsel).
Qed.

(** [leave_fabric] with a current fabric returns true and leaves the
    state without current fabric, the fabrics and batches untouched;
    without a current fabric it leaves through [sys.exit(1)] and the state
    is as it was. *)
Theorem leave_fabric_unsets :
  forall (m : Machine W) r m',
    leave_fabric m = (r, m') ->
    (truthy_name (get_current_fabric (ctx_state m)) = true ->
     r = Ok true /\
     get_current_fabric (ctx_state m') = None /\
     fabric (ctx_state m') = fabric (ctx_state m) /\
     batch (ctx_state m') = batch (ctx_state m)) /\
    (truthy_name (get_current_fabric (ctx_state m)) = false ->
     r = Exit 1 /\ ctx_state m' = ctx_state m).
Proof.
  intros m r m' E.
  destruct (set_current_fabric_spec (ctx_state m) None)
    as [Hc [Hfab [Hbat Hres]]].
  unfold leave_fabric in E.
  run_any E; inversion E; subst; clear E;
    cbn [ctx_state persisted world trace logs fst snd].
  all: match goal with
       | H : negb _ = true |- _ => apply negb_true_iff in H
       | H : negb _ = false |- _ => apply negb_false_iff in H
       end.
  - split; [congruence|]. intros _. split; reflexivity.
  - split; [|congruence]. intros _. split.
    + rewrite Hres.
      destruct (get_current_fabric (ctx_state m)) as [cf|] eqn:Hcf;
        [|discriminate].
      apply get_current_fabric_iff in Hcf. destruct Hcf as [Hcfg _].
      rewrite Hcfg. reflexivity.
    + split; [|split; assumption].
      unfold get_current_fabric. rewrite Hc. reflexivity.
Qed.

End SetFabricFacts.

(** ** Starting and stopping nodes *)

Lemma start_all_targets_In : forall d n o,
  In (n, o) d ->
  check_object_state o DELETING = false ->
  check_object_state o CREATED = false ->
  In n (start_all_targets d).
Proof.
  intros d n o Hin Hd Hc. unfold start_all_targets.
  apply in_map_iff. exists (n, o). split; [reflexivity|].
  apply filter_In. split; [exact Hin|]. cbn [snd]. rewrite Hd, Hc.
  reflexivity.
Qed.

Lemma check_object_state_status_node : forall (o : NodeObj) st su,
  n_state o = Some st -> n_status o = Some su ->
  check_object_state o st = true /\ check_object_status o su = true.
Proof.
  intros o st su Hs Hu.
  unfold check_object_state, check_object_status, get_object_state,
    get_object_status.
  cbn [obj_state obj_status NodeObj_Stateful]. rewrite Hs, Hu.
  split; [destruct st | destruct su]; reflexivity.
Qed.

Lemma check_object_state_status_node_inv : forall (o : NodeObj) st su,
  check_object_state o st = true -> check_object_status o su = true ->
  n_state o = Some st /\ n_status o = Some su.
Proof.
  intros o st su.
  unfold check_object_state, check_object_status, get_object_state,
    get_object_status.
  cbn [obj_state obj_status NodeObj_Stateful].
  destruct (n_state o) as [s|], (n_status o) as [u|]; try discriminate.
  intros Hs Hu. split.
  - destruct s, st; try discriminate Hs; reflexivity.
  - destruct u, su; try discriminate Hu; reflexivity.
Qed.

Section StartStopFacts.
Variable W : Type.
Variable oracle : Call -> W -> Answer * W.

Lemma run_nodes_missing : forall k playbook target opening self f name d
    (m : Machine W) b code self' m',
  get_fabric_objects self k f = Some d ->
  dict_get name d = None ->
  run_nodes oracle k playbook target opening self f [name] m
  = (Ok ((b, code), self'), m') ->
  b = false /\ self' = self.
Proof.
  intros k playbook target opening self f name d m b code self' m' Hd Hn E.
  assert (Hno : forall st su,
             set_nodes_state_status self f (map (pair k) [name]) st su
             = None).
  { intros st su. cbn [map set_nodes_state_status].
    destruct (update_node self f k name
                (fun o => set_object_state_status o st su)) as [s1|] eqn:Hu;
      [|reflexivity].
    apply update_node_object in Hu. destruct Hu as [o [Hg _]].
    unfold get_fabric_object in Hg. rewrite Hd in Hg. cbn [option_map] in Hg.
    rewrite Hn in Hg. discriminate Hg. }
  unfold run_nodes in E. rewrite !Hno in E.
  run_any E; inversion E; subst; clear E; split; reflexivity.
Qed.

Variable k : ObjectKind.
Variable target : ObjectState.
Variable method : State -> string -> list string -> M W ((bool * nat) * State).
Hypothesis method_records : records_outcome method k target.
Hypothesis method_keeps : forall self f l, keeps_state (method self f l).

Lemma run_selection_targets : forall what f l (m : Machine W) r m',
  run_selection oracle what method f false (Targets (Some l)) m = (r, m') ->
  (r = Ok true ->
   forall n, In n l -> recorded (ctx_state m') f k n target SUCCESS) /\
  (forall code, r = Exit code ->
   ctx_state m' = ctx_state m \/
   forall n, In n l -> recorded (ctx_state m') f k n target FAILED) /\
  (r = Crash -> ctx_state m' = ctx_state m) /\
  same_outside (ctx_state m) (ctx_state m') f k l.
Proof.
  intros what f l m r m' E. unfold run_selection in E.
  run_any E; inversion E; subst; clear E;
    cbn [ctx_state persisted world trace logs fst snd].
  all: repeat match goal with
       | p : (bool * nat)%type |- _ => destruct p as [b code']
       end.
  all: cbn [fst snd] in *.
  all: match goal with
       | H : method _ _ _ _ = (Ok _, _) |- _ =>
           apply method_records in H; destruct H as [Ht [Hf Hout]]
       | H : method _ _ _ _ = (_, _) |- _ =>
           apply method_keeps in H; destruct H as [Hk _];
           cbn [ctx_state] in Hk
       end.
  all: try match goal with
       | H : negb ?b = true |- _ => apply negb_true_iff in H; subst b
       | H : negb ?b = false |- _ => apply negb_false_iff in H; subst b
       end.
  all: split; [intro Hr; try discriminate Hr|].
  all: try (intros n Hn; apply (proj2 (Ht eq_refl)); exact Hn).
  all: split; [intros code0 Hr; try discriminate Hr|].
  all: try (destruct (Hf eq_refl) as [Hsame|Hfail];
            [left; exact Hsame | right; exact Hfail]).
  all: try (left; exact Hk).
  all: split; [intro Hr; try discriminate Hr; try exact Hk|].
  all: try exact Hout.
  all: rewrite Hk; apply same_outside_refl.
Qed.

Ltac all_nodes_leaves Hcur Hd E :=
  run_any E;
  rewrite ?Hcur in *;
  (first [ apply run_selection_targets in E
         | inversion E; subst; clear E ]);
  cbn [ctx_state] in *;
  try match goal with
      | H : truthy_name None = true |- _ => discriminate H
      | H : None = Some _ |- _ => discriminate H
      end;
  repeat match goal with
         | H : Some _ = Some _ |- _ => injection H as H; subst
         end.

Lemma start_node_all : forall kind_name,
  runs_on_all (start_node oracle k kind_name method) k target.
Proof.
  intros kind_name m f d r m' Hcur Hd E.
  unfold start_node, require_current_fabric in E.
  all_nodes_leaves Hcur Hd E.
  all: try (split; [discriminate|]; split; [intros; left; reflexivity|];
            split; [reflexivity | apply same_outside_refl]).
  all: match goal with
       | H : get_fabric_objects _ _ _ = Some ?d0,
         Hl : start_all_targets ?d0 = _ |- _ =>
           rewrite Hd in H; injection H as <-; rewrite <- Hl in E
       end.
  all: destruct E as [Hs [Hx [Hc Ho]]].
  all: split;
       [ intros Hr n o Hin H1 H2; apply (Hs Hr);
         exact (start_all_targets_In _ _ _ Hin H1 H2) |].
  all: split;
       [ intros code Hr; destruct (Hx code Hr) as [Hsame|Hfail];
         [ left; exact Hsame
         | right; intros n o Hin H1 H2; apply Hfail;
           exact (start_all_targets_In _ _ _ Hin H1 H2) ] |].
  all: split; [exact Hc | exact Ho].
Qed.

Lemma stop_node_all : forall kind_name,
  runs_on_all (stop_node oracle k kind_name method) k target.
Proof.
  intros kind_name m f d r m' Hcur Hd E.
  unfold stop_node, require_current_fabric in E.
  all_nodes_leaves Hcur Hd E.
  all: try (split; [discriminate|]; split; [intros; left; reflexivity|];
            split; [reflexivity | apply same_outside_refl]).
  all: match goal with
       | H : get_fabric_objects _ _ _ = Some ?d0,
         Hl : start_all_targets ?d0 = _ |- _ =>
           rewrite Hd in H; injection H as <-; rewrite <- Hl in E
       end.
  all: destruct E as [Hs [Hx [Hc Ho]]].
  all: split;
       [ intros Hr n o Hin H1 H2; apply (Hs Hr);
         exact (start_all_targets_In _ _ _ Hin H1 H2) |].
  all: split;
       [ intros code Hr; destruct (Hx code Hr) as [Hsame|Hfail];
         [ left; exact Hsame
         | right; intros n o Hin H1 H2; apply Hfail;
           exact (start_all_targets_In _ _ _ Hin H1 H2) ] |].
  all: split; [exact Hc | exact Ho].
Qed.

End StartStopFacts.

Lemma check_nodeobj_objects : forall s f n k d,
  k = PROCESSOR \/ k = WORKLOAD ->
  get_fabric_objects s k f = Some d ->
  check_nodeobj s f n k = Some (dict_mem n d).
Proof.
  intros s f n k d Hk Hd. unfold get_fabric_objects in Hd.
  unfold check_nodeobj.
  destruct (get_fabric s f) as [fo|]; [|discriminate Hd].
  injection Hd as <-. destruct Hk as [-> | ->]; reflexivity.
Qed.

Lemma check_object_state_other : forall (o : NodeObj) st st',
  n_state o = Some st -> st <> st' -> check_object_state o st' = false.
Proof.
  intros o st st' Hs Hne.
  unfold check_object_state, get_object_state.
  cbn [obj_state NodeObj_Stateful]. rewrite Hs.
  destruct st, st'; try reflexivity; exfalso; apply Hne; reflexivity.
Qed.

Section ByNameFacts.
Variable W : Type.
Variable oracle : Call -> W -> Answer * W.
Variable k : ObjectKind.
Variable method : State -> string -> list string -> M W ((bool * nat) * State).
Hypothesis k_node : k = PROCESSOR \/ k = WORKLOAD.
Hypothesis method_keeps : forall self f l, keeps_state (method self f l).
Hypothesis method_missing :
  forall self f name d (m : Machine W) b code self' m',
    get_fabric_objects self k f = Some d ->
    dict_get name d = None ->
    method self f [name] m = (Ok ((b, code), self'), m') ->
    b = false /\ self' = self.

Ltac already_done Hcur Hf Hd Hname Hobj Hdel C1 C2 :=
  unfold require_current_fabric, normalise_state_obj_name, run_selection;
  unfold bind, get_ctx, must, log, sys_exit, ret;
  cbn [ctx_state persisted world trace logs fst snd];
  rewrite Hcur, Hf;
  cbn [negb fst snd ctx_state persisted world trace logs];
  rewrite Hname;
  cbn [negb fst snd ctx_state persisted world trace logs];
  destruct (String.eqb _ (normalise_string _));
  cbn [fst snd ctx_state persisted world trace logs];
  rewrite (@check_nodeobj_objects _ _ _ _ _ k_node Hd), Hd;
  unfold dict_mem; rewrite Hobj;
  cbn [negb fst snd ctx_state persisted world trace logs];
  rewrite Hdel, C1, C2;
  cbn [negb andb fst snd ctx_state persisted world trace logs];
  eexists; (split; [reflexivity|]); repeat split; reflexivity.

Ltac by_name_leaves Hcur Hd Hn E :=
  run_any E;
  repeat match goal with
         | p : (bool * nat)%type |- _ => destruct p
         end;
  cbn [fst snd] in *;
  repeat match goal with
         | H : Some _ = Some _ |- _ => injection H as H; subst
         | H : None = Some _ |- _ => discriminate H
         end;
  try match goal with
      | H : method _ _ _ _ = (Ok _, _) |- _ =>
          destruct (@method_missing _ _ _ _ _ _ _ _ _ Hd Hn H) as [? ?];
          subst
      | H : method _ _ _ _ = (_, _) |- _ =>
          apply method_keeps in H; destruct H as [Hk _];
          cbn [ctx_state] in Hk
      end;
  inversion E; subst; clear E;
  cbn [ctx_state persisted world trace logs fst snd] in *.

Lemma start_node_name : forall kind_name,
  runs_on_name (start_node oracle k kind_name method) k STARTED.
Proof.
  intros kind_name name m f d Hcur Hf Hd Hname. split.
  - intros obj dry Hobj Hst Hsu.
    destruct (@check_object_state_status_node _ _ _ Hst Hsu) as [C1 C2].
    assert (Hdel : check_object_state obj DELETING = false)
      by (apply (@check_object_state_other _ _ _ Hst); discriminate).
    unfold start_node. already_done Hcur Hf Hd Hname Hobj Hdel C1 C2.
  - intros Hn r m' E.
    unfold start_node, require_current_fabric, normalise_state_obj_name,
      run_selection in E.
    by_name_leaves Hcur Hd Hn E.
    all: split; [first [reflexivity | assumption]|].
    all: intro Hr; try discriminate Hr.
    all: repeat match goal with
         | H : negb _ = false |- _ => apply negb_false_iff in H
         | H : _ && _ = true |- _ =>
             apply andb_true_iff in H; destruct H as [? ?]
         end.
    all: try match goal with
         | H : false = true |- _ => discriminate H
         | H : true = false |- _ => discriminate H
         end.
    all: match goal with
         | H : get_fabric_objects _ _ _ = Some ?d0,
           Hg : dict_get _ ?d0 = Some ?n |- _ =>
             rewrite Hd in H; injection H as <-; exists n;
             split; [exact Hg|];
             apply check_object_state_status_node_inv; assumption
         end.
Qed.

Lemma stop_node_name : forall kind_name,
  runs_on_name (stop_node oracle k kind_name method) k STOPPED.
Proof.
  intros kind_name name m f d Hcur Hf Hd Hname. split.
  - intros obj dry Hobj Hst Hsu.
    destruct (@check_object_state_status_node _ _ _ Hst Hsu) as [C1 C2].
    assert (Hdel : check_object_state obj DELETING = false)
      by (apply (@check_object_state_other _ _ _ Hst); discriminate).
    unfold stop_node. already_done Hcur Hf Hd Hname Hobj Hdel C1 C2.
  - intros Hn r m' E.
    unfold stop_node, require_current_fabric, normalise_state_obj_name,
      run_selection in E.
    by_name_leaves Hcur Hd Hn E.
    all: split; [first [reflexivity | assumption]|].
    all: intro Hr; try discriminate Hr.
    all: repeat match goal with
         | H : negb _ = false |- _ => apply negb_false_iff in H
         | H : _ && _ = true |- _ =>
             apply andb_true_iff in H; destruct H as [? ?]
         end.
    all: try match goal with
         | H : false = true |- _ => discriminate H
         | H : true = false |- _ => discriminate H
         end.
    all: match goal with
         | H : get_fabric_objects _ _ _ = Some ?d0,
           Hg : dict_get _ ?d0 = Some ?n |- _ =>
             rewrite Hd in H; injection H as <-; exists n;
             split; [exact Hg|];
             apply check_object_state_status_node_inv; assumption
         end.
Qed.

End ByNameFacts.

Section StartStopCommands.
Variable W : Type.
Variable oracle : Call -> W -> Answer * W.

(** The four start and stop commands with [--all] act on every node of
    their kind that is neither being deleted nor in state created, and
    they keep whatever the method recorded: success leaves each of these
    nodes in the target state with status success; an exit leaves either
    the old state or each of them in the target state with status failed;
    no other node changes. *)
Theorem start_stop_all_records :
  runs_on_all (start_workload oracle) WORKLOAD STARTED /\
  runs_on_all (start_processor oracle) PROCESSOR STARTED /\
  runs_on_all (stop_workload oracle) WORKLOAD STOPPED /\
  runs_on_all (stop_processor oracle) PROCESSOR STOPPED.
Proof.
  unfold start_workload, start_processor, stop_workload, stop_processor.
  repeat apply conj.
  - apply start_node_all;
      [apply run_nodes_records_outcome | intros; apply run_nodes_keeps_state].
  - apply start_node_all;
      [apply run_nodes_records_outcome | intros; apply run_nodes_keeps_state].
  - apply stop_node_all;
      [apply run_nodes_records_outcome | intros; apply run_nodes_keeps_state].
  - apply stop_node_all;
      [apply run_nodes_records_outcome | intros; apply run_nodes_keeps_state].
Qed.

(** The four start and stop commands with a name. Starting a node that is
    started with success, or stopping one that is stopped with success,
    returns true with no external call and no change. The commands check
    the normalised name but hand the name as typed to the method, so a
    name that is no key of the state never changes the state in memory and
    never returns true, unless the node of the normalised name is in the
    target state already. *)
Theorem start_stop_by_name :
  runs_on_name (start_workload oracle) WORKLOAD STARTED /\
  runs_on_name (start_processor oracle) PROCESSOR STARTED /\
  runs_on_name (stop_workload oracle) WORKLOAD STOPPED /\
  runs_on_name (stop_processor oracle) PROCESSOR STOPPED.
Proof.
  unfold start_workload, start_processor, stop_workload, stop_processor.
  repeat apply conj.
  - apply start_node_name;
      [ right; reflexivity | intros; apply run_nodes_keeps_state
      | intros; eapply run_nodes_missing; eassumption ].
  - apply start_node_name;
      [ left; reflexivity | intros; apply run_nodes_keeps_state
      | intros; eapply run_nodes_missing; eassumption ].
  - apply stop_node_name;
      [ right; reflexivity | intros; apply run_nodes_keeps_state
      | intros; eapply run_nodes_missing; eassumption ].
  - apply stop_node_name;
      [ left; reflexivity | intros; apply run_nodes_keeps_state
      | intros; eapply run_nodes_missing; eassumption ].
Qed.

End StartStopCommands.

(** ** Configuring orchestrators from the command line *)




Section ConfigOrchestratorFacts.
Variable W : Type.
Variable oracle : Call -> W -> Answer * W.


End ConfigOrchestratorFacts.

(** ** Configuring processors and workloads from the command line *)








Section ConfigNodeFacts.
Variable W : Type.
Variable oracle : Call -> W -> Answer * W.



Variable k : ObjectKind.
Variable target : ObjectState.
Variable method : State -> string -> list string -> M W ((bool * nat) * State).
Hypothesis method_records : records_outcome method k target.
Hypothesis method_keeps : forall self f l, keeps_state (method self f l).


End ConfigNodeFacts.



Section ConfigCommands.
Variable W : Type.
Variable oracle : Call -> W -> Answer * W.



End ConfigCommands.

Section ConfigWorkloadFacts.
Variable W : Type.
Variable oracle : Call -> W -> Answer * W.




End ConfigWorkloadFacts.

(** ** The plan of [create_batch] *)

Lemma target_get_set : forall t k l k',
  k <> BATCH ->
  target_get (target_set t k l) k' = if kind_eqb k' k then l
                                     else target_get t k'.
Proof.
  intros t k l k' Hk.
  destruct k; try (exfalso; apply Hk; reflexivity); destruct k'; reflexivity.
Qed.

Lemma target_names_step : forall ct k e f k',
  k <> BATCH ->
  target_names
    (dict_set (entry_fabric e)
       (target_set (match dict_get (entry_fabric e) ct with
                    | Some t => t
                    | None => empty_target
                    end) k
          (target_get (match dict_get (entry_fabric e) ct with
                       | Some t => t
                       | None => empty_target
                       end) k ++ [e_name e]))
       ct) f k'
  = target_names ct f k' ++
    (if kind_eqb k' k && String.eqb (entry_fabric e) f then [e_name e]
     else []).
Proof.
  intros ct k e f k' Hk. unfold target_names.
  destruct (String.eqb (entry_fabric e) f) eqn:Ef.
  - apply String.eqb_eq in Ef. subst f. rewrite dict_get_set_same.
    rewrite (target_get_set _ _ k' Hk).
    destruct (kind_eqb k' k) eqn:Ek; cbn [andb].
    + apply kind_eqb_eq in Ek. subst k'.
      destruct (dict_get (entry_fabric e) ct); [reflexivity|].
      destruct k; reflexivity.
    + rewrite app_nil_r.
      destruct (dict_get (entry_fabric e) ct); [reflexivity|].
      destruct k'; reflexivity.
  - apply String.eqb_neq in Ef.
    rewrite dict_get_set_other by (intro E; apply Ef; symmetry; exact E).
    rewrite andb_false_r, app_nil_r. reflexivity.
Qed.

Lemma target_names_kind : forall k, k <> BATCH -> forall l ct f k',
  target_names
    (fold_left
       (fun create_target obj =>
          let fabric_name := entry_fabric obj in
          let t := match dict_get fabric_name create_target with
                   | Some t => t
                   | None => empty_target
                   end in
          dict_set fabric_name
            (target_set t k (target_get t k ++ [e_name obj]))
            create_target)
       l ct) f k'
  = target_names ct f k' ++
    (if kind_eqb k' k
     then map e_name (filter (fun e => String.eqb (entry_fabric e) f) l)
     else []).
Proof.
  intros k Hk. induction l as [|e l IH]; intros ct f k'; cbn [fold_left].
  - cbn [filter map]. destruct (kind_eqb k' k); rewrite app_nil_r;
      reflexivity.
  - rewrite IH. cbv zeta. rewrite (target_names_step ct e f k' Hk).
    rewrite <- app_assoc. f_equal. cbn [filter].
    destruct (kind_eqb k' k); cbn [andb]; [|reflexivity].
    destruct (String.eqb (entry_fabric e) f); reflexivity.
Qed.

Lemma target_fabric_kind : forall k l ct f,
  dict_get f
    (fold_left
       (fun create_target obj =>
          let fabric_name := entry_fabric obj in
          let t := match dict_get fabric_name create_target with
                   | Some t => t
                   | None => empty_target
                   end in
          dict_set fabric_name
            (target_set t k (target_get t k ++ [e_name obj]))
            create_target)
       l ct) = None <->
  dict_get f ct = None /\ forall e, In e l -> entry_fabric e <> f.
Proof.
  intros k. induction l as [|e l IH]; intros ct f; cbn [fold_left].
  - split; [intro H; split; [exact H | intros e []] | intros [H _]; exact H].
  - rewrite IH. cbv zeta. split.
    + intros [H Hl].
      destruct (String.eqb f (entry_fabric e)) eqn:Ef.
      * apply String.eqb_eq in Ef. subst f. rewrite dict_get_set_same in H.
        discriminate H.
      * apply String.eqb_neq in Ef.
        rewrite dict_get_set_other in H by exact Ef.
        split; [exact H|]. intros e' [<-|He'];
          [intro E; apply Ef; symmetry; exact E | exact (Hl e' He')].
    + intros [H Hl]. split.
      * rewrite dict_get_set_other; [exact H|].
        intro E. apply (Hl e (or_introl eq_refl)). symmetry. exact E.
      * intros e' He'. apply Hl. right. exact He'.
Qed.

(** The plan of [create_batch] groups the objects of the batch by fabric
    and kind: for every fabric, the names the plan holds for a kind are
    the names the batch declares for that fabric and kind, in file order,
    a fabric object counting under its own name; and a fabric is in the
    plan exactly when some object of the batch belongs to it. *)
Theorem build_create_target_groups :
  forall batch_spec f k,
    k <> BATCH ->
    target_names (build_create_target batch_spec) f k
    = declared_names batch_spec f k /\
    (dict_get f (build_create_target batch_spec) = None <->
     forall e, In e batch_spec -> e_kind e <> BATCH -> entry_fabric e <> f).
Proof.
  intros spec f k Hk. unfold build_create_target, target_kinds.
  cbn [fold_left]. split.
  - rewrite !target_names_kind by discriminate.
    unfold declared_names, target_names. cbn [dict_get app].
    destruct k; try (exfalso; apply Hk; reflexivity); cbn [kind_eqb];
      rewrite ?app_nil_r; reflexivity.
  - rewrite !target_fabric_kind. cbn [dict_get]. split.
    + intros [[[[[[_ H1] H2] H3] H4] H5] H6] e He Hkind.
      assert (Hin : In e (get_attr_list spec (e_kind e))).
      { apply filter_In. split; [exact He | apply kind_eqb_refl]. }
      destruct (e_kind e) eqn:Ek; try (exfalso; apply Hkind; reflexivity);
        eauto.
    + intro H.
      assert (Hall : forall k0 e, In e (get_attr_list spec k0) ->
                                  k0 <> BATCH -> entry_fabric e <> f).
      { intros k0 e He Hk0. apply filter_In in He. destruct He as [He Hke].
        apply kind_eqb_eq in Hke. apply H; [exact He|]. rewrite Hke.
        exact Hk0. }
      repeat split; intros e He; apply (Hall _ e He); discriminate.
Qed.

(** ** Creating a fabric from the command line *)

Lemma update_fabric_spec : forall s f g s',
  update_fabric s f g = Some s' ->
  exists fo,
    get_fabric s f = Some fo /\ get_fabric s' f = Some (g fo) /\
    config s' = config s /\ batch s' = batch s /\
    forall f', f' <> f -> get_fabric s' f' = get_fabric s f'.
Proof.
  intros s f g s' H. unfold update_fabric in H.
  destruct (get_fabric s f) as [fo|] eqn:Hf; [|discriminate].
  injection H as <-. exists fo. split; [reflexivity|].
  unfold get_fabric, with_fabrics. cbn [fabric config batch].
  rewrite dict_get_set_same. repeat split.
  intros f' Hne. rewrite dict_get_set_other by exact Hne. reflexivity.
Qed.

Lemma add_fabric_spec : forall s f fo,
  get_fabric (add_fabric s f fo) f = Some fo /\
  config (add_fabric s f fo) = config s /\
  batch (add_fabric s f fo) = batch s /\
  forall f', f' <> f -> get_fabric (add_fabric s f fo) f' = get_fabric s f'.
Proof.
  intros s f fo. unfold add_fabric, get_fabric, with_fabrics.
  cbn [fabric config batch]. rewrite dict_get_set_same. repeat split.
  intros f' Hne. rewrite dict_get_set_other by exact Hne. reflexivity.
Qed.

Lemma fabric_retry_iff : forall f : FabricObj,
  negb (check_object_status f FAILED) || check_object_state f CONFIGURED
  = false <->
  f_status f = Some FAILED /\ f_state f <> Some CONFIGURED.
Proof.
  intro f. unfold check_object_status, check_object_state, get_object_status,
    get_object_state. cbn [obj_state obj_status FabricObj_Stateful].
  destruct (f_status f) as [[]|], (f_state f) as [[]|]; cbn; split;
    try discriminate; try (intros [H1 H2]; congruence);
    intros _; split; congruence.
Qed.

Section CreateFabricFacts.
Variable W : Type.
Variable oracle : Call -> W -> Answer * W.

(** [create_fabric] reaches the state only when it succeeds: whenever it
    does not return true, also when the playbook failed and the method
    recorded the failure, the state in memory and on disk are as they
    were. When it returns true, the fabric of the normalised name is in
    the state as (created, success) -- a clean fabric if it was not there,
    the one that was there otherwise, and then its status was failed and
    it was not configured -- and nothing else has changed. A fabric that
    is in the state with another status, or configured, makes the command
    leave through [sys.exit(1)] with no external call. *)
Theorem create_fabric_transactional :
  forall name (m : Machine W) r m',
    create_fabric oracle name m = (r, m') ->
    (r <> Ok true ->
     ctx_state m' = ctx_state m /\ persisted m' = persisted m) /\
    (r = Ok true ->
     get_fabric (ctx_state m') (normalise_string name)
     = Some (set_object_state_status
               (match get_fabric (ctx_state m) (normalise_string name) with
                | Some fo => fo
                | None => get_clean_fabric
                end) CREATED SUCCESS) /\
     (forall f', f' <> normalise_string name ->
        get_fabric (ctx_state m') f' = get_fabric (ctx_state m) f') /\
     batch (ctx_state m') = batch (ctx_state m) /\
     config (ctx_state m') = config (ctx_state m) /\
     (forall fo,
        get_fabric (ctx_state m) (normalise_string name) = Some fo ->
        f_status fo = Some FAILED /\ f_state fo <> Some CONFIGURED)) /\
    (forall fo,
       get_fabric (ctx_state m) (normalise_string name) = Some fo ->
       f_status fo <> Some FAILED \/ f_state fo = Some CONFIGURED ->
       refused (r, m') m).
Proof.
  intros name m r m' E.
  destruct (add_fabric_spec (ctx_state m) (normalise_string name)
                            get_clean_fabric) as [A1 [A2 [A3 A4]]].
  unfold create_fabric, fabric_create, normalise_state_obj_name in E.
  run_any E; inversion E; subst; clear E;
    cbn [ctx_state persisted world trace logs fst snd] in *.
  all: cbn [fst snd negb] in *.
  all: try match goal with
       | H : true = false |- _ => discriminate H
       | H : false = true |- _ => discriminate H
       end.
  all: repeat match goal with
       | H : update_fabric _ _ _ = Some _ |- _ =>
           apply update_fabric_spec in H;
           destruct H as [? [? [? [? [? ?]]]]]
       end.
  all: unfold check_fabric, dict_mem, get_fabric in *.
  all: try match goal with
       | H : match dict_get ?n ?d with _ => _ end = _ |- _ =>
           destruct (dict_get n d) eqn:?; try discriminate H; clear H
       end.
  all: repeat match goal with
       | H1 : ?a = None, H2 : ?a = Some _ |- _ =>
           rewrite H1 in H2; discriminate H2
       | H1 : ?a = Some ?x, H2 : ?a = Some ?y |- _ =>
           rewrite H1 in H2; injection H2 as H2; subst
       | H : None = Some _ |- _ => discriminate H
       | H : Some _ = None |- _ => discriminate H
       | H : Some ?x = Some ?y |- _ => injection H as H; subst
       end.
  all: (split; [intro Hr; try (exfalso; apply Hr; reflexivity);
                split; reflexivity|]).
  all: split.
  all: try (intro Hr; discriminate Hr).
  all: try (intros fo Hfo Hor;
            first [discriminate Hfo | injection Hfo as <-];
            first [ solve [repeat split; reflexivity]
                  | exfalso;
                    match goal with
                    | H : negb _ || _ = false |- _ =>
                        apply fabric_retry_iff in H; destruct H;
                        destruct Hor; congruence
                    end ]).
  all: intros _.
  all: (split; [match goal with
                | H : ?a = Some _ |- ?a = Some _ => rewrite H; reflexivity
                end|]).
  all: (split; [intros f' Hne;
                repeat match goal with
                       | H : forall g, g <> _ -> dict_get g (fabric ?s) = _
                         |- dict_get _ (fabric ?s) = _ => rewrite (H _ Hne)
                       end; reflexivity|]).
  all: (split; [congruence|]).
  all: (split; [congruence|]).
  all: intros fo Hfo; first [discriminate Hfo | injection Hfo as <-];
       apply fabric_retry_iff; assumption.
Qed.

End CreateFabricFacts.

(** ** The statements at work on the examples *)

(** [vpc_create] on the VPC of the example state. *)
Lemma vpc_create_records_outcome_witness :
  exists b code self' m',
    vpc_create oracle_ok example_state "f" ["aws1-vpc-f"]
               (machine_of example_state)
    = (Ok ((b, code), self'), m') /\
    (b = true ->
     code = 0 /\
     forall n, In n ["aws1-vpc-f"] -> recorded_vpc self' "f" n CREATED SUCCESS).
Proof.
  destruct (@vpc_create_records_outcome unit oracle_ok example_state "f"
              ["aws1-vpc-f"] (machine_of example_state))
    as [b [code [self' [m' [E [H _]]]]]].
  - intros n [<-|[]]. eexists. reflexivity.
  - exists b, code, self', m'. split; [exact E | exact H].
Defined.

(** The two fabric methods on the fabric of the example state. *)
Lemma fabric_methods_record_outcome_witness :
  exists b code self' m',
    fabric_configure oracle_ok example_state "f" false
                     (machine_of example_state)
    = (Ok ((b, code), self'), m') /\
    get_current_fabric self' = if b then Some "f" else None.
Proof.
  destruct (@fabric_methods_record_outcome unit oracle_ok example_state "f"
              example_fabric false (machine_of example_state))
    as [_ [b [code [self' [m' [E [_ [_ H]]]]]]]].
  - reflexivity.
  - reflexivity.
  - exists b, code, self', m'. split; [exact E | exact H].
Defined.

(** A telemetry orchestrator alone cannot be configured: the fabric has no
    swarm manager and the list names no controller. *)
Lemma orchestrator_configure_refuses_witness :
  exists self' m',
    orchestrator_configure oracle_ok example_state_telemetry "f"
                           ["aws1-c01-f"] (machine_of example_state_telemetry)
    = (Ok ((false, 1), self'), m') /\
    quiet (machine_of example_state_telemetry) m'.
Proof.
  apply (@orchestrator_configure_refuses unit oracle_ok
           example_state_telemetry "f" ["aws1-c01-f"]
           (machine_of example_state_telemetry)
           [("aws1-c01-f", example_telemetry)]).
  - reflexivity.
  - intros n [<-|[]]. reflexivity.
  - right. split; [reflexivity|].
    intros n o [<-|[]] Ho. injection Ho as <-. discriminate.
Defined.

(** The controller of [single_controller_configured]. *)
Lemma orchestrator_configure_success_witness :
  recorded (snd (ok_or ((false, 0), example_state)
                       single_controller_configured))
           "f" ORCHESTRATOR "aws1-c01-f" CONFIGURED SUCCESS.
Proof.
  apply (@orchestrator_configure_success unit oracle_ok
           (ctx_state (snd single_controller_created)) "f" ["aws1-c01-f"]
           (snd single_controller_created) 0
           (snd (ok_or ((false, 0), example_state)
                       single_controller_configured))
           (snd single_controller_configured)).
  - vm_compute. reflexivity.
  - left. reflexivity.
Defined.

(** [obj_create] on the processor of the example state. *)
Lemma obj_create_success_witness :
  recorded (snd (ok_or ((false, 0), example_state) example_obj_create))
           "f" PROCESSOR "aws1-p01-f" CREATED SUCCESS.
Proof.
  apply (@obj_create_success unit oracle_ok example_state "f"
           [(PROCESSOR, ["aws1-p01-f"])] (machine_of example_state) 0
           (snd (ok_or ((false, 0), example_state) example_obj_create))
           (snd example_obj_create)).
  - vm_compute. reflexivity.
  - left. reflexivity.
Defined.

(** The proxy of the VPC of the example state is its processor. *)
Lemma ssh_proxy_host_choice_witness :
  match ssh_proxy_host example_state "f" "aws1-vpc-f" with
  | Some (Some p) =>
      exists o,
        In (p, o) (f_processor example_fabric) /\ n_vpc o = "aws1-vpc-f" /\
        dict_mem "ip" (n_properties o) = true /\
        (n_status o = Some SUCCESS \/
         forall q o', In (q, o') (f_processor example_fabric) ->
                      n_vpc o' = "aws1-vpc-f" -> n_status o' <> Some SUCCESS)
  | Some None =>
      forall q o', In (q, o') (f_processor example_fabric) ->
                   n_vpc o' <> "aws1-vpc-f"
  | None =>
      exists p o,
        In (p, o) (f_processor example_fabric) /\ n_vpc o = "aws1-vpc-f" /\
        dict_get "ip" (n_properties o) = None /\
        (n_status o = Some SUCCESS \/
         forall q o', In (q, o') (f_processor example_fabric) ->
                      n_vpc o' = "aws1-vpc-f" -> n_status o' <> Some SUCCESS)
  end.
Proof.
  apply (@ssh_proxy_host_choice example_state "f" "aws1-vpc-f" example_fabric).
  reflexivity.
Defined.

(** The workload of the example state passes both checks. *)
Lemma obj_create_check_agrees_witness :
  (workload_proxy_check example_state_workload "f" ["aws1-w01-f"] = Some true ->
   obj_create_check example_state_workload "f" [(WORKLOAD, ["aws1-w01-f"])]
   = Some true) /\
  (obj_create_check example_state_workload "f" [(WORKLOAD, ["aws1-w01-f"])]
   = Some true ->
   workload_proxy_check example_state_workload "f" ["aws1-w01-f"]
   <> Some false) /\
  (forall fo,
     get_fabric example_state_workload "f" = Some fo ->
     (forall p o, In (p, o) (f_processor fo) ->
                  dict_mem "ip" (n_properties o) = true) ->
     (obj_create_check example_state_workload "f" [(WORKLOAD, ["aws1-w01-f"])]
      = Some true <->
      workload_proxy_check example_state_workload "f" ["aws1-w01-f"]
      = Some true)).
Proof.
  apply (@obj_create_check_agrees example_state_workload "f"
           [(WORKLOAD, ["aws1-w01-f"])] ["aws1-w01-f"]).
  reflexivity.
Defined.

(** The workload of a VPC without processor cannot be started. *)
Lemma workload_methods_need_processor_witness :
  exists r m',
    workload_start oracle_ok example_state_orphan "f" ["aws2-w01-f"]
                   (machine_of example_state_orphan) = (r, m') /\
    quiet (machine_of example_state_orphan) m' /\
    (r = Ok ((false, 1), example_state_orphan) \/ r = Crash) /\
    ((forall n, In n ["aws2-w01-f"] ->
                dict_mem n (f_workload example_fabric_orphan) = true) ->
     (forall p o, In (p, o) (f_processor example_fabric_orphan) ->
                  dict_mem "ip" (n_properties o) = true) ->
     r = Ok ((false, 1), example_state_orphan)).
Proof.
  apply (@workload_methods_need_processor unit oracle_ok example_state_orphan
           "f" example_fabric_orphan ["aws2-w01-f"]
           (machine_of example_state_orphan)).
  - reflexivity.
  - exists "aws2-w01-f", example_orphan.
    split; [left; reflexivity|]. split; [reflexivity|].
    intros q p [H|[]]. injection H as <- <-. discriminate.
  - right. left. reflexivity.
Defined.

(** A created orchestrator with target state configured. *)
Lemma set_action_list_orchestrator_witness :
  set_action_list (Some CREATED) (Some SUCCESS) CONFIGURED
                  (mkActions [] None None) "aws1-c01-f" ORCHESTRATOR None None
  = Some (mkActions ["aws1-c01-f"] None None).
Proof.
  apply (@set_action_list_orchestrator (Some CREATED) (Some SUCCESS) CONFIGURED
           [] "aws1-c01-f" None None); discriminate.
Defined.

(** [create_vpc] on the example state: it succeeds, so only the third part
    of the statement says something. *)
Lemma create_vpc_transactional_witness :
  (fst example_create_vpc <> Ok true ->
   ctx_state (snd example_create_vpc) = example_state /\
   persisted (snd example_create_vpc) = example_state) /\
  (fst example_create_vpc = Ok true -> false = false ->
   exists f d,
     get_current_fabric example_state = Some f /\
     get_fabric_vpcs example_state f = Some d /\
     let index := vpc_index (vpcs_in_cloud d "aws") in
     let name := vpc_name "aws" index f in
     dict_get name d = None /\
     get_fabric_vpc (ctx_state (snd example_create_vpc)) name f
     = Some (Some (mkVpc "aws" "us-east-1" index (Some CREATED)
                         (Some SUCCESS))) /\
     (forall f' n, ~ (f' = f /\ n = name) ->
        get_fabric_vpc (ctx_state (snd example_create_vpc)) n f'
        = get_fabric_vpc example_state n f') /\
     (forall f' k,
        get_fabric_objects (ctx_state (snd example_create_vpc)) k f'
        = get_fabric_objects example_state k f')).
Proof.
  apply (@create_vpc_transactional unit oracle_ok example_regions "aws"
           "us-east-1" false (machine_of example_state)
           (fst example_create_vpc) (snd example_create_vpc)).
  vm_compute. reflexivity.
Defined.

(** The controller of [single_controller_created]. *)
Lemma create_node_success_witness :
  exists f d,
    get_current_fabric example_state = Some f /\
    get_fabric_objects example_state ORCHESTRATOR f = Some d /\
    let index := node_index (nodes_in_vpc d "aws1-vpc-f") in
    let name := node_name "aws1-vpc-f" (obj_char ORCHESTRATOR) index f in
    recorded (ctx_state (snd single_controller_created)) f ORCHESTRATOR name
             CREATED SUCCESS.
Proof.
  destruct (@create_node_success unit oracle_ok ORCHESTRATOR (Some Controller)
              None "aws1-vpc-f" (machine_of example_state)
              (snd single_controller_created))
    as [f [d [H1 [H2 H3]]]].
  - left. reflexivity.
  - vm_compute. reflexivity.
  - exists f, d. split; [exact H1|]. split; [exact H2|]. exact (proj1 H3).
Defined.

(** A VPC that the example fabric does not have. *)
Lemma create_node_guards_witness :
  refused (create_node oracle_ok PROCESSOR None None "aws9-vpc-f"
                       (machine_of example_state))
          (machine_of example_state).
Proof.
  apply (@create_node_guards unit oracle_ok PROCESSOR None None "aws9-vpc-f"
           (machine_of example_state) "f" example_fabric).
  - reflexivity.
  - reflexivity.
  - left. reflexivity.
Defined.

(** The manager of the example swarm, which has a worker. *)
Lemma delete_orchestrator_manager_guard_witness :
  refused (delete_orchestrator oracle_ok "aws1-c01-f" false
                               (machine_of example_state_swarm))
          (machine_of example_state_swarm) /\
  exists m',
    delete_orchestrator oracle_ok "aws1-c01-f" true
                        (machine_of example_state_swarm) = (Ok true, m') /\
    quiet (machine_of example_state_swarm) m'.
Proof.
  apply (@delete_orchestrator_manager_guard unit oracle_ok "aws1-c01-f"
           (machine_of example_state_swarm) "f" example_fabric_swarm
           example_manager).
  - reflexivity.
  - reflexivity.
  - reflexivity.
  - reflexivity.
  - discriminate.
  - discriminate.
  - reflexivity.
  - exists "aws1-c02-f", example_worker.
    split; [right; left; reflexivity | reflexivity].
Defined.

(** The batch of the example state records a workload of fabric [f]. *)
Lemma nodebatch_delete_removes_witness :
  exists self' m',
    nodebatch_delete example_state_batch (Some "f") None
                     (machine_of example_state_batch)
    = (Ok (true, self'), m') /\
    dict_get "nb1" (batch self') = None.
Proof.
  destruct (@nodebatch_delete_removes unit example_state_batch (Some "f") None
              (machine_of example_state_batch))
    as [s [m [E [_ [_ [_ [H _]]]]]]].
  - left. discriminate.
  - constructor; [intros [] | constructor].
  - exists s, m. split; [exact E|].
    apply (H "nb1" example_recorded_batch); [reflexivity|].
    exists "aws2-w01-f", (workload_entry "aws2-w01-f" "f" "aws2-vpc-f").
    split; [reflexivity|]. left. eexists. split; [reflexivity|].
    left. reflexivity.
Defined.

(** [delete_vpc] on the empty VPC of the example state: the batch that
    records a workload of that VPC goes with it. *)
Lemma delete_vpc_transactional_witness :
  fst example_delete_vpc = Ok true /\
  dict_get "nb1" (batch (ctx_state (snd example_delete_vpc))) = None.
Proof.
  destruct (@delete_vpc_transactional unit oracle_ok "aws2-vpc-f" false
              (machine_of example_state_batch)
              (fst example_delete_vpc) (snd example_delete_vpc))
    as [_ [_ H]].
  - constructor; [intros [] | constructor].
  - vm_compute. reflexivity.
  - split; [reflexivity|].
    destruct (H eq_refl eq_refl) as [f [fo [_ [_ [_ [_ [_ [_ Hb]]]]]]]].
    apply (Hb "nb1" example_recorded_batch); [reflexivity|].
    exists "aws2-w01-f", (workload_entry "aws2-w01-f" "f" "aws2-vpc-f").
    split; [reflexivity|]. left. eexists. split; [reflexivity|].
    left. reflexivity.
Defined.

(** [delete_fabric] on the empty fabric [g] of the example state. *)
Lemma delete_fabric_result_witness :
  fst example_delete_fabric = Ok true /\
  get_fabric (ctx_state (snd example_delete_fabric)) "g" = None /\
  get_fabric (ctx_state (snd example_delete_fabric)) "f"
  = Some example_fabric /\
  dict_get "nb1" (batch (ctx_state (snd example_delete_fabric))) = None.
Proof.
  destruct (@delete_fabric_result unit oracle_ok "g"
              (machine_of example_state_empty_fabric)
              (fst example_delete_fabric) (snd example_delete_fabric))
    as [_ H].
  - constructor; [intros [] | constructor].
  - constructor; [intros [H|[]]; discriminate H |].
    constructor; [intros [] | constructor].
  - vm_compute. reflexivity.
  - split; [reflexivity|].
    destruct (H eq_refl) as [fo [_ [_ [_ [_ [_ [Hg [Hother [_ Hb]]]]]]]]].
    split; [exact Hg|]. split.
    + rewrite (Hother "f"); [reflexivity | discriminate].
    + apply (Hb "nb1" example_stale_batch); [reflexivity|].
      exists "aws1-w01-g", (workload_entry "aws1-w01-g" "g" "aws1-vpc-g").
      split; [reflexivity|]. left. eexists. split; [reflexivity|].
      left. reflexivity.
Defined.

(** Selecting the second of the two fabrics. *)
Lemma set_fabric_selects_witness :
  get_current_fabric
    (ctx_state (snd (set_fabric "f2" (machine_of two_fabrics))))
  = Some "f2".
Proof.
  destruct (@set_fabric_selects unit "f2" (machine_of two_fabrics)
              (fst (set_fabric "f2" (machine_of two_fabrics)))
              (snd (set_fabric "f2" (machine_of two_fabrics))))
    as [_ [H _]].
  - vm_compute. reflexivity.
  - exact (proj1 (H eq_refl)).
Defined.

(** Leaving the current fabric of the example state. *)
Lemma leave_fabric_unsets_witness :
  fst (leave_fabric (machine_of example_state)) = Ok true /\
  get_current_fabric
    (ctx_state (snd (leave_fabric (machine_of example_state)))) = None.
Proof.
  destruct (@leave_fabric_unsets unit (machine_of example_state)
              (fst (leave_fabric (machine_of example_state)))
              (snd (leave_fabric (machine_of example_state))))
    as [H _].
  - vm_compute. reflexivity.
  - destruct (H eq_refl) as [H1 [H2 _]]. split; assumption.
Defined.




(** The plan of the batch with two processors holds the processor of
    fabric [f1] for [f1]. *)
Lemma build_create_target_groups_witness :
  target_names (build_create_target two_processors_batch) "f1" PROCESSOR
  = ["p-a"].
Proof.
  exact (proj1 (@build_create_target_groups two_processors_batch "f1"
                  PROCESSOR ltac:(discriminate))).
Defined.

(** [create fabric F2] on the example state records a clean fabric [f2] as
    (created, success). *)
Lemma create_fabric_transactional_witness :
  get_fabric (ctx_state (snd example_create_fabric)) "f2"
  = Some (set_object_state_status get_clean_fabric CREATED SUCCESS).
Proof.
  destruct (@create_fabric_transactional unit oracle_ok "F2"
              (machine_of example_state) (Ok true)
              (snd example_create_fabric)) as (_ & H & _).
  - vm_compute. reflexivity.
  - destruct (H eq_refl) as [Hf _]. exact Hf.
Defined.
